(** * SiFiGAN generators: a shallow embedding of [sifigan/models/generator.py]

    The three generator classes of the repository ([HiFiGANGenerator],
    [SiFiGANGenerator], [SiFiGANDirectGenerator]) are embedded as

    - a constructor [init] that returns the object the Python [__init__]
      builds, or the exception it raises;
    - a [forward] written once over an interface of tensor operations
      ([Ops]) and read at three instances: shapes (batch, channels,
      time), values over exact rationals and values in single-precision
      floating point;
    - the weight-normalisation bookkeeping ([apply_weight_norm],
      [remove_weight_norm]) over a tree of modules with real weights.

    Python integers are [Z]; [//] is [Z.div] and [%] is [Z.modulo] (both
    floor, as in Python, for the positive divisors used here); a loop
    [for i in range(n)] is [for_range n]. *)

From Stdlib Require Import ZArith QArith Qabs Qround Qcanon Reals Lra Lia String.
From stdpp Require Import base option list.

Local Open Scope Z_scope.

Set Warnings "-register-all".

(** ** Exceptions and the result of a call *)

Inductive Exception :=
| AssertionError
| IndexError
| UnboundLocalError
| AttributeError
| KeyError
| TypeError
| ValueError
| ZeroDivisionError
| RuntimeError.

Inductive Result (A : Type) :=
| Ok (a : A)
| Raise (e : Exception).

Arguments Ok {A} a.
Arguments Raise {A} e.

#[global] Instance Result_ret : MRet Result := fun A a => Ok a.
#[global] Instance Result_bind : MBind Result := fun A B f m =>
  match m with
  | Ok a => f a
  | Raise e => Raise e
  end.

Definition raises {A} (r : Result A) : Prop := ∃ e, r = Raise e.

Definition assert (b : bool) : Result unit :=
  if b then Ok tt else Raise AssertionError.

(** [l[i]] for a Python list and integer index, negative indices counted
    from the end. *)
Definition getitem {A} (l : list A) (i : Z) : Result A :=
  let n := Z.of_nat (length l) in
  let j := if i <? 0 then i + n else i in
  if (0 <=? j) && (j <? n)
  then match l !! Z.to_nat j with
       | Some a => Ok a
       | None => Raise IndexError
       end
  else Raise IndexError.

(** [for a in l: s = body a s], stopping at the first exception. *)
Fixpoint for_each {A S} (l : list A) (body : A → S → Result S) (s : S) : Result S :=
  match l with
  | [] => Ok s
  | a :: l' => s' ← body a s; for_each l' body s'
  end.

(** [[f(a) for a in l]], stopping at the first exception. *)
Fixpoint map_result {A B} (f : A → Result B) (l : list A) : Result (list B) :=
  match l with
  | [] => Ok []
  | a :: l' => b ← f a; r ← map_result f l'; Ok (b :: r)
  end.

Definition range (n : nat) : list nat := seq 0 n.

Definition for_range {S} (n : nat) (body : nat → S → Result S) (s : S) : Result S :=
  for_each (range n) body s.

(** [len(l)] as a Python integer. *)
Definition len {A} (l : list A) : Z := Z.of_nat (length l).

(** [a - (b)] where [b] is a Python bool: [True] counts as 1. *)
Definition int_of_bool (b : bool) : Z := if b then 1 else 0.

(** ** Layers

    The primitive layers of [sifigan.layers] ([Conv1d], [ResidualBlock],
    [AdaptiveResidualBlock]) and the layers of [torch.nn] are "treated
    as given"; a layer is represented by the arguments its constructor
    receives, and building one raises nothing. *)

(** An activation of [torch.nn], by name. *)
Module Activation.
Record t := {
  cls : string;                      (* attribute name looked up in torch.nn *)
  params : list (string * Q);        (* keyword arguments *)
}.
End Activation.

(** Modelled from the spec: [sifigan.layers.Conv1d], the "basic 1-D
    convolution" of the primitive layer set, takes the arguments of
    [torch.nn.Conv1d], of which it is a kind; the record stands for
    both. *)
Module Conv1d.
Record t := {
  in_channels : Z;
  out_channels : Z;
  kernel_size : Z;
  stride : Z;
  padding : Z;
  bias : bool;
}.
End Conv1d.

(** [torch.nn.ConvTranspose1d]. *)
Module ConvTranspose1d.
Record t := {
  in_channels : Z;
  out_channels : Z;
  kernel_size : Z;
  stride : Z;
  padding : Z;
  output_padding : Z;
  bias : bool;
}.
End ConvTranspose1d.

(** Modelled from the spec: [sifigan.layers.ResidualBlock], the
    "residual block" of the primitive layer set, by the keyword
    arguments the generators construct it with. *)
Module ResidualBlock.
Record t := {
  kernel_size : Z;
  channels : Z;
  dilations : list Z;
  bias : bool;
  use_additional_convs : bool;
  nonlinear_activation : string;
  nonlinear_activation_params : list (string * Q);
}.
End ResidualBlock.

(** Modelled from the spec: [sifigan.layers.AdaptiveResidualBlock], the
    "pitch-adaptive residual block", constructed with the same keyword
    arguments. *)
Module AdaptiveResidualBlock.
Definition t := ResidualBlock.t.
End AdaptiveResidualBlock.

(** [torch.nn.Embedding]. *)
Module Embedding.
Record t := {
  num_embeddings : Z;
  embedding_dim : Z;
}.
End Embedding.

(** One entry of an [nn.Sequential]. *)
Inductive Layer :=
| LActivation (a : Activation.t)
| LConv1d (c : Conv1d.t)
| LConvTranspose1d (c : ConvTranspose1d.t)
| LTanh.

Definition Sequential := list Layer.

(** [getattr(nn, name)] called with the keyword arguments [params] *)
Definition activation (name : string) (params : list (string * Q)) : Layer :=
  LActivation {| Activation.cls := name; Activation.params := params |}.

(** [nn.LeakyReLU()] *)
Definition LeakyReLU : Layer := activation "LeakyReLU" [].

(** ** The stages all three constructors build

    The three [__init__] bodies repeat the same expressions for the
    up-sampling and down-sampling stages; they are written once here. *)

(** [2 ** i] *)
Definition pow2 (i : nat) : Z := 2 ^ Z.of_nat i.

(** [padding=upsample_scales[i] // 2 + upsample_scales[i] % 2] *)
Definition upsample_padding (scale : Z) : Z := scale / 2 + scale mod 2.

(** [output_padding=upsample_scales[i] % 2] *)
Definition upsample_output_padding (scale : Z) : Z := scale mod 2.

(** [padding=upsample_scales[i] - (upsample_kernel_sizes[i] % 2 == 0)] *)
Definition downsample_padding (scale kernel : Z) : Z :=
  scale - int_of_bool (kernel mod 2 =? 0).

Definition upsample_conv (channels : Z) (bias : bool) (i : nat) (kernel scale : Z)
  : ConvTranspose1d.t :=
  {| ConvTranspose1d.in_channels := channels / pow2 i;
     ConvTranspose1d.out_channels := channels / pow2 (i + 1);
     ConvTranspose1d.kernel_size := kernel;
     ConvTranspose1d.stride := scale;
     ConvTranspose1d.padding := upsample_padding scale;
     ConvTranspose1d.output_padding := upsample_output_padding scale;
     ConvTranspose1d.bias := bias |}.

(** [nn.Sequential(getattr(nn, nonlinear_activation)(...), nn.ConvTranspose1d(...))] *)
Definition upsample_stage (channels : Z) (bias : bool)
    (act : string) (act_params : list (string * Q))
    (i : nat) (kernel scale : Z) : Sequential :=
  [ activation act act_params;
    LConvTranspose1d (upsample_conv channels bias i kernel scale) ].

Definition downsample_conv (channels : Z) (bias : bool) (i : nat) (kernel scale : Z)
  : Conv1d.t :=
  {| Conv1d.in_channels := channels / pow2 (i + 1);
     Conv1d.out_channels := channels / pow2 i;
     Conv1d.kernel_size := kernel;
     Conv1d.stride := scale;
     Conv1d.padding := downsample_padding scale kernel;
     Conv1d.bias := bias |}.

(** [nn.Sequential(nn.Conv1d(...), getattr(nn, nonlinear_activation)(...))] *)
Definition downsample_stage (channels : Z) (bias : bool)
    (act : string) (act_params : list (string * Q))
    (i : nat) (kernel scale : Z) : Sequential :=
  [ LConv1d (downsample_conv channels bias i kernel scale);
    activation act act_params ].

(** [Conv1d(cin, cout, kernel_size, bias=bias, padding=(kernel_size - 1) // 2)] *)
Definition same_conv (cin cout kernel_size : Z) (bias : bool) : Conv1d.t :=
  {| Conv1d.in_channels := cin;
     Conv1d.out_channels := cout;
     Conv1d.kernel_size := kernel_size;
     Conv1d.stride := 1;
     Conv1d.padding := (kernel_size - 1) / 2;
     Conv1d.bias := bias |}.

(** The loop [for i in reversed(range(len(upsample_kernel_sizes)))] that
    fills a list of down-sampling stages. *)
Definition build_downsamples (channels : Z) (bias : bool)
    (act : string) (act_params : list (string * Q))
    (upsample_scales upsample_kernel_sizes : list Z) : Result (list Sequential) :=
  for_each (reverse (range (length upsample_kernel_sizes)))
    (λ i downsamples,
       kernel ← getitem upsample_kernel_sizes (Z.of_nat i);
       scale ← getitem upsample_scales (Z.of_nat i);
       Ok (downsamples ++ [downsample_stage channels bias act act_params i kernel scale]))
    [].

(** After [for i in range(n)], the name [i] holds the last value of the
    range; it is unbound when the loop body never ran. *)
Definition loop_variable (n : nat) : Result nat :=
  match n with
  | O => Raise UnboundLocalError
  | S k => Ok k
  end.

(** An attribute that is set only on some paths of [__init__]. *)
Definition attr {A} (o : option A) : Result A :=
  match o with
  | Some a => Ok a
  | None => Raise AttributeError
  end.

(** A key that is set only on some paths of [__init__]. *)
Definition item {A} (o : option A) : Result A :=
  match o with
  | Some a => Ok a
  | None => Raise KeyError
  end.

(** ** Tensor operations

    [forward] is written over an interface of the operations it calls.
    A module is run with the path under which the generator holds it
    (as in [named_modules]: [upsamples.0.1], [sn.blocks.2]), which is
    what tells the weights of one module from those of another with the
    same constructor arguments. *)

Inductive Key :=
| Attr (name : string)
| Idx (i : nat).

Definition Path := list Key.

Record Ops (T : Type) := {
  conv1d : Path → Conv1d.t → T → Result T;
  conv_transpose1d : Path → ConvTranspose1d.t → T → Result T;
  nonlinearity : Activation.t → T → Result T;
  tanh : T → Result T;
  residual_block : Path → ResidualBlock.t → T → Result T;
  adaptive_residual_block : Path → AdaptiveResidualBlock.t → T → T → Result T;
  embedding : Path → Embedding.t → T → Result T;
  unsqueeze_last : T → Result T;              (* [t.unsqueeze(-1)] *)
  add : T → T → Result T;                     (* [a + b] *)
  radd : Q → T → Result T;                    (* [q + b] for a Python float [q] *)
  iadd : T → T → Result T;                    (* [a += b] on a tensor [a] *)
  truediv : T → Z → Result T;                 (* [a / n] for a Python int [n] *)
}.

Arguments conv1d {T} _ _ _ _.
Arguments conv_transpose1d {T} _ _ _ _.
Arguments nonlinearity {T} _ _ _.
Arguments tanh {T} _ _.
Arguments residual_block {T} _ _ _ _.
Arguments adaptive_residual_block {T} _ _ _ _ _.
Arguments embedding {T} _ _ _ _.
Arguments unsqueeze_last {T} _ _.
Arguments add {T} _ _ _.
Arguments radd {T} _ _ _.
Arguments iadd {T} _ _ _.
Arguments truediv {T} _ _ _.

(** The value of [cs] in the averaging loop: the Python float it is
    initialised with, then a tensor. *)
Inductive Acc (T : Type) :=
| AccFloat (q : Q)
| AccTensor (t : T).

Arguments AccFloat {T} q.
Arguments AccTensor {T} t.

Section Forward.
Context {T : Type} (ops : Ops T).

Definition run_layer (p : Path) (l : Layer) (x : T) : Result T :=
  match l with
  | LActivation a => nonlinearity ops a x
  | LConv1d c => conv1d ops p c x
  | LConvTranspose1d c => conv_transpose1d ops p c x
  | LTanh => tanh ops x
  end.

(** [nn.Sequential.forward]: the layers in order; layer [k] of the
    container at [p] is the module [p.k]. *)
Fixpoint run_from (p : Path) (k : nat) (ls : list Layer) (x : T) : Result T :=
  match ls with
  | [] => Ok x
  | l :: ls' => y ← run_layer (p ++ [Idx k]) l x; run_from p (S k) ls' y
  end.

Definition run (p : Path) (s : Sequential) (x : T) : Result T := run_from p 0 s x.

(** [cs += y] *)
Definition acc_iadd (cs : Acc T) (y : T) : Result (Acc T) :=
  match cs with
  | AccFloat q => t ← radd ops q y; Ok (AccTensor t)
  | AccTensor t => t' ← iadd ops t y; Ok (AccTensor t')
  end.

(** [cs / num_blocks]. [cs] is still a float only when the loop never
    ran, that is when [num_blocks] is 0, and the division raises; the
    other float case cannot be reached, and a float passed on as [c]
    would be refused by the next layer. *)
Definition acc_truediv (cs : Acc T) (num_blocks : nat) : Result T :=
  match cs with
  | AccFloat _ =>
      if (Z.of_nat num_blocks =? 0) then Raise ZeroDivisionError else Raise TypeError
  | AccTensor t => truediv ops t (Z.of_nat num_blocks)
  end.

(** The averaging of the residual blocks of stage [i]:
<<
    cs = 0.0  # initialize
    for j in range(num_blocks):
        cs += blocks[i * num_blocks + j](c)
    c = cs / num_blocks
>>
    [p] is the path of the list [blocks]. *)
Definition block_step (p : Path) (blocks : list ResidualBlock.t) (num_blocks i : nat)
    (c : T) (j : nat) (cs : Acc T) : Result (Acc T) :=
  block ← getitem blocks (Z.of_nat i * Z.of_nat num_blocks + Z.of_nat j);
  y ← residual_block ops (p ++ [Idx (i * num_blocks + j)]) block c;
  acc_iadd cs y.

Definition average_blocks (p : Path) (blocks : list ResidualBlock.t)
    (num_blocks i : nat) (c : T) : Result T :=
  cs ← for_range num_blocks (block_step p blocks num_blocks i c) (AccFloat 0%Q);
  acc_truediv cs num_blocks.

(** The cascade that turns the sine signal (or the excitation) into one
    embedding per stage:
<<
    embs = [x]
    for i in range(self.num_upsamples - 1):
        x = downsamples[i](x)
        embs += [x]
>>
*)
Definition downsample_step (p : Path) (downsamples : list Sequential)
    (i : nat) (st : T * list T) : Result (T * list T) :=
  let '(x, embs) := st in
  down ← getitem downsamples (Z.of_nat i);
  x ← run (p ++ [Idx i]) down x;
  Ok (x, embs ++ [x]).

Definition cascade (p : Path) (downsamples : list Sequential)
    (num_upsamples : nat) (x : T) : Result (list T) :=
  st ← for_range (num_upsamples - 1) (downsample_step p downsamples) (x, [x]);
  Ok st.2.

End Forward.

(** ** HiFiGANGenerator.__init__ *)

Module HiFiGANGenerator.

Module Args.
Record t := {
  in_channels : Z;
  out_channels : Z;
  channels : Z;
  kernel_size : Z;
  upsample_scales : list Z;
  upsample_kernel_sizes : list Z;
  qp_resblock_kernel_size : Z;
  qp_resblock_dilations : list (list Z);
  qp_use_additional_convs : bool;
  resblock_kernel_sizes : list Z;
  resblock_dilations : list (list Z);
  use_additional_convs : bool;
  use_sine_embs : bool;
  use_qp_resblocks : bool;
  bias : bool;
  nonlinear_activation : string;
  nonlinear_activation_params : list (string * Q);
  use_weight_norm : bool;
}.

(** The default values of the signature. *)
Definition default (in_channels : Z) : t := {|
  in_channels := in_channels;
  out_channels := 1;
  channels := 512;
  kernel_size := 7;
  upsample_scales := [5; 4; 3; 2];
  upsample_kernel_sizes := [10; 8; 6; 4];
  qp_resblock_kernel_size := 3;
  qp_resblock_dilations := [[1]; [1; 2]; [1; 2; 4]; [1; 2; 4; 8]];
  qp_use_additional_convs := true;
  resblock_kernel_sizes := [3; 7; 11];
  resblock_dilations := [[1; 3; 5]; [1; 3; 5]; [1; 3; 5]];
  use_additional_convs := false;
  use_sine_embs := false;
  use_qp_resblocks := false;
  bias := true;
  nonlinear_activation := "LeakyReLU";
  nonlinear_activation_params := [("negative_slope"%string, (1 # 10)%Q)];
  use_weight_norm := true;
|}.
End Args.

(** The attributes of the constructed object. [qp_blocks], [emb] and
    [downsamples] are set only under their flag. *)
Record t := {
  num_upsamples : nat;
  qp_resdual_dilations : list (list Z);
  num_blocks : nat;
  input_conv : Conv1d.t;
  upsamples : list Sequential;
  use_qp_resblocks : bool;
  qp_blocks : option (list AdaptiveResidualBlock.t);
  blocks : list ResidualBlock.t;
  output_conv : Sequential;
  use_sine_embs : bool;
  emb : option Conv1d.t;
  downsamples : option (list Sequential);
}.

Definition Stages : Type :=
  list Sequential * list AdaptiveResidualBlock.t * list ResidualBlock.t.

(** The residual blocks of stage [i]: [for j in range(len(resblock_kernel_sizes))]. *)
Definition init_blocks (a : Args.t) (i : nat) (blocks : list ResidualBlock.t)
  : Result (list ResidualBlock.t) :=
  for_range (length a.(Args.resblock_kernel_sizes))
    (λ j blocks,
       kernel_size ← getitem a.(Args.resblock_kernel_sizes) (Z.of_nat j);
       dilations ← getitem a.(Args.resblock_dilations) (Z.of_nat j);
       Ok (blocks ++ [
         {| ResidualBlock.kernel_size := kernel_size;
            ResidualBlock.channels := a.(Args.channels) / pow2 (i + 1);
            ResidualBlock.dilations := dilations;
            ResidualBlock.bias := a.(Args.bias);
            ResidualBlock.use_additional_convs := a.(Args.use_additional_convs);
            ResidualBlock.nonlinear_activation := a.(Args.nonlinear_activation);
            ResidualBlock.nonlinear_activation_params :=
              a.(Args.nonlinear_activation_params) |} ]))
    blocks.

(** The body of [for i in range(len(upsample_kernel_sizes))]. *)
Definition init_stage (a : Args.t) (i : nat) (st : Stages) : Result Stages :=
  let '(upsamples, qp_blocks, blocks) := st in
  kernel ← getitem a.(Args.upsample_kernel_sizes) (Z.of_nat i);
  scale ← getitem a.(Args.upsample_scales) (Z.of_nat i);
  _ ← assert (kernel =? 2 * scale);
  let upsamples := upsamples ++ [
    upsample_stage a.(Args.channels) a.(Args.bias)
      a.(Args.nonlinear_activation) a.(Args.nonlinear_activation_params)
      i kernel scale ] in
  qp_blocks ←
    (if a.(Args.use_qp_resblocks) then
       dilations ← getitem a.(Args.qp_resblock_dilations) (Z.of_nat i);
       Ok (qp_blocks ++ [
         {| ResidualBlock.kernel_size := a.(Args.qp_resblock_kernel_size);
            ResidualBlock.channels := a.(Args.channels) / pow2 (i + 1);
            ResidualBlock.dilations := dilations;
            ResidualBlock.bias := a.(Args.bias);
            ResidualBlock.use_additional_convs := a.(Args.qp_use_additional_convs);
            ResidualBlock.nonlinear_activation := a.(Args.nonlinear_activation);
            ResidualBlock.nonlinear_activation_params :=
              a.(Args.nonlinear_activation_params) |} ])
     else Ok qp_blocks);
  blocks ← init_blocks a i blocks;
  Ok (upsamples, qp_blocks, blocks).

(** [__init__]. Applying weight normalisation and resetting the
    parameters, its last two steps, change weights and not the
    layers; they are in [WeightNorm] below. *)
Definition init (a : Args.t) : Result t :=
  _ ← assert (a.(Args.kernel_size) mod 2 =? 1);
  _ ← assert (len a.(Args.upsample_scales) =? len a.(Args.upsample_kernel_sizes));
  _ ← assert (len a.(Args.resblock_dilations) =? len a.(Args.resblock_kernel_sizes));
  let n := length a.(Args.upsample_kernel_sizes) in
  let input_conv :=
    same_conv a.(Args.in_channels) a.(Args.channels) a.(Args.kernel_size) a.(Args.bias) in
  '(upsamples, qp_blocks, blocks) ← for_range n (init_stage a) ([], [], []);
  i ← loop_variable n;
  let output_conv := [
    LeakyReLU;
    LConv1d (same_conv (a.(Args.channels) / pow2 (i + 1)) a.(Args.out_channels)
               a.(Args.kernel_size) a.(Args.bias));
    LTanh ] in
  sine ←
    (if a.(Args.use_sine_embs) then
       let emb := same_conv 1 (a.(Args.channels) / pow2 n)
                    a.(Args.kernel_size) a.(Args.bias) in
       downsamples ← build_downsamples a.(Args.channels) a.(Args.bias)
                       a.(Args.nonlinear_activation) a.(Args.nonlinear_activation_params)
                       a.(Args.upsample_scales) a.(Args.upsample_kernel_sizes);
       Ok (Some emb, Some downsamples)
     else Ok (None, None));
  Ok {| num_upsamples := n;
        qp_resdual_dilations := a.(Args.qp_resblock_dilations);
        num_blocks := length a.(Args.resblock_kernel_sizes);
        input_conv := input_conv;
        upsamples := upsamples;
        use_qp_resblocks := a.(Args.use_qp_resblocks);
        qp_blocks := if a.(Args.use_qp_resblocks) then Some qp_blocks else None;
        blocks := blocks;
        output_conv := output_conv;
        use_sine_embs := a.(Args.use_sine_embs);
        emb := sine.1;
        downsamples := sine.2 |}.

(** ** HiFiGANGenerator.forward *)
Section Forward.
Context {T : Type} (ops : Ops T).

(** The body of [for i in range(self.num_upsamples)]. [embs] is bound
    only when [use_sine_embs] is set, the one case in which it is read. *)
Definition stage (g : t) (embs : list T) (d : option (list T))
    (i : nat) (c : T) : Result T :=
  up ← getitem g.(upsamples) (Z.of_nat i);
  c ← run ops [Attr "upsamples"; Idx i] up c;
  c ← (if g.(use_sine_embs) then
         e ← getitem embs (- Z.of_nat i - 1);
         add ops c e
       else Ok c);
  c ← (if g.(use_qp_resblocks) then
         qp_blocks ← attr g.(qp_blocks);
         qp ← getitem qp_blocks (Z.of_nat i);
         di ← match d with
              | Some d => getitem d (Z.of_nat i)
              | None => Raise TypeError
              end;
         adaptive_residual_block ops [Attr "qp_blocks"; Idx i] qp c di
       else Ok c);
  average_blocks ops [Attr "blocks"] g.(blocks) g.(num_blocks) i c.

(** The sine embeddings, read only when [use_sine_embs] is set:
<<
    x = self.emb(x)
    embs = [x]
    for i in range(self.num_upsamples - 1):
        x = self.downsamples[i](x)
        embs += [x]
>>
*)
Definition sine_embeddings (g : t) (x : T) : Result (list T) :=
  emb ← attr g.(emb);
  x ← conv1d ops [Attr "emb"] emb x;
  downsamples ← attr g.(downsamples);
  cascade ops [Attr "downsamples"] downsamples g.(num_upsamples) x.

(** [forward(x, c, d=None)]; the result is the one element of the
    returned tuple. *)
Definition forward (g : t) (x c : T) (d : option (list T)) : Result T :=
  c ← conv1d ops [Attr "input_conv"] g.(input_conv) c;
  embs ← (if g.(use_sine_embs) then sine_embeddings g x else Ok []);
  c ← for_range g.(num_upsamples) (stage g embs d) c;
  run ops [Attr "output_conv"] g.(output_conv) c.
End Forward.

End HiFiGANGenerator.

(** ** SiFiGANGenerator.__init__ and SiFiGANDirectGenerator.__init__ *)

(** The dictionary [source_network_params]. *)
Module SourceNetworkParams.
Record t := {
  resblock_kernel_size : Z;
  resblock_dilations : list (list Z);
  use_additional_convs : bool;
}.
Definition default : t := {|
  resblock_kernel_size := 3;
  resblock_dilations := [[1]; [1; 2]; [1; 2; 4]; [1; 2; 4; 8]];
  use_additional_convs := true;
|}.
End SourceNetworkParams.

(** The dictionary [filter_network_params]. *)
Module FilterNetworkParams.
Record t := {
  resblock_kernel_sizes : list Z;
  resblock_dilations : list (list Z);
  use_additional_convs : bool;
}.
Definition default : t := {|
  resblock_kernel_sizes := [3; 5; 7];
  resblock_dilations := [[1; 3; 5]; [1; 3; 5]; [1; 3; 5]];
  use_additional_convs := false;
|}.
End FilterNetworkParams.

(** The module dictionary [self.sn]. *)
Module SourceNetwork.
Record t := {
  upsamples : list Sequential;
  blocks : list AdaptiveResidualBlock.t;
  output_conv : Sequential;
  emb : Conv1d.t;
  downsamples : list Sequential;
}.
End SourceNetwork.

(** The module dictionary [self.fn]; the key ["downsamples"] is set only
    when the down-sampling stages are not shared. *)
Module FilterNetwork.
Record t := {
  upsamples : list Sequential;
  blocks : list ResidualBlock.t;
  output_conv : Sequential;
  downsamples : option (list Sequential);
}.
End FilterNetwork.

(** The loop over the stages, which the two classes share word for word. *)
Module DualNetwork.

Record Stages := {
  sn_upsamples : list Sequential;
  fn_upsamples : list Sequential;
  sn_blocks : list AdaptiveResidualBlock.t;
  fn_blocks : list ResidualBlock.t;
}.

Definition no_stages : Stages :=
  {| sn_upsamples := []; fn_upsamples := []; sn_blocks := []; fn_blocks := [] |}.

Section Init.
Variables (channels : Z) (bias : bool).
Variables (nonlinear_activation : string)
          (nonlinear_activation_params : list (string * Q)).
Variables (upsample_scales upsample_kernel_sizes : list Z).
Variable source_network_params : SourceNetworkParams.t.
Variable filter_network_params : FilterNetworkParams.t.
Variable share_upsamples : bool.

(** [for j in range(len(filter_network_params["resblock_kernel_sizes"]))] *)
Definition init_blocks (i : nat) (blocks : list ResidualBlock.t)
  : Result (list ResidualBlock.t) :=
  for_range (length filter_network_params.(FilterNetworkParams.resblock_kernel_sizes))
    (λ j blocks,
       kernel_size ←
         getitem filter_network_params.(FilterNetworkParams.resblock_kernel_sizes)
           (Z.of_nat j);
       dilations ←
         getitem filter_network_params.(FilterNetworkParams.resblock_dilations)
           (Z.of_nat j);
       Ok (blocks ++ [
         {| ResidualBlock.kernel_size := kernel_size;
            ResidualBlock.channels := channels / pow2 (i + 1);
            ResidualBlock.dilations := dilations;
            ResidualBlock.bias := bias;
            ResidualBlock.use_additional_convs :=
              filter_network_params.(FilterNetworkParams.use_additional_convs);
            ResidualBlock.nonlinear_activation := nonlinear_activation;
            ResidualBlock.nonlinear_activation_params :=
              nonlinear_activation_params |} ]))
    blocks.

(** The body of [for i in range(len(upsample_kernel_sizes))]. *)
Definition init_stage (i : nat) (st : Stages) : Result Stages :=
  kernel ← getitem upsample_kernel_sizes (Z.of_nat i);
  scale ← getitem upsample_scales (Z.of_nat i);
  _ ← assert (kernel =? 2 * scale);
  let up := upsample_stage channels bias nonlinear_activation
              nonlinear_activation_params i kernel scale in
  let sn_ups := st.(sn_upsamples) ++ [up] in
  let fn_ups :=
    if negb share_upsamples then st.(fn_upsamples) ++ [up] else st.(fn_upsamples) in
  dilations ←
    getitem source_network_params.(SourceNetworkParams.resblock_dilations)
      (Z.of_nat i);
  let sn_bls := st.(sn_blocks) ++ [
    {| ResidualBlock.kernel_size :=
         source_network_params.(SourceNetworkParams.resblock_kernel_size);
       ResidualBlock.channels := channels / pow2 (i + 1);
       ResidualBlock.dilations := dilations;
       ResidualBlock.bias := bias;
       ResidualBlock.use_additional_convs :=
         source_network_params.(SourceNetworkParams.use_additional_convs);
       ResidualBlock.nonlinear_activation := nonlinear_activation;
       ResidualBlock.nonlinear_activation_params :=
         nonlinear_activation_params |} ] in
  fn_bls ← init_blocks i st.(fn_blocks);
  Ok {| sn_upsamples := sn_ups; fn_upsamples := fn_ups;
        sn_blocks := sn_bls; fn_blocks := fn_bls |}.

Definition init_stages : Result Stages :=
  for_range (length upsample_kernel_sizes) init_stage no_stages.

(** [self.sn["downsamples"]], and [self.fn["downsamples"]] likewise. *)
Definition init_downsamples : Result (list Sequential) :=
  build_downsamples channels bias nonlinear_activation
    nonlinear_activation_params upsample_scales upsample_kernel_sizes.
End Init.

End DualNetwork.

Module SiFiGANGenerator.

Module Args.
Record t := {
  in_channels : Z;
  out_channels : Z;
  channels : Z;
  kernel_size : Z;
  upsample_scales : list Z;
  upsample_kernel_sizes : list Z;
  source_network_params : SourceNetworkParams.t;
  filter_network_params : FilterNetworkParams.t;
  share_upsamples : bool;
  share_downsamples : bool;
  bias : bool;
  nonlinear_activation : string;
  nonlinear_activation_params : list (string * Q);
  use_weight_norm : bool;
  gin_channels : Z;
}.

Definition default (in_channels : Z) : t := {|
  in_channels := in_channels;
  out_channels := 1;
  channels := 512;
  kernel_size := 7;
  upsample_scales := [5; 4; 3; 2];
  upsample_kernel_sizes := [10; 8; 6; 4];
  source_network_params := SourceNetworkParams.default;
  filter_network_params := FilterNetworkParams.default;
  share_upsamples := false;
  share_downsamples := false;
  bias := true;
  nonlinear_activation := "LeakyReLU";
  nonlinear_activation_params := [("negative_slope"%string, (1 # 10)%Q)];
  use_weight_norm := true;
  gin_channels := 256;
|}.
End Args.

Record t := {
  emb_g : option Embedding.t;
  cond : option Conv1d.t;
  num_upsamples : nat;
  source_network_params : SourceNetworkParams.t;
  filter_network_params : FilterNetworkParams.t;
  share_upsamples : bool;
  share_downsamples : bool;
  input_conv : Conv1d.t;
  sn : SourceNetwork.t;
  fn : FilterNetwork.t;
}.

Definition init (a : Args.t) : Result t :=
  _ ← assert (a.(Args.kernel_size) mod 2 =? 1);
  _ ← assert (len a.(Args.upsample_scales) =? len a.(Args.upsample_kernel_sizes));
  let sid :=
    if negb (a.(Args.gin_channels) =? 0)
    then (Some {| Embedding.num_embeddings := 12;
                  Embedding.embedding_dim := a.(Args.gin_channels) |},
          Some {| Conv1d.in_channels := a.(Args.gin_channels);
                  Conv1d.out_channels := a.(Args.channels);
                  Conv1d.kernel_size := 1;
                  Conv1d.stride := 1;
                  Conv1d.padding := 0;
                  Conv1d.bias := true |})
    else (None, None) in
  let n := length a.(Args.upsample_kernel_sizes) in
  let input_conv :=
    same_conv a.(Args.in_channels) a.(Args.channels) a.(Args.kernel_size) a.(Args.bias) in
  st ← DualNetwork.init_stages a.(Args.channels) a.(Args.bias)
         a.(Args.nonlinear_activation) a.(Args.nonlinear_activation_params)
         a.(Args.upsample_scales) a.(Args.upsample_kernel_sizes)
         a.(Args.source_network_params) a.(Args.filter_network_params)
         a.(Args.share_upsamples);
  i ← loop_variable n;
  let out := same_conv (a.(Args.channels) / pow2 (i + 1)) a.(Args.out_channels)
               a.(Args.kernel_size) a.(Args.bias) in
  let emb := same_conv 1 (a.(Args.channels) / pow2 n)
               a.(Args.kernel_size) a.(Args.bias) in
  sn_downsamples ← DualNetwork.init_downsamples a.(Args.channels) a.(Args.bias)
                     a.(Args.nonlinear_activation) a.(Args.nonlinear_activation_params)
                     a.(Args.upsample_scales) a.(Args.upsample_kernel_sizes);
  fn_downsamples ←
    (if negb a.(Args.share_downsamples) then
       ds ← DualNetwork.init_downsamples a.(Args.channels) a.(Args.bias)
              a.(Args.nonlinear_activation) a.(Args.nonlinear_activation_params)
              a.(Args.upsample_scales) a.(Args.upsample_kernel_sizes);
       Ok (Some ds)
     else Ok None);
  Ok {| emb_g := sid.1;
        cond := sid.2;
        num_upsamples := n;
        source_network_params := a.(Args.source_network_params);
        filter_network_params := a.(Args.filter_network_params);
        share_upsamples := a.(Args.share_upsamples);
        share_downsamples := a.(Args.share_downsamples);
        input_conv := input_conv;
        sn := {| SourceNetwork.upsamples := st.(DualNetwork.sn_upsamples);
                 SourceNetwork.blocks := st.(DualNetwork.sn_blocks);
                 SourceNetwork.output_conv := [LeakyReLU; LConv1d out];
                 SourceNetwork.emb := emb;
                 SourceNetwork.downsamples := sn_downsamples |};
        fn := {| FilterNetwork.upsamples := st.(DualNetwork.fn_upsamples);
                 FilterNetwork.blocks := st.(DualNetwork.fn_blocks);
                 FilterNetwork.output_conv := [LeakyReLU; LConv1d out; LTanh];
                 FilterNetwork.downsamples := fn_downsamples |} |}.

(** ** SiFiGANGenerator.forward *)
Section Forward.
Context {T : Type} (ops : Ops T).

(** [self.sn["upsamples"][i](x)] *)
Definition source_upsample (g : t) (i : nat) (x : T) : Result T :=
  up ← getitem g.(sn).(SourceNetwork.upsamples) (Z.of_nat i);
  run ops [Attr "sn"; Attr "upsamples"; Idx i] up x.

(** The up-sampling of stage [i] in the filter network:
<<
    if self.share_upsamples:
        ... self.sn["upsamples"][i](c) ...
    else:
        ... self.fn["upsamples"][i](c) ...
>>
*)
Definition filter_upsample (g : t) (i : nat) (x : T) : Result T :=
  if g.(share_upsamples) then
    up ← getitem g.(sn).(SourceNetwork.upsamples) (Z.of_nat i);
    run ops [Attr "sn"; Attr "upsamples"; Idx i] up x
  else
    up ← getitem g.(fn).(FilterNetwork.upsamples) (Z.of_nat i);
    run ops [Attr "fn"; Attr "upsamples"; Idx i] up x.

(** The body of the loop of the excitation generation network. *)
Definition source_stage (g : t) (embs d : list T) (i : nat) (e : T) : Result T :=
  y ← source_upsample g i e;
  emb ← getitem embs (- Z.of_nat i - 1);
  e ← add ops y emb;
  block ← getitem g.(sn).(SourceNetwork.blocks) (Z.of_nat i);
  di ← getitem d (Z.of_nat i);
  adaptive_residual_block ops [Attr "sn"; Attr "blocks"; Idx i] block e di.

(** The body of the loop that down-samples the excitation. *)
Definition filter_downsample_step (g : t) (i : nat) (st : T * list T)
  : Result (T * list T) :=
  let '(e, embs) := st in
  e ← (if g.(share_downsamples) then
         down ← getitem g.(sn).(SourceNetwork.downsamples) (Z.of_nat i);
         run ops [Attr "sn"; Attr "downsamples"; Idx i] down e
       else
         downsamples ← item g.(fn).(FilterNetwork.downsamples);
         down ← getitem downsamples (Z.of_nat i);
         run ops [Attr "fn"; Attr "downsamples"; Idx i] down e);
  Ok (e, embs ++ [e]).

(** The body of the loop of the resonance filtering network. *)
Definition filter_stage (g : t) (embs : list T) (num_blocks : nat)
    (i : nat) (c : T) : Result T :=
  y ← filter_upsample g i c;
  emb ← getitem embs (- Z.of_nat i - 1);
  c ← add ops y emb;
  average_blocks ops [Attr "fn"; Attr "blocks"] g.(fn).(FilterNetwork.blocks)
    num_blocks i c.

(** [forward(x, c, d, sid)], returning the pair [(c, e_)]. *)
Definition forward (g : t) (x c : T) (d : list T) (sid : T) : Result (T * T) :=
  emb_g ← attr g.(emb_g);
  sid_ ← embedding ops [Attr "emb_g"] emb_g sid;
  sid_ ← unsqueeze_last ops sid_;
  cond ← attr g.(cond);
  sid_ ← conv1d ops [Attr "cond"] cond sid_;
  c ← conv1d ops [Attr "input_conv"] g.(input_conv) c;
  c ← add ops c sid_;
  let e := c in
  x ← conv1d ops [Attr "sn"; Attr "emb"] g.(sn).(SourceNetwork.emb) x;
  embs ← cascade ops [Attr "sn"; Attr "downsamples"]
           g.(sn).(SourceNetwork.downsamples) g.(num_upsamples) x;
  e ← for_range g.(num_upsamples) (source_stage g embs d) e;
  e_ ← run ops [Attr "sn"; Attr "output_conv"] g.(sn).(SourceNetwork.output_conv) e;
  st ← for_range (g.(num_upsamples) - 1) (filter_downsample_step g) (e, [e]);
  let embs := st.2 in
  let num_blocks :=
    length g.(filter_network_params).(FilterNetworkParams.resblock_kernel_sizes) in
  c ← for_range g.(num_upsamples) (filter_stage g embs num_blocks) c;
  c ← run ops [Attr "fn"; Attr "output_conv"] g.(fn).(FilterNetwork.output_conv) c;
  Ok (c, e_).
End Forward.

End SiFiGANGenerator.

Module SiFiGANDirectGenerator.

Module Args.
Record t := {
  in_channels : Z;
  out_channels : Z;
  channels : Z;
  kernel_size : Z;
  upsample_scales : list Z;
  upsample_kernel_sizes : list Z;
  source_network_params : SourceNetworkParams.t;
  filter_network_params : FilterNetworkParams.t;
  share_upsamples : bool;
  bias : bool;
  nonlinear_activation : string;
  nonlinear_activation_params : list (string * Q);
  use_weight_norm : bool;
}.

Definition default (in_channels : Z) : t := {|
  in_channels := in_channels;
  out_channels := 1;
  channels := 512;
  kernel_size := 7;
  upsample_scales := [5; 4; 3; 2];
  upsample_kernel_sizes := [10; 8; 6; 4];
  source_network_params := SourceNetworkParams.default;
  filter_network_params := FilterNetworkParams.default;
  share_upsamples := false;
  bias := true;
  nonlinear_activation := "LeakyReLU";
  nonlinear_activation_params := [("negative_slope"%string, (1 # 10)%Q)];
  use_weight_norm := true;
|}.
End Args.

Record t := {
  num_upsamples : nat;
  source_network_params : SourceNetworkParams.t;
  filter_network_params : FilterNetworkParams.t;
  share_upsamples : bool;
  input_conv : Conv1d.t;
  sn : SourceNetwork.t;
  fn : FilterNetwork.t;
}.

Definition init (a : Args.t) : Result t :=
  _ ← assert (a.(Args.kernel_size) mod 2 =? 1);
  _ ← assert (len a.(Args.upsample_scales) =? len a.(Args.upsample_kernel_sizes));
  let n := length a.(Args.upsample_kernel_sizes) in
  let input_conv :=
    same_conv a.(Args.in_channels) a.(Args.channels) a.(Args.kernel_size) a.(Args.bias) in
  st ← DualNetwork.init_stages a.(Args.channels) a.(Args.bias)
         a.(Args.nonlinear_activation) a.(Args.nonlinear_activation_params)
         a.(Args.upsample_scales) a.(Args.upsample_kernel_sizes)
         a.(Args.source_network_params) a.(Args.filter_network_params)
         a.(Args.share_upsamples);
  i ← loop_variable n;
  let out := same_conv (a.(Args.channels) / pow2 (i + 1)) a.(Args.out_channels)
               a.(Args.kernel_size) a.(Args.bias) in
  let emb := same_conv 1 (a.(Args.channels) / pow2 n)
               a.(Args.kernel_size) a.(Args.bias) in
  sn_downsamples ← DualNetwork.init_downsamples a.(Args.channels) a.(Args.bias)
                     a.(Args.nonlinear_activation) a.(Args.nonlinear_activation_params)
                     a.(Args.upsample_scales) a.(Args.upsample_kernel_sizes);
  Ok {| num_upsamples := n;
        source_network_params := a.(Args.source_network_params);
        filter_network_params := a.(Args.filter_network_params);
        share_upsamples := a.(Args.share_upsamples);
        input_conv := input_conv;
        sn := {| SourceNetwork.upsamples := st.(DualNetwork.sn_upsamples);
                 SourceNetwork.blocks := st.(DualNetwork.sn_blocks);
                 SourceNetwork.output_conv := [LeakyReLU; LConv1d out];
                 SourceNetwork.emb := emb;
                 SourceNetwork.downsamples := sn_downsamples |};
        fn := {| FilterNetwork.upsamples := st.(DualNetwork.fn_upsamples);
                 FilterNetwork.blocks := st.(DualNetwork.fn_blocks);
                 FilterNetwork.output_conv := [LeakyReLU; LConv1d out; LTanh];
                 FilterNetwork.downsamples := None |} |}.

(** ** SiFiGANDirectGenerator.forward *)
Section Forward.
Context {T : Type} (ops : Ops T).

(** The body of the loop of the excitation generation network; the
    state is [e] and the list [embs2]. *)
Definition source_stage (g : t) (embs d : list T) (i : nat) (st : T * list T)
  : Result (T * list T) :=
  let '(e, embs2) := st in
  up ← getitem g.(sn).(SourceNetwork.upsamples) (Z.of_nat i);
  y ← run ops [Attr "sn"; Attr "upsamples"; Idx i] up e;
  emb ← getitem embs (- Z.of_nat i - 1);
  e ← add ops y emb;
  block ← getitem g.(sn).(SourceNetwork.blocks) (Z.of_nat i);
  di ← getitem d (Z.of_nat i);
  e ← adaptive_residual_block ops [Attr "sn"; Attr "blocks"; Idx i] block e di;
  Ok (e, embs2 ++ [e]).

Definition filter_upsample (g : t) (i : nat) (x : T) : Result T :=
  if g.(share_upsamples) then
    up ← getitem g.(sn).(SourceNetwork.upsamples) (Z.of_nat i);
    run ops [Attr "sn"; Attr "upsamples"; Idx i] up x
  else
    up ← getitem g.(fn).(FilterNetwork.upsamples) (Z.of_nat i);
    run ops [Attr "fn"; Attr "upsamples"; Idx i] up x.

(** The body of the loop of the resonance filtering network. *)
Definition filter_stage (g : t) (embs2 : list T) (num_blocks : nat)
    (i : nat) (c : T) : Result T :=
  y ← filter_upsample g i c;
  emb ← getitem embs2 (Z.of_nat i);
  c ← add ops y emb;
  average_blocks ops [Attr "fn"; Attr "blocks"] g.(fn).(FilterNetwork.blocks)
    num_blocks i c.

(** [forward(x, c, d)], returning the pair [(c, e)]. *)
Definition forward (g : t) (x c : T) (d : list T) : Result (T * T) :=
  c ← conv1d ops [Attr "input_conv"] g.(input_conv) c;
  let e := c in
  x ← conv1d ops [Attr "sn"; Attr "emb"] g.(sn).(SourceNetwork.emb) x;
  embs ← cascade ops [Attr "sn"; Attr "downsamples"]
           g.(sn).(SourceNetwork.downsamples) g.(num_upsamples) x;
  st ← for_range g.(num_upsamples) (source_stage g embs d) (e, []);
  let '(e, embs2) := st in
  e ← run ops [Attr "sn"; Attr "output_conv"] g.(sn).(SourceNetwork.output_conv) e;
  let num_blocks :=
    length g.(filter_network_params).(FilterNetworkParams.resblock_kernel_sizes) in
  c ← for_range g.(num_upsamples) (filter_stage g embs2 num_blocks) c;
  c ← run ops [Attr "fn"; Attr "output_conv"] g.(fn).(FilterNetwork.output_conv) c;
  Ok (c, e).
End Forward.

End SiFiGANDirectGenerator.


(** ** Shapes

    The first reading of [Ops]: a tensor is its shape, the list of its
    dimensions. The layers of [torch.nn] follow the shape rules of the
    PyTorch documentation and the checks [torch] makes before a
    convolution (no negative padding, positive stride, matching channel
    count, a padded input at least as long as the kernel):
    - [Conv1d]: [L_out = (L_in + 2 * padding - (kernel_size - 1) - 1) // stride + 1];
    - [ConvTranspose1d]:
      [L_out = (L_in - 1) * stride - 2 * padding + (kernel_size - 1) + output_padding + 1];
    both with dilation 1, the only dilation the generators ask for. *)

Definition Shape := list Z.

Module ShapeOps.

Definition conv1d_length (c : Conv1d.t) (l : Z) : Z :=
  (l + 2 * c.(Conv1d.padding) - (c.(Conv1d.kernel_size) - 1) - 1) / c.(Conv1d.stride) + 1.

Definition conv1d_accepts (c : Conv1d.t) (channels l : Z) : bool :=
  (0 <=? c.(Conv1d.padding)) && (1 <=? c.(Conv1d.stride))
  && (channels =? c.(Conv1d.in_channels))
  && (c.(Conv1d.kernel_size) <=? l + 2 * c.(Conv1d.padding)).

(** Batched [(N, C, L)] or unbatched [(C, L)] input. *)
Definition conv1d (_ : Path) (c : Conv1d.t) (x : Shape) : Result Shape :=
  match x with
  | [n; ch; l] =>
      if conv1d_accepts c ch l
      then Ok [n; c.(Conv1d.out_channels); conv1d_length c l]
      else Raise RuntimeError
  | [ch; l] =>
      if conv1d_accepts c ch l
      then Ok [c.(Conv1d.out_channels); conv1d_length c l]
      else Raise RuntimeError
  | _ => Raise RuntimeError
  end.

Definition conv_transpose1d_length (c : ConvTranspose1d.t) (l : Z) : Z :=
  (l - 1) * c.(ConvTranspose1d.stride) - 2 * c.(ConvTranspose1d.padding)
  + (c.(ConvTranspose1d.kernel_size) - 1) + c.(ConvTranspose1d.output_padding) + 1.

Definition conv_transpose1d_accepts (c : ConvTranspose1d.t) (channels : Z) : bool :=
  (0 <=? c.(ConvTranspose1d.padding)) && (0 <=? c.(ConvTranspose1d.output_padding))
  && (1 <=? c.(ConvTranspose1d.stride))
  && (channels =? c.(ConvTranspose1d.in_channels)).

Definition conv_transpose1d (_ : Path) (c : ConvTranspose1d.t) (x : Shape)
  : Result Shape :=
  match x with
  | [n; ch; l] =>
      if conv_transpose1d_accepts c ch
      then Ok [n; c.(ConvTranspose1d.out_channels); conv_transpose1d_length c l]
      else Raise RuntimeError
  | [ch; l] =>
      if conv_transpose1d_accepts c ch
      then Ok [c.(ConvTranspose1d.out_channels); conv_transpose1d_length c l]
      else Raise RuntimeError
  | _ => Raise RuntimeError
  end.

(** Modelled from the spec: a residual block of [sifigan.layers] maps a
    [(B, channels, T)] tensor to one of the same shape. *)
Definition residual_block (_ : Path) (b : ResidualBlock.t) (x : Shape) : Result Shape :=
  match x with
  | [n; ch; l] => if ch =? b.(ResidualBlock.channels) then Ok x else Raise RuntimeError
  | _ => Raise RuntimeError
  end.

(** Modelled from the spec: the adaptive residual block takes the
    feature tensor and a dilation-factor tensor [(B, 1, T)] whose time
    length must be that of the features, and keeps the shape of the
    features. *)
Definition adaptive_residual_block (_ : Path) (b : AdaptiveResidualBlock.t)
    (x d : Shape) : Result Shape :=
  match x, d with
  | [n; ch; l], [n'; 1; l'] =>
      if (ch =? b.(ResidualBlock.channels)) && (n =? n') && (l =? l')
      then Ok x else Raise RuntimeError
  | _, _ => Raise RuntimeError
  end.

(** [nn.Embedding]: one vector of [embedding_dim] entries per index. *)
Definition embedding (_ : Path) (e : Embedding.t) (x : Shape) : Result Shape :=
  Ok (x ++ [e.(Embedding.embedding_dim)]).

Definition unsqueeze_last (x : Shape) : Result Shape := Ok (x ++ [1]).

(** Broadcasting of two shapes, dimensions aligned from the last one;
    the arguments are the reversed shapes. *)
Fixpoint broadcast_rev (a b : list Z) : Result (list Z) :=
  match a, b with
  | [], _ => Ok b
  | _, [] => Ok a
  | x :: a', y :: b' =>
      r ← broadcast_rev a' b';
      if x =? y then Ok (x :: r)
      else if x =? 1 then Ok (y :: r)
      else if y =? 1 then Ok (x :: r)
      else Raise RuntimeError
  end.

Definition broadcast (a b : Shape) : Result Shape :=
  r ← broadcast_rev (reverse a) (reverse b); Ok (reverse r).

Definition add (a b : Shape) : Result Shape := broadcast a b.

(** An in-place addition keeps the shape of its target. *)
Definition iadd (a b : Shape) : Result Shape :=
  r ← broadcast a b;
  if bool_decide (r = a) then Ok a else Raise RuntimeError.

Definition ops : Ops Shape :=
  Build_Ops Shape
    conv1d
    conv_transpose1d
    (λ _ x, Ok x)            (* an activation keeps the shape *)
    (λ x, Ok x)              (* so does [nn.Tanh] *)
    residual_block
    adaptive_residual_block
    embedding
    unsqueeze_last
    add
    (λ _ x, Ok x)            (* [0.0 + x] has the shape of [x] *)
    iadd
    (λ x _, Ok x).           (* [x / n] has the shape of [x] *)

End ShapeOps.


(** ** Values over exact arithmetic

    The second reading of [Ops]: a tensor is the list of its entries,
    exact rationals, and the arithmetic of the averaging loop is
    computed entry by entry without rounding. This is the arithmetic
    the tensors of a run approximate, not the one they have: for that
    see [Float32Ops] below. The layers (and the addition [a + b], which
    may broadcast) stay abstract. *)

Abbreviation Tensor := (list Qc).

Module ValueOps.

(** The layers with their weights, given. *)
Record Layers := {
  conv1d : Path → Conv1d.t → Tensor → Result Tensor;
  conv_transpose1d : Path → ConvTranspose1d.t → Tensor → Result Tensor;
  nonlinearity : Activation.t → Tensor → Result Tensor;
  tanh : Tensor → Result Tensor;
  residual_block : Path → ResidualBlock.t → Tensor → Result Tensor;
  adaptive_residual_block :
    Path → AdaptiveResidualBlock.t → Tensor → Tensor → Result Tensor;
  embedding : Path → Embedding.t → Tensor → Result Tensor;
  unsqueeze_last : Tensor → Result Tensor;
  add : Tensor → Tensor → Result Tensor;
}.

Definition of_int (n : Z) : Qc := Q2Qc (inject_Z n).

(** [q + x]: the float is added to every entry. *)
Definition radd (q : Q) (x : Tensor) : Result Tensor :=
  Ok (map (λ v, Q2Qc q + v)%Qc x).

(** [a += b] for tensors of one shape; an operand that would have to
    be broadcast is outside this model. *)
Definition iadd (a b : Tensor) : Result Tensor :=
  if (length a =? length b)%nat
  then Ok (zip_with Qcplus a b)
  else Raise RuntimeError.

(** [a / n]. Division by 0 gives infinite or undefined entries, which
    exact rationals lack; [forward] divides by [num_blocks] only after
    the loop has run, when it is positive. *)
Definition truediv (a : Tensor) (n : Z) : Result Tensor :=
  if n =? 0 then Raise ZeroDivisionError
  else Ok (map (λ v, v / of_int n)%Qc a).

Definition ops (l : Layers) : Ops Tensor :=
  Build_Ops Tensor
    l.(conv1d)
    l.(conv_transpose1d)
    l.(nonlinearity)
    l.(tanh)
    l.(residual_block)
    l.(adaptive_residual_block)
    l.(embedding)
    l.(unsqueeze_last)
    l.(add)
    radd
    iadd
    truediv.




End ValueOps.

(** ** Values in single precision

    The third reading of [Ops]: the entries of a tensor are
    single-precision floats, [torch.float32], the [dtype] of the
    parameters of a module unless it is changed, and so of the tensors
    [forward] computes. The arithmetic is that of IEEE 754, which the
    source does not restate: an operation gives the float nearest to
    the exact result, the one with the even significand of two that are
    as near, and an infinity beyond the largest float. *)

Module Float32.

(** A float: a rational [m * 2 ** e] with [|m| < 2 ** 24] and
    [-149 <= e <= 104], kept in lowest terms, an infinity or a NaN. The
    two zeros are one value: the sign of a zero has no effect on a sum
    or on a quotient by a count, the operations read here. *)
Inductive t :=
| Finite (q : Q)
| Infinity (negative : bool)
| NaN.

(** The bits of the significand. *)
Definition precision : Z := 24.

(** The exponent of the smallest positive float, [2 ** -149]. *)
Definition emin : Z := -149.

(** A result of magnitude [2 ** 128] or more overflows. *)
Definition emax : Z := 128.

(** [floor(log2(|q|))] for [q] other than 0. *)
Definition ilog2 (q : Q) : Z :=
  let k := Z.log2 (Z.abs (Qnum q)) - Z.log2 (Zpos (Qden q)) in
  if Qle_bool (2 ^ k) (Qabs q) then k else k - 1.

(** The integer nearest to [q], the even one of two that are as near. *)
Definition round_half_even (q : Q) : Z :=
  let n := Qfloor q in
  match (q - inject_Z n ?= 1 # 2)%Q with
  | Lt => n
  | Gt => n + 1
  | Eq => if Z.even n then n else n + 1
  end.

Definition negative (q : Q) : bool := Qnum q <? 0.

(** The float nearest to [q]: [q], in lowest terms, is rounded to a
    multiple of [2 ** e], where [e] is the exponent of the last bit of
    a significand of 24 bits that begins at the first bit of [q], and
    at least [emin]. *)
Definition round (q : Q) : t :=
  let q := Qred q in
  if Qeq_bool q 0 then Finite 0
  else
    let e := Z.max emin (ilog2 q - (precision - 1)) in
    let r := (inject_Z (round_half_even (q / 2 ^ e)) * 2 ^ e)%Q in
    if Qle_bool (2 ^ emax) (Qabs r) then Infinity (negative q) else Finite (Qred r).

(** [a + b] *)
Definition add (a b : t) : t :=
  match a, b with
  | NaN, _ | _, NaN => NaN
  | Infinity s, Infinity s' => if Bool.eqb s s' then Infinity s else NaN
  | Infinity s, Finite _ | Finite _, Infinity s => Infinity s
  | Finite x, Finite y => round (x + y)
  end.

(** [a / b], where a [b] that is 0 is the positive zero, that of a
    count. *)
Definition div (a b : t) : t :=
  match a, b with
  | NaN, _ | _, NaN => NaN
  | Infinity _, Infinity _ => NaN
  | Infinity s, Finite y => Infinity (xorb s (negative y))
  | Finite _, Infinity _ => Finite 0
  | Finite x, Finite y =>
      if Qeq_bool y 0 then
        if Qeq_bool x 0 then NaN else Infinity (negative x)
      else round (x / y)
  end.

(** [a * b] *)
Definition mul (a b : t) : t :=
  match a, b with
  | NaN, _ | _, NaN => NaN
  | Infinity s, Infinity s' => Infinity (xorb s s')
  | Infinity s, Finite y | Finite y, Infinity s =>
      if Qeq_bool y 0 then NaN else Infinity (xorb s (negative y))
  | Finite x, Finite y => round (x * y)
  end.

(** A Python float or int that meets a tensor is converted to the
    [dtype] of the tensor. *)
Definition of_float (q : Q) : t := round q.
Definition of_int (n : Z) : t := round (inject_Z n).

(** The rational [q] is a float: rounding leaves it as it is. *)
Definition is_float (q : Q) : Prop := round q = Finite q.

(** A value whose rational, if it is finite, is a float. *)
Definition valid (v : t) : Prop :=
  match v with
  | Finite q => is_float q
  | Infinity _ | NaN => True
  end.

End Float32.

Module Float32Ops.

Abbreviation Tensor := (list Float32.t).

(** The layers with their weights, given. *)
Record Layers := {
  conv1d : Path → Conv1d.t → Tensor → Result Tensor;
  conv_transpose1d : Path → ConvTranspose1d.t → Tensor → Result Tensor;
  nonlinearity : Activation.t → Tensor → Result Tensor;
  tanh : Tensor → Result Tensor;
  residual_block : Path → ResidualBlock.t → Tensor → Result Tensor;
  adaptive_residual_block :
    Path → AdaptiveResidualBlock.t → Tensor → Tensor → Result Tensor;
  embedding : Path → Embedding.t → Tensor → Result Tensor;
  unsqueeze_last : Tensor → Result Tensor;
  add : Tensor → Tensor → Result Tensor;
}.

(** [q + x]: the float is added to every entry. *)
Definition radd (q : Q) (x : Tensor) : Result Tensor :=
  Ok (map (Float32.add (Float32.of_float q)) x).

(** [a += b] for tensors of one shape; an operand that would have to
    be broadcast is outside this model. *)
Definition iadd (a b : Tensor) : Result Tensor :=
  if (length a =? length b)%nat
  then Ok (zip_with Float32.add a b)
  else Raise RuntimeError.

(** [a / n]: every entry is divided by the count, the quotient
    rounded once. *)
Definition truediv (a : Tensor) (n : Z) : Result Tensor :=
  Ok (map (λ v, Float32.div v (Float32.of_int n)) a).

Definition ops (l : Layers) : Ops Tensor :=
  Build_Ops Tensor
    l.(conv1d)
    l.(conv_transpose1d)
    l.(nonlinearity)
    l.(tanh)
    l.(residual_block)
    l.(adaptive_residual_block)
    l.(embedding)
    l.(unsqueeze_last)
    l.(add)
    radd
    iadd
    truediv.

End Float32Ops.

(** ** Weight normalisation

    The generator as a tree of modules. A convolution holds its weight
    either as the plain parameter [weight] or, once
    [torch.nn.utils.weight_norm] has been applied, as the pair
    [weight_g], [weight_v] from which a hook recomputes [weight]. The
    weight is a list of rows along dimension 0, the dimension the norm
    is not taken over; its entries are real numbers. *)

Module WeightNorm.

Definition Row := list R.
Definition Weights := list Row.

Inductive Parameters :=
| Plain (weight : Weights)
| Normalized (weight_g : list R) (weight_v : Weights).

Inductive Class :=
| Conv1dClass            (* [nn.Conv1d] and its subclasses *)
| ConvTranspose1dClass   (* [nn.ConvTranspose1d] *)
| OtherClass.            (* containers, activations, blocks, ... *)

Inductive NNModule :=
| Mod (cls : Class) (params : option Parameters) (children : list NNModule).

(** The 2-norm of a row. *)
Definition norm (v : Row) : R := sqrt (foldr Rplus 0%R (map (λ x, x * x)%R v)).

(** [norm_except_dim(w, 2, 0)] *)
Definition norm_except_dim (w : Weights) : list R := map norm w.

(** [_weight_norm(v, g, 0)], that is [v * (g / norm_except_dim(v, 2, 0))] *)
Definition _weight_norm (v : Weights) (g : list R) : Weights :=
  zip_with (λ row gi, map (λ x, x * (gi / norm row))%R row) v g.

(** [torch.nn.utils.weight_norm(m)]: refuses a second hook on
    [weight]; otherwise [weight_g] is the norm and [weight_v] the
    weight itself. *)
Definition weight_norm (m : NNModule) : Result NNModule :=
  match m with
  | Mod cls (Some (Plain w)) children =>
      Ok (Mod cls (Some (Normalized (norm_except_dim w) w)) children)
  | Mod _ (Some (Normalized _ _)) _ => Raise RuntimeError
  | Mod _ None _ => Raise AttributeError
  end.

(** [torch.nn.utils.remove_weight_norm(m)]: recomputes the plain
    weight; [ValueError] when [m] has no such hook. *)
Definition remove_weight_norm_of (m : NNModule) : Result NNModule :=
  match m with
  | Mod cls (Some (Normalized g v)) children =>
      Ok (Mod cls (Some (Plain (_weight_norm v g))) children)
  | _ => Raise ValueError
  end.

(** [nn.Module.apply(fn)]: the children first, in order, then the
  module itself. *)
Fixpoint apply (fn : NNModule → Result NNModule) (m : NNModule) : Result NNModule :=
match m with
| Mod cls params children =>
    children' ← map_result (apply fn) children;
    fn (Mod cls params children')
end.

Definition is_conv (cls : Class) : bool :=
  match cls with
  | Conv1dClass | ConvTranspose1dClass => true
  | OtherClass => false
  end.

Definition class_of (m : NNModule) : Class := match m with Mod cls _ _ => cls end.

(**
<<
    def _remove_weight_norm(m):
        try:
            nn.utils.remove_weight_norm(m)
        except ValueError:  # this module didn't have weight norm
            return
>>
*)
Definition _remove_weight_norm (m : NNModule) : Result NNModule :=
  match remove_weight_norm_of m with
  | Raise ValueError => Ok m
  | r => r
  end.

Definition remove_weight_norm (self : NNModule) : Result NNModule :=
  apply _remove_weight_norm self.

(**
<<
    def _apply_weight_norm(m):
        if isinstance(m, nn.Conv1d) or isinstance(m, nn.ConvTranspose1d):
            nn.utils.weight_norm(m)
>>
*)
Definition _apply_weight_norm (m : NNModule) : Result NNModule :=
  if is_conv (class_of m) then weight_norm m else Ok m.

Definition apply_weight_norm (self : NNModule) : Result NNModule :=
  apply _apply_weight_norm self.

(** [m.weight.data.normal_(0.0, 0.01)] on the convolutions: [normal_]
    stands for the draw. On a normalised module [m.weight] is the
    tensor the hook computed, and [weight_g], [weight_v] keep their
    values. *)
Definition _reset_parameters (normal_ : Weights → Weights) (m : NNModule)
  : Result NNModule :=
  match m with
  | Mod cls params children =>
      if is_conv cls then
        match params with
        | Some (Plain w) => Ok (Mod cls (Some (Plain (normal_ w))) children)
        | Some (Normalized _ _) => Ok m
        | None => Raise AttributeError
        end
      else Ok m
  end.

Definition reset_parameters (normal_ : Weights → Weights) (self : NNModule)
  : Result NNModule :=
  apply (_reset_parameters normal_) self.

(** The last two steps of each [__init__], on the modules as the
    layers' constructors built them:
<<
    if use_weight_norm:
        self.apply_weight_norm()
    self.reset_parameters()
>>
*)
Definition finish_init (normal_ : Weights → Weights) (use_weight_norm : bool)
    (self : NNModule) : Result NNModule :=
  self ← (if use_weight_norm then apply_weight_norm self else Ok self);
  reset_parameters normal_ self.

(** No module of the tree carries a weight-normalisation hook. *)
Fixpoint never_normalized (m : NNModule) : bool :=
  match m with
  | Mod _ params children =>
      match params with
      | Some (Normalized _ _) => false
      | _ => true
      end
      && forallb never_normalized children
  end.

(** Every convolution of the tree holds a plain weight. *)
Fixpoint convs_have_weight (m : NNModule) : bool :=
  match m with
  | Mod cls params children =>
      (if is_conv cls then bool_decide (is_Some params) else true)
      && forallb convs_have_weight children
  end.

(** No row of a plain weight of a convolution has norm 0. *)
Fixpoint rows_nonzero (m : NNModule) : Prop :=
match m with
| Mod cls params children =>
    (is_conv cls = true →
     match params with
     | Some (Plain w) => Forall (λ row, norm row ≠ 0%R) w
     | _ => True
     end)
    ∧ Forall (λ P : Prop, P) (map rows_nonzero children)
end.

End WeightNorm.

(** * Specification-side definitions

    Closed forms of what the loops of the constructors build, the
    conditions under which construction succeeds, and the argument
    records the examples use. *)

(** [upsample_kernel_sizes[i] == 2 * upsample_scales[i]] at every stage. *)
Definition kernels_twice_scales (upsample_scales upsample_kernel_sizes : list Z) : bool :=
  forallb (λ ks, ks.1 =? 2 * ks.2) (zip upsample_kernel_sizes upsample_scales).

(** The product of the scales of the first [k] stages. *)
Definition scale_product (upsample_scales : list Z) (k : nat) : Z :=
  foldr Z.mul 1 (take k upsample_scales).

Module HiFiGANSpec.
Import HiFiGANGenerator.

(** The arguments [__init__] accepts. The base channel count is not
  among the things it looks at. *)
Definition valid (a : Args.t) : bool :=
(a.(Args.kernel_size) mod 2 =? 1)
&& bool_decide (length a.(Args.upsample_scales) = length a.(Args.upsample_kernel_sizes))
&& bool_decide (length a.(Args.resblock_dilations) = length a.(Args.resblock_kernel_sizes))
&& kernels_twice_scales a.(Args.upsample_scales) a.(Args.upsample_kernel_sizes)
&& (if a.(Args.use_qp_resblocks)
    then bool_decide (length a.(Args.upsample_kernel_sizes)
                      ≤ length a.(Args.qp_resblock_dilations))%nat
    else true)
&& bool_decide (0 < length a.(Args.upsample_kernel_sizes))%nat.

Definition upsample_of (a : Args.t) (i : nat) : Sequential :=
upsample_stage a.(Args.channels) a.(Args.bias)
  a.(Args.nonlinear_activation) a.(Args.nonlinear_activation_params) i
  (a.(Args.upsample_kernel_sizes) !!! i) (a.(Args.upsample_scales) !!! i).

Definition downsample_of (a : Args.t) (i : nat) : Sequential :=
downsample_stage a.(Args.channels) a.(Args.bias)
  a.(Args.nonlinear_activation) a.(Args.nonlinear_activation_params) i
  (a.(Args.upsample_kernel_sizes) !!! i) (a.(Args.upsample_scales) !!! i).

Definition qp_block_of (a : Args.t) (i : nat) : AdaptiveResidualBlock.t :=
{| ResidualBlock.kernel_size := a.(Args.qp_resblock_kernel_size);
   ResidualBlock.channels := a.(Args.channels) / pow2 (i + 1);
   ResidualBlock.dilations := a.(Args.qp_resblock_dilations) !!! i;
   ResidualBlock.bias := a.(Args.bias);
   ResidualBlock.use_additional_convs := a.(Args.qp_use_additional_convs);
   ResidualBlock.nonlinear_activation := a.(Args.nonlinear_activation);
   ResidualBlock.nonlinear_activation_params := a.(Args.nonlinear_activation_params) |}.

Definition block_of (a : Args.t) (i j : nat) : ResidualBlock.t :=
{| ResidualBlock.kernel_size := a.(Args.resblock_kernel_sizes) !!! j;
   ResidualBlock.channels := a.(Args.channels) / pow2 (i + 1);
   ResidualBlock.dilations := a.(Args.resblock_dilations) !!! j;
   ResidualBlock.bias := a.(Args.bias);
   ResidualBlock.use_additional_convs := a.(Args.use_additional_convs);
   ResidualBlock.nonlinear_activation := a.(Args.nonlinear_activation);
   ResidualBlock.nonlinear_activation_params := a.(Args.nonlinear_activation_params) |}.

(** The blocks after [k] stages: [num_blocks] per stage, stage by stage. *)
Definition blocks_upto (a : Args.t) (k : nat) : list ResidualBlock.t :=
let nb := length a.(Args.resblock_kernel_sizes) in
map (λ m, block_of a (m / nb) (m mod nb))%nat (seq 0 (k * nb)).

(** The state of the stage loop after [k] stages. *)
Definition stages_upto (a : Args.t) (k : nat) : Stages :=
(map (upsample_of a) (seq 0 k),
 if a.(Args.use_qp_resblocks) then map (qp_block_of a) (seq 0 k) else [],
 blocks_upto a k).

(** The object [__init__] returns for valid arguments. *)
Definition built (a : Args.t) : t :=
let n := length a.(Args.upsample_kernel_sizes) in
{| num_upsamples := n;
   qp_resdual_dilations := a.(Args.qp_resblock_dilations);
   num_blocks := length a.(Args.resblock_kernel_sizes);
   input_conv :=
     same_conv a.(Args.in_channels) a.(Args.channels) a.(Args.kernel_size) a.(Args.bias);
   upsamples := map (upsample_of a) (seq 0 n);
   use_qp_resblocks := a.(Args.use_qp_resblocks);
   qp_blocks :=
     if a.(Args.use_qp_resblocks) then Some (map (qp_block_of a) (seq 0 n)) else None;
   blocks := blocks_upto a n;
   output_conv := [
     LeakyReLU;
     LConv1d (same_conv (a.(Args.channels) / pow2 n) a.(Args.out_channels)
                a.(Args.kernel_size) a.(Args.bias));
     LTanh ];
   use_sine_embs := a.(Args.use_sine_embs);
   emb :=
     if a.(Args.use_sine_embs)
     then Some (same_conv 1 (a.(Args.channels) / pow2 n)
                  a.(Args.kernel_size) a.(Args.bias))
     else None;
   downsamples :=
     if a.(Args.use_sine_embs)
     then Some (map (downsample_of a) (reverse (seq 0 n)))
     else None |}.

(** The default arguments with another base channel count. *)
Definition with_channels (channels : Z) (a : Args.t) : Args.t :=
{| Args.in_channels := a.(Args.in_channels);
   Args.out_channels := a.(Args.out_channels);
   Args.channels := channels;
   Args.kernel_size := a.(Args.kernel_size);
   Args.upsample_scales := a.(Args.upsample_scales);
   Args.upsample_kernel_sizes := a.(Args.upsample_kernel_sizes);
   Args.qp_resblock_kernel_size := a.(Args.qp_resblock_kernel_size);
   Args.qp_resblock_dilations := a.(Args.qp_resblock_dilations);
   Args.qp_use_additional_convs := a.(Args.qp_use_additional_convs);
   Args.resblock_kernel_sizes := a.(Args.resblock_kernel_sizes);
   Args.resblock_dilations := a.(Args.resblock_dilations);
   Args.use_additional_convs := a.(Args.use_additional_convs);
   Args.use_sine_embs := a.(Args.use_sine_embs);
   Args.use_qp_resblocks := a.(Args.use_qp_resblocks);
   Args.bias := a.(Args.bias);
   Args.nonlinear_activation := a.(Args.nonlinear_activation);
   Args.nonlinear_activation_params := a.(Args.nonlinear_activation_params);
   Args.use_weight_norm := a.(Args.use_weight_norm) |}.

(** Other stage lists. *)
Definition with_stages (scales kernels : list Z) (a : Args.t) : Args.t :=
{| Args.in_channels := a.(Args.in_channels);
   Args.out_channels := a.(Args.out_channels);
   Args.channels := a.(Args.channels);
   Args.kernel_size := a.(Args.kernel_size);
   Args.upsample_scales := scales;
   Args.upsample_kernel_sizes := kernels;
   Args.qp_resblock_kernel_size := a.(Args.qp_resblock_kernel_size);
   Args.qp_resblock_dilations := a.(Args.qp_resblock_dilations);
   Args.qp_use_additional_convs := a.(Args.qp_use_additional_convs);
   Args.resblock_kernel_sizes := a.(Args.resblock_kernel_sizes);
   Args.resblock_dilations := a.(Args.resblock_dilations);
   Args.use_additional_convs := a.(Args.use_additional_convs);
   Args.use_sine_embs := a.(Args.use_sine_embs);
   Args.use_qp_resblocks := a.(Args.use_qp_resblocks);
   Args.bias := a.(Args.bias);
   Args.nonlinear_activation := a.(Args.nonlinear_activation);
   Args.nonlinear_activation_params := a.(Args.nonlinear_activation_params);
   Args.use_weight_norm := a.(Args.use_weight_norm) |}.

(** The flags [use_sine_embs] and [use_qp_resblocks]. *)
Definition with_flags (sine qp : bool) (a : Args.t) : Args.t :=
{| Args.in_channels := a.(Args.in_channels);
   Args.out_channels := a.(Args.out_channels);
   Args.channels := a.(Args.channels);
   Args.kernel_size := a.(Args.kernel_size);
   Args.upsample_scales := a.(Args.upsample_scales);
   Args.upsample_kernel_sizes := a.(Args.upsample_kernel_sizes);
   Args.qp_resblock_kernel_size := a.(Args.qp_resblock_kernel_size);
   Args.qp_resblock_dilations := a.(Args.qp_resblock_dilations);
   Args.qp_use_additional_convs := a.(Args.qp_use_additional_convs);
   Args.resblock_kernel_sizes := a.(Args.resblock_kernel_sizes);
   Args.resblock_dilations := a.(Args.resblock_dilations);
   Args.use_additional_convs := a.(Args.use_additional_convs);
   Args.use_sine_embs := sine;
   Args.use_qp_resblocks := qp;
   Args.bias := a.(Args.bias);
   Args.nonlinear_activation := a.(Args.nonlinear_activation);
   Args.nonlinear_activation_params := a.(Args.nonlinear_activation_params);
   Args.use_weight_norm := a.(Args.use_weight_norm) |}.

End HiFiGANSpec.

(** The same for the stage loop of the two dual-network generators. *)
Module DualSpec.
Section Spec.
Variables (channels : Z) (bias : bool).
Variables (nonlinear_activation : string)
          (nonlinear_activation_params : list (string * Q)).
Variables (upsample_scales upsample_kernel_sizes : list Z).
Variable source_network_params : SourceNetworkParams.t.
Variable filter_network_params : FilterNetworkParams.t.
Variable share_upsamples : bool.

Definition valid_stages : bool :=
  bool_decide (length upsample_scales = length upsample_kernel_sizes)
  && kernels_twice_scales upsample_scales upsample_kernel_sizes
  && bool_decide (length upsample_kernel_sizes
                  ≤ length source_network_params.(SourceNetworkParams.resblock_dilations))%nat
  && bool_decide (length filter_network_params.(FilterNetworkParams.resblock_kernel_sizes)
                  ≤ length filter_network_params.(FilterNetworkParams.resblock_dilations))%nat
  && bool_decide (0 < length upsample_kernel_sizes)%nat.

Definition upsample_of (i : nat) : Sequential :=
  upsample_stage channels bias nonlinear_activation nonlinear_activation_params i
    (upsample_kernel_sizes !!! i) (upsample_scales !!! i).

Definition downsample_of (i : nat) : Sequential :=
  downsample_stage channels bias nonlinear_activation nonlinear_activation_params i
    (upsample_kernel_sizes !!! i) (upsample_scales !!! i).

Definition sn_block_of (i : nat) : AdaptiveResidualBlock.t :=
  {| ResidualBlock.kernel_size :=
       source_network_params.(SourceNetworkParams.resblock_kernel_size);
     ResidualBlock.channels := channels / pow2 (i + 1);
     ResidualBlock.dilations :=
       source_network_params.(SourceNetworkParams.resblock_dilations) !!! i;
     ResidualBlock.bias := bias;
     ResidualBlock.use_additional_convs :=
       source_network_params.(SourceNetworkParams.use_additional_convs);
     ResidualBlock.nonlinear_activation := nonlinear_activation;
     ResidualBlock.nonlinear_activation_params := nonlinear_activation_params |}.

Definition fn_block_of (i j : nat) : ResidualBlock.t :=
  {| ResidualBlock.kernel_size :=
       filter_network_params.(FilterNetworkParams.resblock_kernel_sizes) !!! j;
     ResidualBlock.channels := channels / pow2 (i + 1);
     ResidualBlock.dilations :=
       filter_network_params.(FilterNetworkParams.resblock_dilations) !!! j;
     ResidualBlock.bias := bias;
     ResidualBlock.use_additional_convs :=
       filter_network_params.(FilterNetworkParams.use_additional_convs);
     ResidualBlock.nonlinear_activation := nonlinear_activation;
     ResidualBlock.nonlinear_activation_params := nonlinear_activation_params |}.

Definition fn_blocks_upto (k : nat) : list ResidualBlock.t :=
  let nb := length filter_network_params.(FilterNetworkParams.resblock_kernel_sizes) in
  map (λ m, fn_block_of (m / nb) (m mod nb))%nat (seq 0 (k * nb)).

(** The state of the stage loop after [k] stages. *)
Definition stages_upto (k : nat) : DualNetwork.Stages :=
  {| DualNetwork.sn_upsamples := map upsample_of (seq 0 k);
     DualNetwork.fn_upsamples :=
       if negb share_upsamples then map upsample_of (seq 0 k) else [];
     DualNetwork.sn_blocks := map sn_block_of (seq 0 k);
     DualNetwork.fn_blocks := fn_blocks_upto k |}.

Definition downsamples_built : list Sequential :=
  map downsample_of (reverse (seq 0 (length upsample_kernel_sizes))).

End Spec.
End DualSpec.

Module SiFiGANSpec.
Import SiFiGANGenerator.

Definition valid (a : Args.t) : bool :=
  (a.(Args.kernel_size) mod 2 =? 1)
  && DualSpec.valid_stages a.(Args.upsample_scales) a.(Args.upsample_kernel_sizes)
       a.(Args.source_network_params) a.(Args.filter_network_params).

Definition stages (a : Args.t) : DualNetwork.Stages :=
  DualSpec.stages_upto a.(Args.channels) a.(Args.bias)
    a.(Args.nonlinear_activation) a.(Args.nonlinear_activation_params)
    a.(Args.upsample_scales) a.(Args.upsample_kernel_sizes)
    a.(Args.source_network_params) a.(Args.filter_network_params)
    a.(Args.share_upsamples) (length a.(Args.upsample_kernel_sizes)).

Definition downsamples_built (a : Args.t) : list Sequential :=
  DualSpec.downsamples_built a.(Args.channels) a.(Args.bias)
    a.(Args.nonlinear_activation) a.(Args.nonlinear_activation_params)
    a.(Args.upsample_scales) a.(Args.upsample_kernel_sizes).

(** The object [__init__] returns for valid arguments. *)
Definition built (a : Args.t) : t :=
  let n := length a.(Args.upsample_kernel_sizes) in
  let out := same_conv (a.(Args.channels) / pow2 n) a.(Args.out_channels)
               a.(Args.kernel_size) a.(Args.bias) in
  {| emb_g :=
       if negb (a.(Args.gin_channels) =? 0)
       then Some {| Embedding.num_embeddings := 12;
                    Embedding.embedding_dim := a.(Args.gin_channels) |}
       else None;
     cond :=
       if negb (a.(Args.gin_channels) =? 0)
       then Some {| Conv1d.in_channels := a.(Args.gin_channels);
                    Conv1d.out_channels := a.(Args.channels);
                    Conv1d.kernel_size := 1;
                    Conv1d.stride := 1;
                    Conv1d.padding := 0;
                    Conv1d.bias := true |}
       else None;
     num_upsamples := n;
     source_network_params := a.(Args.source_network_params);
     filter_network_params := a.(Args.filter_network_params);
     share_upsamples := a.(Args.share_upsamples);
     share_downsamples := a.(Args.share_downsamples);
     input_conv :=
       same_conv a.(Args.in_channels) a.(Args.channels) a.(Args.kernel_size) a.(Args.bias);
     sn := {| SourceNetwork.upsamples := (stages a).(DualNetwork.sn_upsamples);
              SourceNetwork.blocks := (stages a).(DualNetwork.sn_blocks);
              SourceNetwork.output_conv := [LeakyReLU; LConv1d out];
              SourceNetwork.emb :=
                same_conv 1 (a.(Args.channels) / pow2 n)
                  a.(Args.kernel_size) a.(Args.bias);
              SourceNetwork.downsamples := downsamples_built a |};
     fn := {| FilterNetwork.upsamples := (stages a).(DualNetwork.fn_upsamples);
              FilterNetwork.blocks := (stages a).(DualNetwork.fn_blocks);
              FilterNetwork.output_conv := [LeakyReLU; LConv1d out; LTanh];
              FilterNetwork.downsamples :=
                if negb a.(Args.share_downsamples)
                then Some (downsamples_built a) else None |} |}.

Definition with_channels (channels : Z) (a : Args.t) : Args.t :=
  {| Args.in_channels := a.(Args.in_channels);
     Args.out_channels := a.(Args.out_channels);
     Args.channels := channels;
     Args.kernel_size := a.(Args.kernel_size);
     Args.upsample_scales := a.(Args.upsample_scales);
     Args.upsample_kernel_sizes := a.(Args.upsample_kernel_sizes);
     Args.source_network_params := a.(Args.source_network_params);
     Args.filter_network_params := a.(Args.filter_network_params);
     Args.share_upsamples := a.(Args.share_upsamples);
     Args.share_downsamples := a.(Args.share_downsamples);
     Args.bias := a.(Args.bias);
     Args.nonlinear_activation := a.(Args.nonlinear_activation);
     Args.nonlinear_activation_params := a.(Args.nonlinear_activation_params);
     Args.use_weight_norm := a.(Args.use_weight_norm);
     Args.gin_channels := a.(Args.gin_channels) |}.

Definition with_sharing (upsamples downsamples : bool) (a : Args.t) : Args.t :=
  {| Args.in_channels := a.(Args.in_channels);
     Args.out_channels := a.(Args.out_channels);
     Args.channels := a.(Args.channels);
     Args.kernel_size := a.(Args.kernel_size);
     Args.upsample_scales := a.(Args.upsample_scales);
     Args.upsample_kernel_sizes := a.(Args.upsample_kernel_sizes);
     Args.source_network_params := a.(Args.source_network_params);
     Args.filter_network_params := a.(Args.filter_network_params);
     Args.share_upsamples := upsamples;
     Args.share_downsamples := downsamples;
     Args.bias := a.(Args.bias);
     Args.nonlinear_activation := a.(Args.nonlinear_activation);
     Args.nonlinear_activation_params := a.(Args.nonlinear_activation_params);
     Args.use_weight_norm := a.(Args.use_weight_norm);
     Args.gin_channels := a.(Args.gin_channels) |}.

End SiFiGANSpec.

Module SiFiGANDirectSpec.
Import SiFiGANDirectGenerator.

Definition valid (a : Args.t) : bool :=
  (a.(Args.kernel_size) mod 2 =? 1)
  && DualSpec.valid_stages a.(Args.upsample_scales) a.(Args.upsample_kernel_sizes)
       a.(Args.source_network_params) a.(Args.filter_network_params).

Definition stages (a : Args.t) : DualNetwork.Stages :=
  DualSpec.stages_upto a.(Args.channels) a.(Args.bias)
    a.(Args.nonlinear_activation) a.(Args.nonlinear_activation_params)
    a.(Args.upsample_scales) a.(Args.upsample_kernel_sizes)
    a.(Args.source_network_params) a.(Args.filter_network_params)
    a.(Args.share_upsamples) (length a.(Args.upsample_kernel_sizes)).

Definition downsamples_built (a : Args.t) : list Sequential :=
  DualSpec.downsamples_built a.(Args.channels) a.(Args.bias)
    a.(Args.nonlinear_activation) a.(Args.nonlinear_activation_params)
    a.(Args.upsample_scales) a.(Args.upsample_kernel_sizes).

(** The object [__init__] returns for valid arguments. *)
Definition built (a : Args.t) : t :=
  let n := length a.(Args.upsample_kernel_sizes) in
  let out := same_conv (a.(Args.channels) / pow2 n) a.(Args.out_channels)
               a.(Args.kernel_size) a.(Args.bias) in
  {| num_upsamples := n;
     source_network_params := a.(Args.source_network_params);
     filter_network_params := a.(Args.filter_network_params);
     share_upsamples := a.(Args.share_upsamples);
     input_conv :=
       same_conv a.(Args.in_channels) a.(Args.channels) a.(Args.kernel_size) a.(Args.bias);
     sn := {| SourceNetwork.upsamples := (stages a).(DualNetwork.sn_upsamples);
              SourceNetwork.blocks := (stages a).(DualNetwork.sn_blocks);
              SourceNetwork.output_conv := [LeakyReLU; LConv1d out];
              SourceNetwork.emb :=
                same_conv 1 (a.(Args.channels) / pow2 n)
                  a.(Args.kernel_size) a.(Args.bias);
              SourceNetwork.downsamples := downsamples_built a |};
     fn := {| FilterNetwork.upsamples := (stages a).(DualNetwork.fn_upsamples);
              FilterNetwork.blocks := (stages a).(DualNetwork.fn_blocks);
              FilterNetwork.output_conv := [LeakyReLU; LConv1d out; LTanh];
              FilterNetwork.downsamples := None |} |}.

Definition with_channels (channels : Z) (a : Args.t) : Args.t :=
  {| Args.in_channels := a.(Args.in_channels);
     Args.out_channels := a.(Args.out_channels);
     Args.channels := channels;
     Args.kernel_size := a.(Args.kernel_size);
     Args.upsample_scales := a.(Args.upsample_scales);
     Args.upsample_kernel_sizes := a.(Args.upsample_kernel_sizes);
     Args.source_network_params := a.(Args.source_network_params);
     Args.filter_network_params := a.(Args.filter_network_params);
     Args.share_upsamples := a.(Args.share_upsamples);
     Args.bias := a.(Args.bias);
     Args.nonlinear_activation := a.(Args.nonlinear_activation);
     Args.nonlinear_activation_params := a.(Args.nonlinear_activation_params);
     Args.use_weight_norm := a.(Args.use_weight_norm) |}.

End SiFiGANDirectSpec.

(** The stage lists [__init__] refuses: lists of different lengths, or
    a kernel size that is not twice its scale. *)
Definition bad_stages (scales kernels : list Z) : Prop :=
  length scales ≠ length kernels
  ∨ ∃ (i : nat) (k s : Z), kernels !! i = Some k ∧ scales !! i = Some s ∧ k ≠ 2 * s.

(** ** Argument records used in the examples *)

(** The default HiFiGAN arguments for 80 input channels, with a base
    channel count that 2^4 does not divide. *)
Definition hifigan_channels_100 : HiFiGANGenerator.Args.t :=
  HiFiGANSpec.with_channels 100 (HiFiGANGenerator.Args.default 80).

(** The default HiFiGAN arguments with the sine embeddings switched on. *)
Definition hifigan_sine : HiFiGANGenerator.Args.t :=
  HiFiGANSpec.with_flags true false (HiFiGANGenerator.Args.default 80).

(** Three scales for four kernel sizes. *)
Definition hifigan_short_scales : HiFiGANGenerator.Args.t :=
  HiFiGANSpec.with_stages [5; 4; 3] [10; 8; 6; 4] (HiFiGANGenerator.Args.default 80).

(** A last kernel size that is not twice its scale. *)
Definition hifigan_kernel_5 : HiFiGANGenerator.Args.t :=
  HiFiGANSpec.with_stages [5; 4; 3; 2] [10; 8; 6; 5] (HiFiGANGenerator.Args.default 80).

(** ** The rule for the padding of a down-sampling stage *)

(** A down-sampling stage is a convolution followed by the activation;
    its padding is one less than its stride when its kernel size is
    even and its stride when the kernel size is odd. *)
Definition downsample_rule (stage : Sequential) : Prop :=
  ∃ (c : Conv1d.t) (act : Layer),
    stage = [LConv1d c; act]
    ∧ c.(Conv1d.padding)
      = (if Z.even c.(Conv1d.kernel_size)
         then c.(Conv1d.stride) - 1 else c.(Conv1d.stride)).

(** An up-sampling stage [i] for a base channel count: the activation
    followed by a transposed convolution from [channels // 2 ** i] to
    [channels // 2 ** (i + 1)] channels. *)
Definition upsample_channels (channels : Z) (i : nat) (stage : Sequential) : Prop :=
  ∃ (act : Layer) (c : ConvTranspose1d.t),
    stage = [act; LConvTranspose1d c]
    ∧ c.(ConvTranspose1d.in_channels) = channels / pow2 i
    ∧ c.(ConvTranspose1d.out_channels) = channels / pow2 (i + 1).

(** ** Shapes along the ladder *)

(** The shape of the features after [k] up-sampling stages, for a
    [(b, channels, l)] tensor entering the ladder. *)
Definition shape_at (channels : Z) (scales : list Z) (b l : Z) (k : nat) : Shape :=
  [b; channels / pow2 k; l * scale_product scales k].

(** The embeddings the cascade is to produce for a ladder of [n]
    stages: the finest first, embedding [j] with the shape of the
    features after [n - j] stages. *)
Definition embedding_shapes (channels : Z) (scales : list Z) (b l : Z) (n : nat)
  : list Shape :=
  map (λ j, shape_at channels scales b l (n - j)) (seq 0 n).

(** The dilation factors of the stages: [(b, 1, T)] with the length of
    the features after the stage. *)
Definition dilation_shapes (scales : list Z) (b l : Z) (n : nat) : list Shape :=
  map (λ i, [b; 1; l * scale_product scales (S i)]) (seq 0 n).

(** The time length of a shape: its last dimension. *)
Definition time_length (s : Shape) : option Z := last s.

(** ** The rule for an up-sampling stage *)

(** An up-sampling stage is the activation followed by a transposed
    convolution whose kernel size is twice its stride, with the padding
    and output padding of the constructors, and which multiplies the
    time length by the stride. *)
Definition upsample_rule (stage : Sequential) : Prop :=
  ∃ (act : Layer) (c : ConvTranspose1d.t),
    stage = [act; LConvTranspose1d c]
    ∧ c.(ConvTranspose1d.kernel_size) = 2 * c.(ConvTranspose1d.stride)
    ∧ c.(ConvTranspose1d.padding)
      = c.(ConvTranspose1d.stride) / 2 + c.(ConvTranspose1d.stride) mod 2
    ∧ c.(ConvTranspose1d.output_padding) = c.(ConvTranspose1d.stride) mod 2
    ∧ ∀ l, ShapeOps.conv_transpose1d_length c l = l * c.(ConvTranspose1d.stride).

(** The time length after the layers of a container, and after a list
    of stages. *)
Definition layer_length (layer : Layer) (l : Z) : Z :=
  match layer with
  | LConv1d c => ShapeOps.conv1d_length c l
  | LConvTranspose1d c => ShapeOps.conv_transpose1d_length c l
  | LActivation _ | LTanh => l
  end.

Definition stage_length (stage : Sequential) (l : Z) : Z :=
  foldl (λ l layer, layer_length layer l) l stage.

Definition ladder_length (stages : list Sequential) (l : Z) : Z :=
  foldl (λ l stage, stage_length stage l) l stages.

(** Two stages, the second of scale 1, with sine embeddings. *)
Definition hifigan_scale_1 : HiFiGANGenerator.Args.t :=
  HiFiGANSpec.with_flags true false
    (HiFiGANSpec.with_stages [2; 1] [4; 2] (HiFiGANGenerator.Args.default 80)).

(** Odd and even scales, sine embeddings and adaptive blocks. *)
Definition hifigan_full : HiFiGANGenerator.Args.t :=
  HiFiGANSpec.with_flags true true (HiFiGANGenerator.Args.default 80).

(** ** The mean of the residual blocks of a stage *)

(** The value of [cs] after the outputs [ys] have been added to it in
    turn, whatever the arithmetic: [cs = 0.0], then [cs += y] for each
    output. *)
Definition add_up {T} (ops : Ops T) (ys : list T) : Result (Acc T) :=
  for_each ys (λ y cs, acc_iadd ops cs y) (AccFloat 0%Q).

(** The outputs added up and divided by their number. *)
Definition sum_divided {T} (ops : Ops T) (ys : list T) : Result T :=
  cs ← add_up ops ys; acc_truediv ops cs (length ys).




(** ** Layers used in the examples *)



(** The default SiFiGAN arguments with shared up-sampling stages. *)
Definition sifigan_shared : SiFiGANGenerator.Args.t :=
  SiFiGANSpec.with_sharing true false (SiFiGANGenerator.Args.default 80).

(** ** The modules after weight normalisation *)

(** The tree in which every convolution with a plain weight [w] holds
    [weight_g = norm_except_dim(w, 2, 0)] and [weight_v = w] instead. *)
Fixpoint normalized (m : WeightNorm.NNModule) : WeightNorm.NNModule :=
  match m with
  | WeightNorm.Mod cls params children =>
      WeightNorm.Mod cls
        (if WeightNorm.is_conv cls
         then match params with
              | Some (WeightNorm.Plain w) =>
                  Some (WeightNorm.Normalized (WeightNorm.norm_except_dim w) w)
              | _ => params
              end
         else params)
        (map normalized children)
  end.

(** A container with a convolution, a transposed convolution and an
    activation, all with plain weights. *)
Definition small_generator : WeightNorm.NNModule :=
  WeightNorm.Mod WeightNorm.OtherClass None [
    WeightNorm.Mod WeightNorm.Conv1dClass
      (Some (WeightNorm.Plain [[3; 4]; [1; 0]]%R)) [];
    WeightNorm.Mod WeightNorm.OtherClass None [
      WeightNorm.Mod WeightNorm.OtherClass None [];
      WeightNorm.Mod WeightNorm.ConvTranspose1dClass
        (Some (WeightNorm.Plain [[0; 2]]%R)) [] ] ].

(** * Further definitions

    What the statements about the rest of the code need: tensor
    operations that never fail, generators with other lists of
    down-sampling stages, module trees with a convolution, and the two
    data-preparation scripts of [sifigan/bin]. *)

(** ** Tensor operations that never fail *)

(** Every layer returns, and so does the division by a count other
    than 0. Under such operations [forward] can only fail by its own
    bookkeeping: a missing attribute, an index out of range, a division
    by [num_blocks = 0]. *)
Record total_ops {T : Type} (ops : Ops T) : Prop := {
  conv1d_returns : ∀ p c x, ∃ y, conv1d ops p c x = Ok y;
  conv_transpose1d_returns : ∀ p c x, ∃ y, conv_transpose1d ops p c x = Ok y;
  nonlinearity_returns : ∀ a x, ∃ y, nonlinearity ops a x = Ok y;
  tanh_returns : ∀ x, ∃ y, tanh ops x = Ok y;
  residual_block_returns : ∀ p b x, ∃ y, residual_block ops p b x = Ok y;
  adaptive_residual_block_returns :
    ∀ p b x d, ∃ y, adaptive_residual_block ops p b x d = Ok y;
  embedding_returns : ∀ p e x, ∃ y, embedding ops p e x = Ok y;
  unsqueeze_last_returns : ∀ x, ∃ y, unsqueeze_last ops x = Ok y;
  add_returns : ∀ x y, ∃ z, add ops x y = Ok z;
  radd_returns : ∀ q x, ∃ y, radd ops q x = Ok y;
  iadd_returns : ∀ x y, ∃ z, iadd ops x y = Ok z;
  truediv_returns : ∀ x n, n ≠ 0 → ∃ y, truediv ops x n = Ok y;
}.

(** Tensors without content: every operation returns the one value. *)
Definition unit_ops : Ops unit :=
  Build_Ops unit
    (λ _ _ _, Ok tt)
    (λ _ _ _, Ok tt)
    (λ _ _, Ok tt)
    (λ _, Ok tt)
    (λ _ _ _, Ok tt)
    (λ _ _ _ _, Ok tt)
    (λ _ _ _, Ok tt)
    (λ _, Ok tt)
    (λ _ _, Ok tt)
    (λ _ _, Ok tt)
    (λ _ _, Ok tt)
    (λ _ _, Ok tt).

(** ** Down-sampling stages against up-sampling stages *)

(** A down-sampling stage undoes an up-sampling stage: the same
    activation, kernel size and stride, and the channel counts the other
    way round. *)
Definition mirrors (down up : Sequential) : Prop :=
  ∃ (c : Conv1d.t) (t : ConvTranspose1d.t) (act : Layer),
    down = [LConv1d c; act]
    ∧ up = [act; LConvTranspose1d t]
    ∧ c.(Conv1d.in_channels) = t.(ConvTranspose1d.out_channels)
    ∧ c.(Conv1d.out_channels) = t.(ConvTranspose1d.in_channels)
    ∧ c.(Conv1d.kernel_size) = t.(ConvTranspose1d.kernel_size)
    ∧ c.(Conv1d.stride) = t.(ConvTranspose1d.stride).

(** The HiFiGAN generator with another list under [downsamples]. *)
Definition hifigan_set_downsamples (downs : list Sequential) (g : HiFiGANGenerator.t)
  : HiFiGANGenerator.t :=
  {| HiFiGANGenerator.num_upsamples := g.(HiFiGANGenerator.num_upsamples);
     HiFiGANGenerator.qp_resdual_dilations := g.(HiFiGANGenerator.qp_resdual_dilations);
     HiFiGANGenerator.num_blocks := g.(HiFiGANGenerator.num_blocks);
     HiFiGANGenerator.input_conv := g.(HiFiGANGenerator.input_conv);
     HiFiGANGenerator.upsamples := g.(HiFiGANGenerator.upsamples);
     HiFiGANGenerator.use_qp_resblocks := g.(HiFiGANGenerator.use_qp_resblocks);
     HiFiGANGenerator.qp_blocks := g.(HiFiGANGenerator.qp_blocks);
     HiFiGANGenerator.blocks := g.(HiFiGANGenerator.blocks);
     HiFiGANGenerator.output_conv := g.(HiFiGANGenerator.output_conv);
     HiFiGANGenerator.use_sine_embs := g.(HiFiGANGenerator.use_sine_embs);
     HiFiGANGenerator.emb := g.(HiFiGANGenerator.emb);
     HiFiGANGenerator.downsamples := Some downs |}.

(** The source network with another list under ["downsamples"]. *)
Definition source_set_downsamples (downs : list Sequential) (sn : SourceNetwork.t)
  : SourceNetwork.t :=
  {| SourceNetwork.upsamples := sn.(SourceNetwork.upsamples);
     SourceNetwork.blocks := sn.(SourceNetwork.blocks);
     SourceNetwork.output_conv := sn.(SourceNetwork.output_conv);
     SourceNetwork.emb := sn.(SourceNetwork.emb);
     SourceNetwork.downsamples := downs |}.

(** The filter network with another list under ["downsamples"]. *)
Definition filter_set_downsamples (downs : list Sequential) (fn : FilterNetwork.t)
  : FilterNetwork.t :=
  {| FilterNetwork.upsamples := fn.(FilterNetwork.upsamples);
     FilterNetwork.blocks := fn.(FilterNetwork.blocks);
     FilterNetwork.output_conv := fn.(FilterNetwork.output_conv);
     FilterNetwork.downsamples := Some downs |}.

(** The SiFiGAN generator with other lists of down-sampling stages in
    its two networks. *)
Definition sifigan_set_downsamples (sn_downs fn_downs : list Sequential)
    (g : SiFiGANGenerator.t) : SiFiGANGenerator.t :=
  {| SiFiGANGenerator.emb_g := g.(SiFiGANGenerator.emb_g);
     SiFiGANGenerator.cond := g.(SiFiGANGenerator.cond);
     SiFiGANGenerator.num_upsamples := g.(SiFiGANGenerator.num_upsamples);
     SiFiGANGenerator.source_network_params := g.(SiFiGANGenerator.source_network_params);
     SiFiGANGenerator.filter_network_params := g.(SiFiGANGenerator.filter_network_params);
     SiFiGANGenerator.share_upsamples := g.(SiFiGANGenerator.share_upsamples);
     SiFiGANGenerator.share_downsamples := g.(SiFiGANGenerator.share_downsamples);
     SiFiGANGenerator.input_conv := g.(SiFiGANGenerator.input_conv);
     SiFiGANGenerator.sn := source_set_downsamples sn_downs g.(SiFiGANGenerator.sn);
     SiFiGANGenerator.fn :=
       if g.(SiFiGANGenerator.share_downsamples) then g.(SiFiGANGenerator.fn)
       else filter_set_downsamples fn_downs g.(SiFiGANGenerator.fn) |}.

(** The same for the source network of the direct generator. *)
Definition direct_set_downsamples (downs : list Sequential)
    (g : SiFiGANDirectGenerator.t) : SiFiGANDirectGenerator.t :=
  {| SiFiGANDirectGenerator.num_upsamples := g.(SiFiGANDirectGenerator.num_upsamples);
     SiFiGANDirectGenerator.source_network_params :=
       g.(SiFiGANDirectGenerator.source_network_params);
     SiFiGANDirectGenerator.filter_network_params :=
       g.(SiFiGANDirectGenerator.filter_network_params);
     SiFiGANDirectGenerator.share_upsamples := g.(SiFiGANDirectGenerator.share_upsamples);
     SiFiGANDirectGenerator.input_conv := g.(SiFiGANDirectGenerator.input_conv);
     SiFiGANDirectGenerator.sn :=
       source_set_downsamples downs g.(SiFiGANDirectGenerator.sn);
     SiFiGANDirectGenerator.fn := g.(SiFiGANDirectGenerator.fn) |}.

(** ** Other arguments for the SiFiGAN constructor *)

(** Another filter network and other sharing flags. *)
Definition sifigan_set_filter (filter_network_params : FilterNetworkParams.t)
    (share_upsamples share_downsamples : bool) (a : SiFiGANGenerator.Args.t)
  : SiFiGANGenerator.Args.t :=
  {| SiFiGANGenerator.Args.in_channels := a.(SiFiGANGenerator.Args.in_channels);
     SiFiGANGenerator.Args.out_channels := a.(SiFiGANGenerator.Args.out_channels);
     SiFiGANGenerator.Args.channels := a.(SiFiGANGenerator.Args.channels);
     SiFiGANGenerator.Args.kernel_size := a.(SiFiGANGenerator.Args.kernel_size);
     SiFiGANGenerator.Args.upsample_scales := a.(SiFiGANGenerator.Args.upsample_scales);
     SiFiGANGenerator.Args.upsample_kernel_sizes :=
       a.(SiFiGANGenerator.Args.upsample_kernel_sizes);
     SiFiGANGenerator.Args.source_network_params :=
       a.(SiFiGANGenerator.Args.source_network_params);
     SiFiGANGenerator.Args.filter_network_params := filter_network_params;
     SiFiGANGenerator.Args.share_upsamples := share_upsamples;
     SiFiGANGenerator.Args.share_downsamples := share_downsamples;
     SiFiGANGenerator.Args.bias := a.(SiFiGANGenerator.Args.bias);
     SiFiGANGenerator.Args.nonlinear_activation :=
       a.(SiFiGANGenerator.Args.nonlinear_activation);
     SiFiGANGenerator.Args.nonlinear_activation_params :=
       a.(SiFiGANGenerator.Args.nonlinear_activation_params);
     SiFiGANGenerator.Args.use_weight_norm := a.(SiFiGANGenerator.Args.use_weight_norm);
     SiFiGANGenerator.Args.gin_channels := a.(SiFiGANGenerator.Args.gin_channels) |}.

(** Another filter network and sharing flag, for the direct generator. *)
Definition direct_set_filter (filter_network_params : FilterNetworkParams.t)
    (share_upsamples : bool) (a : SiFiGANDirectGenerator.Args.t)
  : SiFiGANDirectGenerator.Args.t :=
  {| SiFiGANDirectGenerator.Args.in_channels :=
       a.(SiFiGANDirectGenerator.Args.in_channels);
     SiFiGANDirectGenerator.Args.out_channels :=
       a.(SiFiGANDirectGenerator.Args.out_channels);
     SiFiGANDirectGenerator.Args.channels := a.(SiFiGANDirectGenerator.Args.channels);
     SiFiGANDirectGenerator.Args.kernel_size :=
       a.(SiFiGANDirectGenerator.Args.kernel_size);
     SiFiGANDirectGenerator.Args.upsample_scales :=
       a.(SiFiGANDirectGenerator.Args.upsample_scales);
     SiFiGANDirectGenerator.Args.upsample_kernel_sizes :=
       a.(SiFiGANDirectGenerator.Args.upsample_kernel_sizes);
     SiFiGANDirectGenerator.Args.source_network_params :=
       a.(SiFiGANDirectGenerator.Args.source_network_params);
     SiFiGANDirectGenerator.Args.filter_network_params := filter_network_params;
     SiFiGANDirectGenerator.Args.share_upsamples := share_upsamples;
     SiFiGANDirectGenerator.Args.bias := a.(SiFiGANDirectGenerator.Args.bias);
     SiFiGANDirectGenerator.Args.nonlinear_activation :=
       a.(SiFiGANDirectGenerator.Args.nonlinear_activation);
     SiFiGANDirectGenerator.Args.nonlinear_activation_params :=
       a.(SiFiGANDirectGenerator.Args.nonlinear_activation_params);
     SiFiGANDirectGenerator.Args.use_weight_norm :=
       a.(SiFiGANDirectGenerator.Args.use_weight_norm) |}.

(** Another number of channels for the speaker embedding. *)
Definition sifigan_set_gin_channels (gin_channels : Z) (a : SiFiGANGenerator.Args.t)
  : SiFiGANGenerator.Args.t :=
  {| SiFiGANGenerator.Args.in_channels := a.(SiFiGANGenerator.Args.in_channels);
     SiFiGANGenerator.Args.out_channels := a.(SiFiGANGenerator.Args.out_channels);
     SiFiGANGenerator.Args.channels := a.(SiFiGANGenerator.Args.channels);
     SiFiGANGenerator.Args.kernel_size := a.(SiFiGANGenerator.Args.kernel_size);
     SiFiGANGenerator.Args.upsample_scales := a.(SiFiGANGenerator.Args.upsample_scales);
     SiFiGANGenerator.Args.upsample_kernel_sizes :=
       a.(SiFiGANGenerator.Args.upsample_kernel_sizes);
     SiFiGANGenerator.Args.source_network_params :=
       a.(SiFiGANGenerator.Args.source_network_params);
     SiFiGANGenerator.Args.filter_network_params :=
       a.(SiFiGANGenerator.Args.filter_network_params);
     SiFiGANGenerator.Args.share_upsamples := a.(SiFiGANGenerator.Args.share_upsamples);
     SiFiGANGenerator.Args.share_downsamples :=
       a.(SiFiGANGenerator.Args.share_downsamples);
     SiFiGANGenerator.Args.bias := a.(SiFiGANGenerator.Args.bias);
     SiFiGANGenerator.Args.nonlinear_activation :=
       a.(SiFiGANGenerator.Args.nonlinear_activation);
     SiFiGANGenerator.Args.nonlinear_activation_params :=
       a.(SiFiGANGenerator.Args.nonlinear_activation_params);
     SiFiGANGenerator.Args.use_weight_norm := a.(SiFiGANGenerator.Args.use_weight_norm);
     SiFiGANGenerator.Args.gin_channels := gin_channels |}.

(** A filter network with one residual block per stage. *)
Definition single_filter_block : FilterNetworkParams.t :=
  {| FilterNetworkParams.resblock_kernel_sizes := [3];
     FilterNetworkParams.resblock_dilations := [[1; 3; 5]];
     FilterNetworkParams.use_additional_convs := false |}.

(** The default SiFiGAN arguments with that filter network and shared
    up- and down-sampling stages. *)
Definition sifigan_single_shared : SiFiGANGenerator.Args.t :=
  sifigan_set_filter single_filter_block true true (SiFiGANGenerator.Args.default 80).

(** The default SiFiGAN arguments without a speaker embedding. *)
Definition sifigan_no_speaker : SiFiGANGenerator.Args.t :=
  sifigan_set_gin_channels 0 (SiFiGANGenerator.Args.default 80).

(** ** Module trees with a convolution *)

(** Some module of the tree is a convolution. *)
Fixpoint has_conv (m : WeightNorm.NNModule) : bool :=
  match m with
  | WeightNorm.Mod cls _ children => WeightNorm.is_conv cls || existsb has_conv children
  end.

(** ** The data-preparation scripts of [sifigan/bin]

    The two scripts read and write text files under fixed paths. A
    file is the string of its characters, taken to be UTF-8 text.
    [open(path)] of a file that is not there stops the script with
    [FileNotFoundError]; the directory of the files is taken to be
    there and writable, so that [open(path, 'w')] succeeds. *)

From Stdlib Require DecimalString DecimalNat.

Definition Files := string → option string.

(** The line feed and the carriage return. *)
Definition LF : Ascii.ascii := Ascii.ascii_of_nat 10.
Definition CR : Ascii.ascii := Ascii.ascii_of_nat 13.

(** Reading a file opened without [newline], that is with universal
    newlines: the line ends [\r\n] and [\r] are read as [\n]. *)
Fixpoint universal_newlines (s : string) : string :=
  match s with
  | EmptyString => EmptyString
  | String c rest =>
      if Ascii.eqb c CR then
        String LF
          match rest with
          | EmptyString => EmptyString
          | String c' rest' =>
              if Ascii.eqb c' LF then universal_newlines rest'
              else universal_newlines rest
          end
      else String c (universal_newlines rest)
  end.

(** A text cut after each line feed, the line feeds kept; what follows
    the last line feed, if anything does, is a line too. *)
Fixpoint split_lines (s : string) : list string :=
  match s with
  | EmptyString => []
  | String c rest =>
      if Ascii.eqb c LF then String c EmptyString :: split_lines rest
      else
        match split_lines rest with
        | [] => [String c EmptyString]
        | line :: lines => String c line :: lines
        end
  end.

(** [f.readlines()] on the whole of a file opened for reading. *)
Definition readlines (content : string) : list string :=
  split_lines (universal_newlines content).

(** [with open(path, 'w', encoding='utf-8', newline='\n') as f:
    f.writelines(lines)]: the file becomes the strings one after the
    other, nothing put between them and no line feed translated. *)
Definition writelines (path : string) (lines : list string) (fs : Files) : Files :=
  λ p, if String.eqb p path then Some (String.concat "" lines) else fs p.

(** The character [c] occurs in [s]. *)
Fixpoint occurs (c : Ascii.ascii) (s : string) : bool :=
  match s with
  | EmptyString => false
  | String c' rest => Ascii.eqb c' c || occurs c rest
  end.

(** Neither a line feed nor a carriage return occurs in [s]. *)
Definition line_break_free (s : string) : bool :=
  negb (occurs LF s) && negb (occurs CR s).

(** The lines of a text as [readlines] gives them: every line ends in
    its only line feed, but for the last one, which may have none. *)
Inductive text_lines : list string → Prop :=
| text_nil : text_lines []
| text_last (line : string) :
    line ≠ EmptyString → line_break_free line = true → text_lines [line]
| text_cons (body : string) (lines : list string) :
    line_break_free body = true →
    text_lines lines →
    text_lines ((body ++ String LF EmptyString)%string :: lines).

(** How a script ends, and the files it leaves. *)
Inductive Outcome :=
| Finished (fs : Files)
| FileNotFoundError (fs : Files).

(** [enumerate(l)] *)
Definition enumerate {A} (l : list A) : list (nat * A) := imap pair l.

(** [divide_traindata.py] *)
Module DivideTraindata.

(** The three lists the loop fills. *)
Record Lines := {
  train_line : list string;
  dev_line : list string;
  eval_line : list string;
}.

Definition no_lines : Lines :=
  {| train_line := []; dev_line := []; eval_line := [] |}.

(** The body of [for i, line in enumerate(lines)]:
<<
    if i % 10 == 0:
        dev_line.append(line)
    elif (i+1) % 10 == 0:
        eval_line.append(line)
    else:
        train_line.append(line)
>>
*)
Definition step (s : Lines) (il : nat * string) : Lines :=
  let '(i, line) := il in
  if Z.of_nat i mod 10 =? 0 then
    {| train_line := s.(train_line);
       dev_line := s.(dev_line) ++ [line];
       eval_line := s.(eval_line) |}
  else if (Z.of_nat i + 1) mod 10 =? 0 then
    {| train_line := s.(train_line);
       dev_line := s.(dev_line);
       eval_line := s.(eval_line) ++ [line] |}
  else
    {| train_line := s.(train_line) ++ [line];
       dev_line := s.(dev_line);
       eval_line := s.(eval_line) |}.

(** The loop over the lines of one file. *)
Definition divide (lines : list string) : Lines :=
  foldl step no_lines (enumerate lines).

(** One half of the script: a file is read, divided, and the three
    lists are written, train first. *)
Definition divide_file (all train dev eval : string) (fs : Files) : Outcome :=
  match fs all with
  | None => FileNotFoundError fs
  | Some content =>
      let s := divide (readlines content) in
      Finished (writelines eval s.(eval_line)
                  (writelines dev s.(dev_line)
                     (writelines train s.(train_line) fs)))
  end.

Definition all_list : string :=
  "D:\GitRepository\sifigan\SiFiGAN\egs\multi_speaker\data\scp\all.list".
Definition train_list : string :=
  "D:\GitRepository\sifigan\SiFiGAN\egs\multi_speaker\data\scp\train.list".
Definition dev_list : string :=
  "D:\GitRepository\sifigan\SiFiGAN\egs\multi_speaker\data\scp\dev.list".
Definition eval_list : string :=
  "D:\GitRepository\sifigan\SiFiGAN\egs\multi_speaker\data\scp\eval.list".
Definition all_scp : string :=
  "D:\GitRepository\sifigan\SiFiGAN\egs\multi_speaker\data\scp\all.scp".
Definition train_scp : string :=
  "D:\GitRepository\sifigan\SiFiGAN\egs\multi_speaker\data\scp\train.scp".
Definition dev_scp : string :=
  "D:\GitRepository\sifigan\SiFiGAN\egs\multi_speaker\data\scp\dev.scp".
Definition eval_scp : string :=
  "D:\GitRepository\sifigan\SiFiGAN\egs\multi_speaker\data\scp\eval.scp".

(** The script: the [.list] files, then the [.scp] files. *)
Definition main (fs : Files) : Outcome :=
  match divide_file all_list train_list dev_list eval_list fs with
  | Finished fs => divide_file all_scp train_scp dev_scp eval_scp fs
  | FileNotFoundError fs => FileNotFoundError fs
  end.

End DivideTraindata.

(** [create_dataset.py] *)
Module CreateDataset.

(** [str(i)] for an index: its decimal digits. *)
Definition str (i : nat) : string :=
  DecimalString.NilEmpty.string_of_uint (Nat.to_uint i).

(** The line feed that ends a line. *)
Definition newline : string := String LF EmptyString.

Section Script.
(** [glob.glob(pattern)] on the directories at hand, and
    [os.path.basename]. *)
Variable glob : string → list string.
Variable basename : string → string.

(** ["data/wav/{}/{}|{}\n".format(os.path.basename(dir_), os.path.basename(file_), str(i))] *)
Definition line_of (i : nat) (dir_ file_ : string) : string :=
  ("data/wav/" ++ basename dir_ ++ "/" ++ basename file_ ++ "|" ++ str i ++ newline)%string.

(** What the script has printed and the list [lines]. *)
Record State := {
  printed : list string;
  lines : list string;
}.

(** The body of [for file_ in files]. *)
Definition file_step (i : nat) (dir_ : string) (s : State) (file_ : string) : State :=
  let line := line_of i dir_ file_ in
  {| printed := s.(printed) ++ [line]; lines := s.(lines) ++ [line] |}.

(** The body of [for i, dir_ in enumerate(dirs)]. *)
Definition dir_step (s : State) (id : nat * string) : State :=
  let '(i, dir_) := id in
  let files := glob (dir_ ++ "/*")%string in
  foldl (file_step i dir_) s files.

Definition wav_pattern : string :=
  "D:\GitRepository\sifigan\SiFiGAN\egs\multi_speaker\data\wav/*".

(** The two loops. *)
Definition collect : State :=
  let dirs := glob wav_pattern in
  foldl dir_step {| printed := []; lines := [] |} (enumerate dirs).

(** The script: what it prints, and the files it leaves. *)
Definition main (fs : Files) : list string * Files :=
  let s := collect in
  (s.(printed), writelines DivideTraindata.all_scp s.(lines) fs).

End Script.
End CreateDataset.

(** ** Directories and files used in the examples *)

(** No name that goes into a line holds a line feed or a carriage
    return: the base name of no directory [glob] finds, and of no file
    in one of them. *)
Definition names_line_break_free (glob : string → list string)
    (basename : string → string) : bool :=
  forallb
    (λ dir_, line_break_free (basename dir_)
             && forallb (λ file_, line_break_free (basename file_))
                  (glob (dir_ ++ "/*")%string))
    (glob CreateDataset.wav_pattern).

(** Two speaker directories, the first with two recordings and the
    second with one. *)
Definition example_glob (pattern : string) : list string :=
  if String.eqb pattern CreateDataset.wav_pattern then ["wav/a"; "wav/b"]%string
  else if String.eqb pattern "wav/a/*" then ["wav/a/1.wav"; "wav/a/2.wav"]%string
  else if String.eqb pattern "wav/b/*" then ["wav/b/1.wav"]%string
  else [].

(** The file system in which only an empty [all.list] exists. *)
Definition example_files : Files :=
  λ p, if String.eqb p DivideTraindata.all_list then Some EmptyString else None.
(** * Lemmas *)

(** ** The result monad, indexing and loops *)

Lemma bind_Ok {A B} (m : Result A) (f : A → Result B) (b : B) :
  (m ≫= f) = Ok b ↔ ∃ a, m = Ok a ∧ f a = Ok b.
Proof.
  destruct m as [a|e]; simpl; split.
  - intros H. exists a. auto.
  - intros (a' & [= <-] & H). exact H.
  - discriminate.
  - intros (a' & H & _). discriminate.
Qed.

Lemma bind_Ok_l {A B} (a : A) (f : A → Result B) : (Ok a ≫= f) = f a.
Proof. reflexivity. Qed.

Lemma bind_Raise {A B} (m : Result A) (f : A → Result B) (e : Exception) :
  (m ≫= f) = Raise e ↔ m = Raise e ∨ ∃ a, m = Ok a ∧ f a = Raise e.
Proof.
  destruct m as [a|e']; simpl; split.
  - intros H. right. exists a. auto.
  - intros [H|(a' & [= <-] & H)]; [discriminate|exact H].
  - intros [= ->]. left. reflexivity.
  - intros [[= ->]|(a' & H & _)]; [reflexivity|discriminate].
Qed.

Lemma not_raises_Ok {A} (r : Result A) : ¬ raises r ↔ ∃ a, r = Ok a.
Proof.
  unfold raises. destruct r as [a|e]; split.
  - eauto.
  - intros _ (e & H). discriminate.
  - intros H. exfalso. apply H. eauto.
  - intros (a & H). discriminate.
Qed.

Lemma getitem_nat {A} (l : list A) (i : nat) (a : A) :
  l !! i = Some a → getitem l (Z.of_nat i) = Ok a.
Proof.
  intros H. unfold getitem.
  pose proof (lookup_lt_Some _ _ _ H) as Hlt.
  replace (Z.of_nat i <? 0) with false by (symmetry; apply Z.ltb_ge; lia).
  replace (0 <=? Z.of_nat i) with true by (symmetry; apply Z.leb_le; lia).
  replace (Z.of_nat i <? Z.of_nat (length l)) with true
    by (symmetry; apply Z.ltb_lt; lia).
  simpl. rewrite Nat2Z.id, H. reflexivity.
Qed.

Lemma getitem_nat_out {A} (l : list A) (i : nat) :
  (length l ≤ i)%nat → getitem l (Z.of_nat i) = Raise IndexError.
Proof.
  intros H. unfold getitem.
  replace (Z.of_nat i <? 0) with false by (symmetry; apply Z.ltb_ge; lia).
  replace (Z.of_nat i <? Z.of_nat (length l)) with false
    by (symmetry; apply Z.ltb_ge; lia).
  rewrite andb_false_r. reflexivity.
Qed.

(** [l[-i - 1]] is the entry [i] places before the last. *)
Lemma getitem_from_end {A} (l : list A) (i : nat) (a : A) :
  (i < length l)%nat → l !! (length l - 1 - i)%nat = Some a →
  getitem l (- Z.of_nat i - 1) = Ok a.
Proof.
  intros Hlt H. unfold getitem.
  replace (- Z.of_nat i - 1 <? 0) with true by (symmetry; apply Z.ltb_lt; lia).
  replace (0 <=? - Z.of_nat i - 1 + Z.of_nat (length l)) with true
    by (symmetry; apply Z.leb_le; lia).
  replace (- Z.of_nat i - 1 + Z.of_nat (length l) <? Z.of_nat (length l)) with true
    by (symmetry; apply Z.ltb_lt; lia).
  simpl.
  replace (Z.to_nat (- Z.of_nat i - 1 + Z.of_nat (length l)))
    with (length l - 1 - i)%nat by lia.
  rewrite H. reflexivity.
Qed.

Lemma getitem_raises_IndexError {A} (l : list A) (i : Z) (e : Exception) :
  getitem l i = Raise e → e = IndexError.
Proof.
  unfold getitem.
  destruct (_ && _); [destruct (l !! _)|]; congruence.
Qed.

Lemma for_each_app {A S} (l1 l2 : list A) (body : A → S → Result S) (s : S) :
  for_each (l1 ++ l2) body s = (for_each l1 body s ≫= for_each l2 body).
Proof.
  revert s. induction l1 as [|a l1 IH]; intros s; simpl; [reflexivity|].
  destruct (body a s) as [s'|e]; simpl; [apply IH|reflexivity].
Qed.

Lemma for_range_S {S} (n : nat) (body : nat → S → Result S) (s : S) :
  for_range (Datatypes.S n) body s = (for_range n body s ≫= body n).
Proof.
  unfold for_range, range. rewrite seq_S, for_each_app. simpl.
  destruct (for_each (seq 0 n) body s) as [s'|e]; simpl; [|reflexivity].
  destruct (body n s'); reflexivity.
Qed.

(** A loop whose state after [k] rounds is [F k]. *)
Lemma for_range_Ok {S} (n : nat) (body : nat → S → Result S) (F : nat → S) :
  (∀ k, (k < n)%nat → body k (F k) = Ok (F (Datatypes.S k))) →
  for_range n body (F 0%nat) = Ok (F n).
Proof.
  induction n as [|n IH]; intros H; [reflexivity|].
  rewrite for_range_S, IH by (intros; apply H; lia). simpl.
  apply H. lia.
Qed.

(** The loop stops at the first round that raises. *)
Lemma for_range_Raise {S} (n k : nat) (body : nat → S → Result S) (F : nat → S)
    (e : Exception) :
  (k < n)%nat →
  (∀ j, (j < k)%nat → body j (F j) = Ok (F (Datatypes.S j))) →
  body k (F k) = Raise e →
  for_range n body (F 0%nat) = Raise e.
Proof.
  intros Hk Hok Hraise.
  induction n as [|n IH]; [lia|].
  rewrite for_range_S.
  destruct (decide (k = n)) as [->|Hne].
  - rewrite (for_range_Ok n body F) by exact Hok. exact Hraise.
  - rewrite IH by lia. reflexivity.
Qed.

(** A loop all of whose rounds either step along [F] or raise an
    exception of the kind [E] ends at [F n] or raises one of that kind;
    it raises as soon as one round does. *)
Lemma for_range_cases {S} (n : nat) (body : nat → S → Result S) (F : nat → S)
    (E : Exception → Prop) :
  (∀ k, (k < n)%nat →
        body k (F k) = Ok (F (Datatypes.S k)) ∨ ∃ e, body k (F k) = Raise e ∧ E e) →
  (for_range n body (F 0%nat) = Ok (F n)
   ∧ ∀ k, (k < n)%nat → body k (F k) = Ok (F (Datatypes.S k)))
  ∨ ∃ e, for_range n body (F 0%nat) = Raise e ∧ E e.
Proof.
  induction n as [|n IH]; intros H.
  - left. split; [reflexivity|intros; lia].
  - rewrite for_range_S.
    destruct IH as [[-> Hall]|(e & -> & He)]; [intros; apply H; lia| |].
    + simpl. destruct (H n) as [Hn|(e & Hn & He)]; [lia| |].
      * left. split; [exact Hn|].
        intros k Hk. destruct (decide (k = n)) as [->|]; [exact Hn|apply Hall; lia].
      * right. exists e. auto.
    + right. exists e. auto.
Qed.

Lemma lookup_total_Some {A} `{Inhabited A} (l : list A) (i : nat) :
  (i < length l)%nat → l !! i = Some (l !!! i).
Proof. intros Hi. apply list_lookup_lookup_total_lt. exact Hi. Qed.

Lemma getitem_total {A} `{Inhabited A} (l : list A) (i : nat) :
  (i < length l)%nat → getitem l (Z.of_nat i) = Ok (l !!! i).
Proof. intros Hi. apply getitem_nat, lookup_total_Some, Hi. Qed.

Lemma kernels_twice_scales_spec (scales kernels : list Z) :
  length scales = length kernels →
  kernels_twice_scales scales kernels = true
  ↔ ∀ i, (i < length kernels)%nat → kernels !!! i = 2 * scales !!! i.
Proof.
  unfold kernels_twice_scales. revert scales.
  induction kernels as [|k kernels IH]; intros [|s scales] Hlen; simpl in *;
    try discriminate.
  - split; [intros _ i Hi; lia|reflexivity].
  - rewrite andb_true_iff, IH by lia. rewrite Z.eqb_eq. split.
    + intros [Hk Hrest] [|i] Hi; simpl; [exact Hk|apply Hrest; lia].
    + intros Hall. split; [apply (Hall 0%nat); lia|].
      intros i Hi. apply (Hall (S i)). lia.
Qed.

Lemma for_each_append_Ok {A B} (l : list A) (f : A → B)
    (body : A → list B → Result (list B)) (s : list B) :
  (∀ x s', x ∈ l → body x s' = Ok (s' ++ [f x])) →
  for_each l body s = Ok (s ++ map f l).
Proof.
  revert s. induction l as [|x l IH]; intros s H; simpl.
  - rewrite app_nil_r. reflexivity.
  - rewrite H by left. simpl. rewrite IH by (intros; apply H; right; assumption).
    rewrite <- app_assoc. reflexivity.
Qed.

Lemma build_downsamples_Ok (channels : Z) (bias : bool) (act : string)
    (params : list (string * Q)) (scales kernels : list Z) :
  length scales = length kernels →
  build_downsamples channels bias act params scales kernels
  = Ok (map (λ i, downsample_stage channels bias act params i
                    (kernels !!! i) (scales !!! i))
          (reverse (seq 0 (length kernels)))).
Proof.
  intros Hlen. unfold build_downsamples, range.
  rewrite (for_each_append_Ok _
    (λ i, downsample_stage channels bias act params i (kernels !!! i) (scales !!! i)));
    [reflexivity|].
  intros i s' Hi%elem_of_reverse%elem_of_seq.
  rewrite !getitem_total by lia. reflexivity.
Qed.

Lemma loop_variable_pos (n : nat) :
  (0 < n)%nat → loop_variable n = Ok (n - 1)%nat.
Proof. destruct n; [lia|]. intros _. simpl. f_equal. lia. Qed.

Lemma eqb_len {A B} (l1 : list A) (l2 : list B) :
  (len l1 =? len l2) = bool_decide (length l1 = length l2).
Proof.
  unfold len. case_bool_decide as H.
  - apply Z.eqb_eq. lia.
  - apply Z.eqb_neq. lia.
Qed.

(** ** What [HiFiGANGenerator.__init__] builds *)

Section HiFiGANInit.
Import HiFiGANGenerator HiFiGANSpec.
Variable a : Args.t.
Local Abbreviation n := (length a.(Args.upsample_kernel_sizes)).
Local Abbreviation nb := (length a.(Args.resblock_kernel_sizes)).

Lemma seq_block_index (k : nat) :
  map (λ m, block_of a (m / nb) (m mod nb))%nat (seq (k * nb) nb)
  = map (block_of a k) (seq 0 nb).
Proof.
  rewrite <- (Nat.add_0_r (k * nb)) at 1.
  rewrite <- fmap_add_seq.
  change (map ?f (?g <$> ?l)) with (f <$> (g <$> l)).
  rewrite <- list_fmap_compose.
  apply list_fmap_ext. intros idx j Hj%lookup_seq. simpl in Hj. destruct Hj as [-> Hj].
  simpl. f_equal.
  - rewrite Nat.add_comm, Nat.div_add by lia. rewrite Nat.div_small by lia. lia.
  - rewrite Nat.add_comm, Nat.Div0.mod_add. apply Nat.mod_small. lia.
Qed.

Lemma blocks_upto_S (k : nat) :
  blocks_upto a (S k) = blocks_upto a k ++ map (block_of a k) (seq 0 nb).
Proof.
  unfold blocks_upto.
  replace (S k * nb)%nat with (k * nb + nb)%nat by lia.
  rewrite seq_app, map_app. simpl. rewrite seq_block_index. reflexivity.
Qed.

Lemma init_blocks_Ok (i : nat) (blocks : list ResidualBlock.t) :
  length a.(Args.resblock_dilations) = nb →
  init_blocks a i blocks = Ok (blocks ++ map (block_of a i) (seq 0 nb)).
Proof.
  intros Hlen. unfold init_blocks.
  pose (F := λ j, blocks ++ map (block_of a i) (seq 0 j)).
  change (Ok (blocks ++ map (block_of a i) (seq 0 nb))) with (Ok (F nb)).
  replace blocks with (F 0%nat) at 1 by (unfold F; simpl; apply app_nil_r).
  apply for_range_Ok. intros j Hj.
  rewrite !getitem_total by lia. simpl.
  unfold F. rewrite seq_S, map_app, app_assoc. reflexivity.
Qed.

Lemma stages_upto_0 : stages_upto a 0 = ([], [], []).
Proof.
  unfold stages_upto, blocks_upto. simpl.
  destruct (Args.use_qp_resblocks a); reflexivity.
Qed.

Lemma stages_upto_S (k : nat) :
  stages_upto a (S k)
  = (map (upsample_of a) (seq 0 k) ++ [upsample_of a k],
     (if a.(Args.use_qp_resblocks)
      then map (qp_block_of a) (seq 0 k) ++ [qp_block_of a k] else []),
     blocks_upto a k ++ map (block_of a k) (seq 0 nb)).
Proof.
  unfold stages_upto. rewrite blocks_upto_S, !seq_S, !map_app.
  destruct (Args.use_qp_resblocks a); reflexivity.
Qed.

(** One round of the stage loop: the assertion, then the look-up of the
    dilations of the adaptive block. *)
Lemma init_stage_spec (k : nat) :
  (k < n)%nat →
  length a.(Args.upsample_scales) = n →
  length a.(Args.resblock_dilations) = nb →
  init_stage a k (stages_upto a k)
  = if a.(Args.upsample_kernel_sizes) !!! k =? 2 * a.(Args.upsample_scales) !!! k
    then if a.(Args.use_qp_resblocks)
              && bool_decide (length a.(Args.qp_resblock_dilations) ≤ k)%nat
         then Raise IndexError
         else Ok (stages_upto a (S k))
    else Raise AssertionError.
Proof.
  intros Hk Hs Hd. rewrite stages_upto_S.
  unfold init_stage, stages_upto.
  rewrite (getitem_total (Args.upsample_kernel_sizes a)),
    (getitem_total (Args.upsample_scales a)) by lia.
  simpl.
  destruct (_ =? _); simpl; [|reflexivity].
  destruct (Args.use_qp_resblocks a); simpl.
  - case_bool_decide as Hq.
    + rewrite getitem_nat_out by exact Hq. reflexivity.
    + rewrite getitem_total by lia. simpl.
      rewrite init_blocks_Ok by exact Hd. reflexivity.
  - rewrite init_blocks_Ok by exact Hd. reflexivity.
Qed.

(** The stage loop runs to its end exactly when every stage passes its
    assertion and finds its dilations; otherwise it raises
    [AssertionError] or [IndexError]. *)
Lemma init_loop_cases :
  length a.(Args.upsample_scales) = n →
  length a.(Args.resblock_dilations) = nb →
  (for_range n (init_stage a) ([], [], []) = Ok (stages_upto a n)
   ∧ kernels_twice_scales a.(Args.upsample_scales) a.(Args.upsample_kernel_sizes) = true
   ∧ (a.(Args.use_qp_resblocks) = true → n ≤ length a.(Args.qp_resblock_dilations))%nat)
  ∨ (∃ e, for_range n (init_stage a) ([], [], []) = Raise e
          ∧ (e = AssertionError ∨ e = IndexError)).
Proof.
  intros Hs Hd. rewrite <- stages_upto_0.
  destruct (for_range_cases n (init_stage a) (stages_upto a)
              (λ e, e = AssertionError ∨ e = IndexError)) as [[Hok Hall]|Hraise].
  - intros k Hk. rewrite init_stage_spec by assumption.
    destruct (_ =? _); [destruct (_ && _)|]; eauto.
  - left. split; [exact Hok|]. split.
    + apply kernels_twice_scales_spec; [exact Hs|].
      intros k Hk. specialize (Hall k Hk).
      rewrite init_stage_spec in Hall by assumption.
      destruct (Z.eqb_spec (Args.upsample_kernel_sizes a !!! k)
                  (2 * Args.upsample_scales a !!! k)); [assumption|discriminate].
    + intros Hqp. destruct n as [|m] eqn:En; [lia|].
      specialize (Hall m ltac:(lia)).
      rewrite init_stage_spec in Hall by (rewrite ?En; (assumption || lia)).
      rewrite Hqp in Hall. simpl in Hall.
      destruct (_ =? _); [|discriminate].
      case_bool_decide; [discriminate|lia].
  - right. exact Hraise.
Qed.

Lemma init_loop_Ok :
  length a.(Args.upsample_scales) = n →
  length a.(Args.resblock_dilations) = nb →
  kernels_twice_scales a.(Args.upsample_scales) a.(Args.upsample_kernel_sizes) = true →
  (a.(Args.use_qp_resblocks) = true → n ≤ length a.(Args.qp_resblock_dilations))%nat →
  for_range n (init_stage a) ([], [], []) = Ok (stages_upto a n).
Proof.
  intros Hs Hd Hk Hq. rewrite <- stages_upto_0.
  apply for_range_Ok. intros k Hlt.
  rewrite init_stage_spec by assumption.
  rewrite kernels_twice_scales_spec in Hk by exact Hs.
  rewrite Hk by exact Hlt. rewrite Z.eqb_refl.
  destruct (Args.use_qp_resblocks a); simpl; [|reflexivity].
  case_bool_decide; [|reflexivity]. specialize (Hq eq_refl). lia.
Qed.

(** Valid arguments: [__init__] returns [built a]. *)
Lemma init_valid : valid a = true → init a = Ok (built a).
Proof.
  unfold valid. rewrite !andb_true_iff, !bool_decide_eq_true.
  intros [[[[[Hodd Hs] Hd] Hk] Hq] Hn].
  unfold init. rewrite Hodd, !eqb_len, !bool_decide_true by assumption. simpl.
  rewrite init_loop_Ok; try assumption.
  2: { intros Hqp. rewrite Hqp in Hq. apply bool_decide_eq_true in Hq. exact Hq. }
  unfold stages_upto. simpl.
  rewrite loop_variable_pos by exact Hn. simpl.
  replace (length (Args.upsample_kernel_sizes a) - 1 + 1)%nat
    with (length (Args.upsample_kernel_sizes a)) by lia.
  unfold built. destruct (Args.use_sine_embs a); simpl.
  - rewrite build_downsamples_Ok by exact Hs. simpl.
    destruct (Args.use_qp_resblocks a); reflexivity.
  - destruct (Args.use_qp_resblocks a); reflexivity.
Qed.

(** Other arguments: [__init__] raises. *)
Lemma init_invalid :
  valid a = false →
  ∃ e, init a = Raise e
       ∧ (e = AssertionError ∨ e = IndexError ∨ e = UnboundLocalError).
Proof.
  intros Hv. unfold init. rewrite !eqb_len.
  destruct (Args.kernel_size a mod 2 =? 1) eqn:Hodd; simpl; [|eauto].
  destruct (decide (length (Args.upsample_scales a) = n)) as [Hs|Hs];
    [rewrite (bool_decide_true _ Hs)|rewrite (bool_decide_false _ Hs)]; simpl; [|eauto].
  destruct (decide (length (Args.resblock_dilations a) = nb)) as [Hd|Hd];
    [rewrite (bool_decide_true _ Hd)|rewrite (bool_decide_false _ Hd)]; simpl; [|eauto].
  destruct init_loop_cases as [(-> & Hk & Hq)|(e & -> & He)]; try assumption.
  - simpl. unfold stages_upto. simpl.
    destruct (decide (n = 0%nat)) as [En|En].
    + rewrite En. simpl. eauto.
    + exfalso. rewrite <- not_true_iff_false in Hv. apply Hv. unfold valid.
      rewrite !andb_true_iff, !bool_decide_eq_true.
      repeat split; try assumption; try lia.
      destruct (Args.use_qp_resblocks a); [|reflexivity].
      apply bool_decide_eq_true, Hq. reflexivity.
  - simpl. exists e. destruct He; auto.
Qed.

Lemma init_iff : (∃ g, init a = Ok g) ↔ valid a = true.
Proof.
  split.
  - intros [g Hg]. destruct (valid a) eqn:Hv; [reflexivity|].
    destruct (init_invalid Hv) as (e & He & _). congruence.
  - intros Hv. exists (built a). apply init_valid, Hv.
Qed.

End HiFiGANInit.

(** ** What the dual-network constructors build *)

Section DualInit.
Variables (channels : Z) (bias : bool).
Variables (act : string) (params : list (string * Q)).
Variables (scales kernels : list Z).
Variable snp : SourceNetworkParams.t.
Variable fnp : FilterNetworkParams.t.
Variable share : bool.
Local Abbreviation n := (length kernels).
Local Abbreviation nb := (length fnp.(FilterNetworkParams.resblock_kernel_sizes)).
Local Abbreviation F :=
  (DualSpec.stages_upto channels bias act params scales kernels snp fnp share).
Local Abbreviation fn_block_of := (DualSpec.fn_block_of channels bias act params fnp).
Local Abbreviation fn_blocks_upto := (DualSpec.fn_blocks_upto channels bias act params fnp).
Local Abbreviation body :=
  (DualNetwork.init_stage channels bias act params scales kernels snp fnp share).

Lemma dual_seq_block_index (k : nat) :
  map (λ m, fn_block_of (m / nb) (m mod nb))%nat (seq (k * nb) nb)
  = map (fn_block_of k) (seq 0 nb).
Proof.
  rewrite <- (Nat.add_0_r (k * nb)) at 1.
  rewrite <- fmap_add_seq.
  change (map ?f (?g <$> ?l)) with (f <$> (g <$> l)).
  rewrite <- list_fmap_compose.
  apply list_fmap_ext. intros idx j Hj%lookup_seq. simpl in Hj. destruct Hj as [-> Hj].
  simpl. f_equal.
  - rewrite Nat.add_comm, Nat.div_add by lia. rewrite Nat.div_small by lia. lia.
  - rewrite Nat.add_comm, Nat.Div0.mod_add. apply Nat.mod_small. lia.
Qed.

Lemma dual_blocks_upto_S (k : nat) :
  fn_blocks_upto (S k) = fn_blocks_upto k ++ map (fn_block_of k) (seq 0 nb).
Proof.
  unfold DualSpec.fn_blocks_upto.
  replace (S k * nb)%nat with (k * nb + nb)%nat by lia.
  rewrite seq_app, map_app. simpl. rewrite dual_seq_block_index. reflexivity.
Qed.

(** The filter blocks of one stage: every kernel size needs its
    dilations. *)
Lemma dual_init_blocks_spec (i : nat) (blocks : list ResidualBlock.t) :
  DualNetwork.init_blocks channels bias act params fnp i blocks
  = if bool_decide (nb ≤ length fnp.(FilterNetworkParams.resblock_dilations))%nat
    then Ok (blocks ++ map (fn_block_of i) (seq 0 nb))
    else Raise IndexError.
Proof.
  unfold DualNetwork.init_blocks.
  pose (G := λ j, blocks ++ map (fn_block_of i) (seq 0 j)).
  replace blocks with (G 0%nat) at 1 by (unfold G; simpl; apply app_nil_r).
  assert (Hstep : ∀ j, (j < nb)%nat →
            (j < length fnp.(FilterNetworkParams.resblock_dilations))%nat →
            (λ j blocks,
               kernel_size ← getitem fnp.(FilterNetworkParams.resblock_kernel_sizes)
                               (Z.of_nat j);
               dilations ← getitem fnp.(FilterNetworkParams.resblock_dilations)
                             (Z.of_nat j);
               Ok (blocks ++ [
                 {| ResidualBlock.kernel_size := kernel_size;
                    ResidualBlock.channels := channels / pow2 (i + 1);
                    ResidualBlock.dilations := dilations;
                    ResidualBlock.bias := bias;
                    ResidualBlock.use_additional_convs :=
                      fnp.(FilterNetworkParams.use_additional_convs);
                    ResidualBlock.nonlinear_activation := act;
                    ResidualBlock.nonlinear_activation_params := params |} ]))
              j (G j) = Ok (G (S j))).
  { intros j Hj Hd. rewrite !getitem_total by lia. simpl.
    unfold G. rewrite seq_S, map_app, app_assoc. reflexivity. }
  case_bool_decide as Hlen.
  - change (blocks ++ map (fn_block_of i) (seq 0 nb)) with (G nb).
    apply for_range_Ok. intros j Hj. apply Hstep; lia.
  - apply (for_range_Raise _ (length fnp.(FilterNetworkParams.resblock_dilations)));
      [lia| |].
    + intros j Hj. apply Hstep; lia.
    + rewrite (getitem_total (FilterNetworkParams.resblock_kernel_sizes fnp)) by lia.
      simpl. rewrite getitem_nat_out by lia. reflexivity.
Qed.

Lemma dual_stages_upto_0 : F 0%nat = DualNetwork.no_stages.
Proof.
  unfold DualSpec.stages_upto, DualSpec.fn_blocks_upto, DualNetwork.no_stages. simpl.
  destruct share; reflexivity.
Qed.

Lemma dual_stages_upto_S (k : nat) :
  F (S k)
  = {| DualNetwork.sn_upsamples :=
         (F k).(DualNetwork.sn_upsamples)
         ++ [DualSpec.upsample_of channels bias act params scales kernels k];
       DualNetwork.fn_upsamples :=
         if negb share
         then (F k).(DualNetwork.fn_upsamples)
              ++ [DualSpec.upsample_of channels bias act params scales kernels k]
         else (F k).(DualNetwork.fn_upsamples);
       DualNetwork.sn_blocks :=
         (F k).(DualNetwork.sn_blocks)
         ++ [DualSpec.sn_block_of channels bias act params snp k];
       DualNetwork.fn_blocks :=
         (F k).(DualNetwork.fn_blocks) ++ map (fn_block_of k) (seq 0 nb) |}.
Proof.
  unfold DualSpec.stages_upto. cbn [DualNetwork.sn_upsamples DualNetwork.fn_upsamples
    DualNetwork.sn_blocks DualNetwork.fn_blocks].
  rewrite dual_blocks_upto_S, !seq_S, !map_app.
  destruct share; reflexivity.
Qed.

(** One round of the loop: the assertion, the dilations of the source
    block, the dilations of the filter blocks. *)
Lemma dual_init_stage_spec (k : nat) :
  (k < n)%nat →
  length scales = n →
  body k (F k)
  = if kernels !!! k =? 2 * scales !!! k
    then if bool_decide (length snp.(SourceNetworkParams.resblock_dilations) ≤ k)%nat
              || negb (bool_decide
                         (nb ≤ length fnp.(FilterNetworkParams.resblock_dilations))%nat)
         then Raise IndexError
         else Ok (F (S k))
    else Raise AssertionError.
Proof.
  intros Hk Hs. rewrite dual_stages_upto_S.
  unfold DualNetwork.init_stage.
  rewrite (getitem_total kernels), (getitem_total scales) by lia.
  simpl.
  destruct (_ =? _); simpl; [|reflexivity].
  case_bool_decide as Hq; simpl.
  - rewrite getitem_nat_out by exact Hq. reflexivity.
  - rewrite getitem_total by lia. simpl.
    rewrite dual_init_blocks_spec.
    case_bool_decide; reflexivity.
Qed.

Lemma dual_init_stages_cases :
  length scales = n →
  (DualNetwork.init_stages channels bias act params scales kernels snp fnp share
     = Ok (F n)
   ∧ kernels_twice_scales scales kernels = true
   ∧ ((0 < n)%nat →
      (n ≤ length snp.(SourceNetworkParams.resblock_dilations))%nat
      ∧ (nb ≤ length fnp.(FilterNetworkParams.resblock_dilations))%nat))
  ∨ (∃ e, DualNetwork.init_stages channels bias act params scales kernels snp fnp share
          = Raise e
          ∧ (e = AssertionError ∨ e = IndexError)).
Proof.
  intros Hs. unfold DualNetwork.init_stages. rewrite <- dual_stages_upto_0.
  destruct (for_range_cases n body F
              (λ e, e = AssertionError ∨ e = IndexError)) as [[Hok Hall]|Hraise].
  - intros k Hk. rewrite dual_init_stage_spec by assumption.
    destruct (_ =? _); [destruct (_ || _)|]; eauto.
  - left. split; [exact Hok|]. split.
    + apply kernels_twice_scales_spec; [exact Hs|].
      intros k Hk. specialize (Hall k Hk).
      rewrite dual_init_stage_spec in Hall by assumption.
      destruct (Z.eqb_spec (kernels !!! k) (2 * scales !!! k)); [assumption|discriminate].
    + intros Hn. destruct n as [|m] eqn:En; [lia|].
      specialize (Hall m ltac:(lia)).
      rewrite dual_init_stage_spec in Hall by (rewrite ?En; (assumption || lia)).
      destruct (_ =? _); [|discriminate].
      destruct (bool_decide (length (SourceNetworkParams.resblock_dilations snp) ≤ m)%nat)
        eqn:H1; simpl in Hall; [discriminate|].
      destruct (bool_decide (nb ≤ length (FilterNetworkParams.resblock_dilations fnp))%nat)
        eqn:H2; simpl in Hall; [|discriminate].
      apply bool_decide_eq_false in H1. apply bool_decide_eq_true in H2. lia.
  - right. exact Hraise.
Qed.

Lemma dual_init_stages_Ok :
  DualSpec.valid_stages scales kernels snp fnp = true →
  DualNetwork.init_stages channels bias act params scales kernels snp fnp share
  = Ok (F n).
Proof.
  unfold DualSpec.valid_stages. rewrite !andb_true_iff, !bool_decide_eq_true.
  intros [[[[Hs Hk] Hq] Hf] Hn].
  unfold DualNetwork.init_stages. rewrite <- dual_stages_upto_0.
  apply for_range_Ok. intros k Hlt.
  rewrite dual_init_stage_spec by assumption.
  rewrite kernels_twice_scales_spec in Hk by exact Hs.
  rewrite Hk by exact Hlt. rewrite Z.eqb_refl.
  rewrite bool_decide_false, (bool_decide_true _ Hf) by lia. reflexivity.
Qed.

(** When the stages are not valid, either the loop raises or it never
    ran, and the name [i] is unbound after it. *)
Lemma dual_init_stages_invalid :
  length scales = n →
  DualSpec.valid_stages scales kernels snp fnp = false →
  (∃ e, DualNetwork.init_stages channels bias act params scales kernels snp fnp share
        = Raise e
        ∧ (e = AssertionError ∨ e = IndexError))
  ∨ (n = 0%nat
     ∧ DualNetwork.init_stages channels bias act params scales kernels snp fnp share
       = Ok (F 0%nat)).
Proof.
  intros Hs Hv.
  destruct (dual_init_stages_cases Hs) as [(Hok & Hk & Hq)|Hraise]; [|left; exact Hraise].
  right. destruct (decide (n = 0%nat)) as [En|En].
  - split; [exact En|]. rewrite Hok, En. reflexivity.
  - exfalso. rewrite <- not_true_iff_false in Hv. apply Hv. unfold DualSpec.valid_stages.
    rewrite !andb_true_iff, !bool_decide_eq_true.
    destruct Hq as [? ?]; [lia|]. repeat split; try assumption; lia.
Qed.

End DualInit.

Section SiFiGANInit.
Import SiFiGANGenerator SiFiGANSpec.
Variable a : Args.t.
Local Abbreviation n := (length a.(Args.upsample_kernel_sizes)).

Lemma sifigan_init_valid : valid a = true → init a = Ok (built a).
Proof.
  unfold valid. rewrite andb_true_iff. intros [Hodd Hv].
  pose proof Hv as Hv'. unfold DualSpec.valid_stages in Hv'.
  rewrite !andb_true_iff, !bool_decide_eq_true in Hv'.
  destruct Hv' as [[[[Hs Hk] Hq] Hf] Hn].
  unfold init. rewrite Hodd, eqb_len, bool_decide_true by assumption. simpl.
  rewrite dual_init_stages_Ok by exact Hv. simpl.
  rewrite loop_variable_pos by exact Hn. simpl.
  replace (n - 1 + 1)%nat with n by lia.
  unfold DualNetwork.init_downsamples.
  rewrite build_downsamples_Ok by exact Hs. simpl.
  unfold built, stages, downsamples_built, DualSpec.downsamples_built, DualSpec.downsample_of.
  destruct (Args.share_downsamples a), (Args.gin_channels a =? 0); simpl; reflexivity.
Qed.

Lemma sifigan_init_invalid :
  valid a = false →
  ∃ e, init a = Raise e
       ∧ (e = AssertionError ∨ e = IndexError ∨ e = UnboundLocalError).
Proof.
  intros Hv. unfold init. rewrite eqb_len.
  destruct (Args.kernel_size a mod 2 =? 1) eqn:Hodd; simpl; [|eauto].
  destruct (decide (length (Args.upsample_scales a) = n)) as [Hs|Hs];
    [rewrite (bool_decide_true _ Hs)|rewrite (bool_decide_false _ Hs)]; simpl; [|eauto].
  unfold valid in Hv. rewrite Hodd in Hv. simpl in Hv.
  destruct (dual_init_stages_invalid (Args.channels a) (Args.bias a)
              (Args.nonlinear_activation a) (Args.nonlinear_activation_params a)
              _ _ _ _ (Args.share_upsamples a) Hs Hv)
    as [(e & -> & He)|[En ->]].
  - simpl. exists e. destruct He; auto.
  - simpl. rewrite En. simpl. eauto.
Qed.

Lemma sifigan_init_iff : (∃ g, init a = Ok g) ↔ valid a = true.
Proof.
  split.
  - intros [g Hg]. destruct (valid a) eqn:Hv; [reflexivity|].
    destruct (sifigan_init_invalid Hv) as (e & He & _). congruence.
  - intros Hv. exists (built a). apply sifigan_init_valid, Hv.
Qed.

End SiFiGANInit.

Section SiFiGANDirectInit.
Import SiFiGANDirectGenerator SiFiGANDirectSpec.
Variable a : Args.t.
Local Abbreviation n := (length a.(Args.upsample_kernel_sizes)).

Lemma direct_init_valid : valid a = true → init a = Ok (built a).
Proof.
  unfold valid. rewrite andb_true_iff. intros [Hodd Hv].
  pose proof Hv as Hv'. unfold DualSpec.valid_stages in Hv'.
  rewrite !andb_true_iff, !bool_decide_eq_true in Hv'.
  destruct Hv' as [[[[Hs Hk] Hq] Hf] Hn].
  unfold init. rewrite Hodd, eqb_len, bool_decide_true by assumption. simpl.
  rewrite dual_init_stages_Ok by exact Hv. simpl.
  rewrite loop_variable_pos by exact Hn. simpl.
  replace (n - 1 + 1)%nat with n by lia.
  unfold DualNetwork.init_downsamples.
  rewrite build_downsamples_Ok by exact Hs. simpl.
  reflexivity.
Qed.

Lemma direct_init_invalid :
  valid a = false →
  ∃ e, init a = Raise e
       ∧ (e = AssertionError ∨ e = IndexError ∨ e = UnboundLocalError).
Proof.
  intros Hv. unfold init. rewrite eqb_len.
  destruct (Args.kernel_size a mod 2 =? 1) eqn:Hodd; simpl; [|eauto].
  destruct (decide (length (Args.upsample_scales a) = n)) as [Hs|Hs];
    [rewrite (bool_decide_true _ Hs)|rewrite (bool_decide_false _ Hs)]; simpl; [|eauto].
  unfold valid in Hv. rewrite Hodd in Hv. simpl in Hv.
  destruct (dual_init_stages_invalid (Args.channels a) (Args.bias a)
              (Args.nonlinear_activation a) (Args.nonlinear_activation_params a)
              _ _ _ _ (Args.share_upsamples a) Hs Hv)
    as [(e & -> & He)|[En ->]].
  - simpl. exists e. destruct He; auto.
  - simpl. rewrite En. simpl. eauto.
Qed.

Lemma direct_init_iff : (∃ g, init a = Ok g) ↔ valid a = true.
Proof.
  split.
  - intros [g Hg]. destruct (valid a) eqn:Hv; [reflexivity|].
    destruct (direct_init_invalid Hv) as (e & He & _). congruence.
  - intros Hv. exists (built a). apply direct_init_valid, Hv.
Qed.

End SiFiGANDirectInit.

(** ** Construction errors *)

Lemma bad_stages_not_twice (scales kernels : list Z) :
  length scales = length kernels →
  bad_stages scales kernels →
  kernels_twice_scales scales kernels = false.
Proof.
  intros Hlen [Hne|(i & k & s & Hk & Hs & Hks)]; [contradiction|].
  apply not_true_iff_false. intros Hall.
  rewrite kernels_twice_scales_spec in Hall by exact Hlen.
  specialize (Hall i (lookup_lt_Some _ _ _ Hk)).
  rewrite (list_lookup_total_correct _ _ _ Hk), (list_lookup_total_correct _ _ _ Hs) in Hall.
  contradiction.
Qed.

Lemma hifigan_bad_stages (a : HiFiGANGenerator.Args.t) :
  bad_stages a.(HiFiGANGenerator.Args.upsample_scales)
             a.(HiFiGANGenerator.Args.upsample_kernel_sizes) →
  ∃ e, HiFiGANGenerator.init a = Raise e
       ∧ (e = AssertionError
          ∨ e = IndexError
            ∧ length a.(HiFiGANGenerator.Args.upsample_scales)
              = length a.(HiFiGANGenerator.Args.upsample_kernel_sizes)).
Proof.
  intros Hbad. unfold HiFiGANGenerator.init. rewrite !eqb_len.
  destruct (_ mod 2 =? 1); simpl; [|eauto].
  destruct (decide (length (HiFiGANGenerator.Args.upsample_scales a)
                    = length (HiFiGANGenerator.Args.upsample_kernel_sizes a))) as [Hs|Hs];
    [rewrite (bool_decide_true _ Hs)|rewrite (bool_decide_false _ Hs)]; simpl; [|eauto].
  destruct (decide (length (HiFiGANGenerator.Args.resblock_dilations a)
                    = length (HiFiGANGenerator.Args.resblock_kernel_sizes a))) as [Hd|Hd];
    [rewrite (bool_decide_true _ Hd)|rewrite (bool_decide_false _ Hd)]; simpl; [|eauto].
  destruct (init_loop_cases a Hs Hd) as [(_ & Hk & _)|(e & -> & He)].
  - rewrite (bad_stages_not_twice _ _ Hs Hbad) in Hk. discriminate.
  - simpl. exists e. split; [reflexivity|]. destruct He; auto.
Qed.

Lemma dual_bad_stages (channels : Z) (bias : bool) (act : string)
    (params : list (string * Q)) (scales kernels : list Z)
    (snp : SourceNetworkParams.t) (fnp : FilterNetworkParams.t) (share : bool) :
  length scales = length kernels →
  bad_stages scales kernels →
  ∃ e, DualNetwork.init_stages channels bias act params scales kernels snp fnp share
       = Raise e
       ∧ (e = AssertionError ∨ e = IndexError).
Proof.
  intros Hs Hbad.
  destruct (dual_init_stages_cases channels bias act params scales kernels snp fnp share Hs)
    as [(_ & Hk & _)|Hraise]; [|exact Hraise].
  rewrite (bad_stages_not_twice _ _ Hs Hbad) in Hk. discriminate.
Qed.

Lemma sifigan_bad_stages (a : SiFiGANGenerator.Args.t) :
  bad_stages a.(SiFiGANGenerator.Args.upsample_scales)
             a.(SiFiGANGenerator.Args.upsample_kernel_sizes) →
  ∃ e, SiFiGANGenerator.init a = Raise e
       ∧ (e = AssertionError
          ∨ e = IndexError
            ∧ length a.(SiFiGANGenerator.Args.upsample_scales)
              = length a.(SiFiGANGenerator.Args.upsample_kernel_sizes)).
Proof.
  intros Hbad. unfold SiFiGANGenerator.init. rewrite eqb_len.
  destruct (_ mod 2 =? 1); simpl; [|eauto].
  match goal with |- context [bool_decide (?P)] =>
    destruct (decide P) as [Hs|Hs];
      [rewrite (bool_decide_true _ Hs)|rewrite (bool_decide_false _ Hs)] end;
    simpl; [|eauto].
  destruct (dual_bad_stages (SiFiGANGenerator.Args.channels a)
              (SiFiGANGenerator.Args.bias a)
              (SiFiGANGenerator.Args.nonlinear_activation a)
              (SiFiGANGenerator.Args.nonlinear_activation_params a) _ _
              (SiFiGANGenerator.Args.source_network_params a)
              (SiFiGANGenerator.Args.filter_network_params a)
              (SiFiGANGenerator.Args.share_upsamples a) Hs Hbad) as (e & -> & He).
  simpl. exists e. split; [reflexivity|]. destruct He; auto.
Qed.

Lemma direct_bad_stages (a : SiFiGANDirectGenerator.Args.t) :
  bad_stages a.(SiFiGANDirectGenerator.Args.upsample_scales)
             a.(SiFiGANDirectGenerator.Args.upsample_kernel_sizes) →
  ∃ e, SiFiGANDirectGenerator.init a = Raise e
       ∧ (e = AssertionError
          ∨ e = IndexError
            ∧ length a.(SiFiGANDirectGenerator.Args.upsample_scales)
              = length a.(SiFiGANDirectGenerator.Args.upsample_kernel_sizes)).
Proof.
  intros Hbad. unfold SiFiGANDirectGenerator.init. rewrite eqb_len.
  destruct (_ mod 2 =? 1); simpl; [|eauto].
  match goal with |- context [bool_decide (?P)] =>
    destruct (decide P) as [Hs|Hs];
      [rewrite (bool_decide_true _ Hs)|rewrite (bool_decide_false _ Hs)] end;
    simpl; [|eauto].
  destruct (dual_bad_stages (SiFiGANDirectGenerator.Args.channels a)
              (SiFiGANDirectGenerator.Args.bias a)
              (SiFiGANDirectGenerator.Args.nonlinear_activation a)
              (SiFiGANDirectGenerator.Args.nonlinear_activation_params a) _ _
              (SiFiGANDirectGenerator.Args.source_network_params a)
              (SiFiGANDirectGenerator.Args.filter_network_params a)
              (SiFiGANDirectGenerator.Args.share_upsamples a) Hs Hbad) as (e & -> & He).
  simpl. exists e. split; [reflexivity|]. destruct He; auto.
Qed.

(** C7. Constructing any of the three generators with
    [upsample_scales] and [upsample_kernel_sizes] of different lengths,
    or with a kernel size that differs from twice its scale, raises an
    exception: [__init__] returns no generator, so no [forward] can be
    called on one. The exception is the [AssertionError] of the check,
    unless the lengths agree and an earlier stage already failed to find
    its dilations ([IndexError]). *)
Theorem C7_bad_stages_raise (scales kernels : list Z) :
  bad_stages scales kernels →
  (∀ a : HiFiGANGenerator.Args.t,
     a.(HiFiGANGenerator.Args.upsample_scales) = scales →
     a.(HiFiGANGenerator.Args.upsample_kernel_sizes) = kernels →
     ∃ e, HiFiGANGenerator.init a = Raise e
          ∧ (e = AssertionError ∨ e = IndexError ∧ length scales = length kernels))
  ∧ (∀ a : SiFiGANGenerator.Args.t,
     a.(SiFiGANGenerator.Args.upsample_scales) = scales →
     a.(SiFiGANGenerator.Args.upsample_kernel_sizes) = kernels →
     ∃ e, SiFiGANGenerator.init a = Raise e
          ∧ (e = AssertionError ∨ e = IndexError ∧ length scales = length kernels))
  ∧ (∀ a : SiFiGANDirectGenerator.Args.t,
     a.(SiFiGANDirectGenerator.Args.upsample_scales) = scales →
     a.(SiFiGANDirectGenerator.Args.upsample_kernel_sizes) = kernels →
     ∃ e, SiFiGANDirectGenerator.init a = Raise e
          ∧ (e = AssertionError ∨ e = IndexError ∧ length scales = length kernels)).
Proof.
  intros Hbad. repeat split; intros a <- <-.
  - apply hifigan_bad_stages, Hbad.
  - apply sifigan_bad_stages, Hbad.
  - apply direct_bad_stages, Hbad.
Qed.

(** Three scales for four kernel sizes, and a kernel size 5 for the
    scale 2: both are refused, with the [AssertionError] of the check. *)
Lemma C7_witness :
  HiFiGANGenerator.init hifigan_short_scales = Raise AssertionError
  ∧ HiFiGANGenerator.init hifigan_kernel_5 = Raise AssertionError
  ∧ ∃ e, HiFiGANGenerator.init hifigan_kernel_5 = Raise e
         ∧ (e = AssertionError ∨ e = IndexError ∧ length [5; 4; 3; 2] = length [10; 8; 6; 5]).
Proof.
  split; [reflexivity|]. split; [reflexivity|].
  refine (proj1 (C7_bad_stages_raise [5; 4; 3; 2] [10; 8; 6; 5] _)
            hifigan_kernel_5 eq_refl eq_refl).
  right. exists 3%nat, 5, 2. repeat split. lia.
Defined.

(** ** The padding of the down-sampling stages *)

Lemma downsample_padding_parity (scale kernel : Z) :
  downsample_padding scale kernel = if Z.even kernel then scale - 1 else scale.
Proof.
  unfold downsample_padding. rewrite <- Zeven_mod.
  destruct (Z.even kernel); simpl; lia.
Qed.

Lemma downsample_stage_rule (channels : Z) (bias : bool) (act : string)
    (params : list (string * Q)) (i : nat) (kernel scale : Z) :
  downsample_rule (downsample_stage channels bias act params i kernel scale).
Proof.
  unfold downsample_rule, downsample_stage. eexists _, _. split; [reflexivity|].
  simpl. apply downsample_padding_parity.
Qed.

Lemma downsample_stage_even (channels : Z) (bias : bool) (act : string)
    (params : list (string * Q)) (i : nat) (scale : Z) :
  downsample_stage channels bias act params i (2 * scale) scale
  = [LConv1d {| Conv1d.in_channels := channels / pow2 (i + 1);
                Conv1d.out_channels := channels / pow2 i;
                Conv1d.kernel_size := 2 * scale;
                Conv1d.stride := scale;
                Conv1d.padding := scale - 1;
                Conv1d.bias := bias |};
     activation act params].
Proof.
  unfold downsample_stage, downsample_conv. rewrite downsample_padding_parity.
  rewrite Z.even_mul. reflexivity.
Qed.

(** A stage of a built down-sampling list is the stage of some index. *)
Lemma elem_of_downsamples {A} (f : nat → A) (n : nat) (x : A) :
  x ∈ map f (reverse (seq 0 n)) → ∃ i, (i < n)%nat ∧ x = f i.
Proof.
  intros (i & -> & Hi%elem_of_reverse%elem_of_seq)%list_elem_of_fmap.
  exists i. split; [lia|reflexivity].
Qed.

(** C2 (as amended). In the down-sampling cascade a stage with stride
    (scale) [s] and kernel size [k] has padding [s - 1] when [k] is even
    and [s] when [k] is odd, in every list of down-sampling stages any
    of the three constructors builds. *)
Theorem C2_downsample_padding :
  (∀ s k, downsample_padding s k = if Z.even k then s - 1 else s)
  ∧ (∀ a g downs stage,
       HiFiGANGenerator.init a = Ok g →
       g.(HiFiGANGenerator.downsamples) = Some downs →
       stage ∈ downs → downsample_rule stage)
  ∧ (∀ a g stage,
       SiFiGANGenerator.init a = Ok g →
       stage ∈ g.(SiFiGANGenerator.sn).(SourceNetwork.downsamples)
       ∨ (∃ downs, g.(SiFiGANGenerator.fn).(FilterNetwork.downsamples) = Some downs
                   ∧ stage ∈ downs) →
       downsample_rule stage)
  ∧ (∀ a g stage,
       SiFiGANDirectGenerator.init a = Ok g →
       stage ∈ g.(SiFiGANDirectGenerator.sn).(SourceNetwork.downsamples) →
       downsample_rule stage).
Proof.
  split; [exact downsample_padding_parity|]. split; [|split].
  - intros a g downs stage Hg Hd Hin.
    assert (Hv : HiFiGANSpec.valid a = true) by (apply init_iff; eauto).
    rewrite (init_valid a Hv) in Hg. injection Hg as <-. simpl in Hd.
    destruct (HiFiGANGenerator.Args.use_sine_embs a); [|discriminate].
    injection Hd as <-.
    apply elem_of_downsamples in Hin as (i & _ & ->). apply downsample_stage_rule.
  - intros a g stage Hg Hin.
    assert (Hv : SiFiGANSpec.valid a = true) by (apply sifigan_init_iff; eauto).
    rewrite (sifigan_init_valid a Hv) in Hg. injection Hg as <-. simpl in Hin.
    destruct Hin as [Hin|(downs & Hd & Hin)].
    + apply elem_of_downsamples in Hin as (i & _ & ->). apply downsample_stage_rule.
    + destruct (negb _); [|discriminate]. injection Hd as <-.
      apply elem_of_downsamples in Hin as (i & _ & ->). apply downsample_stage_rule.
  - intros a g stage Hg Hin.
    assert (Hv : SiFiGANDirectSpec.valid a = true) by (apply direct_init_iff; eauto).
    rewrite (direct_init_valid a Hv) in Hg. injection Hg as <-. simpl in Hin.
    apply elem_of_downsamples in Hin as (i & _ & ->). apply downsample_stage_rule.
Qed.

(** The first down-sampling stage of the default HiFiGAN generator with
    sine embeddings: kernel size 4, stride 2, padding 1. *)
Lemma C2_witness :
  downsample_rule
    [LConv1d {| Conv1d.in_channels := 512 / pow2 4;
                Conv1d.out_channels := 512 / pow2 3;
                Conv1d.kernel_size := 4;
                Conv1d.stride := 2;
                Conv1d.padding := 1;
                Conv1d.bias := true |};
     activation "LeakyReLU" [("negative_slope"%string, (1 # 10)%Q)]].
Proof.
  refine (proj1 (proj2 C2_downsample_padding) hifigan_sine
            (HiFiGANSpec.built hifigan_sine) _ _ eq_refl eq_refl _).
  left.
Defined.

(** The rule as the specification words it (padding [s - 1] for an odd kernel size, [s]
    for an even one) fails at that stage: its kernel size 4 is even and
    its padding is 1, not the stride 2. *)
Lemma C2_counterexample :
  ∃ g downs c act,
    HiFiGANGenerator.init hifigan_sine = Ok g
    ∧ g.(HiFiGANGenerator.downsamples) = Some downs
    ∧ downs !! 0%nat = Some [LConv1d c; act]
    ∧ c.(Conv1d.kernel_size) = 4
    ∧ c.(Conv1d.stride) = 2
    ∧ c.(Conv1d.padding) = 1
    ∧ c.(Conv1d.padding)
      ≠ (if Z.odd c.(Conv1d.kernel_size)
         then c.(Conv1d.stride) - 1 else c.(Conv1d.stride)).
Proof.
  eexists _, _, _, _. split; [reflexivity|]. split; [reflexivity|].
  split; [reflexivity|]. simpl. repeat split. discriminate.
Qed.

(** ** The base channel count *)

Lemma elem_of_upsamples (f : nat → Sequential) (n i : nat) (stage : Sequential) :
  map f (seq 0 n) !! i = Some stage → (i < n)%nat ∧ stage = f i.
Proof.
  intros H. change (map f (seq 0 n)) with (f <$> seq 0 n) in H.
  rewrite list_lookup_fmap in H.
  destruct (seq 0 n !! i) as [j|] eqn:Hj; [|discriminate].
  apply lookup_seq in Hj as [-> Hlt]. simpl in H. injection H as <-. auto.
Qed.

(** C3 (as amended). No constructor checks that the base channel count
    is divisible by [2 ** num_upsamples]: among the channel counts that
    leave every stage at least one channel (at least [2 ** num_upsamples]),
    whether construction raises does not depend on the count, and stage
    [i] of the ladder it builds takes [channels // 2 ** i] channels to
    [channels // 2 ** (i + 1)], floor divisions. *)
Theorem C3_no_divisibility_check :
  (∀ a channels,
     pow2 (length a.(HiFiGANGenerator.Args.upsample_kernel_sizes))
       ≤ a.(HiFiGANGenerator.Args.channels) →
     pow2 (length a.(HiFiGANGenerator.Args.upsample_kernel_sizes)) ≤ channels →
     raises (HiFiGANGenerator.init (HiFiGANSpec.with_channels channels a))
     ↔ raises (HiFiGANGenerator.init a))
  ∧ (∀ a channels,
     pow2 (length a.(SiFiGANGenerator.Args.upsample_kernel_sizes))
       ≤ a.(SiFiGANGenerator.Args.channels) →
     pow2 (length a.(SiFiGANGenerator.Args.upsample_kernel_sizes)) ≤ channels →
     raises (SiFiGANGenerator.init (SiFiGANSpec.with_channels channels a))
     ↔ raises (SiFiGANGenerator.init a))
  ∧ (∀ a channels,
     pow2 (length a.(SiFiGANDirectGenerator.Args.upsample_kernel_sizes))
       ≤ a.(SiFiGANDirectGenerator.Args.channels) →
     pow2 (length a.(SiFiGANDirectGenerator.Args.upsample_kernel_sizes)) ≤ channels →
     raises (SiFiGANDirectGenerator.init (SiFiGANDirectSpec.with_channels channels a))
     ↔ raises (SiFiGANDirectGenerator.init a))
  ∧ (∀ a g i stage,
       HiFiGANGenerator.init a = Ok g →
       g.(HiFiGANGenerator.upsamples) !! i = Some stage →
       upsample_channels a.(HiFiGANGenerator.Args.channels) i stage)
  ∧ (∀ a g i stage,
       SiFiGANGenerator.init a = Ok g →
       g.(SiFiGANGenerator.sn).(SourceNetwork.upsamples) !! i = Some stage
       ∨ g.(SiFiGANGenerator.fn).(FilterNetwork.upsamples) !! i = Some stage →
       upsample_channels a.(SiFiGANGenerator.Args.channels) i stage)
  ∧ (∀ a g i stage,
       SiFiGANDirectGenerator.init a = Ok g →
       g.(SiFiGANDirectGenerator.sn).(SourceNetwork.upsamples) !! i = Some stage
       ∨ g.(SiFiGANDirectGenerator.fn).(FilterNetwork.upsamples) !! i = Some stage →
       upsample_channels a.(SiFiGANDirectGenerator.Args.channels) i stage).
Proof.
  assert (Hr : ∀ (A B : Type) (r : Result A) (r' : Result B),
            ((∃ x, r = Ok x) ↔ (∃ y, r' = Ok y)) → raises r ↔ raises r').
  { intros A B r r' H. unfold raises.
    destruct r as [x|ex], r' as [y|ey]; split; intros [e He]; try discriminate; eauto.
    - destruct (proj1 H) as [y Hy]; [eauto|discriminate].
    - destruct (proj2 H) as [x Hx]; [eauto|discriminate]. }
  split; [|split; [|split; [|split; [|split]]]].
  - intros a channels _ _. apply Hr. rewrite !init_iff. reflexivity.
  - intros a channels _ _. apply Hr. rewrite !sifigan_init_iff. reflexivity.
  - intros a channels _ _. apply Hr. rewrite !direct_init_iff. reflexivity.
  - intros a g i stage Hg Hi.
    assert (Hv : HiFiGANSpec.valid a = true) by (apply init_iff; eauto).
    rewrite (init_valid a Hv) in Hg. injection Hg as <-. simpl in Hi.
    apply elem_of_upsamples in Hi as [_ ->].
    eexists _, _. split; [reflexivity|]. split; reflexivity.
  - intros a g i stage Hg Hi.
    assert (Hv : SiFiGANSpec.valid a = true) by (apply sifigan_init_iff; eauto).
    rewrite (sifigan_init_valid a Hv) in Hg. injection Hg as <-. simpl in Hi.
    destruct Hi as [Hi|Hi].
    + apply elem_of_upsamples in Hi as [_ ->].
      eexists _, _. split; [reflexivity|]. split; reflexivity.
    + destruct (negb _); [|discriminate].
      apply elem_of_upsamples in Hi as [_ ->].
      eexists _, _. split; [reflexivity|]. split; reflexivity.
  - intros a g i stage Hg Hi.
    assert (Hv : SiFiGANDirectSpec.valid a = true) by (apply direct_init_iff; eauto).
    rewrite (direct_init_valid a Hv) in Hg. injection Hg as <-. simpl in Hi.
    destruct Hi as [Hi|Hi].
    + apply elem_of_upsamples in Hi as [_ ->].
      eexists _, _. split; [reflexivity|]. split; reflexivity.
    + destruct (negb _); [|discriminate].
      apply elem_of_upsamples in Hi as [_ ->].
      eexists _, _. split; [reflexivity|]. split; reflexivity.
Qed.

(** Stage 2 of the generator built for 100 base channels goes from 25
    channels to 12. *)
Lemma C3_witness :
  upsample_channels 100 2
    [activation "LeakyReLU" [("negative_slope"%string, (1 # 10)%Q)];
     LConvTranspose1d {| ConvTranspose1d.in_channels := 25;
                         ConvTranspose1d.out_channels := 12;
                         ConvTranspose1d.kernel_size := 6;
                         ConvTranspose1d.stride := 3;
                         ConvTranspose1d.padding := 2;
                         ConvTranspose1d.output_padding := 1;
                         ConvTranspose1d.bias := true |}].
Proof.
  refine (proj1 (proj2 (proj2 (proj2 C3_no_divisibility_check)))
            hifigan_channels_100 (HiFiGANSpec.built hifigan_channels_100)
            2%nat _ eq_refl eq_refl).
Defined.

(** With 100 base channels and four stages, 16 does not divide the
    channel count and construction raises nothing. *)
Lemma C3_counterexample :
  ¬ (∀ a : HiFiGANGenerator.Args.t,
       ¬ (pow2 (length a.(HiFiGANGenerator.Args.upsample_kernel_sizes))
          | a.(HiFiGANGenerator.Args.channels)) →
       raises (HiFiGANGenerator.init a)).
Proof.
  intros H. destruct (H hifigan_channels_100) as [e He].
  - intros [q Hq]. change (100 = q * 16) in Hq. lia.
  - discriminate He.
Qed.

(** ** Lengths through the layers *)

(** The transposed convolution of an up-sampling stage multiplies the
    length by the scale, whatever the parity of the scale. *)
Lemma upsample_conv_length (channels : Z) (bias : bool) (i : nat) (scale l : Z) :
  ShapeOps.conv_transpose1d_length (upsample_conv channels bias i (2 * scale) scale) l
  = l * scale.
Proof.
  unfold ShapeOps.conv_transpose1d_length, upsample_conv,
    upsample_padding, upsample_output_padding. simpl.
  pose proof (Z.div_mod scale 2 ltac:(lia)) as H. lia.
Qed.

Lemma upsample_conv_accepts (channels : Z) (bias : bool) (i : nat) (kernel scale : Z) :
  1 ≤ scale →
  ShapeOps.conv_transpose1d_accepts (upsample_conv channels bias i kernel scale)
    (channels / pow2 i) = true.
Proof.
  intros Hs. unfold ShapeOps.conv_transpose1d_accepts, upsample_conv,
    upsample_padding, upsample_output_padding. simpl.
  pose proof (Z.mod_pos_bound scale 2 ltac:(lia)).
  pose proof (Z.div_pos scale 2 ltac:(lia) ltac:(lia)).
  rewrite !andb_true_iff, !Z.leb_le, Z.eqb_eq. repeat split; lia.
Qed.

Lemma upsample_stage_run (p : Path) (channels : Z) (bias : bool) (act : string)
    (params : list (string * Q)) (i : nat) (scale b l : Z) :
  1 ≤ scale →
  run ShapeOps.ops p (upsample_stage channels bias act params i (2 * scale) scale)
    [b; channels / pow2 i; l]
  = Ok [b; channels / pow2 (i + 1); l * scale].
Proof.
  intros Hs. unfold run, upsample_stage. simpl.
  rewrite upsample_conv_accepts by exact Hs.
  rewrite upsample_conv_length. reflexivity.
Qed.

(** The convolution of a down-sampling stage with an even kernel size
    [2 * scale] divides a multiple of the scale by the scale, when the
    scale is at least 2. *)
Lemma downsample_conv_length (channels : Z) (bias : bool) (i : nat) (scale m : Z) :
  2 ≤ scale →
  ShapeOps.conv1d_length (downsample_conv channels bias i (2 * scale) scale) (m * scale)
  = m.
Proof.
  intros Hs. unfold ShapeOps.conv1d_length, downsample_conv. simpl.
  rewrite downsample_padding_parity, Z.even_mul. simpl.
  replace (m * scale + 2 * (scale - 1) - (2 * scale - 1) - 1)
    with ((m - 1) * scale + (scale - 2)) by lia.
  rewrite Z.div_add_l by lia. rewrite Z.div_small by lia. lia.
Qed.

Lemma downsample_stage_run (p : Path) (channels : Z) (bias : bool) (act : string)
    (params : list (string * Q)) (i : nat) (scale b m : Z) :
  2 ≤ scale → 1 ≤ m →
  run ShapeOps.ops p (downsample_stage channels bias act params i (2 * scale) scale)
    [b; channels / pow2 (i + 1); m * scale]
  = Ok [b; channels / pow2 i; m].
Proof.
  intros Hs Hm.
  assert (Hacc : ShapeOps.conv1d_accepts (downsample_conv channels bias i (2 * scale) scale)
                   (channels / pow2 (i + 1)) (m * scale) = true).
  { unfold ShapeOps.conv1d_accepts, downsample_conv. simpl.
    rewrite downsample_padding_parity, Z.even_mul. simpl.
    rewrite !andb_true_iff, !Z.leb_le, Z.eqb_eq. repeat split; nia. }
  unfold run, downsample_stage.
  cbn -[downsample_conv ShapeOps.conv1d_accepts ShapeOps.conv1d_length].
  rewrite Hacc, downsample_conv_length by exact Hs. reflexivity.
Qed.

(** With scale 1 the same stage loses one sample. *)
Lemma downsample_conv_length_scale_1 (channels : Z) (bias : bool) (i : nat) (m : Z) :
  ShapeOps.conv1d_length (downsample_conv channels bias i 2 1) m = m - 1.
Proof.
  unfold ShapeOps.conv1d_length, downsample_conv. simpl.
  rewrite Z.div_1_r. unfold downsample_padding. simpl. lia.
Qed.

(** A convolution with an odd kernel size and padding [(k - 1) // 2]
    keeps the length. *)
Lemma same_conv_run (p : Path) (cin cout kernel_size : Z) (bias : bool) (b l : Z) :
  kernel_size mod 2 = 1 → 1 ≤ kernel_size → 1 ≤ l →
  ShapeOps.conv1d p (same_conv cin cout kernel_size bias) [b; cin; l] = Ok [b; cout; l].
Proof.
  intros Hodd Hk Hl. unfold ShapeOps.conv1d, ShapeOps.conv1d_accepts,
    ShapeOps.conv1d_length, same_conv. simpl.
  pose proof (Z.div_mod kernel_size 2 ltac:(lia)) as Hdm. rewrite Hodd in Hdm.
  assert (Hp : (kernel_size - 1) / 2 = kernel_size / 2).
  { replace (kernel_size - 1) with (kernel_size / 2 * 2) by lia.
    apply Z.div_mul. lia. }
  rewrite Hp.
  replace (0 <=? kernel_size / 2) with true by (symmetry; apply Z.leb_le; lia).
  rewrite Z.eqb_refl.
  replace (kernel_size <=? l + 2 * (kernel_size / 2)) with true
    by (symmetry; apply Z.leb_le; lia).
  simpl. rewrite Z.div_1_r.
  replace (l + 2 * (kernel_size / 2) - (kernel_size - 1) - 1 + 1) with l by lia.
  reflexivity.
Qed.

Lemma broadcast_rev_same (a : list Z) : ShapeOps.broadcast_rev a a = Ok a.
Proof.
  induction a as [|x a IH]; simpl; [reflexivity|].
  rewrite IH. simpl. rewrite Z.eqb_refl. reflexivity.
Qed.

Lemma broadcast_same (a : Shape) : ShapeOps.broadcast a a = Ok a.
Proof.
  unfold ShapeOps.broadcast. rewrite broadcast_rev_same. simpl.
  rewrite reverse_involutive. reflexivity.
Qed.

Lemma add_same (a : Shape) : ShapeOps.add a a = Ok a.
Proof. apply broadcast_same. Qed.

Lemma iadd_same (a : Shape) : ShapeOps.iadd a a = Ok a.
Proof.
  unfold ShapeOps.iadd. rewrite broadcast_same. simpl.
  rewrite bool_decide_true by reflexivity. reflexivity.
Qed.

(** The averaging loop keeps the shape, when the stage has at least one
    block and its blocks are built for the channel count of its input. *)
Lemma average_blocks_shape (p : Path) (blocks : list ResidualBlock.t)
    (num_blocks i : nat) (b ch l : Z) :
  (0 < num_blocks)%nat →
  (∀ j, (j < num_blocks)%nat →
        ∃ block, blocks !! (i * num_blocks + j)%nat = Some block
                 ∧ block.(ResidualBlock.channels) = ch) →
  average_blocks ShapeOps.ops p blocks num_blocks i [b; ch; l] = Ok [b; ch; l].
Proof.
  intros Hnb Hblocks. unfold average_blocks.
  pose (F := λ j : nat, match j with
                        | O => AccFloat 0%Q
                        | S _ => AccTensor [b; ch; l]
                        end).
  change (AccFloat 0%Q) with (F 0%nat).
  rewrite (for_range_Ok num_blocks _ F).
  - destruct num_blocks; [lia|]. reflexivity.
  - intros j Hj. unfold block_step.
    destruct (Hblocks j Hj) as (block & Hb & Hch).
    replace (Z.of_nat i * Z.of_nat num_blocks + Z.of_nat j)
      with (Z.of_nat (i * num_blocks + j)) by lia.
    rewrite (getitem_nat _ _ _ Hb). simpl.
    rewrite Hch, Z.eqb_refl. simpl.
    destruct j; simpl; [reflexivity|].
    rewrite iadd_same. reflexivity.
Qed.

(** With no block the division raises. *)
Lemma average_blocks_none {T} (ops : Ops T) (p : Path) (blocks : list ResidualBlock.t)
    (i : nat) (c : T) :
  average_blocks ops p blocks 0 i c = Raise ZeroDivisionError.
Proof. reflexivity. Qed.

(** ** Products of scales *)

Lemma scale_product_0 (scales : list Z) : scale_product scales 0 = 1.
Proof. reflexivity. Qed.

Lemma scale_product_S (scales : list Z) (k : nat) :
  (k < length scales)%nat →
  scale_product scales (S k) = scale_product scales k * (scales !!! k).
Proof.
  intros Hk. unfold scale_product.
  rewrite (take_S_r scales k (scales !!! k)) by (apply lookup_total_Some; exact Hk).
  generalize (take k scales). intros l.
  induction l as [|x l IH]; simpl; [lia|]. rewrite IH. lia.
Qed.

Lemma scale_product_pos (scales : list Z) (k : nat) :
  Forall (λ s, 1 ≤ s) scales → 1 ≤ scale_product scales k.
Proof.
  intros Hall. unfold scale_product.
  assert (H : Forall (λ s, 1 ≤ s) (take k scales)) by (apply Forall_take; exact Hall).
  induction H as [|x l Hx _ IH]; simpl; [lia|nia].
Qed.

Lemma scale_product_all (scales : list Z) :
  scale_product scales (length scales) = foldr Z.mul 1 scales.
Proof. unfold scale_product. rewrite firstn_all. reflexivity. Qed.

(** ** The cascade of down-sampling stages *)

Section Cascade.
Variables (channels : Z) (bias : bool) (act : string) (params : list (string * Q)).
Variables (scales kernels : list Z).
Variables (b l : Z).
Local Abbreviation n := (length kernels).
Local Abbreviation down :=
  (λ i, downsample_stage channels bias act params i (kernels !!! i) (scales !!! i)).
Local Abbreviation up :=
  (λ i, upsample_stage channels bias act params i (kernels !!! i) (scales !!! i)).
Local Abbreviation at_stage := (shape_at channels scales b l).

Hypothesis Hlen : length scales = n.
Hypothesis Htwice : kernels_twice_scales scales kernels = true.
Hypothesis Hpos : Forall (λ s, 1 ≤ s) scales.
Hypothesis Hl : 1 ≤ l.

Lemma kernel_at (i : nat) : (i < n)%nat → kernels !!! i = 2 * scales !!! i.
Proof. apply kernels_twice_scales_spec; assumption. Qed.

Lemma scale_at_pos (i : nat) : (i < n)%nat → 1 ≤ scales !!! i.
Proof.
  intros Hi. rewrite Forall_lookup in Hpos.
  apply (Hpos i). apply lookup_total_Some. lia.
Qed.

Lemma shape_at_S (k : nat) :
  (k < n)%nat →
  at_stage (S k) = [b; channels / pow2 (k + 1); l * scale_product scales k * scales !!! k].
Proof.
  intros Hk. unfold shape_at. rewrite scale_product_S by lia.
  replace (S k) with (k + 1)%nat by lia. rewrite Z.mul_assoc. reflexivity.
Qed.

(** An up-sampling stage takes the features from stage [k] to stage [k + 1]. *)
Lemma upsample_step (p : Path) (k : nat) :
  (k < n)%nat → run ShapeOps.ops p (up k) (at_stage k) = Ok (at_stage (S k)).
Proof.
  intros Hk. rewrite shape_at_S by exact Hk. unfold shape_at.
  rewrite kernel_at by exact Hk.
  apply upsample_stage_run, scale_at_pos, Hk.
Qed.

(** A down-sampling stage takes them back, when its scale is at least 2. *)
Lemma downsample_step_shape (p : Path) (k : nat) :
  (k < n)%nat → 2 ≤ scales !!! k →
  run ShapeOps.ops p (down k) (at_stage (S k)) = Ok (at_stage k).
Proof.
  intros Hk Hs. rewrite shape_at_S by exact Hk. unfold shape_at.
  rewrite kernel_at by exact Hk.
  apply downsample_stage_run; [exact Hs|].
  pose proof (scale_product_pos scales k Hpos). nia.
Qed.

Lemma embedding_shapes_S (k : nat) :
  (k < n)%nat →
  map (λ j, at_stage (n - j)) (seq 0 (S k)) ++ [at_stage (n - S k)]
  = map (λ j, at_stage (n - j)) (seq 0 (S (S k))).
Proof. intros Hk. rewrite (seq_S (S k)), map_app. reflexivity. Qed.

(** The cascade, run on a signal with the shape of the last stage,
    gives the embeddings of all stages, provided every scale but the
    first is at least 2. *)
Lemma cascade_shapes (p : Path) :
  (0 < n)%nat →
  (∀ i, (1 ≤ i < n)%nat → 2 ≤ scales !!! i) →
  cascade ShapeOps.ops p (map down (reverse (seq 0 n))) n (at_stage n)
  = Ok (embedding_shapes channels scales b l n).
Proof.
  intros Hn Hs. unfold cascade, embedding_shapes.
  pose (F := λ k : nat, (at_stage (n - k), map (λ j, at_stage (n - j)) (seq 0 (S k)))).
  replace (at_stage n, [at_stage n]) with (F 0%nat)
    by (unfold F; simpl; rewrite Nat.sub_0_r; reflexivity).
  rewrite (for_range_Ok (n - 1) _ F).
  - unfold F. rewrite bind_Ok_l. cbn [snd].
    replace (S (n - 1)) with n by lia. reflexivity.
  - intros k Hk. unfold downsample_step, F.
    assert (Hd : map down (reverse (seq 0 n)) !! k = Some (down (n - S k)%nat)).
    { change (map down (reverse (seq 0 n))) with (down <$> reverse (seq 0 n)).
      rewrite list_lookup_fmap, reverse_lookup by (rewrite length_seq; lia).
      rewrite length_seq, lookup_seq_lt by lia. reflexivity. }
    cbv beta iota zeta.
    rewrite (getitem_nat _ _ _ Hd), bind_Ok_l.
    replace (n - k)%nat with (S (n - S k)) at 1 by lia.
    rewrite downsample_step_shape by (try apply Hs; lia). rewrite bind_Ok_l.
    rewrite <- embedding_shapes_S by lia. reflexivity.
Qed.

(** The embedding read at stage [i], [embs[-i - 1]], has the shape of
    the up-sampled features of that stage. *)
Lemma embedding_at_stage (i : nat) :
  (i < n)%nat →
  getitem (embedding_shapes channels scales b l n) (- Z.of_nat i - 1)
  = Ok (at_stage (S i)).
Proof.
  intros Hi. unfold embedding_shapes.
  apply getitem_from_end; rewrite length_map, length_seq; [exact Hi|].
  change (map ?f ?l) with (f <$> l).
  rewrite list_lookup_fmap, lookup_seq_lt by lia. simpl.
  f_equal. f_equal. lia.
Qed.

End Cascade.

(** ** [HiFiGANGenerator.forward] on shapes *)

Section HiFiGANShapes.
Import HiFiGANGenerator HiFiGANSpec.
Variable a : Args.t.
Variables (b l : Z).
Local Abbreviation n := (length a.(Args.upsample_kernel_sizes)).
Local Abbreviation nb := (length a.(Args.resblock_kernel_sizes)).
Local Abbreviation scales := (a.(Args.upsample_scales)).
Local Abbreviation at_stage := (shape_at a.(Args.channels) scales b l).

Hypothesis Hvalid : valid a = true.
Hypothesis Hpos : Forall (λ s, 1 ≤ s) scales.
Hypothesis Hkernel : 1 ≤ a.(Args.kernel_size).
Hypothesis Hl : 1 ≤ l.
Hypothesis Hblocks : (0 < nb)%nat.

Lemma valid_parts :
  a.(Args.kernel_size) mod 2 = 1
  ∧ length scales = n
  ∧ kernels_twice_scales scales a.(Args.upsample_kernel_sizes) = true
  ∧ (a.(Args.use_qp_resblocks) = true → n ≤ length a.(Args.qp_resblock_dilations))%nat
  ∧ (0 < n)%nat.
Proof.
  pose proof Hvalid as Hv. unfold valid in Hv.
  rewrite !andb_true_iff, !bool_decide_eq_true, Z.eqb_eq in Hv.
  destruct Hv as [[[[[Hodd Hs] Hd] Hk] Hq] Hn].
  repeat split; try assumption.
  intros Hqp. rewrite Hqp in Hq. apply bool_decide_eq_true in Hq. exact Hq.
Qed.

Lemma blocks_upto_lookup (k i j : nat) :
  (i < k)%nat → (j < nb)%nat →
  blocks_upto a k !! (i * nb + j)%nat = Some (block_of a i j).
Proof.
  intros Hi Hj. unfold blocks_upto.
  change (map ?f ?l) with (f <$> l).
  rewrite list_lookup_fmap, lookup_seq_lt by nia. simpl. f_equal. f_equal.
  - rewrite Nat.add_comm, Nat.div_add by lia. rewrite Nat.div_small by lia. lia.
  - rewrite Nat.add_comm, Nat.Div0.mod_add. apply Nat.mod_small. lia.
Qed.

Lemma upsamples_lookup (k : nat) :
  (k < n)%nat →
  getitem (map (upsample_of a) (seq 0 n)) (Z.of_nat k) = Ok (upsample_of a k).
Proof.
  intros Hk. apply getitem_nat. change (map ?f ?l) with (f <$> l).
  rewrite list_lookup_fmap, lookup_seq_lt by lia. reflexivity.
Qed.

(** One stage of the ladder, with the embeddings and dilation factors
    the flags call for. *)
Lemma stage_shape (embs : list Shape) (d : option (list Shape)) (k : nat) :
  (k < n)%nat →
  (a.(Args.use_sine_embs) = true →
   embs = embedding_shapes a.(Args.channels) scales b l n) →
  (a.(Args.use_qp_resblocks) = true → d = Some (dilation_shapes scales b l n)) →
  stage ShapeOps.ops (built a) embs d k (at_stage k) = Ok (at_stage (S k)).
Proof.
  intros Hk Hembs Hd.
  destruct valid_parts as (Hodd & Hs & Htwice & Hq & Hn).
  unfold stage. cbn [upsamples built use_sine_embs use_qp_resblocks qp_blocks blocks
                     num_blocks].
  rewrite upsamples_lookup, bind_Ok_l by exact Hk.
  unfold upsample_of.
  rewrite (upsample_step _ _ _ _ scales _ b l Hs Htwice Hpos) by exact Hk.
  rewrite bind_Ok_l.
  assert (Hsine : (if a.(Args.use_sine_embs)
                   then e ← getitem embs (- Z.of_nat k - 1);
                        add ShapeOps.ops (at_stage (S k)) e
                   else Ok (at_stage (S k))) = Ok (at_stage (S k))).
  { destruct (Args.use_sine_embs a); [|reflexivity].
    rewrite (Hembs eq_refl).
    rewrite (embedding_at_stage _ scales _ b l Hs) by exact Hk.
    rewrite bind_Ok_l. apply add_same. }
  rewrite Hsine, bind_Ok_l. clear Hsine.
  assert (Hqp : (if a.(Args.use_qp_resblocks)
                 then qp_blocks ← attr (if a.(Args.use_qp_resblocks)
                                        then Some (map (qp_block_of a) (seq 0 n))
                                        else None);
                      qp ← getitem qp_blocks (Z.of_nat k);
                      di ← match d with
                           | Some d => getitem d (Z.of_nat k)
                           | None => Raise TypeError
                           end;
                      adaptive_residual_block ShapeOps.ops [Attr "qp_blocks"; Idx k]
                        qp (at_stage (S k)) di
                 else Ok (at_stage (S k))) = Ok (at_stage (S k))).
  { destruct (Args.use_qp_resblocks a) eqn:Hflag; [|reflexivity].
    rewrite (Hd eq_refl). cbn [attr]. rewrite bind_Ok_l.
    rewrite (getitem_nat _ k (qp_block_of a k)).
    2: { change (map ?f ?l) with (f <$> l).
         rewrite list_lookup_fmap, lookup_seq_lt by lia. reflexivity. }
    rewrite bind_Ok_l.
    rewrite (getitem_nat _ k [b; 1; l * scale_product scales (S k)]).
    2: { unfold dilation_shapes. change (map ?f ?l) with (f <$> l).
         rewrite list_lookup_fmap, lookup_seq_lt by lia. reflexivity. }
    rewrite bind_Ok_l. unfold shape_at, qp_block_of.
    cbn [adaptive_residual_block ShapeOps.ops ShapeOps.adaptive_residual_block
           ResidualBlock.channels].
    replace (S k) with (k + 1)%nat by lia.
    rewrite !Z.eqb_refl. reflexivity. }
  rewrite Hqp, bind_Ok_l. clear Hqp.
  unfold shape_at. apply average_blocks_shape; [exact Hblocks|].
  intros j Hj. exists (block_of a k j). split.
  - apply blocks_upto_lookup; assumption.
  - simpl. replace (S k) with (k + 1)%nat by lia. reflexivity.
Qed.

Lemma shape_at_0 : at_stage 0 = [b; a.(Args.channels); l].
Proof.
  unfold shape_at. rewrite scale_product_0. unfold pow2. simpl.
  rewrite Z.div_1_r, Z.mul_1_r. reflexivity.
Qed.

(** The cascade of the generator, on a sine signal as long as the
    output. *)
Lemma sine_embeddings_shape :
  a.(Args.use_sine_embs) = true →
  (∀ i, (1 ≤ i < n)%nat → 2 ≤ scales !!! i) →
  sine_embeddings ShapeOps.ops (built a) [b; 1; l * scale_product scales n]
  = Ok (embedding_shapes a.(Args.channels) scales b l n).
Proof.
  clear Hblocks. intros Hflag Hscales.
  destruct valid_parts as (Hodd & Hs & Htwice & Hq & Hn).
  unfold sine_embeddings. cbn [emb downsamples built num_upsamples conv1d ShapeOps.ops].
  rewrite Hflag. cbn [attr]. rewrite bind_Ok_l.
  assert (1 ≤ l * scale_product scales n).
  { pose proof (scale_product_pos scales n Hpos). nia. }
  rewrite same_conv_run, !bind_Ok_l by assumption.
  unfold downsample_of.
  apply (cascade_shapes _ _ _ _ scales _ b l Hs Htwice Hpos Hl _ Hn Hscales).
Qed.

(** The whole forward pass: a [(b, in_channels, l)] feature tensor
    gives a [(b, out_channels, l * product of the scales)] waveform. *)
Lemma forward_shape (x : Shape) (d : option (list Shape)) :
  (a.(Args.use_sine_embs) = true →
   x = [b; 1; l * scale_product scales n]
   ∧ ∀ i, (1 ≤ i < n)%nat → 2 ≤ scales !!! i) →
  (a.(Args.use_qp_resblocks) = true → d = Some (dilation_shapes scales b l n)) →
  forward ShapeOps.ops (built a) x [b; a.(Args.in_channels); l] d
  = Ok [b; a.(Args.out_channels); l * scale_product scales n].
Proof.
  intros Hx Hd.
  destruct valid_parts as (Hodd & Hs & Htwice & Hq & Hn).
  unfold forward.
  cbn [input_conv built use_sine_embs num_upsamples output_conv conv1d ShapeOps.ops].
  rewrite same_conv_run, bind_Ok_l by assumption.
  assert (Hembs : ∃ embs,
            (if a.(Args.use_sine_embs)
             then sine_embeddings ShapeOps.ops (built a) x
             else Ok []) = Ok embs
            ∧ (a.(Args.use_sine_embs) = true →
               embs = embedding_shapes a.(Args.channels) scales b l n)).
  { destruct (Args.use_sine_embs a) eqn:Hflag.
    - destruct (Hx eq_refl) as [-> Hscales]. eexists. split; [|reflexivity].
      apply sine_embeddings_shape; assumption.
    - exists []. split; [reflexivity|discriminate]. }
  destruct Hembs as (embs & -> & Hembs). rewrite bind_Ok_l.
  rewrite <- shape_at_0.
  rewrite (for_range_Ok n _ at_stage).
  2: { intros k Hk. apply stage_shape; assumption. }
  rewrite bind_Ok_l. unfold run, run_from, run_layer.
  cbn [nonlinearity tanh conv1d ShapeOps.ops LeakyReLU activation]. rewrite !bind_Ok_l.
  unfold shape_at. rewrite same_conv_run; [reflexivity|assumption..|].
  pose proof (scale_product_pos scales n Hpos). nia.
Qed.

End HiFiGANShapes.

(** ** The up-sampling ladder *)

Lemma upsample_stage_rule (channels : Z) (bias : bool) (act : string)
    (params : list (string * Q)) (i : nat) (scale : Z) :
  upsample_rule (upsample_stage channels bias act params i (2 * scale) scale).
Proof.
  unfold upsample_rule, upsample_stage. eexists _, _. split; [reflexivity|].
  repeat split. intros l. apply upsample_conv_length.
Qed.

Lemma ladder_length_upsamples (channels : Z) (bias : bool) (act : string)
    (params : list (string * Q)) (scales kernels : list Z) (k : nat) (l : Z) :
  length scales = length kernels →
  kernels_twice_scales scales kernels = true →
  (k ≤ length kernels)%nat →
  ladder_length
    (map (λ i, upsample_stage channels bias act params i (kernels !!! i) (scales !!! i))
       (seq 0 k)) l
  = l * scale_product scales k.
Proof.
  intros Hlen Htwice. induction k as [|k IH]; intros Hk.
  - simpl. rewrite scale_product_0. lia.
  - unfold ladder_length in *. rewrite seq_S, map_app, foldl_app, IH by lia.
    rewrite scale_product_S by lia. simpl.
    rewrite (kernel_at scales kernels Hlen Htwice) by lia.
    unfold stage_length. simpl. rewrite upsample_conv_length. lia.
Qed.

Lemma upsamples_rule (channels : Z) (bias : bool) (act : string)
    (params : list (string * Q)) (scales kernels : list Z) (i : nat) (stage : Sequential) :
  length scales = length kernels →
  kernels_twice_scales scales kernels = true →
  map (λ i, upsample_stage channels bias act params i (kernels !!! i) (scales !!! i))
    (seq 0 (length kernels)) !! i = Some stage →
  upsample_rule stage.
Proof.
  intros Hlen Htwice Hi. apply elem_of_upsamples in Hi as [Hi ->].
  rewrite (kernel_at scales kernels Hlen Htwice) by exact Hi.
  apply upsample_stage_rule.
Qed.

Lemma dual_valid_parts (scales kernels : list Z) (snp : SourceNetworkParams.t)
    (fnp : FilterNetworkParams.t) :
  DualSpec.valid_stages scales kernels snp fnp = true →
  length scales = length kernels ∧ kernels_twice_scales scales kernels = true.
Proof.
  unfold DualSpec.valid_stages. rewrite !andb_true_iff, !bool_decide_eq_true.
  intros [[[[Hs Hk] _] _] _]. auto.
Qed.

(** C1. In every generator any of the three constructors builds, each
    up-sampling stage is a transposed convolution with kernel size twice
    its stride, padding [stride // 2 + stride % 2] and output padding
    [stride % 2], whose output length is the input length times the
    stride, for even and odd strides alike; the ladder of these stages
    takes a length [l] to [l] times the product of the scales; and the
    forward pass of a HiFiGAN generator (without sine embeddings, with
    up-sampling scales of at least 2 and at least one residual block per
    stage) maps a [(b, in_channels, l)] tensor to
    [(b, out_channels, l * product)].
    With the scales (5, 4, 3, 2) the length 100 becomes 12000, in all
    three generators. *)
Theorem C1_upsample_lengths :
  (∀ channels bias i scale l,
     ShapeOps.conv_transpose1d_length (upsample_conv channels bias i (2 * scale) scale) l
     = l * scale)
  ∧ (∀ a g,
       HiFiGANGenerator.init a = Ok g →
       (∀ i stage, g.(HiFiGANGenerator.upsamples) !! i = Some stage → upsample_rule stage)
       ∧ ∀ l, ladder_length g.(HiFiGANGenerator.upsamples) l
              = l * foldr Z.mul 1 a.(HiFiGANGenerator.Args.upsample_scales))
  ∧ (∀ a g,
       SiFiGANGenerator.init a = Ok g →
       (∀ i stage,
          g.(SiFiGANGenerator.sn).(SourceNetwork.upsamples) !! i = Some stage
          ∨ g.(SiFiGANGenerator.fn).(FilterNetwork.upsamples) !! i = Some stage →
          upsample_rule stage)
       ∧ ∀ l, ladder_length g.(SiFiGANGenerator.sn).(SourceNetwork.upsamples) l
              = l * foldr Z.mul 1 a.(SiFiGANGenerator.Args.upsample_scales))
  ∧ (∀ a g,
       SiFiGANDirectGenerator.init a = Ok g →
       (∀ i stage,
          g.(SiFiGANDirectGenerator.sn).(SourceNetwork.upsamples) !! i = Some stage
          ∨ g.(SiFiGANDirectGenerator.fn).(FilterNetwork.upsamples) !! i = Some stage →
          upsample_rule stage)
       ∧ ∀ l, ladder_length g.(SiFiGANDirectGenerator.sn).(SourceNetwork.upsamples) l
              = l * foldr Z.mul 1 a.(SiFiGANDirectGenerator.Args.upsample_scales))
  ∧ (∀ a g b l x d,
       HiFiGANGenerator.init a = Ok g →
       g.(HiFiGANGenerator.use_sine_embs) = false →
       (g.(HiFiGANGenerator.use_qp_resblocks) = true →
        d = Some (dilation_shapes a.(HiFiGANGenerator.Args.upsample_scales) b l
                    g.(HiFiGANGenerator.num_upsamples))) →
       Forall (λ s, 2 ≤ s) a.(HiFiGANGenerator.Args.upsample_scales) →
       1 ≤ a.(HiFiGANGenerator.Args.kernel_size) →
       (0 < g.(HiFiGANGenerator.num_blocks))%nat →
       1 ≤ l →
       HiFiGANGenerator.forward ShapeOps.ops g x
         [b; a.(HiFiGANGenerator.Args.in_channels); l] d
       = Ok [b; a.(HiFiGANGenerator.Args.out_channels);
             l * foldr Z.mul 1 a.(HiFiGANGenerator.Args.upsample_scales)])
  ∧ (∃ g, HiFiGANGenerator.init (HiFiGANGenerator.Args.default 80) = Ok g
          ∧ HiFiGANGenerator.forward ShapeOps.ops g [1; 1; 12000] [1; 80; 100] None
            = Ok [1; 1; 12000])
  ∧ (∃ g, SiFiGANGenerator.init (SiFiGANGenerator.Args.default 80) = Ok g
          ∧ SiFiGANGenerator.forward ShapeOps.ops g [1; 1; 12000] [1; 80; 100]
              [[1; 1; 500]; [1; 1; 2000]; [1; 1; 6000]; [1; 1; 12000]] [1]
            = Ok ([1; 1; 12000], [1; 1; 12000]))
  ∧ (∃ g, SiFiGANDirectGenerator.init (SiFiGANDirectGenerator.Args.default 80) = Ok g
          ∧ SiFiGANDirectGenerator.forward ShapeOps.ops g [1; 1; 12000] [1; 80; 100]
              [[1; 1; 500]; [1; 1; 2000]; [1; 1; 6000]; [1; 1; 12000]]
            = Ok ([1; 1; 12000], [1; 1; 12000])).
Proof.
  split; [intros; apply upsample_conv_length|].
  split; [|split; [|split; [|split; [|split; [|split]]]]].
  - intros a g Hg.
    assert (Hv : HiFiGANSpec.valid a = true) by (apply init_iff; eauto).
    rewrite (init_valid a Hv) in Hg. injection Hg as <-.
    destruct (valid_parts a Hv) as (_ & Hs & Htwice & _ & _). split.
    + intros i stage Hi. simpl in Hi. eapply upsamples_rule; eassumption.
    + intros l. simpl. unfold HiFiGANSpec.upsample_of.
      rewrite ladder_length_upsamples, <- Hs, scale_product_all by (assumption || lia).
      reflexivity.
  - intros a g Hg.
    assert (Hv : SiFiGANSpec.valid a = true) by (apply sifigan_init_iff; eauto).
    rewrite (sifigan_init_valid a Hv) in Hg. injection Hg as <-.
    unfold SiFiGANSpec.valid in Hv. apply andb_true_iff in Hv as [_ Hv].
    destruct (dual_valid_parts _ _ _ _ Hv) as [Hs Htwice]. split.
    + intros i stage Hi. simpl in Hi. destruct Hi as [Hi|Hi].
      * eapply upsamples_rule; eassumption.
      * destruct (negb _); [|discriminate]. eapply upsamples_rule; eassumption.
    + intros l. simpl. unfold DualSpec.upsample_of.
      rewrite ladder_length_upsamples, <- Hs, scale_product_all by (assumption || lia).
      reflexivity.
  - intros a g Hg.
    assert (Hv : SiFiGANDirectSpec.valid a = true) by (apply direct_init_iff; eauto).
    rewrite (direct_init_valid a Hv) in Hg. injection Hg as <-.
    unfold SiFiGANDirectSpec.valid in Hv. apply andb_true_iff in Hv as [_ Hv].
    destruct (dual_valid_parts _ _ _ _ Hv) as [Hs Htwice]. split.
    + intros i stage Hi. simpl in Hi. destruct Hi as [Hi|Hi].
      * eapply upsamples_rule; eassumption.
      * destruct (negb _); [|discriminate]. eapply upsamples_rule; eassumption.
    + intros l. simpl. unfold DualSpec.upsample_of.
      rewrite ladder_length_upsamples, <- Hs, scale_product_all by (assumption || lia).
      reflexivity.
  - intros a g b l x d Hg Hsine Hqp Hup Hk Hnb Hl.
    assert (Hpos : Forall (λ s, 1 ≤ s) a.(HiFiGANGenerator.Args.upsample_scales)).
    { eapply Forall_impl; [exact Hup|]. intros s Hs. simpl in Hs. lia. }
    assert (Hv : HiFiGANSpec.valid a = true) by (apply init_iff; eauto).
    rewrite (init_valid a Hv) in Hg. injection Hg as <-.
    destruct (valid_parts a Hv) as (_ & Hs & _ & _ & _).
    simpl in Hsine, Hqp, Hnb.
    rewrite (forward_shape a b l Hv Hpos Hk Hl Hnb x d).
    + rewrite <- Hs, scale_product_all. reflexivity.
    + rewrite Hsine. discriminate.
    + exact Hqp.
  - eexists. split; reflexivity.
  - eexists. split; reflexivity.
  - eexists. split; reflexivity.
Qed.

(** The default generator with adaptive blocks: (1, 80, 100) to
    (1, 1, 12000). *)
Lemma C1_witness :
  HiFiGANGenerator.forward ShapeOps.ops
    (HiFiGANSpec.built (HiFiGANSpec.with_flags false true (HiFiGANGenerator.Args.default 80)))
    [1; 1; 12000] [1; 80; 100]
    (Some [[1; 1; 500]; [1; 1; 2000]; [1; 1; 6000]; [1; 1; 12000]])
  = Ok [1; 1; 12000].
Proof.
  refine (proj1 (proj2 (proj2 (proj2 (proj2 C1_upsample_lengths))))
            (HiFiGANSpec.with_flags false true (HiFiGANGenerator.Args.default 80))
            _ 1 100 _ _ eq_refl eq_refl _ _ _ _ _).
  - intros _. reflexivity.
  - repeat constructor; lia.
  - simpl. lia.
  - simpl. lia.
  - lia.
Defined.

(** ** The sine embeddings and the stages they are added to *)

(** C5 (as amended). For a HiFiGAN generator with sine embeddings built
    from stage lists with kernel size twice the scale and every scale at
    least 2, and for a sine signal as long as the output ([l] times the
    product of the scales):
    the cascade gives one embedding per up-sampling stage, and the
    embedding read at stage [i] has exactly the shape of the features
    that stage's up-sampling produces, so that every addition is on
    equal shapes and the forward pass returns the full-length output.
    The down-sampling kernel sizes, twice the scales, are even. *)
Theorem C5_embedding_lengths (a : HiFiGANGenerator.Args.t) (b l : Z) :
  HiFiGANSpec.valid a = true →
  a.(HiFiGANGenerator.Args.use_sine_embs) = true →
  Forall (λ s, 2 ≤ s) a.(HiFiGANGenerator.Args.upsample_scales) →
  1 ≤ a.(HiFiGANGenerator.Args.kernel_size) →
  1 ≤ l →
  let n := length a.(HiFiGANGenerator.Args.upsample_kernel_sizes) in
  let scales := a.(HiFiGANGenerator.Args.upsample_scales) in
  let x := [b; 1; l * foldr Z.mul 1 scales] in
  ∃ g embs,
    HiFiGANGenerator.init a = Ok g
    ∧ HiFiGANGenerator.sine_embeddings ShapeOps.ops g x = Ok embs
    ∧ length embs = n
    ∧ (∀ i, (i < n)%nat →
         ∃ up features,
           g.(HiFiGANGenerator.upsamples) !! i = Some up
           ∧ run ShapeOps.ops [Attr "upsamples"; Idx i] up
               (shape_at a.(HiFiGANGenerator.Args.channels) scales b l i)
             = Ok features
           ∧ getitem embs (- Z.of_nat i - 1) = Ok features
           ∧ time_length features = Some (l * scale_product scales (S i)))
    ∧ (∀ d,
         (0 < length a.(HiFiGANGenerator.Args.resblock_kernel_sizes))%nat →
         (a.(HiFiGANGenerator.Args.use_qp_resblocks) = true →
          d = Some (dilation_shapes scales b l n)) →
         HiFiGANGenerator.forward ShapeOps.ops g x
           [b; a.(HiFiGANGenerator.Args.in_channels); l] d
         = Ok [b; a.(HiFiGANGenerator.Args.out_channels); l * foldr Z.mul 1 scales]).
Proof.
  intros Hv Hsine Hup Hk Hl n scales x.
  destruct (valid_parts a Hv) as (_ & Hs & Htwice & _ & Hn).
  assert (Hpos : Forall (λ s, 1 ≤ s) scales).
  { eapply Forall_impl; [exact Hup|]. intros s Hs2. simpl in Hs2. lia. }
  assert (Hscales : ∀ i, (1 ≤ i < n)%nat → 2 ≤ scales !!! i).
  { intros i Hi. rewrite Forall_lookup in Hup.
    apply (Hup i). apply lookup_total_Some. unfold scales. lia. }
  assert (Hx : x = [b; 1; l * scale_product scales n]).
  { unfold x, n. rewrite <- Hs, scale_product_all. reflexivity. }
  exists (HiFiGANSpec.built a),
    (embedding_shapes a.(HiFiGANGenerator.Args.channels) scales b l n).
  split; [apply init_valid, Hv|]. split; [|split; [|split]].
  - rewrite Hx. apply sine_embeddings_shape; assumption.
  - unfold embedding_shapes. rewrite length_map, length_seq. reflexivity.
  - intros i Hi.
    exists (HiFiGANSpec.upsample_of a i),
      (shape_at a.(HiFiGANGenerator.Args.channels) scales b l (S i)).
    split; [|split; [|split]].
    + simpl. change (map ?f ?l) with (f <$> l).
      rewrite list_lookup_fmap, lookup_seq_lt by exact Hi. reflexivity.
    + apply (upsample_step _ _ _ _ scales _ b l Hs Htwice Hpos). exact Hi.
    + apply (embedding_at_stage _ scales _ b l Hs). exact Hi.
    + reflexivity.
  - intros d Hnb Hd. rewrite Hx at 1.
    rewrite (forward_shape a b l Hv Hpos Hk Hl Hnb _ d); try assumption.
    + unfold scales, n. rewrite <- Hs, scale_product_all. reflexivity.
    + intros _. split; [reflexivity|exact Hscales].
Qed.

(** The default scales (5, 4, 3, 2), odd and even, with sine embeddings
    and adaptive blocks. *)
Lemma C5_witness :
  ∃ g embs,
    HiFiGANGenerator.init hifigan_full = Ok g
    ∧ HiFiGANGenerator.sine_embeddings ShapeOps.ops g [1; 1; 100 * 120] = Ok embs
    ∧ length embs = 4%nat
    ∧ (∀ i, (i < 4)%nat →
         ∃ up features,
           g.(HiFiGANGenerator.upsamples) !! i = Some up
           ∧ run ShapeOps.ops [Attr "upsamples"; Idx i] up
               (shape_at 512 [5; 4; 3; 2] 1 100 i)
             = Ok features
           ∧ getitem embs (- Z.of_nat i - 1) = Ok features
           ∧ time_length features = Some (100 * scale_product [5; 4; 3; 2] (S i)))
    ∧ (∀ d,
         (0 < 3)%nat →
         (true = true → d = Some (dilation_shapes [5; 4; 3; 2] 1 100 4)) →
         HiFiGANGenerator.forward ShapeOps.ops g [1; 1; 100 * 120] [1; 80; 100] d
         = Ok [1; 1; 100 * 120]).
Proof.
  refine (C5_embedding_lengths hifigan_full 1 100 eq_refl eq_refl _ _ _).
  - repeat constructor; lia.
  - simpl. lia.
  - lia.
Defined.

(** With the scales (2, 1) and kernel sizes (4, 2), which pass every
    check of the constructor, a sine signal of the output length 6 gives
    for stage 0 an embedding of length 5, while the up-sampled features
    of that stage have length 6; the addition, and the forward pass,
    raise. *)
Lemma C5_counterexample :
  ∃ g embs up features e,
    HiFiGANSpec.valid hifigan_scale_1 = true
    ∧ HiFiGANGenerator.init hifigan_scale_1 = Ok g
    ∧ HiFiGANGenerator.sine_embeddings ShapeOps.ops g [1; 1; 3 * (2 * 1)] = Ok embs
    ∧ g.(HiFiGANGenerator.upsamples) !! 0%nat = Some up
    ∧ run ShapeOps.ops [Attr "upsamples"; Idx 0] up (shape_at 512 [2; 1] 1 3 0)
      = Ok features
    ∧ getitem embs (- Z.of_nat 0 - 1) = Ok e
    ∧ time_length features = Some 6
    ∧ time_length e = Some 5
    ∧ HiFiGANGenerator.forward ShapeOps.ops g [1; 1; 3 * (2 * 1)] [1; 80; 3] None
      = Raise RuntimeError.
Proof.
  eexists _, _, _, _, _.
  split; [reflexivity|]. split; [reflexivity|]. split; [reflexivity|].
  split; [reflexivity|]. split; [reflexivity|]. split; [reflexivity|].
  split; [reflexivity|]. split; reflexivity.
Qed.

(** ** The averaging loop on values *)











Section AverageBlocks.
Variable layers : ValueOps.Layers.
Variables (p : Path) (blocks : list ResidualBlock.t) (num_blocks i : nat) (c : Tensor).
Local Abbreviation ops := (ValueOps.ops layers).
Local Abbreviation body := (block_step ops p blocks num_blocks i c).

Local Abbreviation block_outputs :=
  (λ ys : list Tensor,
     ∀ j y, ys !! j = Some y →
       ∃ block,
         blocks !! (i * num_blocks + j)%nat = Some block
         ∧ layers.(ValueOps.residual_block) (p ++ [Idx (i * num_blocks + j)]) block c
           = Ok y).







End AverageBlocks.




(** ** The averaging loop, whatever the arithmetic *)

Section SumOfBlocks.
Context {T : Type} (ops : Ops T).
Variables (p : Path) (blocks : list ResidualBlock.t) (num_blocks i : nat) (c : T).





(** No block, no output: the division of the float [0.0] by the int 0
    raises. *)
Lemma sum_divided_nil : sum_divided ops [] = Raise ZeroDivisionError.
Proof. reflexivity. Qed.

End SumOfBlocks.

(** ** The averaging loop in single precision *)





(** ** The stages of the forward passes *)




Lemma for_each_ext {A S} (l : list A) (body body' : A → S → Result S) (s : S) :
  (∀ a s, body a s = body' a s) → for_each l body s = for_each l body' s.
Proof.
  intros H. revert s. induction l as [|a l IH]; intros s; simpl; [reflexivity|].
  rewrite H. destruct (body' a s); simpl; [apply IH|reflexivity].
Qed.

(** C6. In a SiFiGAN generator constructed with [share_upsamples=True]
    the filter network holds no up-sampling stages of its own, and its
    up-sampling of stage [i] is the source network's: the module
    [sn.upsamples.i], with the same weights, run on the same input,
    whatever the tensor operations are. *)
Theorem C6_shared_upsamples {T : Type} (ops : Ops T) (a : SiFiGANGenerator.Args.t)
    (g : SiFiGANGenerator.t) :
  SiFiGANGenerator.init a = Ok g →
  a.(SiFiGANGenerator.Args.share_upsamples) = true →
  g.(SiFiGANGenerator.share_upsamples) = true
  ∧ g.(SiFiGANGenerator.fn).(FilterNetwork.upsamples) = []
  ∧ ∀ (i : nat) (x : T),
      SiFiGANGenerator.filter_upsample ops g i x
      = SiFiGANGenerator.source_upsample ops g i x.
Proof.
  intros Hg Hshare.
  assert (Hv : SiFiGANSpec.valid a = true) by (apply sifigan_init_iff; eauto).
  rewrite (sifigan_init_valid a Hv) in Hg. injection Hg as <-.
  unfold SiFiGANGenerator.filter_upsample, SiFiGANGenerator.source_upsample.
  simpl. rewrite Hshare. simpl. auto.
Qed.

(** The shared first stage on a (1, 512, 100) tensor. *)
Lemma C6_witness :
  SiFiGANGenerator.filter_upsample ShapeOps.ops (SiFiGANSpec.built sifigan_shared)
    0 [1; 512; 100]
  = SiFiGANGenerator.source_upsample ShapeOps.ops (SiFiGANSpec.built sifigan_shared)
      0 [1; 512; 100].
Proof.
  apply (C6_shared_upsamples ShapeOps.ops sifigan_shared
           (SiFiGANSpec.built sifigan_shared) eq_refl eq_refl).
Defined.

(** C10. For a HiFiGAN generator constructed with [use_sine_embs=False]
    and [use_qp_resblocks=False], the result of [forward] (a value or
    an exception) is the same for all sine signals [x] and all
    dilation-factor arguments [d], present or not: it is a function of
    [c] and of the modules alone. *)
Theorem C10_output_ignores_x_and_d {T : Type} (ops : Ops T)
    (a : HiFiGANGenerator.Args.t) (g : HiFiGANGenerator.t)
    (c x x' : T) (d d' : option (list T)) :
  HiFiGANGenerator.init a = Ok g →
  a.(HiFiGANGenerator.Args.use_sine_embs) = false →
  a.(HiFiGANGenerator.Args.use_qp_resblocks) = false →
  HiFiGANGenerator.forward ops g x c d = HiFiGANGenerator.forward ops g x' c d'.
Proof.
  intros Hg Hsine Hqp.
  assert (Hv : HiFiGANSpec.valid a = true) by (apply init_iff; eauto).
  rewrite (init_valid a Hv) in Hg. injection Hg as <-.
  unfold HiFiGANGenerator.forward. simpl. rewrite Hsine.
  destruct (conv1d ops _ _ c) as [c0|e]; simpl; [|reflexivity].
  unfold for_range.
  rewrite (for_each_ext _ (HiFiGANGenerator.stage ops (HiFiGANSpec.built a) [] d)
             (HiFiGANGenerator.stage ops (HiFiGANSpec.built a) [] d')).
  - reflexivity.
  - intros i s. unfold HiFiGANGenerator.stage. simpl. rewrite Hsine, Hqp. reflexivity.
Qed.

(** The default generator, on shapes: another sine signal and a list of
    dilation factors instead of none. *)
Lemma C10_witness :
  HiFiGANGenerator.forward ShapeOps.ops
    (HiFiGANSpec.built (HiFiGANGenerator.Args.default 80))
    [1; 1; 12000] [1; 80; 100] None
  = HiFiGANGenerator.forward ShapeOps.ops
      (HiFiGANSpec.built (HiFiGANGenerator.Args.default 80))
      [7] [1; 80; 100] (Some [[1; 1; 3]]).
Proof.
  apply (C10_output_ignores_x_and_d ShapeOps.ops (HiFiGANGenerator.Args.default 80)
           _ _ _ _ _ _ eq_refl eq_refl eq_refl).
Defined.

(** ** Weight normalisation *)

Section WeightNormLemmas.
Import WeightNorm.

(** Induction on a tree of modules, with the property known of every
    child. *)
Lemma NNModule_forall_ind (P : NNModule → Prop) :
  (∀ cls params children, Forall P children → P (Mod cls params children)) →
  ∀ m, P m.
Proof.
  intros H. fix IH 1. intros [cls params children]. apply H.
  revert children. fix IHc 1. intros [|c children]; constructor.
  - apply IH.
  - apply IHc.
Qed.

Lemma map_result_map {A B C} (f : B → Result C) (g : A → B) (h : A → C) (l : list A) :
  Forall (λ a, f (g a) = Ok (h a)) l →
  map_result f (map g l) = Ok (map h l).
Proof.
  induction 1 as [|a l Ha _ IH]; simpl; [reflexivity|].
  rewrite Ha, bind_Ok_l, IH. reflexivity.
Qed.

Lemma map_result_id {A} (f : A → Result A) (l : list A) :
  Forall (λ a, f a = Ok a) l → map_result f l = Ok l.
Proof.
  intros H. rewrite <- (map_id l) at 1.
  rewrite (map_result_map f (λ a, a) (λ a, a)) by exact H. rewrite map_id. reflexivity.
Qed.

Lemma map_result_inv {A B} (f : A → Result B) (l : list A) (l' : list B) :
  map_result f l = Ok l' → Forall2 (λ a b, f a = Ok b) l l'.
Proof.
  revert l'. induction l as [|a l IH]; intros l'; simpl.
  - intros [= <-]. constructor.
  - intros (b & Hb & (r & Hr & [= <-])%bind_Ok)%bind_Ok. constructor; auto.
Qed.

Lemma never_normalized_children (cls : Class) (params : option Parameters)
    (children : list NNModule) :
  never_normalized (Mod cls params children) = true →
  Forall (λ c, never_normalized c = true) children.
Proof.
  simpl. intros [_ H]%andb_true_iff. apply Forall_forall. intros c Hc.
  rewrite forallb_forall in H. apply H. apply list_elem_of_In. exact Hc.
Qed.

(** Removing weight normalisation where there is none changes nothing:
    every module answers [ValueError], which [_remove_weight_norm]
    catches. *)
Lemma remove_never_normalized (m : NNModule) :
  never_normalized m = true → remove_weight_norm m = Ok m.
Proof.
  unfold remove_weight_norm.
  induction m as [cls params children IH] using NNModule_forall_ind.
  intros Hm. pose proof (never_normalized_children _ _ _ Hm) as Hch.
  cbn [apply]. rewrite map_result_id.
  - rewrite bind_Ok_l. simpl in Hm.
    destruct params as [[w|g v]|]; try reflexivity. discriminate.
  - rewrite Forall_forall in *. intros c Hc. apply (IH c Hc), (Hch c Hc).
Qed.

(** Resetting the parameters adds no hook. *)
Lemma reset_never_normalized (normal_ : Weights → Weights) (m m' : NNModule) :
  reset_parameters normal_ m = Ok m' →
  never_normalized m = true → never_normalized m' = true.
Proof.
  unfold reset_parameters. revert m'.
  induction m as [cls params children IH] using NNModule_forall_ind.
  intros m' Happly Hm. pose proof (never_normalized_children _ _ _ Hm) as Hch.
  cbn [apply] in Happly. apply bind_Ok in Happly as (children' & Hmap & Hfn).
  apply map_result_inv in Hmap.
  assert (Hch' : forallb never_normalized children' = true).
  { clear Hfn Hm. induction Hmap as [|c c' l l' Hc _ IHl]; [reflexivity|].
    rewrite Forall_cons in IH, Hch. destruct IH as [IHc IH], Hch as [Hcn Hch].
    simpl. rewrite (IHc c' Hc Hcn), (IHl IH Hch). reflexivity. }
  simpl in Hm. apply andb_true_iff in Hm as [Hp _].
  unfold _reset_parameters in Hfn.
  destruct (is_conv cls); [destruct params as [[w|g v]|]|];
    try discriminate; injection Hfn as <-; simpl; rewrite Hch', ?Hp; reflexivity.
Qed.

(** C8. On a generator none of whose modules carries a weight
    normalisation hook, [remove_weight_norm] raises nothing and returns
    the modules, weights included, as they were; this is the state of a
    generator constructed with [use_weight_norm=False], whose [__init__]
    only resets the parameters. *)
Theorem C8_remove_without_weight_norm :
  (∀ m, never_normalized m = true → remove_weight_norm m = Ok m)
  ∧ (∀ normal_ m m',
       never_normalized m = true →
       finish_init normal_ false m = Ok m' →
       remove_weight_norm m' = Ok m').
Proof.
  split; [exact remove_never_normalized|].
  intros normal_ m m' Hm Hinit. unfold finish_init in Hinit. rewrite bind_Ok_l in Hinit.
  apply remove_never_normalized. eapply reset_never_normalized; eassumption.
Qed.

Lemma C8_witness : remove_weight_norm small_generator = Ok small_generator.
Proof.
  apply (proj1 C8_remove_without_weight_norm). reflexivity.
Defined.

(** A row times the quotient of its norm by itself is the row. *)
Lemma weight_norm_row (row : Row) :
  norm row ≠ 0%R → map (λ x, x * (norm row / norm row))%R row = row.
Proof.
  intros Hn. transitivity (map (λ x : R, x) row); [|apply map_id].
  apply map_ext. intros x. field. exact Hn.
Qed.

Lemma weight_norm_of_norm (w : Weights) :
  Forall (λ row, norm row ≠ 0%R) w → _weight_norm w (norm_except_dim w) = w.
Proof.
  unfold _weight_norm, norm_except_dim.
  induction 1 as [|row w Hrow _ IH]; simpl; [reflexivity|].
  rewrite weight_norm_row by exact Hrow. rewrite IH. reflexivity.
Qed.

Lemma convs_have_weight_children (cls : Class) (params : option Parameters)
    (children : list NNModule) :
  convs_have_weight (Mod cls params children) = true →
  Forall (λ c, convs_have_weight c = true) children.
Proof.
  simpl. intros [_ H]%andb_true_iff. apply Forall_forall. intros c Hc.
  rewrite forallb_forall in H. apply H. apply list_elem_of_In. exact Hc.
Qed.

Lemma rows_nonzero_children (cls : Class) (params : option Parameters)
    (children : list NNModule) :
  rows_nonzero (Mod cls params children) → Forall rows_nonzero children.
Proof.
  simpl. intros [_ H]. change (map ?f ?l) with (f <$> l) in H.
  rewrite Forall_fmap in H. exact H.
Qed.

(** Applying weight normalisation to plain convolutions. *)
Lemma apply_weight_norm_normalized (m : NNModule) :
  never_normalized m = true → convs_have_weight m = true →
  apply_weight_norm m = Ok (normalized m).
Proof.
  unfold apply_weight_norm.
  induction m as [cls params children IH] using NNModule_forall_ind.
  intros Hm Hw.
  pose proof (never_normalized_children _ _ _ Hm) as Hch.
  pose proof (convs_have_weight_children _ _ _ Hw) as Hwch.
  cbn [apply normalized].
  rewrite <- (map_id children) at 1.
  rewrite (map_result_map _ (λ c, c) normalized).
  - rewrite bind_Ok_l. unfold _apply_weight_norm. cbn [class_of].
    simpl in Hm, Hw. apply andb_true_iff in Hm as [Hp _]. apply andb_true_iff in Hw as [Hc _].
    destruct (is_conv cls); [|reflexivity].
    destruct params as [[w|g v]|]; try discriminate. reflexivity.
  - rewrite Forall_forall in *. intros c Hc. apply (IH c Hc); auto.
Qed.

(** Removing it again. *)
Lemma remove_weight_norm_normalized (m : NNModule) :
  never_normalized m = true → rows_nonzero m →
  remove_weight_norm (normalized m) = Ok m.
Proof.
  unfold remove_weight_norm.
  induction m as [cls params children IH] using NNModule_forall_ind.
  intros Hm Hr.
  pose proof (never_normalized_children _ _ _ Hm) as Hch.
  pose proof (rows_nonzero_children _ _ _ Hr) as Hrch.
  cbn [apply normalized].
  rewrite (map_result_map _ normalized (λ c, c)).
  - rewrite bind_Ok_l, map_id. unfold _remove_weight_norm, remove_weight_norm_of.
    simpl in Hm, Hr. apply andb_true_iff in Hm as [Hp _]. destruct Hr as [Hrows _].
    destruct (is_conv cls).
    + destruct params as [[w|g v]|]; try discriminate; [|reflexivity].
      rewrite weight_norm_of_norm by (apply Hrows; reflexivity). reflexivity.
    + destruct params as [[w|g v]|]; try discriminate; reflexivity.
  - rewrite Forall_forall in *. intros c Hc. apply (IH c Hc); auto.
Qed.

(** The first element that raises decides, when the others return. *)
Lemma map_result_first_raise {A B C} (f : B → Result C) (g : A → B) (h : A → C)
    (P : A → bool) (e : Exception) (l : list A) :
  Forall (λ a, f (g a) = if P a then Raise e else Ok (h a)) l →
  map_result f (map g l) = if existsb P l then Raise e else Ok (map h l).
Proof.
  induction 1 as [|a l Ha _ IH]; simpl; [reflexivity|].
  rewrite Ha. destruct (P a); simpl; [reflexivity|].
  rewrite IH. destruct (existsb P l); reflexivity.
Qed.

Lemma has_conv_normalized (m : NNModule) : has_conv (normalized m) = has_conv m.
Proof.
  induction m as [cls params children IH] using NNModule_forall_ind.
  cbn [has_conv normalized]. f_equal.
  induction IH as [|c l Hc _ IHl]; simpl; [reflexivity|]. rewrite Hc, IHl. reflexivity.
Qed.

(** On a tree whose convolutions are all normalised already,
    [apply_weight_norm] is refused at the first convolution it meets. *)
Lemma apply_weight_norm_again (m : NNModule) :
  never_normalized m = true → convs_have_weight m = true →
  apply_weight_norm (normalized m)
  = if has_conv m then Raise RuntimeError else Ok (normalized m).
Proof.
  unfold apply_weight_norm.
  induction m as [cls params children IH] using NNModule_forall_ind.
  intros Hm Hw.
  pose proof (never_normalized_children _ _ _ Hm) as Hch.
  pose proof (convs_have_weight_children _ _ _ Hw) as Hwch.
  cbn [apply normalized has_conv].
  rewrite (map_result_first_raise _ normalized normalized has_conv RuntimeError).
  2: { rewrite Forall_forall in *. intros c Hc. apply (IH c Hc); auto. }
  destruct (existsb has_conv children); [rewrite orb_true_r; reflexivity|].
  rewrite bind_Ok_l, orb_false_r. unfold _apply_weight_norm. cbn [class_of].
  simpl in Hm, Hw. apply andb_true_iff in Hm as [Hp _].
  apply andb_true_iff in Hw as [Hc _].
  destruct (is_conv cls); [|reflexivity].
  destruct params as [[w|g v]|]; try discriminate. reflexivity.
Qed.

(** Resetting the parameters of a tree whose convolutions are all
    normalised changes no parameter. *)
Lemma reset_parameters_normalized (normal_ : Weights → Weights) (m : NNModule) :
  never_normalized m = true → convs_have_weight m = true →
  reset_parameters normal_ (normalized m) = Ok (normalized m).
Proof.
  unfold reset_parameters.
  induction m as [cls params children IH] using NNModule_forall_ind.
  intros Hm Hw.
  pose proof (never_normalized_children _ _ _ Hm) as Hch.
  pose proof (convs_have_weight_children _ _ _ Hw) as Hwch.
  cbn [apply normalized].
  rewrite (map_result_map _ normalized normalized).
  2: { rewrite Forall_forall in *. intros c Hc. apply (IH c Hc); auto. }
  rewrite bind_Ok_l. unfold _reset_parameters.
  simpl in Hm, Hw. apply andb_true_iff in Hm as [Hp _].
  apply andb_true_iff in Hw as [Hc _].
  destruct (is_conv cls); [|reflexivity].
  destruct params as [[w|g v]|]; try discriminate. reflexivity.
Qed.



Lemma norm_pos (x y : R) : (0 < x * x + (y * y + 0))%R → norm [x; y] ≠ 0%R.
Proof.
  intros H. unfold norm. simpl. apply Rgt_not_eq, Rlt_gt, sqrt_lt_R0, H.
Qed.

Lemma small_generator_rows_nonzero : rows_nonzero small_generator.
Proof.
  simpl.
  repeat match goal with
         | |- _ ∧ _ => split
         | |- Forall _ _ => constructor
         | |- norm _ ≠ _ => apply norm_pos; lra
         | |- _ = _ → _ => intros _
         | |- True => exact I
         end.
Qed.



(** A second [apply_weight_norm] is refused: [weight_norm] does not
    register two hooks on one weight. *)
Lemma apply_weight_norm_twice :
  apply_weight_norm (normalized small_generator) = Raise RuntimeError.
Proof. reflexivity. Qed.

End WeightNormLemmas.
(** * Further properties of the code *)

(** ** Loops and indexing *)

(** Two bodies that agree on the rounds of the loop give the same loop. *)
Lemma for_range_ext {S} (n : nat) (body body' : nat → S → Result S) (s : S) :
  (∀ k s, (k < n)%nat → body k s = body' k s) →
  for_range n body s = for_range n body' s.
Proof.
  intros H. induction n as [|n IH]; [reflexivity|].
  rewrite !for_range_S, IH by (intros; apply H; lia).
  destruct (for_range n body' s) as [s'|e]; simpl; [apply H; lia|reflexivity].
Qed.

(** A loop every round of which returns and keeps an invariant returns,
    with the invariant. *)
Lemma for_range_inv {S} (I : nat → S → Prop) (n : nat) (body : nat → S → Result S)
    (s : S) :
  I 0%nat s →
  (∀ k s, (k < n)%nat → I k s → ∃ s', body k s = Ok s' ∧ I (Datatypes.S k) s') →
  ∃ s', for_range n body s = Ok s' ∧ I n s'.
Proof.
  intros H0 Hstep. induction n as [|n IH]; [exists s; split; [reflexivity|exact H0]|].
  destruct IH as (s1 & Hs1 & HI); [intros; apply Hstep; (lia || assumption)|].
  destruct (Hstep n s1 ltac:(lia) HI) as (s2 & Hs2 & HI2).
  exists s2. rewrite for_range_S, Hs1. simpl. auto.
Qed.

(** A loop that returns has gone through every round, and none raised. *)
Lemma for_range_returns {S} (n : nat) (body : nat → S → Result S) (s r : S) :
  for_range n body s = Ok r →
  ∀ k, (k < n)%nat → ∃ sk sk', body k sk = Ok sk'.
Proof.
  revert r. induction n as [|n IH]; intros r H k Hk; [lia|].
  rewrite for_range_S in H. apply bind_Ok in H as (s1 & Hs1 & Hn).
  destruct (decide (k = n)) as [->|Hne]; [eauto|].
  apply (IH s1 Hs1). lia.
Qed.

(** [l[i]] for an index that is not negative reads the entry [i]. *)
Lemma getitem_lookup {A} (l : list A) (i : nat) :
  getitem l (Z.of_nat i)
  = match l !! i with Some a => Ok a | None => Raise IndexError end.
Proof.
  destruct (l !! i) as [a|] eqn:H.
  - apply getitem_nat, H.
  - apply getitem_nat_out, lookup_ge_None, H.
Qed.

Lemma getitem_Ok_lt {A} (l : list A) (i : nat) (a : A) :
  getitem l (Z.of_nat i) = Ok a → (i < length l)%nat.
Proof.
  rewrite getitem_lookup. destruct (l !! i) eqn:H; [|discriminate].
  intros _. apply lookup_lt_Some in H. exact H.
Qed.

Lemma getitem_returns {A} (l : list A) (i : nat) :
  (i < length l)%nat → ∃ a, getitem l (Z.of_nat i) = Ok a.
Proof.
  intros H. destruct (lookup_lt_is_Some_2 l i H) as [a Ha].
  exists a. apply getitem_nat, Ha.
Qed.

Lemma getitem_from_end_returns {A} (l : list A) (i : nat) :
  (i < length l)%nat → ∃ a, getitem l (- Z.of_nat i - 1) = Ok a.
Proof.
  intros H. destruct (lookup_lt_is_Some_2 l (length l - 1 - i)) as [a Ha]; [lia|].
  exists a. apply getitem_from_end; assumption.
Qed.

Lemma getitem_map_seq {A} (f : nat → A) (n i : nat) :
  (i < n)%nat → getitem (map f (seq 0 n)) (Z.of_nat i) = Ok (f i).
Proof.
  intros Hi. apply getitem_nat. change (map ?g ?l) with (g <$> l).
  rewrite list_lookup_fmap, lookup_seq_lt by exact Hi. reflexivity.
Qed.

Lemma getitem_map_reverse_seq {A} (f : nat → A) (n i : nat) :
  (i < n)%nat →
  getitem (map f (reverse (seq 0 n))) (Z.of_nat i) = Ok (f (n - 1 - i)%nat).
Proof.
  intros Hi. apply getitem_nat. change (map ?g ?l) with (g <$> l).
  rewrite list_lookup_fmap, reverse_lookup by (rewrite length_seq; lia).
  rewrite length_seq, lookup_seq_lt by lia. simpl. do 2 f_equal. lia.
Qed.

(** ** What the constructors accept *)

(** The check of the stages, entry by entry. *)
Lemma kernels_twice_scales_lookup (scales kernels : list Z) :
  length scales = length kernels →
  kernels_twice_scales scales kernels = true
  ↔ ∀ i k s, kernels !! i = Some k → scales !! i = Some s → k = 2 * s.
Proof.
  intros Hlen. rewrite kernels_twice_scales_spec by exact Hlen. split.
  - intros H i k s Hk Hs.
    pose proof (lookup_lt_Some _ _ _ Hk) as Hi.
    rewrite (lookup_total_Some kernels i) in Hk by lia.
    rewrite (lookup_total_Some scales i) in Hs by lia.
    injection Hk as <-. injection Hs as <-. apply H, Hi.
  - intros H i Hi. apply (H i); apply lookup_total_Some; lia.
Qed.

Lemma hifigan_valid_iff (a : HiFiGANGenerator.Args.t) :
  HiFiGANSpec.valid a = true
  ↔ a.(HiFiGANGenerator.Args.kernel_size) mod 2 = 1
    ∧ length a.(HiFiGANGenerator.Args.upsample_scales)
      = length a.(HiFiGANGenerator.Args.upsample_kernel_sizes)
    ∧ length a.(HiFiGANGenerator.Args.resblock_dilations)
      = length a.(HiFiGANGenerator.Args.resblock_kernel_sizes)
    ∧ (∀ i k s,
         a.(HiFiGANGenerator.Args.upsample_kernel_sizes) !! i = Some k →
         a.(HiFiGANGenerator.Args.upsample_scales) !! i = Some s → k = 2 * s)
    ∧ (a.(HiFiGANGenerator.Args.use_qp_resblocks) = true →
       length a.(HiFiGANGenerator.Args.upsample_kernel_sizes)
       ≤ length a.(HiFiGANGenerator.Args.qp_resblock_dilations))%nat
    ∧ (0 < length a.(HiFiGANGenerator.Args.upsample_kernel_sizes))%nat.
Proof.
  unfold HiFiGANSpec.valid.
  rewrite !andb_true_iff, !bool_decide_eq_true, Z.eqb_eq. split.
  - intros [[[[[Hodd Hs] Hd] Hk] Hq] Hn].
    repeat split; try assumption.
    + apply kernels_twice_scales_lookup; assumption.
    + intros Hqp. rewrite Hqp in Hq. apply bool_decide_eq_true in Hq. exact Hq.
  - intros (Hodd & Hs & Hd & Hk & Hq & Hn).
    repeat split; try assumption.
    + apply kernels_twice_scales_lookup; assumption.
    + destruct (HiFiGANGenerator.Args.use_qp_resblocks a); [|reflexivity].
      apply bool_decide_eq_true, Hq. reflexivity.
Qed.

(** X1. [HiFiGANGenerator.__init__] returns a generator only if
    [kernel_size] is odd, [upsample_scales] and [upsample_kernel_sizes]
    have the same length, which is not 0, [resblock_dilations] and
    [resblock_kernel_sizes] have the same length, every up-sampling
    kernel size is twice its scale and, with [use_qp_resblocks],
    [qp_resblock_dilations] has an entry for every stage; when one of
    these fails it raises. With empty stage lists it cannot return, the
    loop variable [i] being read after a loop that never ran. The three
    assertions it begins with come before any layer is built: an even
    [kernel_size], stage lists of different lengths or residual-block
    lists of different lengths give [AssertionError] whatever the other
    arguments are. *)
Theorem X1_hifigan_init_requires (a : HiFiGANGenerator.Args.t) :
  (∀ g, HiFiGANGenerator.init a = Ok g →
     a.(HiFiGANGenerator.Args.kernel_size) mod 2 = 1
     ∧ length a.(HiFiGANGenerator.Args.upsample_scales)
       = length a.(HiFiGANGenerator.Args.upsample_kernel_sizes)
     ∧ length a.(HiFiGANGenerator.Args.resblock_dilations)
       = length a.(HiFiGANGenerator.Args.resblock_kernel_sizes)
     ∧ (∀ i k s,
          a.(HiFiGANGenerator.Args.upsample_kernel_sizes) !! i = Some k →
          a.(HiFiGANGenerator.Args.upsample_scales) !! i = Some s → k = 2 * s)
     ∧ (a.(HiFiGANGenerator.Args.use_qp_resblocks) = true →
        length a.(HiFiGANGenerator.Args.upsample_kernel_sizes)
        ≤ length a.(HiFiGANGenerator.Args.qp_resblock_dilations))%nat
     ∧ (0 < length a.(HiFiGANGenerator.Args.upsample_kernel_sizes))%nat)
  ∧ (¬ (a.(HiFiGANGenerator.Args.kernel_size) mod 2 = 1
        ∧ length a.(HiFiGANGenerator.Args.upsample_scales)
          = length a.(HiFiGANGenerator.Args.upsample_kernel_sizes)
        ∧ length a.(HiFiGANGenerator.Args.resblock_dilations)
          = length a.(HiFiGANGenerator.Args.resblock_kernel_sizes)
        ∧ (∀ i k s,
             a.(HiFiGANGenerator.Args.upsample_kernel_sizes) !! i = Some k →
             a.(HiFiGANGenerator.Args.upsample_scales) !! i = Some s → k = 2 * s)
        ∧ (a.(HiFiGANGenerator.Args.use_qp_resblocks) = true →
           length a.(HiFiGANGenerator.Args.upsample_kernel_sizes)
           ≤ length a.(HiFiGANGenerator.Args.qp_resblock_dilations))%nat
        ∧ (0 < length a.(HiFiGANGenerator.Args.upsample_kernel_sizes))%nat) →
     raises (HiFiGANGenerator.init a))
  ∧ (a.(HiFiGANGenerator.Args.upsample_scales) = [] →
     a.(HiFiGANGenerator.Args.upsample_kernel_sizes) = [] →
     raises (HiFiGANGenerator.init a))
  ∧ (a.(HiFiGANGenerator.Args.kernel_size) mod 2 ≠ 1
     ∨ length a.(HiFiGANGenerator.Args.upsample_scales)
       ≠ length a.(HiFiGANGenerator.Args.upsample_kernel_sizes)
     ∨ length a.(HiFiGANGenerator.Args.resblock_dilations)
       ≠ length a.(HiFiGANGenerator.Args.resblock_kernel_sizes) →
     HiFiGANGenerator.init a = Raise AssertionError).
Proof.
  assert (Honly : ∀ g, HiFiGANGenerator.init a = Ok g → HiFiGANSpec.valid a = true)
    by (intros g Hg; apply init_iff; eauto).
  assert (Hraises : HiFiGANSpec.valid a ≠ true → raises (HiFiGANGenerator.init a)).
  { intros Hv. destruct (HiFiGANGenerator.init a) as [g|e] eqn:Hg; [|exists e; reflexivity].
    destruct Hv. apply (Honly g eq_refl). }
  split; [|split; [|split]].
  - intros g Hg. apply hifigan_valid_iff, (Honly g Hg).
  - intros Hnot. apply Hraises. intros Hv. apply Hnot, hifigan_valid_iff, Hv.
  - intros Hs Hk. apply Hraises. intros Hv.
    apply hifigan_valid_iff in Hv as (_ & _ & _ & _ & _ & Hn). rewrite Hk in Hn.
    simpl in Hn. lia.
  - intros Hbad. unfold HiFiGANGenerator.init. rewrite !eqb_len.
    destruct (Z.eqb_spec (HiFiGANGenerator.Args.kernel_size a mod 2) 1) as [Hodd|Hodd];
      [|reflexivity].
    destruct (decide (length (HiFiGANGenerator.Args.upsample_scales a)
                      = length (HiFiGANGenerator.Args.upsample_kernel_sizes a))) as [Hs|Hs];
      [rewrite (bool_decide_true _ Hs)|rewrite (bool_decide_false _ Hs); reflexivity].
    destruct (decide (length (HiFiGANGenerator.Args.resblock_dilations a)
                      = length (HiFiGANGenerator.Args.resblock_kernel_sizes a))) as [Hd|Hd];
      [rewrite (bool_decide_true _ Hd)|rewrite (bool_decide_false _ Hd); reflexivity].
    destruct Hbad as [Hbad|[Hbad|Hbad]]; contradiction.
Qed.

Lemma dual_valid_iff (scales kernels : list Z) (snp : SourceNetworkParams.t)
    (fnp : FilterNetworkParams.t) :
  DualSpec.valid_stages scales kernels snp fnp = true
  ↔ length scales = length kernels
    ∧ (∀ i k s, kernels !! i = Some k → scales !! i = Some s → k = 2 * s)
    ∧ (length kernels ≤ length snp.(SourceNetworkParams.resblock_dilations))%nat
    ∧ (length fnp.(FilterNetworkParams.resblock_kernel_sizes)
       ≤ length fnp.(FilterNetworkParams.resblock_dilations))%nat
    ∧ (0 < length kernels)%nat.
Proof.
  unfold DualSpec.valid_stages.
  rewrite !andb_true_iff, !bool_decide_eq_true. split.
  - intros [[[[Hs Hk] Hq] Hf] Hn]. repeat split; try assumption.
    apply kernels_twice_scales_lookup; assumption.
  - intros (Hs & Hk & Hq & Hf & Hn). repeat split; try assumption.
    apply kernels_twice_scales_lookup; assumption.
Qed.

(** X2. [SiFiGANGenerator.__init__] and
    [SiFiGANDirectGenerator.__init__] return a generator only if
    [kernel_size] is odd, the two stage lists have the same length,
    which is not 0, every up-sampling kernel size is twice its scale,
    [source_network_params["resblock_dilations"]] has an entry for every
    stage and [filter_network_params["resblock_dilations"]] one for
    every entry of [filter_network_params["resblock_kernel_sizes"]];
    when one of these fails they raise. The two assertions they begin
    with come before any layer is built: an even [kernel_size] or stage
    lists of different lengths give [AssertionError] whatever the other
    arguments are. *)
Theorem X2_dual_init_requires :
  (∀ a : SiFiGANGenerator.Args.t,
     (∀ g, SiFiGANGenerator.init a = Ok g →
        a.(SiFiGANGenerator.Args.kernel_size) mod 2 = 1
        ∧ length a.(SiFiGANGenerator.Args.upsample_scales)
          = length a.(SiFiGANGenerator.Args.upsample_kernel_sizes)
        ∧ (∀ i k s,
             a.(SiFiGANGenerator.Args.upsample_kernel_sizes) !! i = Some k →
             a.(SiFiGANGenerator.Args.upsample_scales) !! i = Some s → k = 2 * s)
        ∧ (length a.(SiFiGANGenerator.Args.upsample_kernel_sizes)
           ≤ length a.(SiFiGANGenerator.Args.source_network_params)
                    .(SourceNetworkParams.resblock_dilations))%nat
        ∧ (length a.(SiFiGANGenerator.Args.filter_network_params)
                   .(FilterNetworkParams.resblock_kernel_sizes)
           ≤ length a.(SiFiGANGenerator.Args.filter_network_params)
                    .(FilterNetworkParams.resblock_dilations))%nat
        ∧ (0 < length a.(SiFiGANGenerator.Args.upsample_kernel_sizes))%nat)
     ∧ (¬ (a.(SiFiGANGenerator.Args.kernel_size) mod 2 = 1
           ∧ length a.(SiFiGANGenerator.Args.upsample_scales)
             = length a.(SiFiGANGenerator.Args.upsample_kernel_sizes)
           ∧ (∀ i k s,
                a.(SiFiGANGenerator.Args.upsample_kernel_sizes) !! i = Some k →
                a.(SiFiGANGenerator.Args.upsample_scales) !! i = Some s → k = 2 * s)
           ∧ (length a.(SiFiGANGenerator.Args.upsample_kernel_sizes)
              ≤ length a.(SiFiGANGenerator.Args.source_network_params)
                       .(SourceNetworkParams.resblock_dilations))%nat
           ∧ (length a.(SiFiGANGenerator.Args.filter_network_params)
                      .(FilterNetworkParams.resblock_kernel_sizes)
              ≤ length a.(SiFiGANGenerator.Args.filter_network_params)
                       .(FilterNetworkParams.resblock_dilations))%nat
           ∧ (0 < length a.(SiFiGANGenerator.Args.upsample_kernel_sizes))%nat) →
        raises (SiFiGANGenerator.init a))
     ∧ (a.(SiFiGANGenerator.Args.kernel_size) mod 2 ≠ 1
        ∨ length a.(SiFiGANGenerator.Args.upsample_scales)
          ≠ length a.(SiFiGANGenerator.Args.upsample_kernel_sizes) →
        SiFiGANGenerator.init a = Raise AssertionError))
  ∧ (∀ a : SiFiGANDirectGenerator.Args.t,
     (∀ g, SiFiGANDirectGenerator.init a = Ok g →
        a.(SiFiGANDirectGenerator.Args.kernel_size) mod 2 = 1
        ∧ length a.(SiFiGANDirectGenerator.Args.upsample_scales)
          = length a.(SiFiGANDirectGenerator.Args.upsample_kernel_sizes)
        ∧ (∀ i k s,
             a.(SiFiGANDirectGenerator.Args.upsample_kernel_sizes) !! i = Some k →
             a.(SiFiGANDirectGenerator.Args.upsample_scales) !! i = Some s → k = 2 * s)
        ∧ (length a.(SiFiGANDirectGenerator.Args.upsample_kernel_sizes)
           ≤ length a.(SiFiGANDirectGenerator.Args.source_network_params)
                    .(SourceNetworkParams.resblock_dilations))%nat
        ∧ (length a.(SiFiGANDirectGenerator.Args.filter_network_params)
                   .(FilterNetworkParams.resblock_kernel_sizes)
           ≤ length a.(SiFiGANDirectGenerator.Args.filter_network_params)
                    .(FilterNetworkParams.resblock_dilations))%nat
        ∧ (0 < length a.(SiFiGANDirectGenerator.Args.upsample_kernel_sizes))%nat)
     ∧ (¬ (a.(SiFiGANDirectGenerator.Args.kernel_size) mod 2 = 1
           ∧ length a.(SiFiGANDirectGenerator.Args.upsample_scales)
             = length a.(SiFiGANDirectGenerator.Args.upsample_kernel_sizes)
           ∧ (∀ i k s,
                a.(SiFiGANDirectGenerator.Args.upsample_kernel_sizes) !! i = Some k →
                a.(SiFiGANDirectGenerator.Args.upsample_scales) !! i = Some s →
                k = 2 * s)
           ∧ (length a.(SiFiGANDirectGenerator.Args.upsample_kernel_sizes)
              ≤ length a.(SiFiGANDirectGenerator.Args.source_network_params)
                       .(SourceNetworkParams.resblock_dilations))%nat
           ∧ (length a.(SiFiGANDirectGenerator.Args.filter_network_params)
                      .(FilterNetworkParams.resblock_kernel_sizes)
              ≤ length a.(SiFiGANDirectGenerator.Args.filter_network_params)
                       .(FilterNetworkParams.resblock_dilations))%nat
           ∧ (0 < length a.(SiFiGANDirectGenerator.Args.upsample_kernel_sizes))%nat) →
        raises (SiFiGANDirectGenerator.init a))
     ∧ (a.(SiFiGANDirectGenerator.Args.kernel_size) mod 2 ≠ 1
        ∨ length a.(SiFiGANDirectGenerator.Args.upsample_scales)
          ≠ length a.(SiFiGANDirectGenerator.Args.upsample_kernel_sizes) →
        SiFiGANDirectGenerator.init a = Raise AssertionError)).
Proof.
  split; intros a.
  - assert (Hiff : SiFiGANSpec.valid a = true
                   ↔ a.(SiFiGANGenerator.Args.kernel_size) mod 2 = 1
                     ∧ DualSpec.valid_stages a.(SiFiGANGenerator.Args.upsample_scales)
                         a.(SiFiGANGenerator.Args.upsample_kernel_sizes)
                         a.(SiFiGANGenerator.Args.source_network_params)
                         a.(SiFiGANGenerator.Args.filter_network_params) = true)
      by (unfold SiFiGANSpec.valid; rewrite andb_true_iff, Z.eqb_eq; reflexivity).
    assert (Honly : ∀ g, SiFiGANGenerator.init a = Ok g → SiFiGANSpec.valid a = true)
      by (intros g Hg; apply sifigan_init_iff; eauto).
    split; [|split].
    + intros g Hg. apply Honly, Hiff in Hg as [Hodd Hv].
      apply dual_valid_iff in Hv. tauto.
    + intros Hnot.
      destruct (SiFiGANGenerator.init a) as [g|e] eqn:Hg; [|exists e; reflexivity].
      destruct Hnot. pose proof (Honly g eq_refl) as Hv.
      apply Hiff in Hv as [Hodd Hv]. apply dual_valid_iff in Hv. tauto.
    + intros Hbad. unfold SiFiGANGenerator.init. rewrite !eqb_len.
      destruct (Z.eqb_spec (SiFiGANGenerator.Args.kernel_size a mod 2) 1) as [Hodd|Hodd];
        [|reflexivity].
      destruct (decide (length (SiFiGANGenerator.Args.upsample_scales a)
                        = length (SiFiGANGenerator.Args.upsample_kernel_sizes a)))
        as [Hs|Hs];
        [rewrite (bool_decide_true _ Hs)|rewrite (bool_decide_false _ Hs); reflexivity].
      destruct Hbad as [Hbad|Hbad]; contradiction.
  - assert (Hiff : SiFiGANDirectSpec.valid a = true
                   ↔ a.(SiFiGANDirectGenerator.Args.kernel_size) mod 2 = 1
                     ∧ DualSpec.valid_stages
                         a.(SiFiGANDirectGenerator.Args.upsample_scales)
                         a.(SiFiGANDirectGenerator.Args.upsample_kernel_sizes)
                         a.(SiFiGANDirectGenerator.Args.source_network_params)
                         a.(SiFiGANDirectGenerator.Args.filter_network_params) = true)
      by (unfold SiFiGANDirectSpec.valid; rewrite andb_true_iff, Z.eqb_eq; reflexivity).
    assert (Honly : ∀ g, SiFiGANDirectGenerator.init a = Ok g
                         → SiFiGANDirectSpec.valid a = true)
      by (intros g Hg; apply direct_init_iff; eauto).
    split; [|split].
    + intros g Hg. apply Honly, Hiff in Hg as [Hodd Hv].
      apply dual_valid_iff in Hv. tauto.
    + intros Hnot.
      destruct (SiFiGANDirectGenerator.init a) as [g|e] eqn:Hg; [|exists e; reflexivity].
      destruct Hnot. pose proof (Honly g eq_refl) as Hv.
      apply Hiff in Hv as [Hodd Hv]. apply dual_valid_iff in Hv. tauto.
    + intros Hbad. unfold SiFiGANDirectGenerator.init. rewrite !eqb_len.
      destruct (Z.eqb_spec (SiFiGANDirectGenerator.Args.kernel_size a mod 2) 1)
        as [Hodd|Hodd]; [|reflexivity].
      destruct (decide (length (SiFiGANDirectGenerator.Args.upsample_scales a)
                        = length (SiFiGANDirectGenerator.Args.upsample_kernel_sizes a)))
        as [Hs|Hs];
        [rewrite (bool_decide_true _ Hs)|rewrite (bool_decide_false _ Hs); reflexivity].
      destruct Hbad as [Hbad|Hbad]; contradiction.
Qed.

(** ** The down-sampling stages of a constructed generator *)

Lemma downsample_mirrors_upsample (channels : Z) (bias : bool) (act : string)
    (params : list (string * Q)) (i : nat) (kernel scale : Z) :
  mirrors (downsample_stage channels bias act params i kernel scale)
          (upsample_stage channels bias act params i kernel scale).
Proof.
  unfold mirrors, downsample_stage, upsample_stage.
  eexists _, _, _. repeat split; reflexivity.
Qed.

(** The list a reversed loop fills, read against the list the forward
    loop fills. *)
Lemma reversed_stages_mirror (down up : nat → Sequential) (n j : nat) :
  (∀ i, mirrors (down i) (up i)) →
  (j < n)%nat →
  ∃ d u, map down (reverse (seq 0 n)) !! j = Some d
         ∧ map up (seq 0 n) !! (n - 1 - j)%nat = Some u
         ∧ mirrors d u.
Proof.
  intros Hm Hj. exists (down (n - 1 - j)%nat), (up (n - 1 - j)%nat).
  change (map ?f ?l) with (f <$> l).
  rewrite !list_lookup_fmap, reverse_lookup by (rewrite length_seq; lia).
  rewrite length_seq, !lookup_seq_lt by lia. simpl.
  replace (n - S j)%nat with (n - 1 - j)%nat by lia.
  split; [reflexivity|]. split; [reflexivity|apply Hm].
Qed.

Lemma hifigan_downsamples_length (a : HiFiGANGenerator.Args.t) (g : HiFiGANGenerator.t)
    (downs : list Sequential) :
  HiFiGANGenerator.init a = Ok g →
  g.(HiFiGANGenerator.downsamples) = Some downs →
  length downs = g.(HiFiGANGenerator.num_upsamples).
Proof.
  intros Hg Hd.
  assert (Hv : HiFiGANSpec.valid a = true) by (apply init_iff; eauto).
  rewrite (init_valid a Hv) in Hg. injection Hg as <-. simpl in *.
  destruct (HiFiGANGenerator.Args.use_sine_embs a); [|discriminate].
  injection Hd as <-. rewrite length_map, length_reverse, length_seq. reflexivity.
Qed.

Lemma sifigan_downsamples_length (a : SiFiGANGenerator.Args.t) (g : SiFiGANGenerator.t) :
  SiFiGANGenerator.init a = Ok g →
  length g.(SiFiGANGenerator.sn).(SourceNetwork.downsamples)
  = g.(SiFiGANGenerator.num_upsamples).
Proof.
  intros Hg.
  assert (Hv : SiFiGANSpec.valid a = true) by (apply sifigan_init_iff; eauto).
  rewrite (sifigan_init_valid a Hv) in Hg. injection Hg as <-. simpl.
  unfold SiFiGANSpec.downsamples_built, DualSpec.downsamples_built.
  rewrite length_map, length_reverse, length_seq. reflexivity.
Qed.

Lemma direct_downsamples_length (a : SiFiGANDirectGenerator.Args.t)
    (g : SiFiGANDirectGenerator.t) :
  SiFiGANDirectGenerator.init a = Ok g →
  length g.(SiFiGANDirectGenerator.sn).(SourceNetwork.downsamples)
  = g.(SiFiGANDirectGenerator.num_upsamples).
Proof.
  intros Hg.
  assert (Hv : SiFiGANDirectSpec.valid a = true) by (apply direct_init_iff; eauto).
  rewrite (direct_init_valid a Hv) in Hg. injection Hg as <-. simpl.
  unfold SiFiGANDirectSpec.downsamples_built, DualSpec.downsamples_built.
  rewrite length_map, length_reverse, length_seq. reflexivity.
Qed.

(** X3. In every generator a constructor builds, the list of
    down-sampling stages has one entry per up-sampling stage, in the
    reverse order: entry [j] undoes up-sampling stage
    [num_upsamples - 1 - j], with the same activation, kernel size and
    stride and with the channel counts the other way round. This holds
    for [downsamples] of a HiFiGAN generator with sine embeddings, for
    [sn["downsamples"]] and [fn["downsamples"]] of a SiFiGAN generator
    and for [sn["downsamples"]] of a direct one. *)
Theorem X3_downsamples_mirror_upsamples :
  (∀ a g downs,
     HiFiGANGenerator.init a = Ok g →
     g.(HiFiGANGenerator.downsamples) = Some downs →
     length downs = g.(HiFiGANGenerator.num_upsamples)
     ∧ ∀ j, (j < g.(HiFiGANGenerator.num_upsamples))%nat →
         ∃ down up,
           downs !! j = Some down
           ∧ g.(HiFiGANGenerator.upsamples)
               !! (g.(HiFiGANGenerator.num_upsamples) - 1 - j)%nat = Some up
           ∧ mirrors down up)
  ∧ (∀ a g downs,
       SiFiGANGenerator.init a = Ok g →
       downs = g.(SiFiGANGenerator.sn).(SourceNetwork.downsamples)
       ∨ g.(SiFiGANGenerator.fn).(FilterNetwork.downsamples) = Some downs →
       length downs = g.(SiFiGANGenerator.num_upsamples)
       ∧ ∀ j, (j < g.(SiFiGANGenerator.num_upsamples))%nat →
           ∃ down up,
             downs !! j = Some down
             ∧ g.(SiFiGANGenerator.sn).(SourceNetwork.upsamples)
                 !! (g.(SiFiGANGenerator.num_upsamples) - 1 - j)%nat = Some up
             ∧ mirrors down up)
  ∧ (∀ a g,
       SiFiGANDirectGenerator.init a = Ok g →
       length g.(SiFiGANDirectGenerator.sn).(SourceNetwork.downsamples)
       = g.(SiFiGANDirectGenerator.num_upsamples)
       ∧ ∀ j, (j < g.(SiFiGANDirectGenerator.num_upsamples))%nat →
           ∃ down up,
             g.(SiFiGANDirectGenerator.sn).(SourceNetwork.downsamples) !! j = Some down
             ∧ g.(SiFiGANDirectGenerator.sn).(SourceNetwork.upsamples)
                 !! (g.(SiFiGANDirectGenerator.num_upsamples) - 1 - j)%nat = Some up
             ∧ mirrors down up).
Proof.
  split; [|split].
  - intros a g downs Hg Hd.
    assert (Hv : HiFiGANSpec.valid a = true) by (apply init_iff; eauto).
    rewrite (init_valid a Hv) in Hg. injection Hg as <-. simpl in *.
    destruct (HiFiGANGenerator.Args.use_sine_embs a); [|discriminate].
    injection Hd as <-. split.
    + rewrite length_map, length_reverse, length_seq. reflexivity.
    + intros j Hj. apply reversed_stages_mirror; [|exact Hj].
      intros i. apply downsample_mirrors_upsample.
  - intros a g downs Hg Hd.
    assert (Hv : SiFiGANSpec.valid a = true) by (apply sifigan_init_iff; eauto).
    rewrite (sifigan_init_valid a Hv) in Hg. injection Hg as <-. simpl in *.
    assert (Hdowns : downs = SiFiGANSpec.downsamples_built a).
    { destruct Hd as [->|Hd]; [reflexivity|].
      destruct (negb _); [|discriminate]. injection Hd as <-. reflexivity. }
    rewrite Hdowns. unfold SiFiGANSpec.downsamples_built, DualSpec.downsamples_built.
    split.
    + rewrite length_map, length_reverse, length_seq. reflexivity.
    + intros j Hj. apply reversed_stages_mirror; [|exact Hj].
      intros i. apply downsample_mirrors_upsample.
  - intros a g Hg.
    assert (Hv : SiFiGANDirectSpec.valid a = true) by (apply direct_init_iff; eauto).
    rewrite (direct_init_valid a Hv) in Hg. injection Hg as <-. simpl in *.
    unfold SiFiGANDirectSpec.downsamples_built, DualSpec.downsamples_built.
    split.
    + rewrite length_map, length_reverse, length_seq. reflexivity.
    + intros j Hj. apply reversed_stages_mirror; [|exact Hj].
      intros i. apply downsample_mirrors_upsample.
Qed.

(** The default HiFiGAN generator with sine embeddings: four
    down-sampling stages, the first of which undoes the last up-sampling
    stage. *)
Lemma X3_witness :
  length (map (HiFiGANSpec.downsample_of hifigan_sine) (reverse (seq 0 4))) = 4%nat
  ∧ ∀ j, (j < 4)%nat →
      ∃ down up,
        map (HiFiGANSpec.downsample_of hifigan_sine) (reverse (seq 0 4)) !! j = Some down
        ∧ (HiFiGANSpec.built hifigan_sine).(HiFiGANGenerator.upsamples)
            !! (4 - 1 - j)%nat = Some up
        ∧ mirrors down up.
Proof.
  exact (proj1 X3_downsamples_mirror_upsamples hifigan_sine
           (HiFiGANSpec.built hifigan_sine) _ eq_refl eq_refl).
Defined.

(** ** The residual blocks of the two-network generators *)

Section DualBlocks.
Variables (channels : Z) (bias : bool) (act : string) (params : list (string * Q)).
Variables (scales kernels : list Z).
Variable snp : SourceNetworkParams.t.
Variable fnp : FilterNetworkParams.t.
Variable share : bool.
Local Abbreviation n := (length kernels).
Local Abbreviation nb := (length fnp.(FilterNetworkParams.resblock_kernel_sizes)).
Local Abbreviation built_stages :=
  (DualSpec.stages_upto channels bias act params scales kernels snp fnp share n).

Hypothesis Hvalid : DualSpec.valid_stages scales kernels snp fnp = true.

(** The adaptive block of stage [i] and the filter block [j] of stage
    [i], as the constructors' arguments determine them. *)
Lemma dual_blocks_built (i : nat) :
  (i < n)%nat →
  (∃ block,
     built_stages.(DualNetwork.sn_blocks) !! i = Some block
     ∧ block.(ResidualBlock.kernel_size) = snp.(SourceNetworkParams.resblock_kernel_size)
     ∧ block.(ResidualBlock.channels) = channels / pow2 (i + 1)
     ∧ snp.(SourceNetworkParams.resblock_dilations) !! i
       = Some block.(ResidualBlock.dilations)
     ∧ block.(ResidualBlock.use_additional_convs)
       = snp.(SourceNetworkParams.use_additional_convs))
  ∧ (∀ j kernel_size,
       fnp.(FilterNetworkParams.resblock_kernel_sizes) !! j = Some kernel_size →
       ∃ block,
         built_stages.(DualNetwork.fn_blocks) !! (i * nb + j)%nat = Some block
         ∧ block.(ResidualBlock.kernel_size) = kernel_size
         ∧ block.(ResidualBlock.channels) = channels / pow2 (i + 1)
         ∧ fnp.(FilterNetworkParams.resblock_dilations) !! j
           = Some block.(ResidualBlock.dilations)
         ∧ block.(ResidualBlock.use_additional_convs)
           = fnp.(FilterNetworkParams.use_additional_convs)).
Proof.
  intros Hi. apply dual_valid_iff in Hvalid as (_ & _ & Hq & Hf & _).
  cbn [DualSpec.stages_upto DualNetwork.sn_blocks DualNetwork.fn_blocks]. split.
  - eexists. split.
    + change (map ?f ?l) with (f <$> l).
      rewrite list_lookup_fmap, lookup_seq_lt by exact Hi. reflexivity.
    + cbn [DualSpec.sn_block_of ResidualBlock.kernel_size ResidualBlock.channels
           ResidualBlock.dilations ResidualBlock.use_additional_convs].
      repeat split. simpl. apply list_lookup_lookup_total_lt. lia.
  - intros j kernel_size Hj. pose proof (lookup_lt_Some _ _ _ Hj) as Hjlt.
    eexists. split.
    + unfold DualSpec.fn_blocks_upto. change (map ?f ?l) with (f <$> l).
      rewrite list_lookup_fmap, lookup_seq_lt by nia. reflexivity.
    + assert (Hdiv : ((i * nb + j) / nb = i)%nat).
      { rewrite Nat.add_comm, Nat.div_add by lia. rewrite Nat.div_small by lia. lia. }
      assert (Hmod : ((i * nb + j) mod nb = j)%nat).
      { rewrite Nat.add_comm, Nat.Div0.mod_add. apply Nat.mod_small. lia. }
      cbn [DualSpec.fn_block_of ResidualBlock.kernel_size ResidualBlock.channels
           ResidualBlock.dilations ResidualBlock.use_additional_convs fmap].
      simpl. rewrite Hdiv, Hmod. repeat split.
      * rewrite (list_lookup_lookup_total_lt _ j Hjlt) in Hj. congruence.
      * apply list_lookup_lookup_total_lt. lia.
Qed.

Lemma dual_blocks_lengths :
  length built_stages.(DualNetwork.sn_blocks) = n
  ∧ length built_stages.(DualNetwork.fn_blocks) = (n * nb)%nat.
Proof.
  clear Hvalid.
  cbn [DualSpec.stages_upto DualNetwork.sn_blocks DualNetwork.fn_blocks].
  unfold DualSpec.fn_blocks_upto. rewrite !length_map, !length_seq. auto.
Qed.

End DualBlocks.

(** X20. In a constructed SiFiGAN or direct generator the source
    network has one adaptive block per stage and the filter network
    [len(filter_network_params["resblock_kernel_sizes"])] blocks per
    stage, stage after stage. The block of stage [i] of the source
    network has the kernel size of [source_network_params], the
    dilations [resblock_dilations[i]] and [channels // 2 ** (i + 1)]
    channels; block [i * num_blocks + j] of the filter network, the one
    [forward] reads as block [j] of stage [i], has the kernel size
    [resblock_kernel_sizes[j]], the dilations [resblock_dilations[j]]
    and the same number of channels. *)
Theorem X20_dual_blocks :
  (∀ a g i,
     SiFiGANGenerator.init a = Ok g →
     (i < g.(SiFiGANGenerator.num_upsamples))%nat →
     length g.(SiFiGANGenerator.sn).(SourceNetwork.blocks)
     = g.(SiFiGANGenerator.num_upsamples)
     ∧ length g.(SiFiGANGenerator.fn).(FilterNetwork.blocks)
       = (g.(SiFiGANGenerator.num_upsamples)
          * length a.(SiFiGANGenerator.Args.filter_network_params)
                    .(FilterNetworkParams.resblock_kernel_sizes))%nat
     ∧ (∃ block,
          g.(SiFiGANGenerator.sn).(SourceNetwork.blocks) !! i = Some block
          ∧ block.(ResidualBlock.kernel_size)
            = a.(SiFiGANGenerator.Args.source_network_params)
               .(SourceNetworkParams.resblock_kernel_size)
          ∧ block.(ResidualBlock.channels)
            = a.(SiFiGANGenerator.Args.channels) / pow2 (i + 1)
          ∧ a.(SiFiGANGenerator.Args.source_network_params)
             .(SourceNetworkParams.resblock_dilations) !! i
            = Some block.(ResidualBlock.dilations)
          ∧ block.(ResidualBlock.use_additional_convs)
            = a.(SiFiGANGenerator.Args.source_network_params)
               .(SourceNetworkParams.use_additional_convs))
     ∧ (∀ j kernel_size,
          a.(SiFiGANGenerator.Args.filter_network_params)
           .(FilterNetworkParams.resblock_kernel_sizes) !! j = Some kernel_size →
          ∃ block,
            g.(SiFiGANGenerator.fn).(FilterNetwork.blocks)
              !! (i * length a.(SiFiGANGenerator.Args.filter_network_params)
                              .(FilterNetworkParams.resblock_kernel_sizes) + j)%nat
            = Some block
            ∧ block.(ResidualBlock.kernel_size) = kernel_size
            ∧ block.(ResidualBlock.channels)
              = a.(SiFiGANGenerator.Args.channels) / pow2 (i + 1)
            ∧ a.(SiFiGANGenerator.Args.filter_network_params)
               .(FilterNetworkParams.resblock_dilations) !! j
              = Some block.(ResidualBlock.dilations)
            ∧ block.(ResidualBlock.use_additional_convs)
              = a.(SiFiGANGenerator.Args.filter_network_params)
                 .(FilterNetworkParams.use_additional_convs)))
  ∧ (∀ a g i,
       SiFiGANDirectGenerator.init a = Ok g →
       (i < g.(SiFiGANDirectGenerator.num_upsamples))%nat →
       length g.(SiFiGANDirectGenerator.sn).(SourceNetwork.blocks)
       = g.(SiFiGANDirectGenerator.num_upsamples)
       ∧ length g.(SiFiGANDirectGenerator.fn).(FilterNetwork.blocks)
         = (g.(SiFiGANDirectGenerator.num_upsamples)
            * length a.(SiFiGANDirectGenerator.Args.filter_network_params)
                      .(FilterNetworkParams.resblock_kernel_sizes))%nat
       ∧ (∃ block,
            g.(SiFiGANDirectGenerator.sn).(SourceNetwork.blocks) !! i = Some block
            ∧ block.(ResidualBlock.kernel_size)
              = a.(SiFiGANDirectGenerator.Args.source_network_params)
                 .(SourceNetworkParams.resblock_kernel_size)
            ∧ block.(ResidualBlock.channels)
              = a.(SiFiGANDirectGenerator.Args.channels) / pow2 (i + 1)
            ∧ a.(SiFiGANDirectGenerator.Args.source_network_params)
               .(SourceNetworkParams.resblock_dilations) !! i
              = Some block.(ResidualBlock.dilations)
            ∧ block.(ResidualBlock.use_additional_convs)
              = a.(SiFiGANDirectGenerator.Args.source_network_params)
                 .(SourceNetworkParams.use_additional_convs))
       ∧ (∀ j kernel_size,
            a.(SiFiGANDirectGenerator.Args.filter_network_params)
             .(FilterNetworkParams.resblock_kernel_sizes) !! j = Some kernel_size →
            ∃ block,
              g.(SiFiGANDirectGenerator.fn).(FilterNetwork.blocks)
                !! (i * length a.(SiFiGANDirectGenerator.Args.filter_network_params)
                                .(FilterNetworkParams.resblock_kernel_sizes) + j)%nat
              = Some block
              ∧ block.(ResidualBlock.kernel_size) = kernel_size
              ∧ block.(ResidualBlock.channels)
                = a.(SiFiGANDirectGenerator.Args.channels) / pow2 (i + 1)
              ∧ a.(SiFiGANDirectGenerator.Args.filter_network_params)
                 .(FilterNetworkParams.resblock_dilations) !! j
                = Some block.(ResidualBlock.dilations)
              ∧ block.(ResidualBlock.use_additional_convs)
                = a.(SiFiGANDirectGenerator.Args.filter_network_params)
                   .(FilterNetworkParams.use_additional_convs))).
Proof.
  split.
  - intros a g i Hg Hi.
    assert (Hv : SiFiGANSpec.valid a = true) by (apply sifigan_init_iff; eauto).
    rewrite (sifigan_init_valid a Hv) in Hg. injection Hg as <-.
    unfold SiFiGANSpec.valid in Hv. apply andb_true_iff in Hv as [_ Hv].
    cbn [SiFiGANGenerator.num_upsamples SiFiGANGenerator.sn SiFiGANGenerator.fn
         SiFiGANSpec.built SourceNetwork.blocks FilterNetwork.blocks] in *.
    unfold SiFiGANSpec.stages.
    split; [apply dual_blocks_lengths|]. split; [apply dual_blocks_lengths|].
    apply dual_blocks_built; assumption.
  - intros a g i Hg Hi.
    assert (Hv : SiFiGANDirectSpec.valid a = true) by (apply direct_init_iff; eauto).
    rewrite (direct_init_valid a Hv) in Hg. injection Hg as <-.
    unfold SiFiGANDirectSpec.valid in Hv. apply andb_true_iff in Hv as [_ Hv].
    cbn [SiFiGANDirectGenerator.num_upsamples SiFiGANDirectGenerator.sn
         SiFiGANDirectGenerator.fn SiFiGANDirectSpec.built SourceNetwork.blocks
         FilterNetwork.blocks] in *.
    unfold SiFiGANDirectSpec.stages.
    split; [apply dual_blocks_lengths|]. split; [apply dual_blocks_lengths|].
    apply dual_blocks_built; assumption.
Qed.

(** Stage 2 of the default SiFiGAN generator: the adaptive block with
    64 channels and the dilations (1, 2, 4), and the filter block 7 with
    kernel size 5. *)
Lemma X20_witness :
  length (SiFiGANSpec.built (SiFiGANGenerator.Args.default 80))
           .(SiFiGANGenerator.sn).(SourceNetwork.blocks) = 4%nat
  ∧ length (SiFiGANSpec.built (SiFiGANGenerator.Args.default 80))
             .(SiFiGANGenerator.fn).(FilterNetwork.blocks) = (4 * 3)%nat
  ∧ (∃ block,
       (SiFiGANSpec.built (SiFiGANGenerator.Args.default 80))
         .(SiFiGANGenerator.sn).(SourceNetwork.blocks) !! 2%nat = Some block
       ∧ block.(ResidualBlock.kernel_size) = 3
       ∧ block.(ResidualBlock.channels) = 512 / pow2 (2 + 1)
       ∧ [[1]; [1; 2]; [1; 2; 4]; [1; 2; 4; 8]] !! 2%nat
         = Some block.(ResidualBlock.dilations)
       ∧ block.(ResidualBlock.use_additional_convs) = true)
  ∧ (∀ j kernel_size,
       [3; 5; 7] !! j = Some kernel_size →
       ∃ block,
         (SiFiGANSpec.built (SiFiGANGenerator.Args.default 80))
           .(SiFiGANGenerator.fn).(FilterNetwork.blocks) !! (2 * 3 + j)%nat = Some block
         ∧ block.(ResidualBlock.kernel_size) = kernel_size
         ∧ block.(ResidualBlock.channels) = 512 / pow2 (2 + 1)
         ∧ [[1; 3; 5]; [1; 3; 5]; [1; 3; 5]] !! j = Some block.(ResidualBlock.dilations)
         ∧ block.(ResidualBlock.use_additional_convs) = false).
Proof.
  apply (proj1 X20_dual_blocks (SiFiGANGenerator.Args.default 80)
           (SiFiGANSpec.built (SiFiGANGenerator.Args.default 80)) 2%nat eq_refl).
  simpl. lia.
Defined.

(** ** The bookkeeping of the forward passes

    What [forward] itself needs in order to return, apart from the
    layers: attributes that are set, indices in range, at least one
    residual block to divide by. *)

Lemma run_from_returns {T} (ops : Ops T) (p : Path) (k : nat) (ls : list Layer) (x : T) :
  total_ops ops → ∃ y, run_from ops p k ls x = Ok y.
Proof.
  intros Ht. revert k x. induction ls as [|l ls IH]; intros k x; simpl; [eauto|].
  assert (Hl : ∃ y, run_layer ops (p ++ [Idx k]) l x = Ok y).
  { destruct l; simpl.
    - apply (nonlinearity_returns ops Ht).
    - apply (conv1d_returns ops Ht).
    - apply (conv_transpose1d_returns ops Ht).
    - apply (tanh_returns ops Ht). }
  destruct Hl as [y ->]. rewrite bind_Ok_l. apply IH.
Qed.

Lemma run_returns {T} (ops : Ops T) (p : Path) (s : Sequential) (x : T) :
  total_ops ops → ∃ y, run ops p s x = Ok y.
Proof. apply run_from_returns. Qed.

(** The averaging loop returns only when there is a block. *)
Lemma average_blocks_Ok_pos {T} (ops : Ops T) (p : Path) (blocks : list ResidualBlock.t)
    (num_blocks i : nat) (c r : T) :
  average_blocks ops p blocks num_blocks i c = Ok r → (0 < num_blocks)%nat.
Proof.
  destruct num_blocks; [|lia]. rewrite average_blocks_none. discriminate.
Qed.

(** It returns when the layers do and the blocks of the stage exist. *)
Lemma average_blocks_returns {T} (ops : Ops T) (p : Path) (blocks : list ResidualBlock.t)
    (num_blocks i : nat) (c : T) :
  total_ops ops →
  (0 < num_blocks)%nat →
  (i * num_blocks + num_blocks ≤ length blocks)%nat →
  ∃ r, average_blocks ops p blocks num_blocks i c = Ok r.
Proof.
  intros Ht Hnb Hlen. unfold average_blocks.
  destruct (for_range_inv
              (λ k cs, (0 < k)%nat → ∃ t, cs = AccTensor t)
              num_blocks (block_step ops p blocks num_blocks i c) (AccFloat 0%Q))
    as (cs & -> & Hcs).
  - intros H. lia.
  - intros k cs Hk _. unfold block_step.
    replace (Z.of_nat i * Z.of_nat num_blocks + Z.of_nat k)
      with (Z.of_nat (i * num_blocks + k)) by lia.
    destruct (getitem_returns blocks (i * num_blocks + k)) as [block ->]; [lia|].
    rewrite bind_Ok_l.
    destruct (residual_block_returns ops Ht (p ++ [Idx (i * num_blocks + k)]) block c)
      as [y ->].
    rewrite bind_Ok_l. destruct cs as [q|t]; simpl.
    + destruct (radd_returns ops Ht q y) as [t ->]. simpl. eauto.
    + destruct (iadd_returns ops Ht t y) as [t' ->]. simpl. eauto.
  - rewrite bind_Ok_l. destruct (Hcs Hnb) as [t ->]. simpl.
    apply (truediv_returns ops Ht). lia.
Qed.

(** The cascade gives one embedding more than it runs stages. *)
Lemma cascade_length {T} (ops : Ops T) (p : Path) (downsamples : list Sequential)
    (num_upsamples : nat) (x : T) (embs : list T) :
  cascade ops p downsamples num_upsamples x = Ok embs →
  length embs = S (num_upsamples - 1).
Proof.
  unfold cascade. generalize (num_upsamples - 1)%nat. intros m.
  intros (st & Hst & [= <-])%bind_Ok. revert st Hst.
  induction m as [|m IH]; intros st Hst.
  - injection Hst as <-. reflexivity.
  - rewrite for_range_S in Hst. apply bind_Ok in Hst as ([x1 embs1] & H1 & Hstep).
    specialize (IH _ H1). simpl in IH. unfold downsample_step in Hstep.
    apply bind_Ok in Hstep as (down & _ & (x2 & _ & [= <-])%bind_Ok).
    simpl. rewrite length_app. simpl. lia.
Qed.

Lemma cascade_returns {T} (ops : Ops T) (p : Path) (downsamples : list Sequential)
    (num_upsamples : nat) (x : T) :
  total_ops ops →
  (num_upsamples - 1 ≤ length downsamples)%nat →
  ∃ embs, cascade ops p downsamples num_upsamples x = Ok embs.
Proof.
  intros Ht Hlen. unfold cascade.
  destruct (for_range_inv (λ _ _, True) (num_upsamples - 1)
              (downsample_step ops p downsamples) (x, [x])) as (st & -> & _).
  - exact I.
  - intros k [x1 embs1] Hk _. unfold downsample_step.
    destruct (getitem_returns downsamples k) as [down ->]; [lia|]. rewrite bind_Ok_l.
    destruct (run_returns ops (p ++ [Idx k]) down x1 Ht) as [y ->].
    rewrite bind_Ok_l. eauto.
  - rewrite bind_Ok_l. eauto.
Qed.

Section HiFiGANBookkeeping.
Import HiFiGANGenerator.
Context {T : Type} (ops : Ops T).

(** A stage that returns has found a block to average and, with
    adaptive blocks, its dilation factors. *)
Lemma stage_returns_inv (g : t) (embs : list T) (d : option (list T)) (i : nat) (c r : T) :
  stage ops g embs d i c = Ok r →
  (0 < g.(num_blocks))%nat
  ∧ (g.(use_qp_resblocks) = true → ∃ dl, d = Some dl ∧ (i < length dl)%nat).
Proof.
  unfold stage.
  intros (up & _ & (c1 & _ & (c2 & _ & (c3 & Hqp & Havg)%bind_Ok)%bind_Ok)%bind_Ok)%bind_Ok.
  split; [eapply average_blocks_Ok_pos, Havg|].
  intros Hflag. rewrite Hflag in Hqp.
  apply bind_Ok in Hqp as (qps & _ & (qp & _ & (di & Hd & _)%bind_Ok)%bind_Ok).
  destruct d as [dl|]; [|discriminate].
  exists dl. split; [reflexivity|]. eapply getitem_Ok_lt, Hd.
Qed.

Lemma stage_returns (a : Args.t) (embs : list T) (d : option (list T)) (i : nat) (c : T) :
  total_ops ops →
  HiFiGANSpec.valid a = true →
  (i < length a.(Args.upsample_kernel_sizes))%nat →
  (a.(Args.use_sine_embs) = true → length embs = length a.(Args.upsample_kernel_sizes)) →
  (0 < length a.(Args.resblock_kernel_sizes))%nat →
  (a.(Args.use_qp_resblocks) = true → ∃ dl, d = Some dl ∧ (i < length dl)%nat) →
  ∃ r, stage ops (HiFiGANSpec.built a) embs d i c = Ok r.
Proof.
  intros Ht Hv Hi Hembs Hnb Hd. unfold stage.
  cbn [upsamples HiFiGANSpec.built use_sine_embs use_qp_resblocks qp_blocks blocks
       num_blocks].
  destruct (getitem_returns (map (HiFiGANSpec.upsample_of a)
                               (seq 0 (length a.(Args.upsample_kernel_sizes)))) i)
    as [up ->]; [rewrite length_map, length_seq; exact Hi|].
  rewrite bind_Ok_l.
  destruct (run_returns ops [Attr "upsamples"; Idx i] up c Ht) as [c1 ->].
  rewrite bind_Ok_l.
  assert (Hsine : ∃ c2, (if a.(Args.use_sine_embs)
                         then e ← getitem embs (- Z.of_nat i - 1); add ops c1 e
                         else Ok c1) = Ok c2).
  { destruct (Args.use_sine_embs a); [|eauto].
    destruct (getitem_from_end_returns embs i) as [e ->];
      [rewrite Hembs by reflexivity; exact Hi|].
    rewrite bind_Ok_l. apply (add_returns ops Ht). }
  destruct Hsine as [c2 ->]. rewrite bind_Ok_l.
  assert (Hqp : ∃ c3,
            (if a.(Args.use_qp_resblocks)
             then qp_blocks ← attr (if a.(Args.use_qp_resblocks)
                                    then Some (map (HiFiGANSpec.qp_block_of a)
                                                 (seq 0 (length a.(Args.upsample_kernel_sizes))))
                                    else None);
                  qp ← getitem qp_blocks (Z.of_nat i);
                  di ← match d with
                       | Some d => getitem d (Z.of_nat i)
                       | None => Raise TypeError
                       end;
                  adaptive_residual_block ops [Attr "qp_blocks"; Idx i] qp c2 di
             else Ok c2) = Ok c3).
  { destruct (Args.use_qp_resblocks a); [|eauto].
    cbn [attr]. rewrite bind_Ok_l.
    destruct (getitem_returns (map (HiFiGANSpec.qp_block_of a)
                                 (seq 0 (length a.(Args.upsample_kernel_sizes)))) i)
      as [qp ->]; [rewrite length_map, length_seq; exact Hi|].
    rewrite bind_Ok_l.
    destruct (Hd eq_refl) as (dl & -> & Hdl).
    destruct (getitem_returns dl i Hdl) as [di ->]. rewrite bind_Ok_l.
    apply (adaptive_residual_block_returns ops Ht). }
  destruct Hqp as [c3 ->]. rewrite bind_Ok_l.
  apply average_blocks_returns; [exact Ht|exact Hnb|].
  unfold HiFiGANSpec.blocks_upto. rewrite length_map, length_seq. nia.
Qed.

End HiFiGANBookkeeping.

(** X4. For a constructed HiFiGAN generator, whatever the layers
    compute: [forward] returns only if the generator has at least one
    residual block per stage and, with [use_qp_resblocks], if [d] is a
    list with an entry for every stage (with [d=None], the default, or a
    shorter list, it raises). When no layer fails these conditions are
    also enough: every index [forward] uses ([upsamples[i]],
    [embs[-i - 1]], [downsamples[i]], [qp_blocks[i]],
    [blocks[i * num_blocks + j]]) is in range and every attribute it
    reads is set. *)
Theorem X4_hifigan_forward_bookkeeping {T : Type} (ops : Ops T)
    (a : HiFiGANGenerator.Args.t) (g : HiFiGANGenerator.t) :
  HiFiGANGenerator.init a = Ok g →
  (∀ x c d r,
     HiFiGANGenerator.forward ops g x c d = Ok r →
     (0 < g.(HiFiGANGenerator.num_blocks))%nat
     ∧ (g.(HiFiGANGenerator.use_qp_resblocks) = true →
        ∃ dl, d = Some dl ∧ (g.(HiFiGANGenerator.num_upsamples) ≤ length dl)%nat))
  ∧ (total_ops ops →
     ∀ x c d,
       (0 < g.(HiFiGANGenerator.num_blocks))%nat →
       (g.(HiFiGANGenerator.use_qp_resblocks) = true →
        ∃ dl, d = Some dl ∧ (g.(HiFiGANGenerator.num_upsamples) ≤ length dl)%nat) →
       ∃ r, HiFiGANGenerator.forward ops g x c d = Ok r).
Proof.
  intros Hg.
  assert (Hv : HiFiGANSpec.valid a = true) by (apply init_iff; eauto).
  rewrite (init_valid a Hv) in Hg. injection Hg as <-.
  destruct (proj1 (hifigan_valid_iff a) Hv) as (_ & _ & _ & _ & _ & Hn).
  split.
  - intros x c d r. unfold HiFiGANGenerator.forward.
    intros (c0 & _ & (embs & _ & (c1 & Hloop & _)%bind_Ok)%bind_Ok)%bind_Ok.
    cbn [HiFiGANGenerator.num_upsamples HiFiGANSpec.built] in Hloop.
    destruct (for_range_returns _ _ _ _ Hloop
                (length a.(HiFiGANGenerator.Args.upsample_kernel_sizes) - 1)%nat)
      as (sk & sk' & Hstage); [lia|].
    apply stage_returns_inv in Hstage as [Hnb Hd]. split; [exact Hnb|].
    intros Hqp. destruct (Hd Hqp) as (dl & -> & Hdl).
    exists dl. split; [reflexivity|].
    cbn [HiFiGANGenerator.num_upsamples HiFiGANSpec.built]. lia.
  - intros Ht x c d Hnb Hd. unfold HiFiGANGenerator.forward.
    cbn [HiFiGANGenerator.input_conv HiFiGANGenerator.use_sine_embs
         HiFiGANGenerator.num_upsamples HiFiGANGenerator.output_conv
         HiFiGANGenerator.num_blocks HiFiGANGenerator.use_qp_resblocks
         HiFiGANSpec.built] in *.
    destruct (conv1d_returns ops Ht [Attr "input_conv"]
                (same_conv a.(HiFiGANGenerator.Args.in_channels)
                   a.(HiFiGANGenerator.Args.channels)
                   a.(HiFiGANGenerator.Args.kernel_size)
                   a.(HiFiGANGenerator.Args.bias)) c) as [c0 ->].
    rewrite bind_Ok_l.
    assert (Hembs : ∃ embs,
              (if a.(HiFiGANGenerator.Args.use_sine_embs)
               then HiFiGANGenerator.sine_embeddings ops (HiFiGANSpec.built a) x
               else Ok []) = Ok embs
              ∧ (a.(HiFiGANGenerator.Args.use_sine_embs) = true →
                 length embs = length a.(HiFiGANGenerator.Args.upsample_kernel_sizes))).
    { destruct (HiFiGANGenerator.Args.use_sine_embs a) eqn:Hsine;
        [|exists []; split; [reflexivity|discriminate]].
      unfold HiFiGANGenerator.sine_embeddings.
      cbn [HiFiGANGenerator.emb HiFiGANGenerator.downsamples
           HiFiGANGenerator.num_upsamples HiFiGANSpec.built].
      rewrite Hsine. cbn [attr]. rewrite bind_Ok_l.
      destruct (conv1d_returns ops Ht [Attr "emb"]
                  (same_conv 1 (a.(HiFiGANGenerator.Args.channels)
                                / pow2 (length a.(HiFiGANGenerator.Args.upsample_kernel_sizes)))
                     a.(HiFiGANGenerator.Args.kernel_size)
                     a.(HiFiGANGenerator.Args.bias)) x) as [x0 ->].
      rewrite !bind_Ok_l.
      destruct (cascade_returns ops [Attr "downsamples"]
                  (map (HiFiGANSpec.downsample_of a)
                     (reverse (seq 0 (length a.(HiFiGANGenerator.Args.upsample_kernel_sizes)))))
                  (length a.(HiFiGANGenerator.Args.upsample_kernel_sizes)) x0 Ht)
        as [embs Hembs];
        [rewrite length_map, length_reverse, length_seq; lia|].
      exists embs. split; [exact Hembs|]. intros _.
      rewrite (cascade_length _ _ _ _ _ _ Hembs). lia. }
    destruct Hembs as (embs & -> & Hlen). rewrite bind_Ok_l.
    destruct (for_range_inv (λ _ _, True)
                (length a.(HiFiGANGenerator.Args.upsample_kernel_sizes))
                (HiFiGANGenerator.stage ops (HiFiGANSpec.built a) embs d) c0)
      as (c1 & -> & _).
    + exact I.
    + intros k s Hk _.
      destruct (stage_returns ops a embs d k s Ht Hv Hk Hlen Hnb) as [r Hr].
      * intros Hqp. destruct (Hd Hqp) as (dl & -> & Hdl).
        exists dl. split; [reflexivity|lia].
      * eauto.
    + rewrite bind_Ok_l. apply run_returns, Ht.
Qed.

Lemma unit_ops_total : total_ops unit_ops.
Proof. split; intros; exists tt; reflexivity. Qed.

(** The default generator, with layers that return a tensor without
    content: [forward] returns. *)
Lemma X4_witness :
  ∃ r, HiFiGANGenerator.forward unit_ops
         (HiFiGANSpec.built (HiFiGANGenerator.Args.default 80)) tt tt None = Ok r.
Proof.
  apply (proj2 (X4_hifigan_forward_bookkeeping unit_ops (HiFiGANGenerator.Args.default 80)
                  _ eq_refl) unit_ops_total tt tt None).
  - simpl. lia.
  - discriminate.
Defined.

Section DualBookkeeping.
Context {T : Type} (ops : Ops T).

(** The averaging of the filter blocks of stage [i], for the blocks the
    constructors build. *)
Lemma dual_average_blocks_returns (channels : Z) (bias : bool) (act : string)
    (params : list (string * Q)) (fnp : FilterNetworkParams.t) (n i : nat) (c : T) :
  total_ops ops →
  (i < n)%nat →
  (0 < length fnp.(FilterNetworkParams.resblock_kernel_sizes))%nat →
  ∃ r, average_blocks ops [Attr "fn"; Attr "blocks"]
         (DualSpec.fn_blocks_upto channels bias act params fnp n)
         (length fnp.(FilterNetworkParams.resblock_kernel_sizes)) i c = Ok r.
Proof.
  intros Ht Hi Hnb. apply average_blocks_returns; [exact Ht|exact Hnb|].
  unfold DualSpec.fn_blocks_upto. rewrite length_map, length_seq. nia.
Qed.

(** The up-sampling of the filter network returns for every stage,
    shared or not. *)
Lemma sifigan_filter_upsample_returns (a : SiFiGANGenerator.Args.t) (i : nat) (c : T) :
  total_ops ops →
  (i < length a.(SiFiGANGenerator.Args.upsample_kernel_sizes))%nat →
  ∃ y, SiFiGANGenerator.filter_upsample ops (SiFiGANSpec.built a) i c = Ok y.
Proof.
  intros Ht Hi. unfold SiFiGANGenerator.filter_upsample.
  cbn [SiFiGANGenerator.share_upsamples SiFiGANGenerator.sn SiFiGANGenerator.fn
       SiFiGANSpec.built SourceNetwork.upsamples FilterNetwork.upsamples
       SiFiGANSpec.stages DualSpec.stages_upto DualNetwork.sn_upsamples
       DualNetwork.fn_upsamples].
  destruct (SiFiGANGenerator.Args.share_upsamples a); cbn [negb].
  - rewrite getitem_map_seq, bind_Ok_l by exact Hi. apply run_returns, Ht.
  - rewrite getitem_map_seq, bind_Ok_l by exact Hi. apply run_returns, Ht.
Qed.

Lemma direct_filter_upsample_returns (a : SiFiGANDirectGenerator.Args.t) (i : nat) (c : T) :
  total_ops ops →
  (i < length a.(SiFiGANDirectGenerator.Args.upsample_kernel_sizes))%nat →
  ∃ y, SiFiGANDirectGenerator.filter_upsample ops (SiFiGANDirectSpec.built a) i c = Ok y.
Proof.
  intros Ht Hi. unfold SiFiGANDirectGenerator.filter_upsample.
  cbn [SiFiGANDirectGenerator.share_upsamples SiFiGANDirectGenerator.sn
       SiFiGANDirectGenerator.fn
       SiFiGANDirectSpec.built SourceNetwork.upsamples FilterNetwork.upsamples
       SiFiGANDirectSpec.stages DualSpec.stages_upto DualNetwork.sn_upsamples
       DualNetwork.fn_upsamples].
  destruct (SiFiGANDirectGenerator.Args.share_upsamples a); cbn [negb].
  - rewrite getitem_map_seq, bind_Ok_l by exact Hi. apply run_returns, Ht.
  - rewrite getitem_map_seq, bind_Ok_l by exact Hi. apply run_returns, Ht.
Qed.

(** A stage of the source network that returns has found its dilation
    factors. *)
Lemma sifigan_source_stage_inv (g : SiFiGANGenerator.t) (embs d : list T)
    (i : nat) (e r : T) :
  SiFiGANGenerator.source_stage ops g embs d i e = Ok r → (i < length d)%nat.
Proof.
  unfold SiFiGANGenerator.source_stage.
  intros (y & _ & (emb & _ & (e1 & _ & (block & _ & (di & Hd & _)%bind_Ok)%bind_Ok)
            %bind_Ok)%bind_Ok)%bind_Ok.
  eapply getitem_Ok_lt, Hd.
Qed.

Lemma direct_source_stage_inv (g : SiFiGANDirectGenerator.t) (embs d : list T)
    (i : nat) (st r : T * list T) :
  SiFiGANDirectGenerator.source_stage ops g embs d i st = Ok r → (i < length d)%nat.
Proof.
  unfold SiFiGANDirectGenerator.source_stage. destruct st as [e embs2].
  intros (up & _ & (y & _ & (emb & _ & (e1 & _ & (block & _ & (di & Hd & _)%bind_Ok)
            %bind_Ok)%bind_Ok)%bind_Ok)%bind_Ok)%bind_Ok.
  eapply getitem_Ok_lt, Hd.
Qed.

(** A stage of the filter network that returns has found a block to
    average. *)
Lemma sifigan_filter_stage_inv (g : SiFiGANGenerator.t) (embs : list T)
    (num_blocks i : nat) (c r : T) :
  SiFiGANGenerator.filter_stage ops g embs num_blocks i c = Ok r → (0 < num_blocks)%nat.
Proof.
  unfold SiFiGANGenerator.filter_stage.
  intros (y & _ & (emb & _ & (c1 & _ & Havg)%bind_Ok)%bind_Ok)%bind_Ok.
  eapply average_blocks_Ok_pos, Havg.
Qed.

Lemma direct_filter_stage_inv (g : SiFiGANDirectGenerator.t) (embs2 : list T)
    (num_blocks i : nat) (c r : T) :
  SiFiGANDirectGenerator.filter_stage ops g embs2 num_blocks i c = Ok r →
  (0 < num_blocks)%nat.
Proof.
  unfold SiFiGANDirectGenerator.filter_stage.
  intros (y & _ & (emb & _ & (c1 & _ & Havg)%bind_Ok)%bind_Ok)%bind_Ok.
  eapply average_blocks_Ok_pos, Havg.
Qed.

Lemma sifigan_source_stage_returns (a : SiFiGANGenerator.Args.t) (embs d : list T)
    (i : nat) (e : T) :
  total_ops ops →
  (i < length a.(SiFiGANGenerator.Args.upsample_kernel_sizes))%nat →
  length embs = length a.(SiFiGANGenerator.Args.upsample_kernel_sizes) →
  (i < length d)%nat →
  ∃ r, SiFiGANGenerator.source_stage ops (SiFiGANSpec.built a) embs d i e = Ok r.
Proof.
  intros Ht Hi Hembs Hd.
  unfold SiFiGANGenerator.source_stage, SiFiGANGenerator.source_upsample.
  cbn [SiFiGANGenerator.sn SiFiGANSpec.built SourceNetwork.upsamples SourceNetwork.blocks
       SiFiGANSpec.stages DualSpec.stages_upto DualNetwork.sn_upsamples
       DualNetwork.sn_blocks].
  rewrite !getitem_map_seq by exact Hi. rewrite bind_Ok_l.
  match goal with |- context [run ops ?p ?up e] =>
    destruct (run_returns ops p up e Ht) as [y ->] end.
  rewrite bind_Ok_l.
  destruct (getitem_from_end_returns embs i) as [emb ->]; [lia|]. rewrite bind_Ok_l.
  destruct (add_returns ops Ht y emb) as [e1 ->]. rewrite bind_Ok_l.
  rewrite bind_Ok_l.
  destruct (getitem_returns d i Hd) as [di ->]. rewrite bind_Ok_l.
  apply (adaptive_residual_block_returns ops Ht).
Qed.

Lemma direct_source_stage_returns (a : SiFiGANDirectGenerator.Args.t) (embs d : list T)
    (i : nat) (st : T * list T) :
  total_ops ops →
  (i < length a.(SiFiGANDirectGenerator.Args.upsample_kernel_sizes))%nat →
  length embs = length a.(SiFiGANDirectGenerator.Args.upsample_kernel_sizes) →
  (i < length d)%nat →
  ∃ e, SiFiGANDirectGenerator.source_stage ops (SiFiGANDirectSpec.built a) embs d i st
       = Ok (e, st.2 ++ [e]).
Proof.
  intros Ht Hi Hembs Hd. destruct st as [e0 embs2].
  unfold SiFiGANDirectGenerator.source_stage.
  cbn [SiFiGANDirectGenerator.sn SiFiGANDirectSpec.built SourceNetwork.upsamples
       SourceNetwork.blocks SiFiGANDirectSpec.stages DualSpec.stages_upto
       DualNetwork.sn_upsamples DualNetwork.sn_blocks snd].
  rewrite !getitem_map_seq by exact Hi. rewrite bind_Ok_l.
  match goal with |- context [run ops ?p ?up e0] =>
    destruct (run_returns ops p up e0 Ht) as [y ->] end.
  rewrite bind_Ok_l.
  destruct (getitem_from_end_returns embs i) as [emb ->]; [lia|]. rewrite bind_Ok_l.
  destruct (add_returns ops Ht y emb) as [e1 ->]. rewrite bind_Ok_l.
  rewrite bind_Ok_l.
  destruct (getitem_returns d i Hd) as [di ->]. rewrite bind_Ok_l.
  match goal with |- context [adaptive_residual_block ops ?p ?block e1 di] =>
    destruct (adaptive_residual_block_returns ops Ht p block e1 di) as [e2 ->] end.
  rewrite bind_Ok_l. eauto.
Qed.

(** The loop that down-samples the excitation keeps one embedding more
    than it has run rounds. *)
Lemma sifigan_filter_downsamples_returns (a : SiFiGANGenerator.Args.t) (m : nat) (e : T) :
  total_ops ops →
  (m ≤ length a.(SiFiGANGenerator.Args.upsample_kernel_sizes))%nat →
  ∃ st, for_range m (SiFiGANGenerator.filter_downsample_step ops (SiFiGANSpec.built a))
          (e, [e]) = Ok st
        ∧ length st.2 = S m.
Proof.
  intros Ht Hm.
  apply (for_range_inv (λ k st, length st.2 = S k)); [reflexivity|].
  intros k [e1 embs] Hk Hlen. unfold SiFiGANGenerator.filter_downsample_step.
  cbn [SiFiGANGenerator.share_downsamples SiFiGANGenerator.sn SiFiGANGenerator.fn
       SiFiGANSpec.built SourceNetwork.downsamples FilterNetwork.downsamples].
  assert (Hlook : ∃ down,
            getitem (SiFiGANSpec.downsamples_built a) (Z.of_nat k) = Ok down).
  { apply getitem_returns.
    unfold SiFiGANSpec.downsamples_built, DualSpec.downsamples_built.
    rewrite length_map, length_reverse, length_seq. lia. }
  destruct Hlook as [down Hdown].
  destruct (SiFiGANGenerator.Args.share_downsamples a); cbn [negb item].
  - rewrite Hdown, bind_Ok_l.
    destruct (run_returns ops [Attr "sn"; Attr "downsamples"; Idx k] down e1 Ht) as [y ->].
    rewrite bind_Ok_l. eexists. split; [reflexivity|].
    simpl in *. rewrite length_app. simpl. lia.
  - rewrite bind_Ok_l, Hdown, bind_Ok_l.
    destruct (run_returns ops [Attr "fn"; Attr "downsamples"; Idx k] down e1 Ht) as [y ->].
    rewrite bind_Ok_l. eexists. split; [reflexivity|].
    simpl in *. rewrite length_app. simpl. lia.
Qed.

End DualBookkeeping.

(** X5. For a constructed SiFiGAN generator, whatever the layers
    compute: with [gin_channels=0] the constructor sets neither [emb_g]
    nor [cond], and [forward], which begins with [self.emb_g(sid)],
    raises [AttributeError] on every input. [forward] returns only if
    [gin_channels] is not 0, [d] has an entry for every stage and
    [filter_network_params["resblock_kernel_sizes"]] is not empty; when
    no layer fails these conditions are also enough, every index into
    the module lists and the lists of embeddings being in range, with
    shared or separate up- and down-sampling stages. *)
Theorem X5_sifigan_forward_bookkeeping {T : Type} (ops : Ops T)
    (a : SiFiGANGenerator.Args.t) (g : SiFiGANGenerator.t) :
  SiFiGANGenerator.init a = Ok g →
  (a.(SiFiGANGenerator.Args.gin_channels) = 0 →
   ∀ x c d sid, SiFiGANGenerator.forward ops g x c d sid = Raise AttributeError)
  ∧ (∀ x c d sid r,
       SiFiGANGenerator.forward ops g x c d sid = Ok r →
       a.(SiFiGANGenerator.Args.gin_channels) ≠ 0
       ∧ (g.(SiFiGANGenerator.num_upsamples) ≤ length d)%nat
       ∧ (0 < length g.(SiFiGANGenerator.filter_network_params)
                     .(FilterNetworkParams.resblock_kernel_sizes))%nat)
  ∧ (total_ops ops →
     ∀ x c d sid,
       a.(SiFiGANGenerator.Args.gin_channels) ≠ 0 →
       (g.(SiFiGANGenerator.num_upsamples) ≤ length d)%nat →
       (0 < length g.(SiFiGANGenerator.filter_network_params)
                    .(FilterNetworkParams.resblock_kernel_sizes))%nat →
       ∃ r, SiFiGANGenerator.forward ops g x c d sid = Ok r).
Proof.
  intros Hg.
  assert (Hv : SiFiGANSpec.valid a = true) by (apply sifigan_init_iff; eauto).
  rewrite (sifigan_init_valid a Hv) in Hg. injection Hg as <-.
  assert (Hn : (0 < length a.(SiFiGANGenerator.Args.upsample_kernel_sizes))%nat).
  { unfold SiFiGANSpec.valid in Hv. apply andb_true_iff in Hv as [_ Hv].
    apply dual_valid_iff in Hv. tauto. }
  split; [|split].
  - intros Hgin x c d sid. unfold SiFiGANGenerator.forward.
    cbn [SiFiGANGenerator.emb_g SiFiGANSpec.built].
    rewrite Hgin. reflexivity.
  - intros x c d sid r. unfold SiFiGANGenerator.forward.
    intros (emb_g & Hemb & (s1 & _ & (s2 & _ & (cond & _ & (s3 & _ & (c0 & _ & (c1 & _
             & (x0 & _ & (embs & _ & (e & Hsrc & (e_ & _ & (st & _ & (c2 & Hflt & _)
             %bind_Ok)%bind_Ok)%bind_Ok)%bind_Ok)%bind_Ok)%bind_Ok)%bind_Ok)%bind_Ok)
             %bind_Ok)%bind_Ok)%bind_Ok)%bind_Ok)%bind_Ok.
    cbn [SiFiGANGenerator.num_upsamples SiFiGANGenerator.emb_g
         SiFiGANGenerator.filter_network_params SiFiGANSpec.built] in *.
    split; [|split].
    + intros Hgin. rewrite Hgin in Hemb. discriminate.
    + destruct (for_range_returns _ _ _ _ Hsrc
                  (length a.(SiFiGANGenerator.Args.upsample_kernel_sizes) - 1)%nat)
        as (sk & sk' & Hstage); [lia|].
      apply sifigan_source_stage_inv in Hstage. lia.
    + destruct (for_range_returns _ _ _ _ Hflt 0%nat) as (sk & sk' & Hstage); [lia|].
      eapply sifigan_filter_stage_inv, Hstage.
  - intros Ht x c d sid Hgin Hd Hnb. unfold SiFiGANGenerator.forward.
    cbn [SiFiGANGenerator.num_upsamples SiFiGANGenerator.emb_g SiFiGANGenerator.cond
         SiFiGANGenerator.input_conv SiFiGANGenerator.sn SiFiGANGenerator.fn
         SiFiGANGenerator.filter_network_params SiFiGANSpec.built
         SourceNetwork.emb SourceNetwork.downsamples SourceNetwork.output_conv
         FilterNetwork.output_conv] in *.
    apply Z.eqb_neq in Hgin. rewrite Hgin. cbn [negb attr]. rewrite bind_Ok_l.
    match goal with |- context [embedding ops ?p ?e sid] =>
      destruct (embedding_returns ops Ht p e sid) as [s1 ->] end.
    rewrite bind_Ok_l.
    destruct (unsqueeze_last_returns ops Ht s1) as [s2 ->]. rewrite !bind_Ok_l.
    match goal with |- context [conv1d ops ?p ?cv s2] =>
      destruct (conv1d_returns ops Ht p cv s2) as [s3 ->] end.
    rewrite bind_Ok_l.
    match goal with |- context [conv1d ops ?p ?cv c] =>
      destruct (conv1d_returns ops Ht p cv c) as [c0 ->] end.
    rewrite bind_Ok_l.
    destruct (add_returns ops Ht c0 s3) as [c1 ->]. rewrite bind_Ok_l.
    match goal with |- context [conv1d ops ?p ?cv x] =>
      destruct (conv1d_returns ops Ht p cv x) as [x0 ->] end.
    rewrite bind_Ok_l.
    destruct (cascade_returns ops [Attr "sn"; Attr "downsamples"]
                (SiFiGANSpec.downsamples_built a)
                (length a.(SiFiGANGenerator.Args.upsample_kernel_sizes)) x0 Ht)
      as [embs Hembs].
    { unfold SiFiGANSpec.downsamples_built, DualSpec.downsamples_built.
      rewrite length_map, length_reverse, length_seq. lia. }
    rewrite Hembs, bind_Ok_l. apply cascade_length in Hembs.
    destruct (for_range_inv (λ _ _, True)
                (length a.(SiFiGANGenerator.Args.upsample_kernel_sizes))
                (SiFiGANGenerator.source_stage ops (SiFiGANSpec.built a) embs d) c1)
      as (e & -> & _); [exact I| |].
    { intros k s Hk _.
      destruct (sifigan_source_stage_returns ops a embs d k s Ht Hk) as [r Hr];
        [lia|lia|eauto]. }
    rewrite bind_Ok_l.
    match goal with |- context [run ops ?p ?s e] =>
      destruct (run_returns ops p s e Ht) as [e_ ->] end.
    rewrite bind_Ok_l.
    destruct (sifigan_filter_downsamples_returns ops a
                (length a.(SiFiGANGenerator.Args.upsample_kernel_sizes) - 1) e Ht)
      as (st & -> & Hst); [lia|].
    rewrite bind_Ok_l.
    destruct (for_range_inv (λ _ _, True)
                (length a.(SiFiGANGenerator.Args.upsample_kernel_sizes))
                (SiFiGANGenerator.filter_stage ops (SiFiGANSpec.built a) st.2
                   (length a.(SiFiGANGenerator.Args.filter_network_params)
                             .(FilterNetworkParams.resblock_kernel_sizes))) c1)
      as (c2 & -> & _); [exact I| |].
    { intros k s Hk _. unfold SiFiGANGenerator.filter_stage.
      destruct (sifigan_filter_upsample_returns ops a k s Ht Hk) as [y ->].
      rewrite bind_Ok_l.
      destruct (getitem_from_end_returns st.2 k) as [emb ->]; [lia|].
      rewrite bind_Ok_l.
      destruct (add_returns ops Ht y emb) as [c3 ->]. rewrite bind_Ok_l.
      cbn [SiFiGANGenerator.fn SiFiGANSpec.built FilterNetwork.blocks
           SiFiGANSpec.stages DualSpec.stages_upto DualNetwork.fn_blocks].
      destruct (dual_average_blocks_returns ops
                  a.(SiFiGANGenerator.Args.channels) a.(SiFiGANGenerator.Args.bias)
                  a.(SiFiGANGenerator.Args.nonlinear_activation)
                  a.(SiFiGANGenerator.Args.nonlinear_activation_params)
                  a.(SiFiGANGenerator.Args.filter_network_params)
                  (length a.(SiFiGANGenerator.Args.upsample_kernel_sizes)) k c3 Ht Hk Hnb)
        as [r Hr].
      eauto. }
    rewrite bind_Ok_l.
    match goal with |- context [run ops ?p ?s c2] =>
      destruct (run_returns ops p s c2 Ht) as [c3 ->] end.
    rewrite bind_Ok_l. eauto.
Qed.

(** Without a speaker embedding the default generator cannot run. *)
Lemma X5_witness :
  SiFiGANGenerator.forward unit_ops (SiFiGANSpec.built sifigan_no_speaker) tt tt [] tt
  = Raise AttributeError.
Proof.
  exact (proj1 (X5_sifigan_forward_bookkeeping unit_ops sifigan_no_speaker _ eq_refl)
           eq_refl tt tt [] tt).
Defined.

(** X6. For a constructed direct generator, whatever the layers
    compute: [forward] returns only if [d] has an entry for every stage
    and [filter_network_params["resblock_kernel_sizes"]] is not empty;
    when no layer fails these conditions are also enough, every index
    into the module lists and into [embs] and [embs2] being in range. *)
Theorem X6_direct_forward_bookkeeping {T : Type} (ops : Ops T)
    (a : SiFiGANDirectGenerator.Args.t) (g : SiFiGANDirectGenerator.t) :
  SiFiGANDirectGenerator.init a = Ok g →
  (∀ x c d r,
     SiFiGANDirectGenerator.forward ops g x c d = Ok r →
     (g.(SiFiGANDirectGenerator.num_upsamples) ≤ length d)%nat
     ∧ (0 < length g.(SiFiGANDirectGenerator.filter_network_params)
                   .(FilterNetworkParams.resblock_kernel_sizes))%nat)
  ∧ (total_ops ops →
     ∀ x c d,
       (g.(SiFiGANDirectGenerator.num_upsamples) ≤ length d)%nat →
       (0 < length g.(SiFiGANDirectGenerator.filter_network_params)
                    .(FilterNetworkParams.resblock_kernel_sizes))%nat →
       ∃ r, SiFiGANDirectGenerator.forward ops g x c d = Ok r).
Proof.
  intros Hg.
  assert (Hv : SiFiGANDirectSpec.valid a = true) by (apply direct_init_iff; eauto).
  rewrite (direct_init_valid a Hv) in Hg. injection Hg as <-.
  assert (Hn : (0 < length a.(SiFiGANDirectGenerator.Args.upsample_kernel_sizes))%nat).
  { unfold SiFiGANDirectSpec.valid in Hv. apply andb_true_iff in Hv as [_ Hv].
    apply dual_valid_iff in Hv. tauto. }
  split.
  - intros x c d r. unfold SiFiGANDirectGenerator.forward.
    intros (c0 & _ & (x0 & _ & (embs & _ & ([e embs2] & Hsrc & (e_ & _ & (c2 & Hflt & _)
             %bind_Ok)%bind_Ok)%bind_Ok)%bind_Ok)%bind_Ok)%bind_Ok.
    cbn [SiFiGANDirectGenerator.num_upsamples
         SiFiGANDirectGenerator.filter_network_params SiFiGANDirectSpec.built] in *.
    split.
    + destruct (for_range_returns _ _ _ _ Hsrc
                  (length a.(SiFiGANDirectGenerator.Args.upsample_kernel_sizes) - 1)%nat)
        as (sk & sk' & Hstage); [lia|].
      apply direct_source_stage_inv in Hstage. lia.
    + destruct (for_range_returns _ _ _ _ Hflt 0%nat) as (sk & sk' & Hstage); [lia|].
      eapply direct_filter_stage_inv, Hstage.
  - intros Ht x c d Hd Hnb. unfold SiFiGANDirectGenerator.forward.
    cbn [SiFiGANDirectGenerator.num_upsamples SiFiGANDirectGenerator.input_conv
         SiFiGANDirectGenerator.sn SiFiGANDirectGenerator.fn
         SiFiGANDirectGenerator.filter_network_params SiFiGANDirectSpec.built
         SourceNetwork.emb SourceNetwork.downsamples SourceNetwork.output_conv
         FilterNetwork.output_conv] in *.
    match goal with |- context [conv1d ops ?p ?cv c] =>
      destruct (conv1d_returns ops Ht p cv c) as [c0 ->] end.
    rewrite bind_Ok_l.
    match goal with |- context [conv1d ops ?p ?cv x] =>
      destruct (conv1d_returns ops Ht p cv x) as [x0 ->] end.
    rewrite bind_Ok_l.
    destruct (cascade_returns ops [Attr "sn"; Attr "downsamples"]
                (SiFiGANDirectSpec.downsamples_built a)
                (length a.(SiFiGANDirectGenerator.Args.upsample_kernel_sizes)) x0 Ht)
      as [embs Hembs].
    { unfold SiFiGANDirectSpec.downsamples_built, DualSpec.downsamples_built.
      rewrite length_map, length_reverse, length_seq. lia. }
    rewrite Hembs, bind_Ok_l. apply cascade_length in Hembs.
    destruct (for_range_inv (λ k st, length st.2 = k)
                (length a.(SiFiGANDirectGenerator.Args.upsample_kernel_sizes))
                (SiFiGANDirectGenerator.source_stage ops (SiFiGANDirectSpec.built a)
                   embs d) (c0, []))
      as ([e embs2] & -> & Hembs2); [reflexivity| |].
    { intros k s Hk Hlen.
      destruct (direct_source_stage_returns ops a embs d k s Ht Hk) as [r Hr];
        [lia|lia|].
      eexists. split; [exact Hr|]. simpl. rewrite length_app. simpl. lia. }
    rewrite bind_Ok_l. simpl in Hembs2.
    match goal with |- context [run ops ?p ?s e] =>
      destruct (run_returns ops p s e Ht) as [e_ ->] end.
    rewrite bind_Ok_l.
    destruct (for_range_inv (λ _ _, True)
                (length a.(SiFiGANDirectGenerator.Args.upsample_kernel_sizes))
                (SiFiGANDirectGenerator.filter_stage ops (SiFiGANDirectSpec.built a) embs2
                   (length a.(SiFiGANDirectGenerator.Args.filter_network_params)
                             .(FilterNetworkParams.resblock_kernel_sizes))) c0)
      as (c2 & -> & _); [exact I| |].
    { intros k s Hk _. unfold SiFiGANDirectGenerator.filter_stage.
      destruct (direct_filter_upsample_returns ops a k s Ht Hk) as [y ->].
      rewrite bind_Ok_l.
      destruct (getitem_returns embs2 k) as [emb ->]; [lia|].
      rewrite bind_Ok_l.
      destruct (add_returns ops Ht y emb) as [c3 ->]. rewrite bind_Ok_l.
      cbn [SiFiGANDirectGenerator.fn SiFiGANDirectSpec.built FilterNetwork.blocks
           SiFiGANDirectSpec.stages DualSpec.stages_upto DualNetwork.fn_blocks].
      destruct (dual_average_blocks_returns ops
                  a.(SiFiGANDirectGenerator.Args.channels)
                  a.(SiFiGANDirectGenerator.Args.bias)
                  a.(SiFiGANDirectGenerator.Args.nonlinear_activation)
                  a.(SiFiGANDirectGenerator.Args.nonlinear_activation_params)
                  a.(SiFiGANDirectGenerator.Args.filter_network_params)
                  (length a.(SiFiGANDirectGenerator.Args.upsample_kernel_sizes))
                  k c3 Ht Hk Hnb)
        as [r Hr].
      eauto. }
    rewrite bind_Ok_l.
    match goal with |- context [run ops ?p ?s c2] =>
      destruct (run_returns ops p s c2 Ht) as [c3 ->] end.
    rewrite bind_Ok_l. eauto.
Qed.

(** The default direct generator with a list of four dilation factors
    for its four stages, and layers that return a tensor without
    content: [forward] returns. *)
Lemma X6_witness :
  ∃ r, SiFiGANDirectGenerator.forward unit_ops
         (SiFiGANDirectSpec.built (SiFiGANDirectGenerator.Args.default 80))
         tt tt [tt; tt; tt; tt] = Ok r.
Proof.
  apply (proj2 (X6_direct_forward_bookkeeping unit_ops
                  (SiFiGANDirectGenerator.Args.default 80) _ eq_refl)
           unit_ops_total tt tt [tt; tt; tt; tt]); simpl; lia.
Defined.

(** ** Which modules the forward passes run *)

(** The cascade reads the first [num_upsamples - 1] entries of the
    list of down-sampling stages, and no other. *)
Lemma downsample_step_take {T} (ops : Ops T) (p : Path) (downs downs' : list Sequential)
    (m k : nat) (st : T * list T) :
  take m downs' = take m downs → (k < m)%nat →
  downsample_step ops p downs' k st = downsample_step ops p downs k st.
Proof.
  intros Htake Hk. unfold downsample_step. destruct st as [x embs].
  rewrite !getitem_lookup.
  rewrite <- (lookup_take_lt downs' m k), <- (lookup_take_lt downs m k) by exact Hk.
  rewrite Htake. reflexivity.
Qed.

Lemma cascade_take {T} (ops : Ops T) (p : Path) (downs downs' : list Sequential)
    (num_upsamples : nat) (x : T) :
  take (num_upsamples - 1) downs' = take (num_upsamples - 1) downs →
  cascade ops p downs' num_upsamples x = cascade ops p downs num_upsamples x.
Proof.
  intros Htake. unfold cascade.
  rewrite (for_range_ext _ (downsample_step ops p downs')
             (downsample_step ops p downs)); [reflexivity|].
  intros k st Hk. eapply downsample_step_take; eassumption.
Qed.

(** The down-sampling of the excitation in a constructed generator is
    a step of the cascade, on the stages of the source network when
    they are shared and on the filter network's own otherwise. *)
Lemma sifigan_filter_downsample_step_built {T} (ops : Ops T)
    (a : SiFiGANGenerator.Args.t) (i : nat) (st : T * list T) :
  SiFiGANGenerator.filter_downsample_step ops (SiFiGANSpec.built a) i st
  = downsample_step ops
      [Attr (if a.(SiFiGANGenerator.Args.share_downsamples) then "sn" else "fn");
       Attr "downsamples"]
      (SiFiGANSpec.downsamples_built a) i st.
Proof.
  destruct st as [e embs].
  unfold SiFiGANGenerator.filter_downsample_step, downsample_step.
  cbn [SiFiGANGenerator.share_downsamples SiFiGANGenerator.fn SiFiGANGenerator.sn
       SiFiGANSpec.built FilterNetwork.downsamples SourceNetwork.downsamples].
  destruct (SiFiGANGenerator.Args.share_downsamples a); cbn [negb item].
  - destruct (getitem _ _) as [down|err]; [|reflexivity].
    rewrite !bind_Ok_l. reflexivity.
  - rewrite bind_Ok_l. destruct (getitem _ _) as [down|err]; [|reflexivity].
    rewrite !bind_Ok_l. reflexivity.
Qed.

(** X7. In a SiFiGAN generator constructed with
    [share_downsamples=True] the filter network has no down-sampling
    stages of its own ([fn] has no key ["downsamples"]), and the
    excitation is down-sampled by the modules [sn.downsamples.i] that
    down-sample the sine signal, by the same loop. With
    [share_downsamples=False] the filter network holds stages with the
    same layers under its own paths [fn.downsamples.i], that is with
    weights of their own. *)
Theorem X7_shared_downsamples {T : Type} (ops : Ops T)
    (a : SiFiGANGenerator.Args.t) (g : SiFiGANGenerator.t) :
  SiFiGANGenerator.init a = Ok g →
  (a.(SiFiGANGenerator.Args.share_downsamples) = true →
   g.(SiFiGANGenerator.fn).(FilterNetwork.downsamples) = None
   ∧ (∀ i st,
        SiFiGANGenerator.filter_downsample_step ops g i st
        = downsample_step ops [Attr "sn"; Attr "downsamples"]
            g.(SiFiGANGenerator.sn).(SourceNetwork.downsamples) i st)
   ∧ (∀ e,
        (st ← for_range (g.(SiFiGANGenerator.num_upsamples) - 1)
                (SiFiGANGenerator.filter_downsample_step ops g) (e, [e]);
         Ok st.2)
        = cascade ops [Attr "sn"; Attr "downsamples"]
            g.(SiFiGANGenerator.sn).(SourceNetwork.downsamples)
            g.(SiFiGANGenerator.num_upsamples) e))
  ∧ (a.(SiFiGANGenerator.Args.share_downsamples) = false →
     g.(SiFiGANGenerator.fn).(FilterNetwork.downsamples)
     = Some g.(SiFiGANGenerator.sn).(SourceNetwork.downsamples)
     ∧ ∀ i st,
         SiFiGANGenerator.filter_downsample_step ops g i st
         = downsample_step ops [Attr "fn"; Attr "downsamples"]
             g.(SiFiGANGenerator.sn).(SourceNetwork.downsamples) i st).
Proof.
  intros Hg.
  assert (Hv : SiFiGANSpec.valid a = true) by (apply sifigan_init_iff; eauto).
  rewrite (sifigan_init_valid a Hv) in Hg. injection Hg as <-.
  split; intros Hshare.
  - assert (Hstep : ∀ i st,
              SiFiGANGenerator.filter_downsample_step ops (SiFiGANSpec.built a) i st
              = downsample_step ops [Attr "sn"; Attr "downsamples"]
                  (SiFiGANSpec.built a).(SiFiGANGenerator.sn).(SourceNetwork.downsamples)
                  i st).
    { intros i st. rewrite sifigan_filter_downsample_step_built, Hshare. reflexivity. }
    split; [|split].
    + cbn [SiFiGANGenerator.fn SiFiGANSpec.built FilterNetwork.downsamples].
      rewrite Hshare. reflexivity.
    + exact Hstep.
    + intros e. unfold cascade.
      rewrite (for_range_ext _ _ _ _ (λ k s _, Hstep k s)). reflexivity.
  - split.
    + cbn [SiFiGANGenerator.fn SiFiGANGenerator.sn SiFiGANSpec.built
           FilterNetwork.downsamples SourceNetwork.downsamples].
      rewrite Hshare. reflexivity.
    + intros i st. rewrite sifigan_filter_downsample_step_built, Hshare. reflexivity.
Qed.

(** The first down-sampling of the excitation in the default generator
    with shared down-sampling stages. *)
Lemma X7_witness :
  SiFiGANGenerator.filter_downsample_step ShapeOps.ops
    (SiFiGANSpec.built (SiFiGANSpec.with_sharing false true
                          (SiFiGANGenerator.Args.default 80)))
    0 ([1; 32; 12000], [[1; 32; 12000]])
  = downsample_step ShapeOps.ops [Attr "sn"; Attr "downsamples"]
      (SiFiGANSpec.built (SiFiGANSpec.with_sharing false true
                            (SiFiGANGenerator.Args.default 80)))
        .(SiFiGANGenerator.sn).(SourceNetwork.downsamples)
      0 ([1; 32; 12000], [[1; 32; 12000]]).
Proof.
  exact (proj1 (proj2 (proj1 (X7_shared_downsamples ShapeOps.ops
            (SiFiGANSpec.with_sharing false true (SiFiGANGenerator.Args.default 80))
            _ eq_refl) eq_refl)) 0%nat ([1; 32; 12000], [[1; 32; 12000]])).
Defined.

(** The excitation is computed from the speaker embedding, the input
    convolution and the source network alone. *)
Lemma sifigan_excitation_same {T} (ops : Ops T) (g g' : SiFiGANGenerator.t)
    (x c : T) (d : list T) (sid : T) (r r' : T * T) :
  g'.(SiFiGANGenerator.emb_g) = g.(SiFiGANGenerator.emb_g) →
  g'.(SiFiGANGenerator.cond) = g.(SiFiGANGenerator.cond) →
  g'.(SiFiGANGenerator.input_conv) = g.(SiFiGANGenerator.input_conv) →
  g'.(SiFiGANGenerator.num_upsamples) = g.(SiFiGANGenerator.num_upsamples) →
  g'.(SiFiGANGenerator.sn) = g.(SiFiGANGenerator.sn) →
  SiFiGANGenerator.forward ops g x c d sid = Ok r →
  SiFiGANGenerator.forward ops g' x c d sid = Ok r' →
  r.2 = r'.2.
Proof.
  intros He Hc Hi Hn Hsn.
  unfold SiFiGANGenerator.forward, SiFiGANGenerator.source_stage,
    SiFiGANGenerator.source_upsample.
  rewrite He, Hc, Hi, Hn, Hsn.
  intros (emb_g & H1 & (s1 & H2 & (s2 & H3 & (cond & H4 & (s3 & H5 & (c0 & H6 & (c1 & H7
           & (x0 & H8 & (embs & H9 & (e & H10 & (e_ & H11 & (st & _ & (c2 & _
           & (c3 & _ & [= <-])%bind_Ok)%bind_Ok)%bind_Ok)%bind_Ok)%bind_Ok)%bind_Ok)
           %bind_Ok)%bind_Ok)%bind_Ok)%bind_Ok)%bind_Ok)%bind_Ok)%bind_Ok)%bind_Ok.
  rewrite H1, bind_Ok_l, H2, bind_Ok_l, H3, bind_Ok_l, H4, bind_Ok_l, H5, bind_Ok_l,
    H6, bind_Ok_l, H7, bind_Ok_l, H8, bind_Ok_l, H9, bind_Ok_l, H10, bind_Ok_l,
    H11, bind_Ok_l.
  intros (st' & _ & (c2' & _ & (c3' & _ & [= <-])%bind_Ok)%bind_Ok)%bind_Ok.
  reflexivity.
Qed.

Lemma direct_excitation_same {T} (ops : Ops T) (g g' : SiFiGANDirectGenerator.t)
    (x c : T) (d : list T) (r r' : T * T) :
  g'.(SiFiGANDirectGenerator.input_conv) = g.(SiFiGANDirectGenerator.input_conv) →
  g'.(SiFiGANDirectGenerator.num_upsamples) = g.(SiFiGANDirectGenerator.num_upsamples) →
  g'.(SiFiGANDirectGenerator.sn) = g.(SiFiGANDirectGenerator.sn) →
  SiFiGANDirectGenerator.forward ops g x c d = Ok r →
  SiFiGANDirectGenerator.forward ops g' x c d = Ok r' →
  r.2 = r'.2.
Proof.
  intros Hi Hn Hsn.
  unfold SiFiGANDirectGenerator.forward, SiFiGANDirectGenerator.source_stage.
  rewrite Hi, Hn, Hsn.
  intros (c0 & H1 & (x0 & H2 & (embs & H3 & ([e embs2] & H4 & (e_ & H5 & (c2 & _
           & (c3 & _ & [= <-])%bind_Ok)%bind_Ok)%bind_Ok)%bind_Ok)%bind_Ok)%bind_Ok)
           %bind_Ok.
  rewrite H1, bind_Ok_l, H2, bind_Ok_l, H3, bind_Ok_l, H4, bind_Ok_l, H5, bind_Ok_l.
  intros (c2' & _ & (c3' & _ & [= <-])%bind_Ok)%bind_Ok.
  reflexivity.
Qed.

(** X8. The second output of [SiFiGANGenerator.forward] and of
    [SiFiGANDirectGenerator.forward], the excitation signal, does not
    depend on the filter network: two generators constructed from
    arguments that differ only in [filter_network_params],
    [share_upsamples] and [share_downsamples] give, on the same inputs
    and with the same weights in the modules they have in common, the
    same excitation whenever both return. *)
Theorem X8_excitation_ignores_filter_network {T : Type} (ops : Ops T) :
  (∀ a fnp share_up share_down g g' x c d sid r r',
     SiFiGANGenerator.init a = Ok g →
     SiFiGANGenerator.init (sifigan_set_filter fnp share_up share_down a) = Ok g' →
     SiFiGANGenerator.forward ops g x c d sid = Ok r →
     SiFiGANGenerator.forward ops g' x c d sid = Ok r' →
     r.2 = r'.2)
  ∧ (∀ a fnp share_up g g' x c d r r',
       SiFiGANDirectGenerator.init a = Ok g →
       SiFiGANDirectGenerator.init (direct_set_filter fnp share_up a) = Ok g' →
       SiFiGANDirectGenerator.forward ops g x c d = Ok r →
       SiFiGANDirectGenerator.forward ops g' x c d = Ok r' →
       r.2 = r'.2).
Proof.
  split.
  - intros a fnp su sd g g' x c d sid r r' Hg Hg'.
    assert (Hv : SiFiGANSpec.valid a = true) by (apply sifigan_init_iff; eauto).
    assert (Hv' : SiFiGANSpec.valid (sifigan_set_filter fnp su sd a) = true)
      by (apply sifigan_init_iff; eauto).
    rewrite (sifigan_init_valid a Hv) in Hg. injection Hg as <-.
    rewrite (sifigan_init_valid _ Hv') in Hg'. injection Hg' as <-.
    apply sifigan_excitation_same; reflexivity.
  - intros a fnp su g g' x c d r r' Hg Hg'.
    assert (Hv : SiFiGANDirectSpec.valid a = true) by (apply direct_init_iff; eauto).
    assert (Hv' : SiFiGANDirectSpec.valid (direct_set_filter fnp su a) = true)
      by (apply direct_init_iff; eauto).
    rewrite (direct_init_valid a Hv) in Hg. injection Hg as <-.
    rewrite (direct_init_valid _ Hv') in Hg'. injection Hg' as <-.
    apply direct_excitation_same; reflexivity.
Qed.

(** The default generator and the one with shared up-sampling stages
    and a single filter block per stage, on shapes. *)
Lemma X8_witness :
  ∃ r r',
    SiFiGANGenerator.forward ShapeOps.ops
      (SiFiGANSpec.built (SiFiGANGenerator.Args.default 80))
      [1; 1; 12000] [1; 80; 100]
      [[1; 1; 500]; [1; 1; 2000]; [1; 1; 6000]; [1; 1; 12000]] [1] = Ok r
    ∧ SiFiGANGenerator.forward ShapeOps.ops (SiFiGANSpec.built sifigan_single_shared)
        [1; 1; 12000] [1; 80; 100]
        [[1; 1; 500]; [1; 1; 2000]; [1; 1; 6000]; [1; 1; 12000]] [1] = Ok r'
    ∧ r.2 = r'.2.
Proof.
  exists ([1; 1; 12000], [1; 1; 12000]), ([1; 1; 12000], [1; 1; 12000]).
  split; [reflexivity|]. split; [reflexivity|].
  exact (proj1 (X8_excitation_ignores_filter_network ShapeOps.ops)
           (SiFiGANGenerator.Args.default 80) single_filter_block true true
           (SiFiGANSpec.built (SiFiGANGenerator.Args.default 80))
           (SiFiGANSpec.built sifigan_single_shared)
           [1; 1; 12000] [1; 80; 100]
           [[1; 1; 500]; [1; 1; 2000]; [1; 1; 6000]; [1; 1; 12000]] [1]
           ([1; 1; 12000], [1; 1; 12000]) ([1; 1; 12000], [1; 1; 12000])
           eq_refl eq_refl eq_refl eq_refl).
Defined.

(** Two computations that begin with the same step. *)
Ltac same_head :=
  match goal with
  | |- (?m ≫= _) = (?m ≫= _) => destruct m; [rewrite !bind_Ok_l|reflexivity]
  end.

(** X9. Every constructor builds one down-sampling stage per
    up-sampling stage, and [forward] runs all but the last of them: the
    result of [forward], a value or an exception, is the same whatever
    stands in the list after its first [num_upsamples - 1] entries. The
    stage built for up-sampling stage 0 is never run, in [downsamples]
    of a HiFiGAN generator, in [sn["downsamples"]] and
    [fn["downsamples"]] of a SiFiGAN generator and in
    [sn["downsamples"]] of a direct one. *)
Theorem X9_last_downsample_unused {T : Type} (ops : Ops T) :
  (∀ a g downs downs',
     HiFiGANGenerator.init a = Ok g →
     g.(HiFiGANGenerator.downsamples) = Some downs →
     take (g.(HiFiGANGenerator.num_upsamples) - 1) downs'
     = take (g.(HiFiGANGenerator.num_upsamples) - 1) downs →
     length downs = g.(HiFiGANGenerator.num_upsamples)
     ∧ ∀ x c d,
         HiFiGANGenerator.forward ops (hifigan_set_downsamples downs' g) x c d
         = HiFiGANGenerator.forward ops g x c d)
  ∧ (∀ a g sn_downs fn_downs,
       SiFiGANGenerator.init a = Ok g →
       take (g.(SiFiGANGenerator.num_upsamples) - 1) sn_downs
       = take (g.(SiFiGANGenerator.num_upsamples) - 1)
           g.(SiFiGANGenerator.sn).(SourceNetwork.downsamples) →
       take (g.(SiFiGANGenerator.num_upsamples) - 1) fn_downs
       = take (g.(SiFiGANGenerator.num_upsamples) - 1)
           g.(SiFiGANGenerator.sn).(SourceNetwork.downsamples) →
       length g.(SiFiGANGenerator.sn).(SourceNetwork.downsamples)
       = g.(SiFiGANGenerator.num_upsamples)
       ∧ ∀ x c d sid,
           SiFiGANGenerator.forward ops (sifigan_set_downsamples sn_downs fn_downs g)
             x c d sid
           = SiFiGANGenerator.forward ops g x c d sid)
  ∧ (∀ a g downs',
       SiFiGANDirectGenerator.init a = Ok g →
       take (g.(SiFiGANDirectGenerator.num_upsamples) - 1) downs'
       = take (g.(SiFiGANDirectGenerator.num_upsamples) - 1)
           g.(SiFiGANDirectGenerator.sn).(SourceNetwork.downsamples) →
       length g.(SiFiGANDirectGenerator.sn).(SourceNetwork.downsamples)
       = g.(SiFiGANDirectGenerator.num_upsamples)
       ∧ ∀ x c d,
           SiFiGANDirectGenerator.forward ops (direct_set_downsamples downs' g) x c d
           = SiFiGANDirectGenerator.forward ops g x c d).
Proof.
  split; [|split].
  - intros a g downs downs' Hg Hd Htake.
    split; [exact (hifigan_downsamples_length a g downs Hg Hd)|].
    intros x c d. unfold HiFiGANGenerator.forward, HiFiGANGenerator.sine_embeddings.
    cbn [hifigan_set_downsamples HiFiGANGenerator.input_conv
         HiFiGANGenerator.use_sine_embs HiFiGANGenerator.emb
         HiFiGANGenerator.downsamples HiFiGANGenerator.num_upsamples
         HiFiGANGenerator.output_conv].
    rewrite Hd. cbn [attr].
    destruct (conv1d ops _ _ c) as [c0|e]; [|reflexivity]. rewrite !bind_Ok_l.
    assert (Hembs :
              (if g.(HiFiGANGenerator.use_sine_embs)
               then emb ← attr g.(HiFiGANGenerator.emb);
                    x0 ← conv1d ops [Attr "emb"] emb x;
                    downsamples ← Ok downs';
                    cascade ops [Attr "downsamples"] downsamples
                      g.(HiFiGANGenerator.num_upsamples) x0
               else Ok [])
              = (if g.(HiFiGANGenerator.use_sine_embs)
                 then emb ← attr g.(HiFiGANGenerator.emb);
                      x0 ← conv1d ops [Attr "emb"] emb x;
                      downsamples ← Ok downs;
                      cascade ops [Attr "downsamples"] downsamples
                        g.(HiFiGANGenerator.num_upsamples) x0
                 else Ok [])).
    { destruct (HiFiGANGenerator.use_sine_embs g); [|reflexivity].
      destruct (attr _) as [emb|e]; [|reflexivity]. rewrite !bind_Ok_l.
      destruct (conv1d ops _ _ x) as [x0|e]; [|reflexivity]. rewrite !bind_Ok_l.
      apply cascade_take, Htake. }
    rewrite Hembs. reflexivity.
  - intros a g sn_downs fn_downs Hg Hsn Hfn.
    split; [exact (sifigan_downsamples_length a g Hg)|].
    assert (Hfn' : g.(SiFiGANGenerator.share_downsamples) = false →
              g.(SiFiGANGenerator.fn).(FilterNetwork.downsamples)
              = Some g.(SiFiGANGenerator.sn).(SourceNetwork.downsamples)).
    { assert (Hv : SiFiGANSpec.valid a = true) by (apply sifigan_init_iff; eauto).
      rewrite (sifigan_init_valid a Hv) in Hg. injection Hg as <-.
      cbn [SiFiGANGenerator.fn SiFiGANGenerator.sn SiFiGANGenerator.share_downsamples
           SiFiGANSpec.built FilterNetwork.downsamples SourceNetwork.downsamples].
      intros ->. reflexivity. }
    assert (Hdown : ∀ k st,
              (k < g.(SiFiGANGenerator.num_upsamples) - 1)%nat →
              SiFiGANGenerator.filter_downsample_step ops
                (sifigan_set_downsamples sn_downs fn_downs g) k st
              = SiFiGANGenerator.filter_downsample_step ops g k st).
    { intros k [e embs] Hk. unfold SiFiGANGenerator.filter_downsample_step.
      cbn [sifigan_set_downsamples source_set_downsamples
           SiFiGANGenerator.share_downsamples SiFiGANGenerator.sn SiFiGANGenerator.fn
           SourceNetwork.downsamples].
      destruct (SiFiGANGenerator.share_downsamples g) eqn:Hshare.
      - rewrite !getitem_lookup.
        rewrite <- (lookup_take_lt sn_downs _ k Hk), Hsn, lookup_take_lt by exact Hk.
        reflexivity.
      - cbn [filter_set_downsamples FilterNetwork.downsamples item].
        rewrite (Hfn' eq_refl). cbn [item]. rewrite !bind_Ok_l, !getitem_lookup.
        rewrite <- (lookup_take_lt fn_downs _ k Hk), Hfn, lookup_take_lt by exact Hk.
        reflexivity. }
    assert (Hfilter : ∀ embs nb k s,
              SiFiGANGenerator.filter_stage ops
                (sifigan_set_downsamples sn_downs fn_downs g) embs nb k s
              = SiFiGANGenerator.filter_stage ops g embs nb k s).
    { intros embs nb k s.
      unfold SiFiGANGenerator.filter_stage, SiFiGANGenerator.filter_upsample.
      cbn [sifigan_set_downsamples source_set_downsamples
           SiFiGANGenerator.share_upsamples SiFiGANGenerator.sn SiFiGANGenerator.fn
           SourceNetwork.upsamples].
      destruct (SiFiGANGenerator.share_downsamples g); reflexivity. }
    assert (Hout : FilterNetwork.output_conv
                     (SiFiGANGenerator.fn (sifigan_set_downsamples sn_downs fn_downs g))
                   = FilterNetwork.output_conv (SiFiGANGenerator.fn g)).
    { cbn [sifigan_set_downsamples SiFiGANGenerator.fn].
      destruct (SiFiGANGenerator.share_downsamples g); reflexivity. }
    intros x c d sid. unfold SiFiGANGenerator.forward.
    set (g' := sifigan_set_downsamples sn_downs fn_downs g) in *.
    rewrite Hout.
    change (SiFiGANGenerator.emb_g g') with (SiFiGANGenerator.emb_g g).
    change (SiFiGANGenerator.cond g') with (SiFiGANGenerator.cond g).
    change (SiFiGANGenerator.input_conv g') with (SiFiGANGenerator.input_conv g).
    change (SiFiGANGenerator.num_upsamples g') with (SiFiGANGenerator.num_upsamples g).
    change (SiFiGANGenerator.filter_network_params g')
      with (SiFiGANGenerator.filter_network_params g).
    change (SourceNetwork.emb (SiFiGANGenerator.sn g'))
      with (SourceNetwork.emb (SiFiGANGenerator.sn g)).
    change (SourceNetwork.output_conv (SiFiGANGenerator.sn g'))
      with (SourceNetwork.output_conv (SiFiGANGenerator.sn g)).
    change (SourceNetwork.downsamples (SiFiGANGenerator.sn g')) with sn_downs.
    change (SiFiGANGenerator.source_stage ops g')
      with (SiFiGANGenerator.source_stage ops g).
    repeat same_head.
    rewrite (cascade_take ops _ _ sn_downs _ _ Hsn).
    repeat same_head.
    rewrite (for_range_ext (g.(SiFiGANGenerator.num_upsamples) - 1) _ _ _ Hdown).
    same_head.
    rewrite (for_range_ext _ _ _ _ (λ k s _, Hfilter _ _ k s)).
    reflexivity.
  - intros a g downs' Hg Htake.
    split; [exact (direct_downsamples_length a g Hg)|].
    intros x c d. unfold SiFiGANDirectGenerator.forward.
    set (g' := direct_set_downsamples downs' g).
    change (SiFiGANDirectGenerator.input_conv g')
      with (SiFiGANDirectGenerator.input_conv g).
    change (SiFiGANDirectGenerator.num_upsamples g')
      with (SiFiGANDirectGenerator.num_upsamples g).
    change (SiFiGANDirectGenerator.filter_network_params g')
      with (SiFiGANDirectGenerator.filter_network_params g).
    change (SiFiGANDirectGenerator.fn g') with (SiFiGANDirectGenerator.fn g).
    change (SourceNetwork.emb (SiFiGANDirectGenerator.sn g'))
      with (SourceNetwork.emb (SiFiGANDirectGenerator.sn g)).
    change (SourceNetwork.output_conv (SiFiGANDirectGenerator.sn g'))
      with (SourceNetwork.output_conv (SiFiGANDirectGenerator.sn g)).
    change (SourceNetwork.downsamples (SiFiGANDirectGenerator.sn g')) with downs'.
    change (SiFiGANDirectGenerator.source_stage ops g')
      with (SiFiGANDirectGenerator.source_stage ops g).
    change (SiFiGANDirectGenerator.filter_stage ops g')
      with (SiFiGANDirectGenerator.filter_stage ops g).
    repeat same_head.
    rewrite (cascade_take ops _ _ downs' _ _ Htake). reflexivity.
Qed.

(** The default HiFiGAN generator with sine embeddings, and the same
    without its fourth down-sampling stage: the same result. *)
Lemma X9_witness :
  length (map (HiFiGANSpec.downsample_of hifigan_sine) (reverse (seq 0 4))) = 4%nat
  ∧ ∀ x c d,
      HiFiGANGenerator.forward ShapeOps.ops
        (hifigan_set_downsamples
           (take 3 (map (HiFiGANSpec.downsample_of hifigan_sine) (reverse (seq 0 4))))
           (HiFiGANSpec.built hifigan_sine)) x c d
      = HiFiGANGenerator.forward ShapeOps.ops (HiFiGANSpec.built hifigan_sine) x c d.
Proof.
  exact (proj1 (X9_last_downsample_unused ShapeOps.ops) hifigan_sine
           (HiFiGANSpec.built hifigan_sine)
           (map (HiFiGANSpec.downsample_of hifigan_sine) (reverse (seq 0 4)))
           (take 3 (map (HiFiGANSpec.downsample_of hifigan_sine) (reverse (seq 0 4))))
           eq_refl eq_refl eq_refl).
Defined.

(** ** The two-network generators on shapes *)

(** On shapes the path of a module plays no part. *)
Lemma run_from_shape_path (p p' : Path) (k k' : nat) (ls : list Layer) (x : Shape) :
  run_from ShapeOps.ops p k ls x = run_from ShapeOps.ops p' k' ls x.
Proof.
  revert k k' x. induction ls as [|l ls IH]; intros k k' x; simpl; [reflexivity|].
  assert (Hl : run_layer ShapeOps.ops (p ++ [Idx k]) l x
               = run_layer ShapeOps.ops (p' ++ [Idx k']) l x) by (destruct l; reflexivity).
  rewrite Hl. destruct (run_layer _ _ l x) as [y|e]; simpl; [apply IH|reflexivity].
Qed.

Lemma run_shape_path (p p' : Path) (s : Sequential) (x : Shape) :
  run ShapeOps.ops p s x = run ShapeOps.ops p' s x.
Proof. apply run_from_shape_path. Qed.

(** A tensor [(b, channels, 1)] added to one [(b, channels, l)] is
    broadcast along the time axis. *)
Lemma add_broadcast_time (b ch l : Z) :
  ShapeOps.add [b; ch; l] [b; ch; 1] = Ok [b; ch; l].
Proof.
  unfold ShapeOps.add, ShapeOps.broadcast. simpl.
  rewrite !Z.eqb_refl. simpl.
  destruct (l =? 1) eqn:Hl; [apply Z.eqb_eq in Hl; subst|]; reflexivity.
Qed.

Section DualShapes.
Variables (channels : Z) (bias : bool) (act : string) (params : list (string * Q)).
Variables (scales kernels : list Z).
Variable snp : SourceNetworkParams.t.
Variable fnp : FilterNetworkParams.t.
Variables (b l : Z).
Local Abbreviation n := (length kernels).
Local Abbreviation nb := (length fnp.(FilterNetworkParams.resblock_kernel_sizes)).
Local Abbreviation at_stage := (shape_at channels scales b l).
Local Abbreviation up := (DualSpec.upsample_of channels bias act params scales kernels).
Local Abbreviation downs :=
  (DualSpec.downsamples_built channels bias act params scales kernels).
Local Abbreviation embeddings := (embedding_shapes channels scales b l n).

Hypothesis Hlen : length scales = n.
Hypothesis Htwice : kernels_twice_scales scales kernels = true.
Hypothesis Hpos : Forall (λ s, 1 ≤ s) scales.
Hypothesis Hdown : ∀ i, (1 ≤ i < n)%nat → 2 ≤ scales !!! i.
Hypothesis Hl : 1 ≤ l.
Hypothesis Hn : (0 < n)%nat.

Lemma dual_blocks_lookup (k i j : nat) :
  (i < k)%nat → (j < nb)%nat →
  DualSpec.fn_blocks_upto channels bias act params fnp k !! (i * nb + j)%nat
  = Some (DualSpec.fn_block_of channels bias act params fnp i j).
Proof.
  clear Hlen Htwice Hpos Hdown Hl Hn.
  intros Hi Hj. unfold DualSpec.fn_blocks_upto.
  change (map ?f ?l) with (f <$> l).
  rewrite list_lookup_fmap, lookup_seq_lt by nia. simpl. f_equal. f_equal.
  - rewrite Nat.add_comm, Nat.div_add by lia. rewrite Nat.div_small by lia. lia.
  - rewrite Nat.add_comm, Nat.Div0.mod_add. apply Nat.mod_small. lia.
Qed.

(** The averaging of the filter blocks keeps the shape of the stage. *)
Lemma dual_average_blocks_shape (p : Path) (k : nat) :
  (k < n)%nat → (0 < nb)%nat →
  average_blocks ShapeOps.ops p
    (DualSpec.fn_blocks_upto channels bias act params fnp n) nb k (at_stage (S k))
  = Ok (at_stage (S k)).
Proof.
  clear Hlen Htwice Hpos Hdown Hl Hn.
  intros Hk Hnb. unfold shape_at. apply average_blocks_shape; [exact Hnb|].
  intros j Hj. eexists. split; [apply dual_blocks_lookup; assumption|].
  simpl. replace (S k) with (k + 1)%nat by lia. reflexivity.
Qed.

(** The adaptive block of the source network keeps the shape, for
    dilation factors as long as the features. *)
Lemma dual_source_block_run (p : Path) (k : nat) :
  adaptive_residual_block ShapeOps.ops p
    (DualSpec.sn_block_of channels bias act params snp k) (at_stage (S k))
    [b; 1; l * scale_product scales (S k)]
  = Ok (at_stage (S k)).
Proof.
  clear Hlen Htwice Hpos Hdown Hl Hn.
  unfold shape_at, DualSpec.sn_block_of.
  cbn [adaptive_residual_block ShapeOps.ops ShapeOps.adaptive_residual_block
       ResidualBlock.channels].
  replace (S k) with (k + 1)%nat by lia.
  rewrite !Z.eqb_refl. reflexivity.
Qed.

Lemma dual_source_block_shape (p : Path) (k : nat) :
  (k < n)%nat →
  (di ← getitem (dilation_shapes scales b l n) (Z.of_nat k);
   adaptive_residual_block ShapeOps.ops p
     (DualSpec.sn_block_of channels bias act params snp k) (at_stage (S k)) di)
  = Ok (at_stage (S k)).
Proof.
  clear Hlen Htwice Hpos Hdown Hl Hn.
  intros Hk. unfold dilation_shapes.
  rewrite getitem_map_seq, bind_Ok_l by exact Hk.
  apply dual_source_block_run.
Qed.

(** The loop that down-samples a tensor with the shape of the last
    stage, whatever the paths of the stages it runs. *)
Lemma dual_downsample_loop (body : nat → Shape * list Shape → Result (Shape * list Shape)) :
  (∀ k st, (k < n - 1)%nat →
           body k st = downsample_step ShapeOps.ops [] downs k st) →
  ∃ st, for_range (n - 1) body (at_stage n, [at_stage n]) = Ok st ∧ st.2 = embeddings.
Proof.
  intros Hbody. rewrite (for_range_ext _ _ _ _ Hbody).
  pose proof (cascade_shapes channels bias act params scales kernels b l
                Hlen Htwice Hpos Hl [] Hn Hdown) as Hc.
  unfold cascade in Hc. apply bind_Ok in Hc as (st & Hst & [= Hembs]).
  exists st. split; [exact Hst|exact Hembs].
Qed.

Lemma downsample_step_shape_path (p : Path) (k : nat) (st : Shape * list Shape) :
  downsample_step ShapeOps.ops p downs k st = downsample_step ShapeOps.ops [] downs k st.
Proof.
  unfold downsample_step. destruct st as [x embs].
  destruct (getitem _ _) as [down|e]; [|reflexivity].
  rewrite !bind_Ok_l, (run_shape_path _ ([] ++ [Idx k])). reflexivity.
Qed.

Lemma dual_cascade_shape (p : Path) :
  cascade ShapeOps.ops p downs n (at_stage n) = Ok embeddings.
Proof.
  apply (cascade_shapes channels bias act params scales kernels b l
           Hlen Htwice Hpos Hl p Hn Hdown).
Qed.

Lemma dual_embedding_at_stage (k : nat) :
  (k < n)%nat → getitem embeddings (- Z.of_nat k - 1) = Ok (at_stage (S k)).
Proof. apply (embedding_at_stage channels scales kernels b l Hlen). Qed.

Lemma dual_shape_at_0 : at_stage 0 = [b; channels; l].
Proof.
  unfold shape_at. rewrite scale_product_0. unfold pow2. simpl.
  rewrite Z.div_1_r, Z.mul_1_r. reflexivity.
Qed.

Lemma dual_length_pos : 1 ≤ l * scale_product scales n.
Proof.
  clear Hlen Htwice Hdown Hn.
  pose proof (scale_product_pos scales n Hpos). nia.
Qed.

End DualShapes.

(** X10. For a constructed SiFiGAN generator with a speaker
    embedding, up-sampling scales of at least 2 and at least one filter
    block per stage, on shapes: features [(b, in_channels, l)], a sine
    signal [(b, 1, T)] and dilation factors [(b, 1, T_i)] of the lengths
    of the stages, with [T] the product of [l] and all the scales, and
    speaker indices [(b)] give two outputs of the one shape
    [(b, out_channels, T)], the filtered signal and the excitation.
    The speaker embedding, of shape [(b, channels, 1)], is broadcast
    over the time axis, and every embedding added in either network has
    the shape of the features it is added to, with shared or separate
    up- and down-sampling stages. *)
Theorem X10_sifigan_forward_shape (a : SiFiGANGenerator.Args.t)
    (g : SiFiGANGenerator.t) (b l : Z) :
  SiFiGANGenerator.init a = Ok g →
  Forall (λ s, 2 ≤ s) a.(SiFiGANGenerator.Args.upsample_scales) →
  1 ≤ a.(SiFiGANGenerator.Args.kernel_size) →
  1 ≤ a.(SiFiGANGenerator.Args.gin_channels) →
  (0 < length a.(SiFiGANGenerator.Args.filter_network_params)
               .(FilterNetworkParams.resblock_kernel_sizes))%nat →
  1 ≤ l →
  SiFiGANGenerator.forward ShapeOps.ops g
    [b; 1; l * foldr Z.mul 1 a.(SiFiGANGenerator.Args.upsample_scales)]
    [b; a.(SiFiGANGenerator.Args.in_channels); l]
    (dilation_shapes a.(SiFiGANGenerator.Args.upsample_scales) b l
       g.(SiFiGANGenerator.num_upsamples))
    [b]
  = Ok ([b; a.(SiFiGANGenerator.Args.out_channels);
         l * foldr Z.mul 1 a.(SiFiGANGenerator.Args.upsample_scales)],
        [b; a.(SiFiGANGenerator.Args.out_channels);
         l * foldr Z.mul 1 a.(SiFiGANGenerator.Args.upsample_scales)]).
Proof.
  intros Hg Hup Hk Hgin Hnb Hl.
  assert (Hv : SiFiGANSpec.valid a = true) by (apply sifigan_init_iff; eauto).
  rewrite (sifigan_init_valid a Hv) in Hg. injection Hg as <-.
  unfold SiFiGANSpec.valid in Hv. apply andb_true_iff in Hv as [Hodd Hv].
  apply Z.eqb_eq in Hodd.
  destruct (dual_valid_parts _ _ _ _ Hv) as [Hs Htwice].
  apply dual_valid_iff in Hv as (_ & _ & _ & _ & Hn).
  set (scales := a.(SiFiGANGenerator.Args.upsample_scales)) in *.
  set (kernels := a.(SiFiGANGenerator.Args.upsample_kernel_sizes)) in *.
  set (n := length kernels) in *.
  assert (Hpos : Forall (λ s, 1 ≤ s) scales).
  { eapply Forall_impl; [exact Hup|]. intros s Hs2. simpl in Hs2. lia. }
  assert (Hdown : ∀ i, (1 ≤ i < n)%nat → 2 ≤ scales !!! i).
  { intros i Hi. rewrite Forall_lookup in Hup.
    apply (Hup i). apply lookup_total_Some. lia. }
  rewrite <- scale_product_all, Hs. fold n.
  pose proof (dual_length_pos scales kernels l Hpos Hl) as HT. fold n in HT.
  unfold SiFiGANGenerator.forward.
  cbn [SiFiGANGenerator.emb_g SiFiGANGenerator.cond SiFiGANGenerator.input_conv
       SiFiGANGenerator.num_upsamples SiFiGANGenerator.sn SiFiGANGenerator.fn
       SiFiGANGenerator.filter_network_params SiFiGANSpec.built
       SourceNetwork.emb SourceNetwork.downsamples SourceNetwork.output_conv
       FilterNetwork.output_conv].
  fold scales kernels n.
  replace (a.(SiFiGANGenerator.Args.gin_channels) =? 0) with false
    by (symmetry; apply Z.eqb_neq; lia).
  cbn [negb attr fst snd]. rewrite !bind_Ok_l.
  cbn [embedding unsqueeze_last conv1d add ShapeOps.ops].
  unfold ShapeOps.embedding. rewrite bind_Ok_l.
  unfold ShapeOps.unsqueeze_last. rewrite !bind_Ok_l.
  cbn [Embedding.embedding_dim app].
  assert (Hcond : ShapeOps.conv1d [Attr "cond"]
                    {| Conv1d.in_channels := a.(SiFiGANGenerator.Args.gin_channels);
                       Conv1d.out_channels := a.(SiFiGANGenerator.Args.channels);
                       Conv1d.kernel_size := 1;
                       Conv1d.stride := 1;
                       Conv1d.padding := 0;
                       Conv1d.bias := true |}
                    [b; a.(SiFiGANGenerator.Args.gin_channels); 1]
                  = Ok [b; a.(SiFiGANGenerator.Args.channels); 1]).
  { unfold ShapeOps.conv1d, ShapeOps.conv1d_accepts, ShapeOps.conv1d_length. simpl.
    rewrite Z.eqb_refl. reflexivity. }
  rewrite Hcond, bind_Ok_l.
  rewrite (same_conv_run _ a.(SiFiGANGenerator.Args.in_channels) _ _ _ b l)
    by assumption.
  rewrite bind_Ok_l, add_broadcast_time, bind_Ok_l.
  rewrite (same_conv_run _ 1 _ _ _ b (l * scale_product scales n)) by assumption.
  rewrite bind_Ok_l.
  change [b; a.(SiFiGANGenerator.Args.channels) / pow2 n; l * scale_product scales n]
    with (shape_at a.(SiFiGANGenerator.Args.channels) scales b l n).
  unfold SiFiGANSpec.downsamples_built.
  rewrite (dual_cascade_shape _ _ _ _ scales kernels b l Hs Htwice Hpos Hdown Hl Hn).
  rewrite bind_Ok_l.
  rewrite <- (dual_shape_at_0 a.(SiFiGANGenerator.Args.channels) scales b l).
  (* the source network *)
  rewrite (for_range_Ok n _ (shape_at a.(SiFiGANGenerator.Args.channels) scales b l)).
  2: { intros k Hklt.
       unfold SiFiGANGenerator.source_stage, SiFiGANGenerator.source_upsample.
       cbn [SiFiGANGenerator.sn SiFiGANSpec.built SourceNetwork.upsamples
            SourceNetwork.blocks SiFiGANSpec.stages DualSpec.stages_upto
            DualNetwork.sn_upsamples DualNetwork.sn_blocks].
       fold scales kernels n.
       rewrite !getitem_map_seq by exact Hklt. rewrite bind_Ok_l.
       unfold DualSpec.upsample_of.
       rewrite (upsample_step _ _ _ _ scales _ b l Hs Htwice Hpos) by exact Hklt.
       rewrite bind_Ok_l.
       rewrite (dual_embedding_at_stage _ scales kernels b l Hs) by exact Hklt.
       rewrite bind_Ok_l. cbn [add ShapeOps.ops]. rewrite add_same, !bind_Ok_l.
       apply (dual_source_block_shape _ _ _ _ scales kernels _ b l). exact Hklt. }
  rewrite bind_Ok_l.
  (* the excitation *)
  assert (Hout : ∀ p layers,
            layers = [LeakyReLU;
                      LConv1d (same_conv (a.(SiFiGANGenerator.Args.channels) / pow2 n)
                                 a.(SiFiGANGenerator.Args.out_channels)
                                 a.(SiFiGANGenerator.Args.kernel_size)
                                 a.(SiFiGANGenerator.Args.bias))]
            ∨ layers = [LeakyReLU;
                        LConv1d (same_conv (a.(SiFiGANGenerator.Args.channels) / pow2 n)
                                   a.(SiFiGANGenerator.Args.out_channels)
                                   a.(SiFiGANGenerator.Args.kernel_size)
                                   a.(SiFiGANGenerator.Args.bias));
                        LTanh] →
            run ShapeOps.ops p layers
              (shape_at a.(SiFiGANGenerator.Args.channels) scales b l n)
            = Ok [b; a.(SiFiGANGenerator.Args.out_channels);
                  l * scale_product scales n]).
  { intros p layers [-> | ->]; unfold run, run_from, run_layer;
      cbn [nonlinearity tanh conv1d ShapeOps.ops LeakyReLU activation];
      rewrite !bind_Ok_l; unfold shape_at;
      rewrite same_conv_run by assumption; reflexivity. }
  rewrite (Hout _ _ (or_introl eq_refl)), bind_Ok_l.
  (* the embeddings of the filter network *)
  destruct (dual_downsample_loop a.(SiFiGANGenerator.Args.channels)
              a.(SiFiGANGenerator.Args.bias)
              a.(SiFiGANGenerator.Args.nonlinear_activation)
              a.(SiFiGANGenerator.Args.nonlinear_activation_params)
              scales kernels b l Hs Htwice Hpos Hdown Hl Hn
              (SiFiGANGenerator.filter_downsample_step ShapeOps.ops (SiFiGANSpec.built a)))
    as (st & Hst & Hembs).
  { intros k st _. rewrite sifigan_filter_downsample_step_built.
    apply downsample_step_shape_path. }
  fold n in Hst. rewrite Hst, bind_Ok_l, Hembs.
  (* the filter network *)
  rewrite (for_range_Ok n _ (shape_at a.(SiFiGANGenerator.Args.channels) scales b l)).
  2: { intros k Hklt.
       unfold SiFiGANGenerator.filter_stage, SiFiGANGenerator.filter_upsample.
       cbn [SiFiGANGenerator.sn SiFiGANGenerator.fn SiFiGANGenerator.share_upsamples
            SiFiGANSpec.built SourceNetwork.upsamples FilterNetwork.upsamples
            FilterNetwork.blocks SiFiGANSpec.stages DualSpec.stages_upto
            DualNetwork.sn_upsamples DualNetwork.fn_upsamples DualNetwork.fn_blocks].
       fold scales kernels n.
       assert (Hupk : ∀ p : Path,
                 run ShapeOps.ops p
                   (DualSpec.upsample_of a.(SiFiGANGenerator.Args.channels)
                      a.(SiFiGANGenerator.Args.bias)
                      a.(SiFiGANGenerator.Args.nonlinear_activation)
                      a.(SiFiGANGenerator.Args.nonlinear_activation_params)
                      scales kernels k)
                   (shape_at a.(SiFiGANGenerator.Args.channels) scales b l k)
                 = Ok (shape_at a.(SiFiGANGenerator.Args.channels) scales b l (S k))).
       { intros p. unfold DualSpec.upsample_of.
         apply (upsample_step _ _ _ _ scales _ b l Hs Htwice Hpos). exact Hklt. }
       destruct (SiFiGANGenerator.Args.share_upsamples a); cbn [negb];
         rewrite getitem_map_seq, bind_Ok_l, Hupk, bind_Ok_l by exact Hklt;
         rewrite (dual_embedding_at_stage _ scales kernels b l Hs), bind_Ok_l
           by exact Hklt;
         cbn [add ShapeOps.ops]; rewrite add_same, bind_Ok_l;
         apply (dual_average_blocks_shape _ _ _ _ scales kernels _ b l);
         assumption. }
  rewrite bind_Ok_l, (Hout _ _ (or_intror eq_refl)), bind_Ok_l. reflexivity.
Qed.

(** The default generator on a batch of one: 100 frames of 80 features
    give two signals of 12000 samples. *)
Lemma X10_witness :
  SiFiGANGenerator.forward ShapeOps.ops
    (SiFiGANSpec.built (SiFiGANGenerator.Args.default 80))
    [1; 1; 100 * foldr Z.mul 1 [5; 4; 3; 2]] [1; 80; 100]
    (dilation_shapes [5; 4; 3; 2] 1 100 4) [1]
  = Ok ([1; 1; 100 * foldr Z.mul 1 [5; 4; 3; 2]],
        [1; 1; 100 * foldr Z.mul 1 [5; 4; 3; 2]]).
Proof.
  apply (X10_sifigan_forward_shape (SiFiGANGenerator.Args.default 80)
           (SiFiGANSpec.built (SiFiGANGenerator.Args.default 80)) 1 100 eq_refl).
  - repeat constructor; lia.
  - simpl. lia.
  - simpl. lia.
  - simpl. lia.
  - lia.
Defined.

(** X11. For a constructed direct generator with up-sampling scales of
    at least 2 and at least one filter block per stage, on shapes:
    features [(b, in_channels, l)], a sine signal [(b, 1, T)] and
    dilation factors [(b, 1, T_i)] of the lengths of the stages, with
    [T] the product of [l] and all the scales, give two outputs of the
    one shape [(b, out_channels, T)]. The output of stage [i] of the
    source network, kept in [embs2], has the shape of the up-sampled
    features of stage [i] of the filter network, to which it is added. *)
Theorem X11_direct_forward_shape (a : SiFiGANDirectGenerator.Args.t)
    (g : SiFiGANDirectGenerator.t) (b l : Z) :
  SiFiGANDirectGenerator.init a = Ok g →
  Forall (λ s, 2 ≤ s) a.(SiFiGANDirectGenerator.Args.upsample_scales) →
  1 ≤ a.(SiFiGANDirectGenerator.Args.kernel_size) →
  (0 < length a.(SiFiGANDirectGenerator.Args.filter_network_params)
               .(FilterNetworkParams.resblock_kernel_sizes))%nat →
  1 ≤ l →
  SiFiGANDirectGenerator.forward ShapeOps.ops g
    [b; 1; l * foldr Z.mul 1 a.(SiFiGANDirectGenerator.Args.upsample_scales)]
    [b; a.(SiFiGANDirectGenerator.Args.in_channels); l]
    (dilation_shapes a.(SiFiGANDirectGenerator.Args.upsample_scales) b l
       g.(SiFiGANDirectGenerator.num_upsamples))
  = Ok ([b; a.(SiFiGANDirectGenerator.Args.out_channels);
         l * foldr Z.mul 1 a.(SiFiGANDirectGenerator.Args.upsample_scales)],
        [b; a.(SiFiGANDirectGenerator.Args.out_channels);
         l * foldr Z.mul 1 a.(SiFiGANDirectGenerator.Args.upsample_scales)]).
Proof.
  intros Hg Hup Hk Hnb Hl.
  assert (Hv : SiFiGANDirectSpec.valid a = true) by (apply direct_init_iff; eauto).
  rewrite (direct_init_valid a Hv) in Hg. injection Hg as <-.
  unfold SiFiGANDirectSpec.valid in Hv. apply andb_true_iff in Hv as [Hodd Hv].
  apply Z.eqb_eq in Hodd.
  destruct (dual_valid_parts _ _ _ _ Hv) as [Hs Htwice].
  apply dual_valid_iff in Hv as (_ & _ & _ & _ & Hn).
  set (scales := a.(SiFiGANDirectGenerator.Args.upsample_scales)) in *.
  set (kernels := a.(SiFiGANDirectGenerator.Args.upsample_kernel_sizes)) in *.
  set (n := length kernels) in *.
  set (at_stage := shape_at a.(SiFiGANDirectGenerator.Args.channels) scales b l).
  assert (Hpos : Forall (λ s, 1 ≤ s) scales).
  { eapply Forall_impl; [exact Hup|]. intros s Hs2. simpl in Hs2. lia. }
  assert (Hdown : ∀ i, (1 ≤ i < n)%nat → 2 ≤ scales !!! i).
  { intros i Hi. rewrite Forall_lookup in Hup.
    apply (Hup i). apply lookup_total_Some. lia. }
  rewrite <- scale_product_all, Hs. fold n.
  pose proof (dual_length_pos scales kernels l Hpos Hl) as HT. fold n in HT.
  unfold SiFiGANDirectGenerator.forward.
  cbn [SiFiGANDirectGenerator.input_conv SiFiGANDirectGenerator.num_upsamples
       SiFiGANDirectGenerator.sn SiFiGANDirectGenerator.fn
       SiFiGANDirectGenerator.filter_network_params SiFiGANDirectSpec.built
       SourceNetwork.emb SourceNetwork.downsamples SourceNetwork.output_conv
       FilterNetwork.output_conv].
  fold scales kernels n.
  cbn [conv1d ShapeOps.ops].
  rewrite (same_conv_run _ a.(SiFiGANDirectGenerator.Args.in_channels) _ _ _ b l)
    by assumption.
  rewrite bind_Ok_l.
  rewrite (same_conv_run _ 1 _ _ _ b (l * scale_product scales n)) by assumption.
  rewrite bind_Ok_l.
  change [b; a.(SiFiGANDirectGenerator.Args.channels) / pow2 n;
          l * scale_product scales n]
    with (shape_at a.(SiFiGANDirectGenerator.Args.channels) scales b l n).
  unfold SiFiGANDirectSpec.downsamples_built.
  rewrite (dual_cascade_shape _ _ _ _ scales kernels b l Hs Htwice Hpos Hdown Hl Hn).
  rewrite bind_Ok_l.
  rewrite <- (dual_shape_at_0 a.(SiFiGANDirectGenerator.Args.channels) scales b l).
  fold at_stage.
  (* the source network, which keeps the output of every stage *)
  pose (F := λ k : nat, (at_stage k, map (λ i, at_stage (S i)) (seq 0 k))).
  change (at_stage 0%nat, @nil Shape) with (F 0%nat).
  rewrite (for_range_Ok n _ F).
  2: { intros k Hklt. unfold F, SiFiGANDirectGenerator.source_stage.
       cbn [SiFiGANDirectGenerator.sn SiFiGANDirectSpec.built SourceNetwork.upsamples
            SourceNetwork.blocks SiFiGANDirectSpec.stages DualSpec.stages_upto
            DualNetwork.sn_upsamples DualNetwork.sn_blocks].
       fold scales kernels n.
       rewrite !getitem_map_seq by exact Hklt. rewrite bind_Ok_l.
       unfold DualSpec.upsample_of, at_stage.
       rewrite (upsample_step _ _ _ _ scales _ b l Hs Htwice Hpos) by exact Hklt.
       rewrite bind_Ok_l.
       rewrite (dual_embedding_at_stage _ scales kernels b l Hs) by exact Hklt.
       rewrite bind_Ok_l. cbn [add ShapeOps.ops]. rewrite add_same, !bind_Ok_l.
       unfold dilation_shapes. rewrite getitem_map_seq, bind_Ok_l by exact Hklt.
       rewrite (dual_source_block_run _ _ _ _ scales _ b l), bind_Ok_l.
       rewrite seq_S, map_app. reflexivity. }
  rewrite bind_Ok_l. unfold F.
  assert (Hout : ∀ p layers,
            layers = [LeakyReLU;
                      LConv1d (same_conv
                                 (a.(SiFiGANDirectGenerator.Args.channels) / pow2 n)
                                 a.(SiFiGANDirectGenerator.Args.out_channels)
                                 a.(SiFiGANDirectGenerator.Args.kernel_size)
                                 a.(SiFiGANDirectGenerator.Args.bias))]
            ∨ layers = [LeakyReLU;
                        LConv1d (same_conv
                                   (a.(SiFiGANDirectGenerator.Args.channels) / pow2 n)
                                   a.(SiFiGANDirectGenerator.Args.out_channels)
                                   a.(SiFiGANDirectGenerator.Args.kernel_size)
                                   a.(SiFiGANDirectGenerator.Args.bias));
                        LTanh] →
            run ShapeOps.ops p layers (at_stage n)
            = Ok [b; a.(SiFiGANDirectGenerator.Args.out_channels);
                  l * scale_product scales n]).
  { intros p layers [-> | ->]; unfold run, run_from, run_layer;
      cbn [nonlinearity tanh conv1d ShapeOps.ops LeakyReLU activation];
      rewrite !bind_Ok_l; unfold at_stage, shape_at;
      rewrite same_conv_run by assumption; reflexivity. }
  rewrite (Hout _ _ (or_introl eq_refl)), bind_Ok_l.
  (* the filter network *)
  rewrite (for_range_Ok n _ at_stage).
  2: { intros k Hklt.
       unfold SiFiGANDirectGenerator.filter_stage, SiFiGANDirectGenerator.filter_upsample.
       cbn [SiFiGANDirectGenerator.sn SiFiGANDirectGenerator.fn
            SiFiGANDirectGenerator.share_upsamples
            SiFiGANDirectSpec.built SourceNetwork.upsamples FilterNetwork.upsamples
            FilterNetwork.blocks SiFiGANDirectSpec.stages DualSpec.stages_upto
            DualNetwork.sn_upsamples DualNetwork.fn_upsamples DualNetwork.fn_blocks].
       fold scales kernels n.
       assert (Hupk : ∀ p : Path,
                 run ShapeOps.ops p
                   (DualSpec.upsample_of a.(SiFiGANDirectGenerator.Args.channels)
                      a.(SiFiGANDirectGenerator.Args.bias)
                      a.(SiFiGANDirectGenerator.Args.nonlinear_activation)
                      a.(SiFiGANDirectGenerator.Args.nonlinear_activation_params)
                      scales kernels k)
                   (at_stage k)
                 = Ok (at_stage (S k))).
       { intros p. unfold DualSpec.upsample_of, at_stage.
         apply (upsample_step _ _ _ _ scales _ b l Hs Htwice Hpos). exact Hklt. }
       destruct (SiFiGANDirectGenerator.Args.share_upsamples a); cbn [negb];
         rewrite !getitem_map_seq by exact Hklt;
         rewrite bind_Ok_l, Hupk, !bind_Ok_l;
         cbn [add ShapeOps.ops]; rewrite add_same, bind_Ok_l;
         apply (dual_average_blocks_shape _ _ _ _ scales kernels _ b l);
         assumption. }
  rewrite bind_Ok_l, (Hout _ _ (or_intror eq_refl)), bind_Ok_l. reflexivity.
Qed.

(** The default direct generator on a batch of one. *)
Lemma X11_witness :
  SiFiGANDirectGenerator.forward ShapeOps.ops
    (SiFiGANDirectSpec.built (SiFiGANDirectGenerator.Args.default 80))
    [1; 1; 100 * foldr Z.mul 1 [5; 4; 3; 2]] [1; 80; 100]
    (dilation_shapes [5; 4; 3; 2] 1 100 4)
  = Ok ([1; 1; 100 * foldr Z.mul 1 [5; 4; 3; 2]],
        [1; 1; 100 * foldr Z.mul 1 [5; 4; 3; 2]]).
Proof.
  apply (X11_direct_forward_shape (SiFiGANDirectGenerator.Args.default 80)
           (SiFiGANDirectSpec.built (SiFiGANDirectGenerator.Args.default 80))
           1 100 eq_refl).
  - repeat constructor; lia.
  - simpl. lia.
  - simpl. lia.
  - lia.
Defined.

(** ** More on weight normalisation *)

Section MoreWeightNorm.
Import WeightNorm.

Lemma map_result_returns {A B} (f : A → Result B) (P : B → Prop) (l : list A) :
  Forall (λ a, ∃ b, f a = Ok b ∧ P b) l →
  ∃ l', map_result f l = Ok l' ∧ Forall P l'.
Proof.
  induction 1 as [|a l (b & Hb & HP) _ (l' & Hl' & HPl')]; simpl.
  - exists []. split; [reflexivity|constructor].
  - exists (b :: l'). rewrite Hb, bind_Ok_l, Hl', bind_Ok_l.
    split; [reflexivity|constructor; assumption].
Qed.

Lemma forallb_Forall_true {A} (P : A → bool) (l : list A) :
  Forall (λ a, P a = true) l → forallb P l = true.
Proof. induction 1 as [|a l Ha _ IH]; simpl; [reflexivity|]. rewrite Ha, IH. reflexivity. Qed.

(** [remove_weight_norm] returns, and leaves no hook behind. *)
Lemma remove_weight_norm_returns (m : NNModule) :
  ∃ m', remove_weight_norm m = Ok m' ∧ never_normalized m' = true.
Proof.
  unfold remove_weight_norm.
  induction m as [cls params children IH] using NNModule_forall_ind.
  cbn [apply].
  destruct (map_result_returns (apply _remove_weight_norm)
              (λ c, never_normalized c = true) children IH) as (children' & -> & Hch).
  rewrite bind_Ok_l. apply forallb_Forall_true in Hch.
  destruct params as [[w|g v]|]; eexists; (split; [reflexivity|]); simpl;
    rewrite Hch; reflexivity.
Qed.

(** X12. [remove_weight_norm] never raises, whatever modules carry a
    weight normalisation hook: where there is one the plain weight is
    restored from [weight_g] and [weight_v], elsewhere the [ValueError]
    of [torch.nn.utils.remove_weight_norm] is caught. Afterwards no
    module carries a hook, and a second call changes nothing. *)
Theorem X12_remove_weight_norm_total (m : NNModule) :
  ∃ m', remove_weight_norm m = Ok m'
        ∧ never_normalized m' = true
        ∧ remove_weight_norm m' = Ok m'.
Proof.
  destruct (remove_weight_norm_returns m) as (m' & Hm' & Hn).
  exists m'. split; [exact Hm'|]. split; [exact Hn|].
  apply remove_never_normalized, Hn.
Qed.

(** X13. [apply_weight_norm] cannot be applied twice: on modules with
    at least one convolution, all with plain weights, a first call
    succeeds and a second one raises the [RuntimeError] with which
    [torch.nn.utils.weight_norm] refuses a second hook on one weight.
    In particular it raises on a generator constructed with
    [use_weight_norm=True], whose [__init__] has made the first call. *)
Theorem X13_apply_weight_norm_twice (m : NNModule) :
  never_normalized m = true →
  convs_have_weight m = true →
  has_conv m = true →
  (∃ m', apply_weight_norm m = Ok m' ∧ apply_weight_norm m' = Raise RuntimeError)
  ∧ (∀ normal_, ∃ m', finish_init normal_ true m = Ok m'
                      ∧ apply_weight_norm m' = Raise RuntimeError).
Proof.
  intros Hm Hw Hc.
  assert (Hagain : apply_weight_norm (normalized m) = Raise RuntimeError)
    by (rewrite apply_weight_norm_again, Hc by assumption; reflexivity).
  split.
  - exists (normalized m). split; [apply apply_weight_norm_normalized; assumption|].
    exact Hagain.
  - intros normal_. exists (normalized m). split; [|exact Hagain].
    unfold finish_init. rewrite apply_weight_norm_normalized, bind_Ok_l by assumption.
    apply reset_parameters_normalized; assumption.
Qed.

Lemma X13_witness :
  (∃ m', apply_weight_norm small_generator = Ok m'
         ∧ apply_weight_norm m' = Raise RuntimeError)
  ∧ (∀ normal_, ∃ m', finish_init normal_ true small_generator = Ok m'
                      ∧ apply_weight_norm m' = Raise RuntimeError).
Proof.
  exact (X13_apply_weight_norm_twice small_generator eq_refl eq_refl eq_refl).
Defined.

(** X14. With [use_weight_norm=True] the reset of the parameters that
    ends [__init__] reaches no parameter: every convolution is left
    with [weight_v] the weight its constructor gave it and [weight_g]
    the norms of that weight, whatever [normal_] draws, the draw going
    to the tensor the hook had computed and recomputes. After
    [remove_weight_norm] the weights are the constructors' again (over
    the real numbers, no row of a weight being 0). *)
Theorem X14_weight_norm_hides_reset (normal_ : Weights → Weights) (m : NNModule) :
  never_normalized m = true →
  convs_have_weight m = true →
  finish_init normal_ true m = Ok (normalized m)
  ∧ (rows_nonzero m → remove_weight_norm (normalized m) = Ok m).
Proof.
  intros Hm Hw. split.
  - unfold finish_init. rewrite apply_weight_norm_normalized, bind_Ok_l by assumption.
    apply reset_parameters_normalized; assumption.
  - intros Hr. apply remove_weight_norm_normalized; assumption.
Qed.

(** Whatever is drawn, here zeros for every weight. *)
Lemma X14_witness :
  finish_init (λ w, map (map (λ _, 0%R)) w) true small_generator
  = Ok (normalized small_generator)
  ∧ remove_weight_norm (normalized small_generator) = Ok small_generator.
Proof.
  destruct (X14_weight_norm_hides_reset (λ w, map (map (λ _, 0%R)) w) small_generator
              eq_refl eq_refl) as [Hinit Hremove].
  split; [exact Hinit|exact (Hremove small_generator_rows_nonzero)].
Defined.

End MoreWeightNorm.

(** ** The data-preparation scripts *)

Lemma enumerate_snoc {A} (l : list A) (x : A) :
  enumerate (l ++ [x]) = enumerate l ++ [(length l, x)].
Proof.
  unfold enumerate. rewrite imap_app. simpl. rewrite Nat.add_0_r. reflexivity.
Qed.

Section DivideTraindataLemmas.
Import DivideTraindata.

Lemma divide_snoc (lines : list string) (line : string) :
  divide (lines ++ [line]) = step (divide lines) (length lines, line).
Proof. unfold divide. rewrite enumerate_snoc, foldl_app. reflexivity. Qed.

(** The three cases of the loop body, by the index modulo 10. *)
Lemma step_cases (s : Lines) (i : nat) (line : string) :
  (Z.of_nat i mod 10 = 0
   ∧ step s (i, line) = {| train_line := s.(train_line);
                            dev_line := s.(dev_line) ++ [line];
                            eval_line := s.(eval_line) |})
  ∨ (Z.of_nat i mod 10 = 9
     ∧ step s (i, line) = {| train_line := s.(train_line);
                              dev_line := s.(dev_line);
                              eval_line := s.(eval_line) ++ [line] |})
  ∨ (1 ≤ Z.of_nat i mod 10 ≤ 8
     ∧ step s (i, line) = {| train_line := s.(train_line) ++ [line];
                              dev_line := s.(dev_line);
                              eval_line := s.(eval_line) |}).
Proof.
  unfold step.
  destruct (Z.eqb_spec (Z.of_nat i mod 10) 0) as [H0|H0]; [left; auto|].
  destruct (Z.eqb_spec ((Z.of_nat i + 1) mod 10) 0) as [H9|H9].
  - right. left. split; [|reflexivity].
    revert H0 H9. Z.to_euclidean_division_equations. lia.
  - right. right. split; [|reflexivity].
    revert H0 H9. Z.to_euclidean_division_equations. lia.
Qed.

Lemma snoc_permutation_l {A} (t d e l : list A) (x : A) :
  t ++ d ++ e ≡ₚ l → (t ++ [x]) ++ d ++ e ≡ₚ l ++ [x].
Proof.
  intros H. rewrite <- H, <- (app_assoc t [x]). simpl.
  rewrite <- Permutation_middle, <- Permutation_cons_append. reflexivity.
Qed.

Lemma snoc_permutation_m {A} (t d e l : list A) (x : A) :
  t ++ d ++ e ≡ₚ l → t ++ (d ++ [x]) ++ e ≡ₚ l ++ [x].
Proof.
  intros H. rewrite <- H, <- (app_assoc d [x]). simpl.
  rewrite (app_assoc t d (x :: e)), <- Permutation_middle, <- Permutation_cons_append.
  rewrite app_assoc. reflexivity.
Qed.

Lemma snoc_permutation_r {A} (t d e l : list A) (x : A) :
  t ++ d ++ e ≡ₚ l → t ++ d ++ e ++ [x] ≡ₚ l ++ [x].
Proof. intros H. rewrite <- H, !app_assoc. reflexivity. Qed.

(** Every line goes to one list, and each list keeps the order. *)
Lemma divide_partitions (lines : list string) :
  (divide lines).(train_line) ++ (divide lines).(dev_line) ++ (divide lines).(eval_line)
    ≡ₚ lines
  ∧ sublist (divide lines).(train_line) lines
  ∧ sublist (divide lines).(dev_line) lines
  ∧ sublist (divide lines).(eval_line) lines
  ∧ (∀ line, last lines = Some line →
       last (divide lines).(train_line) = Some line
       ∨ last (divide lines).(dev_line) = Some line
       ∨ last (divide lines).(eval_line) = Some line).
Proof.
  induction lines as [|ln lines IH] using rev_ind.
  - repeat split; try constructor. discriminate.
  - destruct IH as (Hperm & Ht & Hd & He & _). rewrite divide_snoc.
    destruct (step_cases (divide lines) (length lines) ln)
      as [[_ ->]|[[_ ->]|[_ ->]]]; cbn [train_line dev_line eval_line].
    + repeat split.
      * apply snoc_permutation_m, Hperm.
      * apply sublist_inserts_r, Ht.
      * apply sublist_app; [exact Hd|reflexivity].
      * apply sublist_inserts_r, He.
      * intros x. rewrite !last_snoc. intros [= <-]. auto.
    + repeat split.
      * apply snoc_permutation_r, Hperm.
      * apply sublist_inserts_r, Ht.
      * apply sublist_inserts_r, Hd.
      * apply sublist_app; [exact He|reflexivity].
      * intros x. rewrite !last_snoc. intros [= <-]. auto.
    + repeat split.
      * apply snoc_permutation_l, Hperm.
      * apply sublist_app; [exact Ht|reflexivity].
      * apply sublist_inserts_r, Hd.
      * apply sublist_inserts_r, He.
      * intros x. rewrite !last_snoc. intros [= <-]. auto.
Qed.


(** X15. The loop of [divide_traindata.py] deals every line of the
    file it reads to exactly one of the three lists and keeps the order
    of the lines within each list: the lists together are a
    rearrangement of the lines, and each is a subsequence of them. The
    last line of the file is the last line of the list it goes to, so
    that a last line without line feed is written last. *)
Theorem X15_divide_partitions (lines : list string) :
  (divide lines).(train_line) ++ (divide lines).(dev_line) ++ (divide lines).(eval_line)
    ≡ₚ lines
  ∧ sublist (divide lines).(train_line) lines
  ∧ sublist (divide lines).(dev_line) lines
  ∧ sublist (divide lines).(eval_line) lines
  ∧ (∀ line, last lines = Some line →
       last (divide lines).(train_line) = Some line
       ∨ last (divide lines).(dev_line) = Some line
       ∨ last (divide lines).(eval_line) = Some line).
Proof. exact (divide_partitions lines). Qed.

(** How many lines each list holds, and which. *)
Ltac div_lia := Z.to_euclidean_division_equations; lia.

Lemma divide_indices (lines : list string) :
  let s := divide lines in
  let n := Z.of_nat (length lines) in
  Z.of_nat (length s.(dev_line)) = (n + 9) / 10
  ∧ Z.of_nat (length s.(eval_line)) = n / 10
  ∧ Z.of_nat (length s.(train_line)) = n - (n + 9) / 10 - n / 10
  ∧ (∀ k, (k < length s.(dev_line))%nat → s.(dev_line) !! k = lines !! (10 * k)%nat)
  ∧ (∀ k, (k < length s.(eval_line))%nat →
       s.(eval_line) !! k = lines !! (10 * k + 9)%nat)
  ∧ (∀ q r, (r < 8)%nat → (8 * q + r < length s.(train_line))%nat →
       s.(train_line) !! (8 * q + r)%nat = lines !! (10 * q + r + 1)%nat).
Proof.
  induction lines as [|line lines IH] using rev_ind.
  - simpl. repeat split; intros; simpl in *; lia.
  - cbv zeta in *. destruct IH as (Hd & He & Ht & Hdk & Hek & Htk).
    rewrite divide_snoc, length_app. cbn [length].
    set (s := divide lines) in *. set (n := length lines) in *.
    assert (Hold : ∀ i, (i < n)%nat → (lines ++ [line]) !! i = lines !! i)
      by (intros i Hi; apply lookup_app_l; exact Hi).
    assert (Hnew : (lines ++ [line]) !! n = Some line)
      by (unfold n; rewrite lookup_app_r, Nat.sub_diag by lia; reflexivity).
    destruct (step_cases s n line) as [[Hmod ->]|[[Hmod ->]|[Hmod ->]]];
      cbn [train_line dev_line eval_line]; rewrite ?length_app; cbn [length].
    + split; [|split; [|split; [|split; [|split]]]].
      * div_lia.
      * div_lia.
      * div_lia.
      * intros k Hk. destruct (decide (k = length (dev_line s))) as [->|Hne].
        -- rewrite lookup_app_r, Nat.sub_diag by lia.
           change ([line] !! 0%nat) with (Some line).
           replace (10 * length (dev_line s))%nat with n; [symmetry; exact Hnew|].
           div_lia.
        -- rewrite lookup_app_l, Hdk, Hold by div_lia. reflexivity.
      * intros k Hk. rewrite Hek, Hold by div_lia. reflexivity.
      * intros q r Hr Hk. rewrite Htk, Hold by div_lia. reflexivity.
    + split; [|split; [|split; [|split; [|split]]]].
      * div_lia.
      * div_lia.
      * div_lia.
      * intros k Hk. rewrite Hdk, Hold by div_lia. reflexivity.
      * intros k Hk. destruct (decide (k = length (eval_line s))) as [->|Hne].
        -- rewrite lookup_app_r, Nat.sub_diag by lia.
           change ([line] !! 0%nat) with (Some line).
           replace (10 * length (eval_line s) + 9)%nat with n; [symmetry; exact Hnew|].
           div_lia.
        -- rewrite lookup_app_l, Hek, Hold by div_lia. reflexivity.
      * intros q r Hr Hk. rewrite Htk, Hold by div_lia. reflexivity.
    + split; [|split; [|split; [|split; [|split]]]].
      * div_lia.
      * div_lia.
      * div_lia.
      * intros k Hk. rewrite Hdk, Hold by div_lia. reflexivity.
      * intros k Hk. rewrite Hek, Hold by div_lia. reflexivity.
      * intros q r Hr Hk.
        destruct (decide (8 * q + r = length (train_line s))%nat) as [Heq|Hne].
        -- rewrite Heq, lookup_app_r, Nat.sub_diag by lia.
           change ([line] !! 0%nat) with (Some line).
           replace (10 * q + r + 1)%nat with n; [symmetry; exact Hnew|].
           div_lia.
        -- rewrite lookup_app_l, Htk, Hold by div_lia. reflexivity.
Qed.

(** X16. Of the lines of the file it reads, [divide_traindata.py]
    puts the lines 0, 10, 20, ... in the dev list, the lines 9, 19, 29,
    ... in the eval list and the other eight of every ten, in order, in
    the train list: of [n] lines the dev list gets [(n + 9) // 10], the
    eval list [n // 10] and the train list the rest. *)
Theorem X16_divide_indices (lines : list string) :
  Z.of_nat (length (divide lines).(dev_line)) = (Z.of_nat (length lines) + 9) / 10
  ∧ Z.of_nat (length (divide lines).(eval_line)) = Z.of_nat (length lines) / 10
  ∧ Z.of_nat (length (divide lines).(train_line))
    = Z.of_nat (length lines) - (Z.of_nat (length lines) + 9) / 10
      - Z.of_nat (length lines) / 10
  ∧ (∀ k, (k < length (divide lines).(dev_line))%nat →
       (divide lines).(dev_line) !! k = lines !! (10 * k)%nat)
  ∧ (∀ k, (k < length (divide lines).(eval_line))%nat →
       (divide lines).(eval_line) !! k = lines !! (10 * k + 9)%nat)
  ∧ (∀ q r, (r < 8)%nat → (8 * q + r < length (divide lines).(train_line))%nat →
       (divide lines).(train_line) !! (8 * q + r)%nat = lines !! (10 * q + r + 1)%nat).
Proof. exact (divide_indices lines). Qed.

(** *** Texts and their lines *)

Lemma occurs_app (c : Ascii.ascii) (s1 s2 : string) :
  occurs c (s1 ++ s2)%string = occurs c s1 || occurs c s2.
Proof.
  induction s1 as [|c1 s1 IH]; simpl; [reflexivity|].
  rewrite IH, orb_assoc. reflexivity.
Qed.

Lemma line_break_free_app (s1 s2 : string) :
  line_break_free (s1 ++ s2)%string = line_break_free s1 && line_break_free s2.
Proof.
  unfold line_break_free. rewrite !occurs_app.
  destruct (occurs LF s1), (occurs LF s2), (occurs CR s1), (occurs CR s2); reflexivity.
Qed.

Lemma line_break_free_String (c : Ascii.ascii) (s : string) :
  line_break_free (String c s)
  = negb (Ascii.eqb c LF) && negb (Ascii.eqb c CR) && line_break_free s.
Proof.
  unfold line_break_free. simpl.
  destruct (Ascii.eqb c LF), (Ascii.eqb c CR), (occurs LF s), (occurs CR s); reflexivity.
Qed.

Lemma string_concat_cons (line : string) (lines : list string) :
  String.concat "" (line :: lines) = (line ++ String.concat "" lines)%string.
Proof.
  destruct lines as [|line' lines]; simpl; [|reflexivity].
  induction line as [|c line IH]; simpl; [reflexivity|]. rewrite <- IH. reflexivity.
Qed.

Lemma string_app_assoc (s1 s2 s3 : string) :
  ((s1 ++ s2) ++ s3 = s1 ++ s2 ++ s3)%string.
Proof. induction s1 as [|c s1 IH]; simpl; [reflexivity|]. rewrite IH. reflexivity. Qed.

(** A text without carriage return is read as it is. *)
Lemma universal_newlines_id (s : string) :
  occurs CR s = false → universal_newlines s = s.
Proof.
  induction s as [|c s IH]; simpl; [reflexivity|].
  intros H. apply orb_false_iff in H as [Hc Hs]. rewrite Hc, IH by exact Hs. reflexivity.
Qed.

(** What is read holds no carriage return. *)
Lemma universal_newlines_no_cr (s : string) :
  occurs CR (universal_newlines s) = false.
Proof.
  enough (H : occurs CR (universal_newlines s) = false
              ∧ ∀ c, occurs CR (universal_newlines (String c s)) = false)
    by exact (proj1 H).
  induction s as [|a s [IH1 IH2]].
  - split; [reflexivity|]. intros c. simpl.
    destruct (Ascii.eqb c CR) eqn:Hc; simpl; [reflexivity|]. rewrite Hc. reflexivity.
  - split; [apply IH2|]. intros c.
    change (universal_newlines (String c (String a s)))
      with (if Ascii.eqb c CR
            then String LF (if Ascii.eqb a LF then universal_newlines s
                            else universal_newlines (String a s))
            else String c (universal_newlines (String a s))).
    destruct (Ascii.eqb c CR) eqn:Hc.
    + destruct (Ascii.eqb a LF); simpl; [apply IH1|apply IH2].
    + change (occurs CR (String c ?t)) with (Ascii.eqb c CR || occurs CR t).
      rewrite Hc. apply IH2.
Qed.

(** The lines of a text, put one after the other, are the text. *)
Lemma concat_split_lines (s : string) : String.concat "" (split_lines s) = s.
Proof.
  induction s as [|c s IH]; [reflexivity|].
  cbn [split_lines]. destruct (Ascii.eqb_spec c LF) as [->|Hc].
  - rewrite string_concat_cons, IH. reflexivity.
  - destruct (split_lines s) as [|line lines].
    + simpl in IH. subst s. reflexivity.
    + rewrite string_concat_cons in *. simpl. rewrite IH. reflexivity.
Qed.

(** The lines of a text without carriage return are lines. *)
Lemma text_lines_split_lines (s : string) :
  occurs CR s = false → text_lines (split_lines s).
Proof.
  induction s as [|c s IH]; [constructor|].
  intros H. simpl in H. apply orb_false_iff in H as [Hcr Hs]. specialize (IH Hs).
  cbn [split_lines]. destruct (Ascii.eqb c LF) eqn:Hlf.
  - apply Ascii.eqb_eq in Hlf as ->.
    exact (text_cons EmptyString _ eq_refl IH).
  - destruct (split_lines s) as [|line lines].
    + apply text_last; [discriminate|].
      rewrite line_break_free_String, Hlf, Hcr. reflexivity.
    + inversion IH as [|line' Hne Hfree|body lines' Hfree Hlines]; subst.
      * apply text_last; [discriminate|].
        rewrite line_break_free_String, Hlf, Hcr, Hfree. reflexivity.
      * apply (text_cons (String c body)); [|exact Hlines].
        rewrite line_break_free_String, Hlf, Hcr, Hfree. reflexivity.
Qed.

Lemma text_lines_readlines (content : string) : text_lines (readlines content).
Proof. apply text_lines_split_lines, universal_newlines_no_cr. Qed.

(** A text that begins with a line. *)
Lemma split_lines_line (body rest : string) :
  occurs LF body = false →
  split_lines (body ++ String LF rest) = (body ++ String LF EmptyString)%string
                                         :: split_lines rest.
Proof.
  induction body as [|c body IH]; intros H.
  - reflexivity.
  - simpl in H. apply orb_false_iff in H as [Hc Hbody].
    change (split_lines (String c body ++ String LF rest))
      with (if Ascii.eqb c LF then String c EmptyString :: split_lines (body ++ String LF rest)
            else match split_lines (body ++ String LF rest) with
                 | [] => [String c EmptyString]
                 | line :: lines => String c line :: lines
                 end).
    rewrite Hc, IH by exact Hbody. reflexivity.
Qed.

(** A text without line feed is one line. *)
Lemma split_lines_last (line : string) :
  line ≠ EmptyString → occurs LF line = false → split_lines line = [line].
Proof.
  induction line as [|c line IH]; [congruence|].
  intros _ H. simpl in H. apply orb_false_iff in H as [Hc Hline].
  cbn [split_lines]. rewrite Hc. destruct line as [|c' line]; [reflexivity|].
  rewrite IH by (discriminate || exact Hline). reflexivity.
Qed.

Lemma line_break_free_occurs (s : string) :
  line_break_free s = true → occurs LF s = false ∧ occurs CR s = false.
Proof.
  unfold line_break_free. destruct (occurs LF s), (occurs CR s); simpl; auto; discriminate.
Qed.

(** Lines written one after the other hold no carriage return. *)
Lemma text_lines_no_cr (lines : list string) :
  text_lines lines → occurs CR (String.concat "" lines) = false.
Proof.
  induction 1 as [|line Hne Hfree|body lines Hfree Hlines IH].
  - reflexivity.
  - apply line_break_free_occurs, Hfree.
  - rewrite string_concat_cons, !occurs_app, IH.
    apply line_break_free_occurs in Hfree as [_ ->]. reflexivity.
Qed.

(** Lines written one after the other are cut into the same lines. *)
Lemma split_lines_concat (lines : list string) :
  text_lines lines → split_lines (String.concat "" lines) = lines.
Proof.
  induction 1 as [|line Hne Hfree|body lines Hfree Hlines IH].
  - reflexivity.
  - apply split_lines_last; [exact Hne|apply line_break_free_occurs, Hfree].
  - rewrite string_concat_cons, string_app_assoc.
    change (String LF EmptyString ++ ?t)%string with (String LF t).
    rewrite split_lines_line by apply line_break_free_occurs, Hfree.
    rewrite IH. reflexivity.
Qed.

(** [writelines] of lines, then [readlines]: the same lines. *)
Lemma readlines_concat (lines : list string) :
  text_lines lines → readlines (String.concat "" lines) = lines.
Proof.
  intros H. unfold readlines.
  rewrite universal_newlines_id by apply text_lines_no_cr, H.
  apply split_lines_concat, H.
Qed.

(** Lines left out, the others are lines still: a line without line
    feed can only be the last one, and is the last one of what is
    kept. *)
Lemma text_lines_sublist (kept lines : list string) :
  sublist kept lines → text_lines lines → text_lines kept.
Proof.
  induction 1 as [|line kept lines Hsub IH|line kept lines Hsub IH]; intros Hlines.
  - constructor.
  - inversion Hlines as [|line' Hne Hfree|body lines' Hfree Hrest]; subst.
    + apply sublist_nil_r in Hsub as ->. exact Hlines.
    + apply text_cons; [exact Hfree|apply IH, Hrest].
  - apply IH. inversion Hlines; subst; [constructor|assumption].
Qed.

(** Strings that each end in their only line feed are lines. *)
Lemma text_lines_terminated (lines : list string) :
  Forall (λ line, ∃ body, line = (body ++ String LF EmptyString)%string
                          ∧ line_break_free body = true) lines →
  text_lines lines.
Proof.
  induction 1 as [|line lines (body & -> & Hfree) _ IH]; [constructor|].
  apply text_cons; assumption.
Qed.

(** A file other than the one written is as it was. *)
Lemma writelines_other (path p : string) (ls : list string) (fs : Files) :
  p ≠ path → writelines path ls fs p = fs p.
Proof.
  intros Hne. unfold writelines. apply String.eqb_neq in Hne. rewrite Hne. reflexivity.
Qed.

Lemma writelines_same (path : string) (ls : list string) (fs : Files) :
  writelines path ls fs path = Some (String.concat "" ls).
Proof. unfold writelines. rewrite String.eqb_refl. reflexivity. Qed.

(** The files one half of the script leaves. *)
Lemma divide_file_spec (all train dev eval : string) (text : string) (fs : Files) :
  fs all = Some text →
  train ≠ dev → train ≠ eval → dev ≠ eval →
  ∃ fs', divide_file all train dev eval fs = Finished fs'
         ∧ fs' train = Some (String.concat "" (divide (readlines text)).(train_line))
         ∧ fs' dev = Some (String.concat "" (divide (readlines text)).(dev_line))
         ∧ fs' eval = Some (String.concat "" (divide (readlines text)).(eval_line))
         ∧ ∀ p, p ≠ train → p ≠ dev → p ≠ eval → fs' p = fs p.
Proof.
  intros Hall Htd Hte Hde. unfold divide_file. rewrite Hall.
  eexists. split; [reflexivity|]. split; [|split; [|split]].
  - rewrite !writelines_other by congruence. apply writelines_same.
  - rewrite writelines_other by congruence. apply writelines_same.
  - apply writelines_same.
  - intros p Ht Hd He. rewrite !writelines_other by assumption. reflexivity.
Qed.

Lemma scp_paths_distinct :
  train_list ≠ dev_list ∧ train_list ≠ eval_list ∧ dev_list ≠ eval_list
  ∧ train_scp ≠ dev_scp ∧ train_scp ≠ eval_scp ∧ dev_scp ≠ eval_scp
  ∧ all_scp ≠ train_list ∧ all_scp ≠ dev_list ∧ all_scp ≠ eval_list
  ∧ all_list ≠ train_list ∧ all_list ≠ dev_list ∧ all_list ≠ eval_list
  ∧ all_list ≠ train_scp ∧ all_list ≠ dev_scp ∧ all_list ≠ eval_scp
  ∧ all_scp ≠ train_scp ∧ all_scp ≠ dev_scp ∧ all_scp ≠ eval_scp
  ∧ train_list ≠ train_scp ∧ train_list ≠ dev_scp ∧ train_list ≠ eval_scp
  ∧ dev_list ≠ train_scp ∧ dev_list ≠ dev_scp ∧ dev_list ≠ eval_scp
  ∧ eval_list ≠ train_scp ∧ eval_list ≠ dev_scp ∧ eval_list ≠ eval_scp.
Proof. repeat split; apply String.eqb_neq; vm_compute; reflexivity. Qed.

(** The script when both files are there. *)
Lemma divide_main_finished (fs : Files) (text scp : string) :
  fs all_list = Some text → fs all_scp = Some scp →
  ∃ fs', main fs = Finished fs'
         ∧ fs' train_list = Some (String.concat "" (divide (readlines text)).(train_line))
         ∧ fs' dev_list = Some (String.concat "" (divide (readlines text)).(dev_line))
         ∧ fs' eval_list = Some (String.concat "" (divide (readlines text)).(eval_line))
         ∧ fs' train_scp = Some (String.concat "" (divide (readlines scp)).(train_line))
         ∧ fs' dev_scp = Some (String.concat "" (divide (readlines scp)).(dev_line))
         ∧ fs' eval_scp = Some (String.concat "" (divide (readlines scp)).(eval_line))
         ∧ ∀ p, p ≠ train_list → p ≠ dev_list → p ≠ eval_list →
                p ≠ train_scp → p ≠ dev_scp → p ≠ eval_scp → fs' p = fs p.
Proof.
  intros Hlist Hscp.
  destruct scp_paths_distinct as (H1 & H2 & H3 & H4 & H5 & H6 & H7 & H8 & H9 & H10 & H11
    & H12 & H13 & H14 & H15 & H16 & H17 & H18 & H19 & H20 & H21 & H22 & H23 & H24 & H25
    & H26 & H27).
  destruct (divide_file_spec all_list train_list dev_list eval_list text fs Hlist H1 H2 H3)
    as (fs1 & Hfs1 & Ht1 & Hd1 & He1 & Hother1).
  assert (Hscp1 : fs1 all_scp = Some scp) by (rewrite Hother1; assumption).
  destruct (divide_file_spec all_scp train_scp dev_scp eval_scp scp fs1 Hscp1 H4 H5 H6)
    as (fs2 & Hfs2 & Ht2 & Hd2 & He2 & Hother2).
  exists fs2. unfold main. rewrite Hfs1. split; [exact Hfs2|].
  repeat split; try assumption.
  - rewrite Hother2; assumption.
  - rewrite Hother2; assumption.
  - rewrite Hother2; assumption.
  - intros p Hp1 Hp2 Hp3 Hp4 Hp5 Hp6. rewrite Hother2, Hother1; auto.
Qed.

(** Each of the lists the loop fills from the lines of a text is a list
    of lines. *)
Lemma divide_text_lines (text : string) :
  text_lines (divide (readlines text)).(train_line)
  ∧ text_lines (divide (readlines text)).(dev_line)
  ∧ text_lines (divide (readlines text)).(eval_line).
Proof.
  destruct (divide_partitions (readlines text)) as (_ & Ht & Hd & He & _).
  pose proof (text_lines_readlines text) as Hlines.
  repeat split; eapply text_lines_sublist; eassumption.
Qed.

(** X17. [divide_traindata.py] as a whole, the directory of the files
    being writable. Without [all.list] it stops at the first [open],
    having written nothing. With [all.list] but without [all.scp] it
    stops at the second: the three [.list] files are written by then,
    and no [.scp] file. With both it writes the six files, each the
    lines of its list one after the other, from the lines of [all.list]
    and of [all.scp] as [readlines] gives them, and leaves every other
    file, the two it read among them, as it was. *)
Theorem X17_divide_main (fs : Files) :
  (fs all_list = None → main fs = FileNotFoundError fs)
  ∧ (∀ text, fs all_list = Some text → fs all_scp = None →
       ∃ fs', main fs = FileNotFoundError fs'
              ∧ fs' train_list
                = Some (String.concat "" (divide (readlines text)).(train_line))
              ∧ fs' dev_list
                = Some (String.concat "" (divide (readlines text)).(dev_line))
              ∧ fs' eval_list
                = Some (String.concat "" (divide (readlines text)).(eval_line))
              ∧ ∀ p, p ≠ train_list → p ≠ dev_list → p ≠ eval_list → fs' p = fs p)
  ∧ (∀ text scp, fs all_list = Some text → fs all_scp = Some scp →
       ∃ fs', main fs = Finished fs'
              ∧ fs' train_list
                = Some (String.concat "" (divide (readlines text)).(train_line))
              ∧ fs' dev_list
                = Some (String.concat "" (divide (readlines text)).(dev_line))
              ∧ fs' eval_list
                = Some (String.concat "" (divide (readlines text)).(eval_line))
              ∧ fs' train_scp
                = Some (String.concat "" (divide (readlines scp)).(train_line))
              ∧ fs' dev_scp
                = Some (String.concat "" (divide (readlines scp)).(dev_line))
              ∧ fs' eval_scp
                = Some (String.concat "" (divide (readlines scp)).(eval_line))
              ∧ fs' all_list = Some text
              ∧ fs' all_scp = Some scp
              ∧ ∀ p, p ≠ train_list → p ≠ dev_list → p ≠ eval_list →
                     p ≠ train_scp → p ≠ dev_scp → p ≠ eval_scp → fs' p = fs p).
Proof.
  destruct scp_paths_distinct as (H1 & H2 & H3 & H4 & H5 & H6 & H7 & H8 & H9 & H10 & H11
    & H12 & H13 & H14 & H15 & H16 & H17 & H18 & H19 & H20 & H21 & H22 & H23 & H24 & H25
    & H26 & H27).
  split; [|split].
  - intros Hnone. unfold main, divide_file. rewrite Hnone. reflexivity.
  - intros text Hlist Hscp.
    destruct (divide_file_spec all_list train_list dev_list eval_list text fs Hlist H1 H2 H3)
      as (fs1 & Hfs1 & Ht1 & Hd1 & He1 & Hother1).
    exists fs1. unfold main. rewrite Hfs1. unfold divide_file.
    rewrite Hother1, Hscp by assumption. auto 10.
  - intros text scp Hlist Hscp.
    destruct (divide_main_finished fs text scp Hlist Hscp)
      as (fs' & Hmain & Ht & Hd & He & Hts & Hds & Hes & Hother).
    exists fs'. repeat split; try assumption.
    + rewrite Hother; assumption.
    + rewrite Hother; assumption.
Qed.

(** With an empty [all.list] and no [all.scp] the script stops at the
    second [open], three empty [.list] files written. *)
Lemma X17_witness :
  ∃ fs', main example_files = FileNotFoundError fs'
         ∧ fs' train_list = Some EmptyString
         ∧ fs' dev_list = Some EmptyString
         ∧ fs' eval_list = Some EmptyString
         ∧ ∀ p, p ≠ train_list → p ≠ dev_list → p ≠ eval_list → fs' p = example_files p.
Proof.
  exact (proj1 (proj2 (X17_divide_main example_files)) EmptyString eq_refl eq_refl).
Defined.

(** X21. The files [divide_traindata.py] writes can be read again
    line by line: whatever text it divides, with any of the line ends
    [\n], [\r\n] and [\r] and with or without a line feed at its end,
    each of the three files written, read by [readlines], gives exactly
    the lines that were written to it, and holds no carriage return. No
    two lines run together: a last line without line feed is the last
    line of the file it goes to. The lines of the three files are,
    together, the lines of the text. *)
Theorem X21_divided_files_read_back (text : string) :
  readlines (String.concat "" (divide (readlines text)).(train_line))
  = (divide (readlines text)).(train_line)
  ∧ readlines (String.concat "" (divide (readlines text)).(dev_line))
    = (divide (readlines text)).(dev_line)
  ∧ readlines (String.concat "" (divide (readlines text)).(eval_line))
    = (divide (readlines text)).(eval_line)
  ∧ occurs CR (String.concat "" (divide (readlines text)).(train_line)) = false
  ∧ occurs CR (String.concat "" (divide (readlines text)).(dev_line)) = false
  ∧ occurs CR (String.concat "" (divide (readlines text)).(eval_line)) = false
  ∧ readlines (String.concat "" (divide (readlines text)).(train_line))
    ++ readlines (String.concat "" (divide (readlines text)).(dev_line))
    ++ readlines (String.concat "" (divide (readlines text)).(eval_line))
    ≡ₚ readlines text
  ∧ String.concat "" (readlines text) = universal_newlines text.
Proof.
  destruct (divide_text_lines text) as (Ht & Hd & He).
  rewrite !readlines_concat by assumption.
  repeat split; try (apply text_lines_no_cr; assumption).
  - apply divide_partitions.
  - apply concat_split_lines.
Qed.

(** X22. Running [divide_traindata.py] a second time changes nothing:
    it reads the two files it read before, which it did not touch, and
    writes to each of the six files the text that is there. *)
Theorem X22_divide_main_again (fs fs' : Files) :
  main fs = Finished fs' →
  ∃ fs'', main fs' = Finished fs'' ∧ ∀ p, fs'' p = fs' p.
Proof.
  intros Hmain.
  destruct (fs all_list) as [text|] eqn:Hlist;
    [|unfold main, divide_file in Hmain; rewrite Hlist in Hmain; discriminate].
  destruct (fs all_scp) as [scp|] eqn:Hscp.
  2:{ exfalso. pose proof scp_paths_distinct as Hne. unfold main in Hmain.
      destruct (divide_file_spec all_list train_list dev_list eval_list text fs Hlist)
        as (fs1 & Hfs1 & _ & _ & _ & Hother1); [apply Hne..|].
      rewrite Hfs1 in Hmain. unfold divide_file in Hmain.
      rewrite Hother1, Hscp in Hmain by apply Hne. discriminate. }
  destruct scp_paths_distinct as (H1 & H2 & H3 & H4 & H5 & H6 & H7 & H8 & H9 & H10 & H11
    & H12 & H13 & H14 & H15 & H16 & H17 & H18 & H19 & H20 & H21 & H22 & H23 & H24 & H25
    & H26 & H27).
  destruct (divide_main_finished fs text scp Hlist Hscp)
    as (fs1 & Hfs1 & Ht & Hd & He & Hts & Hds & Hes & Hother).
  rewrite Hfs1 in Hmain. injection Hmain as <-.
  assert (Hlist1 : fs1 all_list = Some text) by (rewrite Hother; assumption).
  assert (Hscp1 : fs1 all_scp = Some scp) by (rewrite Hother; assumption).
  destruct (divide_main_finished fs1 text scp Hlist1 Hscp1)
    as (fs2 & Hfs2 & Ht2 & Hd2 & He2 & Hts2 & Hds2 & Hes2 & Hother2).
  exists fs2. split; [exact Hfs2|]. intros p.
  destruct (String.eqb_spec p train_list) as [->|Hp1]; [congruence|].
  destruct (String.eqb_spec p dev_list) as [->|Hp2]; [congruence|].
  destruct (String.eqb_spec p eval_list) as [->|Hp3]; [congruence|].
  destruct (String.eqb_spec p train_scp) as [->|Hp4]; [congruence|].
  destruct (String.eqb_spec p dev_scp) as [->|Hp5]; [congruence|].
  destruct (String.eqb_spec p eval_scp) as [->|Hp6]; [congruence|].
  apply Hother2; assumption.
Qed.

End DivideTraindataLemmas.

Section CreateDatasetLemmas.
Import CreateDataset.
Variable glob : string → list string.
Variable basename : string → string.

Lemma file_loop (i : nat) (dir_ : string) (s : State) (files : list string) :
  foldl (file_step basename i dir_) s files
  = {| printed := s.(printed) ++ map (line_of basename i dir_) files;
       lines := s.(lines) ++ map (line_of basename i dir_) files |}.
Proof.
  revert s. induction files as [|file_ files IH]; intros s; simpl.
  - rewrite !app_nil_r. destruct s; reflexivity.
  - rewrite IH. simpl. rewrite <- !app_assoc. reflexivity.
Qed.

(** The lines the two loops collect for a list of directories, the
    first of which has the index [i0]. *)
Lemma dir_loop (i0 : nat) (dirs : list string) (s : State) :
  foldl (dir_step glob basename) s (imap (λ i, pair (i0 + i)%nat) dirs)
  = {| printed :=
         s.(printed)
         ++ concat (imap (λ i dir_, map (line_of basename (i0 + i) dir_)
                                      (glob (dir_ ++ "/*")%string)) dirs);
       lines :=
         s.(lines)
         ++ concat (imap (λ i dir_, map (line_of basename (i0 + i) dir_)
                                      (glob (dir_ ++ "/*")%string)) dirs) |}.
Proof.
  revert i0 s. induction dirs as [|dir_ dirs IH]; intros i0 s; simpl.
  - rewrite !app_nil_r. destruct s; reflexivity.
  - rewrite file_loop.
    rewrite (imap_ext _ (λ i, pair (S i0 + i)%nat) dirs)
      by (intros; simpl; f_equal; lia).
    rewrite IH. simpl. rewrite <- !app_assoc, Nat.add_0_r.
    f_equal; f_equal; f_equal; f_equal; apply imap_ext; intros; simpl;
      do 2 f_equal; lia.
Qed.

Lemma collect_lines :
  collect glob basename
  = {| printed := concat (imap (λ i dir_, map (line_of basename i dir_)
                                            (glob (dir_ ++ "/*")%string))
                            (glob wav_pattern));
       lines := concat (imap (λ i dir_, map (line_of basename i dir_)
                                          (glob (dir_ ++ "/*")%string))
                          (glob wav_pattern)) |}.
Proof.
  unfold collect, enumerate.
  rewrite (imap_ext pair (λ i, pair (0 + i)%nat)) by reflexivity.
  rewrite dir_loop. reflexivity.
Qed.

Lemma str_inj (i j : nat) : str i = str j → i = j.
Proof.
  unfold str. intros H.
  apply (f_equal DecimalString.NilEmpty.uint_of_string) in H.
  rewrite !DecimalString.NilEmpty.usu in H. injection H as H.
  apply (f_equal Nat.of_uint) in H.
  rewrite !DecimalNat.Unsigned.of_to in H. exact H.
Qed.

Lemma length_concat_imap {A B} (f : nat → A → list B) (g : A → nat) (l : list A) :
  (∀ i a, length (f i a) = g a) →
  length (concat (imap f l)) = sum_list_with g l.
Proof.
  revert f. induction l as [|a l IH]; intros f Hf; simpl; [reflexivity|].
  rewrite length_app, Hf. f_equal. apply IH. intros i b. apply Hf.
Qed.

(** The decimal digits of a number hold no line end. *)
Lemma str_line_break_free (i : nat) : line_break_free (str i) = true.
Proof.
  unfold str. generalize (Nat.to_uint i). intros d.
  induction d; simpl; [reflexivity|..]; rewrite line_break_free_String, IHd; reflexivity.
Qed.

(** With names free of line ends, every string the loops collect is a
    line. *)
Lemma collected_text_lines :
  names_line_break_free glob basename = true →
  text_lines (concat (imap (λ i dir_, map (line_of basename i dir_)
                                        (glob (dir_ ++ "/*")%string))
                        (glob wav_pattern))).
Proof.
  intros Hnames. apply text_lines_terminated, Forall_forall. intros line Hline.
  apply list_elem_of_In, in_concat in Hline as (ls & Hls & Hline).
  apply list_elem_of_In, elem_of_lookup_imap in Hls as (i & dir_ & -> & Hdir).
  apply in_map_iff in Hline as (file_ & <- & Hfile).
  unfold names_line_break_free in Hnames. rewrite forallb_forall in Hnames.
  specialize (Hnames dir_ (proj1 (list_elem_of_In _ _) (list_elem_of_lookup_2 _ _ _ Hdir))).
  apply andb_true_iff in Hnames as [Hd Hfiles]. rewrite forallb_forall in Hfiles.
  specialize (Hfiles file_ Hfile).
  exists ("data/wav/" ++ basename dir_ ++ "/" ++ basename file_ ++ "|" ++ str i)%string.
  split.
  - unfold line_of, newline. rewrite !string_app_assoc. reflexivity.
  - rewrite !line_break_free_app, Hd, Hfiles, str_line_break_free. reflexivity.
Qed.

(** X18. [create_dataset.py], the directory of [all.scp] being
    writable, writes to [all.scp], and prints, one string per file of
    every directory, the directories in the order of [glob] and the
    files of a directory together, in the order of [glob]; the string of
    a file is [data/wav/<directory>/<file>|<i>] with a line feed, [i]
    the position of its directory in the list, a directory without
    files taking up a position too. Different positions are written
    differently, and no other file is touched. When no name holds a
    line feed or a carriage return, the file read by [readlines] gives
    these strings again, one line per file. *)
Theorem X18_create_dataset_lines (fs : Files) :
  (main glob basename fs).2 DivideTraindata.all_scp
  = Some (String.concat ""
            (concat (imap (λ i dir_, map (line_of basename i dir_)
                                       (glob (dir_ ++ "/*")%string))
                       (glob wav_pattern))))
  ∧ (main glob basename fs).1
    = concat (imap (λ i dir_, map (line_of basename i dir_)
                                (glob (dir_ ++ "/*")%string))
                (glob wav_pattern))
  ∧ length (concat (imap (λ i dir_, map (line_of basename i dir_)
                                      (glob (dir_ ++ "/*")%string))
                      (glob wav_pattern)))
    = sum_list_with (λ dir_, length (glob (dir_ ++ "/*")%string)) (glob wav_pattern)
  ∧ (∀ p, p ≠ DivideTraindata.all_scp → (main glob basename fs).2 p = fs p)
  ∧ (∀ i j, str i = str j → i = j)
  ∧ (names_line_break_free glob basename = true →
     readlines (String.concat ""
                  (concat (imap (λ i dir_, map (line_of basename i dir_)
                                             (glob (dir_ ++ "/*")%string))
                             (glob wav_pattern))))
     = concat (imap (λ i dir_, map (line_of basename i dir_)
                                 (glob (dir_ ++ "/*")%string))
                 (glob wav_pattern))).
Proof.
  unfold main. rewrite collect_lines. cbn [fst snd printed lines].
  split; [apply writelines_same|]. split; [reflexivity|].
  split; [|split; [|split]].
  - apply length_concat_imap. intros i dir_. apply length_map.
  - intros p Hp. apply writelines_other, Hp.
  - exact str_inj.
  - intros Hnames. apply readlines_concat, collected_text_lines, Hnames.
Qed.

(** X19. The two scripts one after the other: when [all.list] exists
    and no name of a directory or file holds a line feed or a carriage
    return, [divide_traindata.py] run after [create_dataset.py] ends,
    and the lines [create_dataset.py] wrote for the files it found are
    dealt to [train.scp], [dev.scp] and [eval.scp]: every line is in
    exactly one of them, in the order in which it was written. *)
Theorem X19_create_then_divide (fs : Files) (text : string) :
  fs DivideTraindata.all_list = Some text →
  names_line_break_free glob basename = true →
  ∃ fs' train dev eval,
    DivideTraindata.main (main glob basename fs).2 = Finished fs'
    ∧ fs' DivideTraindata.train_scp = Some (String.concat "" train)
    ∧ fs' DivideTraindata.dev_scp = Some (String.concat "" dev)
    ∧ fs' DivideTraindata.eval_scp = Some (String.concat "" eval)
    ∧ train ++ dev ++ eval
      ≡ₚ concat (imap (λ i dir_, map (line_of basename i dir_)
                                   (glob (dir_ ++ "/*")%string))
                   (glob wav_pattern))
    ∧ sublist train (main glob basename fs).1
    ∧ sublist dev (main glob basename fs).1
    ∧ sublist eval (main glob basename fs).1.
Proof.
  intros Hlist Hnames. unfold main. rewrite collect_lines. cbn [fst snd printed lines].
  pose proof (readlines_concat _ (collected_text_lines Hnames)) as Hread.
  set (L := concat _) in *.
  destruct (divide_main_finished (writelines DivideTraindata.all_scp L fs) text
              (String.concat "" L))
    as (fs' & Hmain & _ & _ & _ & Ht & Hd & He & _).
  - rewrite writelines_other; [exact Hlist|].
    apply String.eqb_neq. vm_compute. reflexivity.
  - apply writelines_same.
  - rewrite Hread in Ht, Hd, He.
    exists fs', (DivideTraindata.divide L).(DivideTraindata.train_line),
      (DivideTraindata.divide L).(DivideTraindata.dev_line),
      (DivideTraindata.divide L).(DivideTraindata.eval_line).
    destruct (divide_partitions L) as (Hperm & Hst & Hsd & Hse & _).
    repeat split; assumption.
Qed.

End CreateDatasetLemmas.

(** Two directories with two files and one file: three lines, the
    first in [dev.scp] and the other two in [train.scp]. *)
Lemma X19_witness :
  ∃ fs' train dev eval,
    DivideTraindata.main (CreateDataset.main example_glob (λ s, s) example_files).2
    = Finished fs'
    ∧ fs' DivideTraindata.train_scp = Some (String.concat "" train)
    ∧ fs' DivideTraindata.dev_scp = Some (String.concat "" dev)
    ∧ fs' DivideTraindata.eval_scp = Some (String.concat "" eval)
    ∧ train ++ dev ++ eval
      ≡ₚ concat (imap (λ i dir_, map (CreateDataset.line_of (λ s, s) i dir_)
                                   (example_glob (dir_ ++ "/*")%string))
                   (example_glob CreateDataset.wav_pattern))
    ∧ sublist train (CreateDataset.main example_glob (λ s, s) example_files).1
    ∧ sublist dev (CreateDataset.main example_glob (λ s, s) example_files).1
    ∧ sublist eval (CreateDataset.main example_glob (λ s, s) example_files).1.
Proof.
  exact (X19_create_then_divide example_glob (λ s, s) example_files EmptyString
           eq_refl eq_refl).
Defined.

(** The scripts run in turn on the example directories, and
    [divide_traindata.py] run once more. *)
Lemma X22_witness :
  ∃ fs' fs'',
    DivideTraindata.main (CreateDataset.main example_glob (λ s, s) example_files).2
    = Finished fs'
    ∧ DivideTraindata.main fs' = Finished fs''
    ∧ ∀ p, fs'' p = fs' p.
Proof.
  assert (H : ∃ fs', DivideTraindata.main
                       (CreateDataset.main example_glob (λ s, s) example_files).2
                     = Finished fs') by (eexists; reflexivity).
  destruct H as [fs' H]. exists fs'.
  destruct (X22_divide_main_again _ _ H) as (fs'' & Hagain & Hsame).
  exists fs''. auto.
Defined.
